(* ===== verification/_CoqProject ===== *)
-Q . S2P
Prelude.v
ObjectId.v
Schema.v
Http.v
Store.v
Auth.v
TaskController.v
Routes.v
Invariants.v
ClientMirror.v
ClientServer.v
CacheWf.v
AuthServer.v
ServerApp.v
AuthClient.v
ClientRoutes.v
Fallbacks.v
Pages.v
Stats.v
Cards.v
Forms.v
CardViews.v
DetailViews.v
FormViews.v
UserViews.v
AdminViews.v
ChartViews.v
Scenarios.v
