(* ===== verification/Prelude.v ===== *)
(** * Task_Manager_System: a verification development of the task tracker

    The program under study is a task-tracking web application
    (SakshiDevelopero/Task_Manager_System).  Its backend is an Express
    server over a MongoDB document store; its frontend is a React
    single-page application that talks to it through axios.  The parts
    and how they interact:

    - [src/backend/models/Task.js]: the Mongoose schema of a task, with
      its embedded photos and comments, three closed enumerations
      (status, priority, group), required fields and defaults;
    - [src/backend/middleware/auth.js]: [protect] (bearer-token
      authentication, attaches [req.user]) and [authorize] (role
      allow-list); [validateObjectId.js] checks path ids (never mounted);
    - [src/backend/controllers/taskController.js]: the eight handlers of
      the task API, which read and write the task and user collections
      and the [uploads/] directory;
    - [src/backend/routes/taskRoutes.js], [authRoutes.js], [server.js]:
      the composition of middleware and handlers under [/api/tasks] and
      [/api/auth] ([authController.js] is not in the repository);
    - the client: [lib/api.ts] (axios with a token interceptor),
      [contexts/AuthContext.tsx] (the session), [contexts/TaskContext.tsx]
      (a cache of the task list, fetched once, patched locally), the
      router of [App.tsx] with [ProtectedRoute], and the pages and
      components that read the two contexts and call their operations.

    ** Files, and how they correspond to the code

    - [Prelude] (this file): the scope [tm_scope], the hint databases
      [tm] and [tm_rw], the tactics [inv_clear] and [split_guards], and
      generic list lemmas.
    - [ObjectId]: an ObjectId is a 96-bit [N]; [to_hex] is [toString()],
      [cast] the cast [Task.findById] performs, [is_valid] is [isValid].
      The development follows one library version throughout: Mongoose 5
      with bson 4, whose cast takes 24 hex digits or any 12-character
      string (its bytes, [of_bytes]), whose subdocument [remove()] exists
      (removed in Mongoose 7), and whose [populate('comments.user')] on a
      path the schema lacks does nothing (an error from Mongoose 6).
    - [Schema]: the records [Task], [Photo], [Comment], [User] (the User
      model is not under [src/]: spec-modelled), the enumerations, and
      Mongoose's validation of [Task.create] and of [findByIdAndUpdate].
    - [Http]: the handler monad [M S A = S -> S * (Halt + A)] (stdpp's
      [MBind]/[MRet]); [Respond] is an early [return res.status(c)...],
      [Throw] an exception, [Http.run] the handler's [try/catch]; no
      rollback: writes before a throw persist.
    - [Store]: the state [Db] (tasks and users as [gmap Id _], [uploads/]
      as a [gset string], the ObjectId counter) and the Mongoose and [fs]
      calls.
    - [Auth]: [protect], [authorize], the header parsing; the JWT library
      is the class [TokenVerifier].
    - [TaskController]: one definition per exported handler, in the order
      of its statements; [Routes]: [dispatch], one request through the
      task router; [Invariants]: the states reachable by requests and an
      invariant preserved by every route.
    - [ClientMirror]: the [tasks] array of [TaskContext.tsx] and one
      definition per function of the context; a [setTasks(f)] is [f] on
      the list, random ids and the clock are inputs.
    - [ClientServer]: the cache against the server ([consistent]), the
      client's ObjectId regular expression, [handlePhotoUpload].
    - [CacheWf]: every operation of [TaskContext] as a constructor of
      [CacheOp], [step_cache] and [run_ops] (the cache after a sequence
      of operations from the provider's empty array), and the type
      invariant of the cache.
    - [AuthServer]: the auth router from its lines and the handlers of
      [authController.js] from the spec (register, login, profile,
      devices, users, delete, role); [jwt.sign] is the class
      [TokenSigner]; [serve] is the two API routers of [server.js].
    - [ServerApp]: the middleware chain of [server.js] ([app]): the
      static files of [uploads/] under [/uploads] ([serve_static]), the
      routers through [serve], and the final error handler, reached by
      a body that does not parse.  [serve_static] follows express.static
      and send on a URL: the mount is matched case-insensitively, the
      query is cut at [?] ([url_path]), the path is percent-decoded with
      UTF-8 validation ([decodeURIComponent], fuel the string's length,
      one character per step), normalised ([normalize]), and a [..]
      above the root, a NUL byte, a dot-file or a trailing slash is
      refused; every refusal below 500 falls through to the routers and
      ends as their 404, and [/uploads] alone is redirected.  The
      browser's cut at [#] is part of the URL the theorems take.
    - [AuthClient]: the session of [AuthContext.tsx] as a record, the
      interceptor of [api.ts], and every operation as a program
      [Prog A] over API calls (a free monad: [Done] or [Send] with its
      continuation), run against [serve] by [exec].
    - [ClientRoutes]: the route table of [App.tsx], [ProtectedRoute], the
      navigation to a page ([render], with fuel), the sidebar's links and
      the login form; a path is matched as React Router matches it,
      ignoring letter case and trailing slashes ([route_key]).
    - [Fallbacks]: the 404 page of [NotFound.tsx] and the state,
      commits and reload of [ErrorBoundary.tsx].
    - [Pages]: the search and filters shared by the pages, and Modules
      [Dashboard], [TaskManagement], [MyTasks], [UserDashboard] and
      [UsersPage] with their derived lists, rates and handlers.
    - [Stats]: a proleptic Gregorian calendar on day numbers
      ([Calendar]) and the chart data of [TaskInsights], [TaskAnalytics]
      and [TaskChart].
    - [Cards]: [TaskCard], [EnhancedTaskCard] and [EditTaskForm]: local
      state as records, handlers as functions on that state and the
      cache, the controls shown as records.
    - [Forms]: the registration page (with the e-mail regular expression
      as a backtracking matcher), [TaskComments], [TaskPhotoGallery],
      [TaskDetail], [TaskDetailView] and the theme of [Settings].
    - [CardViews]: every event of a [TaskCard] as a step offered as the
      rendered card offers it, and the states a card reaches.
    - [DetailViews]: the state, events and rendering of [TaskDetail]
      (comment panel, status buttons), [TaskComments] (the comment
      card's text box, list and trash buttons), [TaskPhotoGallery] and the
      [TaskDetailView] page (header badges, details, edit mode, the
      mark-complete button).
    - [FormViews]: the state, inputs, submit and messages of
      [Login.tsx] and [Register.tsx] (the submit fires only when the
      [required] inputs are filled, [HtmlForm]), and what
      [Settings.tsx] shows and saves.
    - [UserViews]: the page state of [UserDashboard.tsx] (a record of its
      [useState]s), its mount effect, file input, task picker and upload
      with the form reset, the values it renders ([render]), its events
      as a step offered as the page offers it; the state, events, tabs
      and counters of [MyTasks.tsx].
    - [AdminViews]: the same for [Dashboard.tsx] (form edits, the chart
      buttons, the create button, assignee options, group tabs),
      [TaskChart.tsx] (the chart of each view), [Users.tsx] (the events
      each row and dialog offers as a step function, the save and
      delete buttons, rows, stats and the profile dialog) and
      [TaskManagement.tsx] (user filter and cards, group tabs, the
      assignee effect, the create dialog).
    - [ChartViews]: the chart-type toggle of [TaskInsights.tsx], its
      cards and productivity gauge, and the view switch of
      [TaskAnalytics.tsx].
    - [Scenarios]: fixtures (users, tasks, a verifier and a signer of
      tokens) and the witnesses of the theorems with hypotheses; it
      proves no claim of its own.

    ** What the theorems show

    - the task API (C1, C2, C4-C7, C12): visibility of [getTasks], the
      200/403 answers of [getTask], the invariant that a create
      pushes the new id once onto its assignee's list, create-then-get,
      the delete cascade, the upload's status change, no effect of an
      unauthenticated request;
    - the Express application (C3, C27): the URL a successful upload
      answers is served by the static route with the file multer wrote,
      when the original name has no [?], [#], [%], [/] or [\] and is
      ASCII (a name with [#] is not, [ServerApp.hash_name_not_served]);
      two uploads of one name in one millisecond share a file, and once
      the first photo is deleted, every retry of deleting the second
      answers 500 and changes nothing;
      once a photo's delete succeeds its URL answers 404
      ([ServerApp.delete_then_not_served]); the file of every upload
      that passed [protect], refused or not, is served to anyone
      without a token ([ServerApp.upload_file_public]);
    - the type of the client's cache (C13): every cache reachable by
      any sequence of [TaskContext] operations holds ids and creators
      that pass the client's ObjectId test, as long as the patches given
      to [updateTask] (a [Partial<Task>], [ClientMirror.CPatch], which
      can set every field, id and creator included) set ObjectId ones;
    - authentication (C9, C14, C15): the contract of [protect]; a login
      makes every later request authenticated while the token is valid;
      the user-deletion policy (admin only, never oneself);
    - the client router (C16, C17): pages are shown only to the sessions
      they are guarded for, and every path ends on a page in two steps;
    - the client against the server (C19, C28-C31): the fetched cache
      refines [getTasks], and the user dashboard rendered on it lists
      exactly the user's tasks of the server; an admin's create keeps
      cache and server consistent, Mongoose's [isValid] is the client's
      ObjectId expression plus every 12-character string, the e-mail
      check is its regular expression;
    - statistics (C10, C11): [getMonthData] never indexes outside its
      12 months and counts each task of the year once; the timeline
      draws exactly the completions of its 30 days;
    - findings, proved as theorems about the code as written (C8,
      C18, C20-C26, C32-C40): see [PROJECT.json]; among them [createTask]
      stores a task whose assignee is no user and answers 201, [addComment]
      skips authorization, refused uploads leave files, logout keeps the
      token in axios's headers, an admin's [updateUser] edits the
      admin, the first login shows no tasks, the admin dashboard creates
      every task twice, the users page never shows a fetched photo,
      reloading a page shows the login form.
    Other files carry theorems that are not numbered claims: the card
    controls and inline edit ([Cards]), the edit form round trip, the
    comment list's [TypeError] and the gallery's delete on fetched
    tasks, the registration submit and the theme round trip ([Forms]);
    the tabs of [MyTasks] partition its list, and "Recent Uploads" on
    the fetched cache shows the eight newest photos, each titled
    "Unknown Task" ([UserViews]), whose upload dialog opens only on a
    chosen task and file, in every state its events reach; a card's
    edit dialog never opens and its inline save writes back the values
    of the task at mount, photos and comments included ([CardViews]); a status button of the detail panel sets
    the status, and a photo added in the gallery ends the task's photos, a comment sent
    on the comment card can be deleted there, which gives back the
    comments as they were ([DetailViews]); a login with an empty field, or a registration
    [validate] refuses, sends nothing and shows its messages, and in
    every state the login page reaches its only error is the server's
    "Invalid credentials", so its empty-field message and its e-mail
    error slot are dead ([FormViews]);
    an error boundary shows the first error it catches on every later
    commit, and the 404 page's link lands every signed-in user on the
    user dashboard ([Fallbacks]);
    the group tabs of the dashboard and the totals of
    every chart account for each task of any reachable cache (with the
    generic [CacheWf.run_ops_forall]), the users page never offers to
    edit or delete the signed-in user (an invariant of the states its
    events reach, by rule induction), the dashboard creates a task
    before it warns "Assignment required", the "Tasks by User" cards
    count each task once ([AdminViews]); the insights always render,
    with the gauge's arc inside its circle and its colour matching its
    label, and every analytics chart accounts for each task
    ([ChartViews]); the comment
    author that [addComment] drops and the 404 of [getTask] on a missing
    task ([TaskController]).

    ** Bounds and choices

    Ids are [N] below [2^96]; the ObjectId generator is a counter.  Dates
    are [Z] milliseconds, in UTC: [getMonth()] and [toISOString()] are
    computed with [Calendar.civil_from_days], and [getMonth_range] is
    checked on the 146097 days of a 400-year cycle by [vm_compute].
    [setDate(getDate() + n)] is [n] times 24 hours; [Array.prototype.sort]
    is the stable insertion sort it must agree with (where a comparator
    is not an order, as with missing photo dates, that sort's result is
    the one modelled); [Math.round(k/n*100)]
    is [(200k + n) / (2n)].  [render] needs two steps of fuel (the
    longest chain of [<Navigate>]s has two), and [render_total] shows
    more changes nothing.  Strings are ASCII: [trim] and [\S] use the
    ASCII white space.  Requests run one at a time in the order sent
    (two un-awaited [addTask] calls complete in order).  A photo upload
    sends its [Authorization] header explicitly rather than through the
    interceptor; both read the same token in every session the
    [AuthClient] operations reach.

    ** Not modelled

    Server start-up ([mongoose.connect], [process.exit], [app.listen])
    and the headers [cors] adds, the JWT and bcrypt algorithms
    (behind [TokenVerifier] and [TokenSigner]), Mongo's result order,
    presentation (styling, icons, toasts, hover and animation state,
    the image previews' data URLs, timers, date formatting) and the
    [console.error] logging of [ErrorBoundary] and [NotFound].
    In client routes, percent-escaped letters are not decoded before
    matching; in the static route, file names outside ASCII are not
    modelled (the theorems assume ASCII names).
    Several components are never rendered by [App.tsx] (see the
    findings) but are modelled as code. *)

From Stdlib Require Export NArith ZArith Ascii String Lia.
From stdpp Require Export base list gmap strings options.

Declare Scope tm_scope.
Delimit Scope tm_scope with tm.

Create HintDb tm.
Create Rewrite HintDb tm_rw.

(** ** Tactics shared by the development *)

(** Invert a hypothesis and substitute the equations it yields. *)
Ltac inv_clear H := inversion H; subst; clear H.

(** Split on every [decide]/[bool_decide] and [match] in the goal and
    hypotheses, then clean up the equations. *)
Ltac split_guards :=
  repeat (first [case_decide | case_bool_decide | case_match]);
  simplify_eq/=.

(** ** Occurrences of an element in a list *)

Section occurrences.
Context {A : Type} `{EqDecision A}.

(** Number of elements of [l] equal to [x]. *)
Definition occurrences (x : A) (l : list A) : nat :=
length (filter (λ y, y = x) l).

Lemma occurrences_app x l1 l2 :
occurrences x (l1 ++ l2) = occurrences x l1 + occurrences x l2.
Proof. unfold occurrences. by rewrite filter_app, length_app. Qed.

Lemma occurrences_singleton_eq x :
occurrences x [x] = 1.
Proof. unfold occurrences. rewrite filter_cons_True; done. Qed.

Lemma occurrences_singleton_ne x y :
y ≠ x → occurrences x [y] = 0.
Proof. intros ?. unfold occurrences. rewrite filter_cons_False; done. Qed.

Lemma occurrences_zero x l :
occurrences x l = 0 ↔ x ∉ l.
Proof.
unfold occurrences. induction l as [|y l IH]; [set_solver|].
rewrite filter_cons. case_decide; subst; simpl; [set_solver|].
rewrite IH. set_solver.
Qed.

Lemma occurrences_filter_ne x l :
occurrences x (filter (λ y, y ≠ x) l) = 0.
Proof.
apply occurrences_zero. rewrite list_elem_of_filter. naive_solver.
Qed.

Lemma occurrences_push_fresh x l :
x ∉ l → occurrences x (l ++ [x]) = 1.
Proof.
intros Hx. rewrite occurrences_app, occurrences_singleton_eq.
apply occurrences_zero in Hx. lia.
Qed.
End occurrences.

#[export] Hint Resolve occurrences_filter_ne occurrences_push_fresh : tm.
#[export] Hint Rewrite @occurrences_app @occurrences_singleton_eq : tm_rw.

(** ** Filtering keeps a property of every element *)

Lemma Forall_filter_sub {A} (P Q : A → Prop) `{∀ x, Decision (Q x)} (l : list A) :
  Forall P l → Forall P (filter Q l).
Proof.
  induction 1 as [|x l Hx _ IH]; [constructor|].
  rewrite filter_cons. case_decide; [constructor|]; done.
Qed.

#[export] Hint Resolve Forall_filter_sub : tm.

(** A filter that keeps, or drops, every element. *)
(** A [mapM] that succeeds on a list succeeds on it with one more
    element. *)
Lemma mapM_snoc {A B} (f : A → option B) l x k y :
  mapM f l = Some k → f x = Some y → mapM f (l ++ [x]) = Some (k ++ [y]).
Proof. intros Hl Hx. apply mapM_Some_2, Forall2_app; [by apply mapM_Some_1|by constructor]. Qed.

Lemma filter_all_in {A} (P : A → Prop) `{∀ x, Decision (P x)} l :
  Forall P l → filter P l = l.
Proof. induction 1; [done|]. rewrite filter_cons, decide_True by done. f_equal; auto. Qed.

Lemma filter_all_out {A} (P : A → Prop) `{∀ x, Decision (P x)} l :
  (∀ x, x ∈ l → ¬ P x) → filter P l = [].
Proof.
  induction l as [|x l IH]; intros Hl; [done|]. rewrite filter_cons, decide_False by set_solver.
  apply IH. set_solver.
Qed.

(** Two filters that agree on the elements of the list. *)
Lemma filter_ext_Forall {A} (P1 P2 : A → Prop) `{∀ x, Decision (P1 x)} `{∀ x, Decision (P2 x)} l :
  Forall (λ x, P1 x ↔ P2 x) l → filter P1 l = filter P2 l.
Proof.
  induction 1 as [|x l Hx _ IH]; [done|]. rewrite !filter_cons.
  do 2 case_decide; rewrite ?IH; naive_solver.
Qed.

(** ** Splitting a list by a key

    The lists of the elements with each key of a duplicate-free list of
    keys add up to the list when every element has one of the keys. *)

Lemma sum_list_with_ext {A} (f g : A → nat) l :
  (∀ x, x ∈ l → f x = g x) → sum_list_with f l = sum_list_with g l.
Proof.
  induction l as [|x l IH]; intros Hfg; simpl; [done|].
  rewrite Hfg, IH by set_solver. done.
Qed.

Section partition.
Context {A K : Type} `{EqDecision K} (f : A → K).

Lemma sum_indicator_out (y : K) (g : K → nat) ks :
  y ∉ ks → sum_list_with (λ k, (if decide (y = k) then 1 else 0) + g k)%nat ks = sum_list_with g ks.
Proof.
  induction ks as [|k ks IH]; intros Hy; simpl; [done|].
  rewrite decide_False by set_solver. rewrite IH by set_solver. lia.
Qed.

Lemma sum_indicator_in (y : K) (g : K → nat) ks :
  NoDup ks → y ∈ ks →
  sum_list_with (λ k, (if decide (y = k) then 1 else 0) + g k)%nat ks = S (sum_list_with g ks).
Proof.
  induction 1 as [|k ks Hk _ IH]; intros Hy; [set_solver|]. simpl. case_decide as E.
  - subst. rewrite sum_indicator_out by done. lia.
  - rewrite IH by set_solver. lia.
Qed.

Lemma length_partition (ks : list K) (l : list A) :
  NoDup ks → Forall (λ x, f x ∈ ks) l →
  sum_list_with (λ k, length (filter (λ x, f x = k) l)) ks = length l.
Proof.
  intros Hnd. induction 1 as [|x l Hx _ IH].
  - clear Hnd. induction ks; simpl; auto.
  - rewrite (sum_list_with_ext _ (λ k, (if decide (f x = k) then 1 else 0) +
                                     length (filter (λ x, f x = k) l))%nat).
    + rewrite sum_indicator_in by done. simpl. lia.
    + intros k _. rewrite filter_cons. by case_decide.
Qed.
End partition.

(** ** Small facts on options and booleans used by every component *)

Lemma from_option_Some {A B} (f : A → B) (d : B) (x : A) :
  from_option f d (Some x) = f x.
Proof. done. Qed.

Lemma bool_decide_and (P Q : Prop) `{Decision P} `{Decision Q} :
  bool_decide (P ∧ Q) = bool_decide P && bool_decide Q.
Proof. by apply bool_decide_and. Qed.
