(* ===== verification/ObjectId.v ===== *)
(** * ObjectId: MongoDB document identifiers and their string form

    Every document id of the program ([Task._id], [User._id], the ids of
    embedded photos and comments, [req.params.id]) is a MongoDB ObjectId:
    a 12-byte value whose string form ([toString()], [toHexString()],
    Mongoose's [doc.id]) is 24 lower-case hexadecimal characters.  The
    code compares ids through these strings
    ([task.createdBy.toString() !== req.user.id]); Mongoose casts a
    path parameter back to an ObjectId ([Task.findById(req.params.id)]),
    and [validateObjectId.js] tests [mongoose.Types.ObjectId.isValid].

    An id is modelled as an [N] below [2^96].  The development follows
    Mongoose 5 with its bson ([ObjectId.isValid] and the cast accept 24
    hexadecimal characters and also any 12-character string, read as
    12 bytes), the version whose behaviour the controllers rely on
    elsewhere ([Document.prototype.remove], a [populate] of a path the
    schema lacks being ignored). *)

From S2P Require Import Prelude.

Module ObjectId.

(** Number of hexadecimal characters of the string form. *)
Definition width : nat := 24.

(** 12 bytes. *)
Definition bound : N := 2 ^ 96.

(** The digit [d < 16] as a lower-case hexadecimal character
(['0'] is 48, ['a'] is 97). *)
Definition hex_char (d : N) : ascii :=
if (d <? 10)%N then ascii_of_N (48 + d) else ascii_of_N (87 + d).

(** The value of a hexadecimal character, either case. *)
Definition hex_val (c : ascii) : option N :=
let n := N_of_ascii c in
if (48 <=? n)%N && (n <=? 57)%N then Some (n - 48)%N
else if (97 <=? n)%N && (n <=? 102)%N then Some (n - 87)%N
else if (65 <=? n)%N && (n <=? 70)%N then Some (n - 55)%N
else None.

(** The [k] low hexadecimal digits of [n], most significant first:
digit [i] is [(n >> 4i) & 0xf]. *)
Fixpoint hex_digits (k : nat) (n : N) : string :=
match k with
| O => EmptyString
| S k' =>
  String (hex_char (N.land (N.shiftr n (N.of_nat (4 * k'))) 15))
         (hex_digits k' n)
end.

(** [ObjectId.prototype.toHexString] / [toString]. *)
Definition to_hex (n : N) : string := hex_digits width n.

(** Big-endian reading of a hexadecimal string. *)
Fixpoint of_hex_acc (acc : N) (s : string) : option N :=
match s with
| EmptyString => Some acc
| String c s' =>
  match hex_val c with
  | Some d => of_hex_acc (acc * 16 + d)%N s'
  | None => None
  end
end.

(** Big-endian reading of the bytes of a string (one byte per ASCII
character). *)
Definition of_bytes (s : string) : N :=
fold_left (λ acc c, acc * 256 + N_of_ascii c)%N (list_ascii_of_string s) 0%N.

(** Mongoose 5's cast of a string to an ObjectId ([new ObjectId(s)] of
its bson): 24 hexadecimal characters, or any 12-character string read
as its 12 bytes; anything else fails (a [CastError]). *)
Definition cast (s : string) : option N :=
if (String.length s =? width)%nat then of_hex_acc 0 s
else if (String.length s =? 12)%nat then Some (of_bytes s)
else None.

(** [mongoose.Types.ObjectId.isValid] on a string. *)
Definition is_valid (s : string) : bool :=
match cast s with Some _ => true | None => false end.

(** ** Lemmas *)

Lemma hex_table :
Forall (λ d, hex_val (hex_char d) = Some d) (N.of_nat <$> seq 0 16).
Proof. repeat constructor. Qed.

Lemma hex_val_char d : (d < 16)%N → hex_val (hex_char d) = Some d.
Proof.
intros Hd. pose proof hex_table as Ht. rewrite Forall_forall in Ht.
apply Ht. apply list_elem_of_fmap. exists (N.to_nat d).
rewrite N2Nat.id. split; [done|]. apply elem_of_seq. lia.
Qed.

Lemma hex_val_lt c d : hex_val c = Some d → (d < 16)%N.
Proof.
unfold hex_val. intros H.
repeat match type of H with
| context [if ?b then _ else _] => destruct b eqn:?
end; simplify_eq; rewrite ?andb_true_iff, ?N.leb_le in *; lia.
Qed.

Lemma length_hex_digits k n : String.length (hex_digits k n) = k.
Proof. induction k; simpl; auto. Qed.

Lemma digit_mod n k :
N.land (N.shiftr n (N.of_nat (4 * k))) 15 = ((n / 16 ^ N.of_nat k) mod 16)%N.
Proof.
rewrite N.shiftr_div_pow2.
replace 15%N with (N.ones 4) by reflexivity.
rewrite N.land_ones.
replace (2 ^ N.of_nat (4 * k))%N with (16 ^ N.of_nat k)%N; [done|].
rewrite Nat2N.inj_mul. replace (N.of_nat 4) with 4%N by reflexivity.
rewrite N.pow_mul_r. reflexivity.
Qed.

Lemma mod_pow16_succ n k :
(n mod 16 ^ N.of_nat (S k) =
(n / 16 ^ N.of_nat k) mod 16 * 16 ^ N.of_nat k + n mod 16 ^ N.of_nat k)%N.
Proof.
rewrite Nat2N.inj_succ, N.pow_succ_r'.
rewrite (N.mul_comm 16), N.Div0.mod_mul_r. lia.
Qed.

Lemma of_hex_acc_digits k n acc :
of_hex_acc acc (hex_digits k n) =
Some (acc * 16 ^ N.of_nat k + n mod 16 ^ N.of_nat k)%N.
Proof.
revert acc. induction k as [|k IH]; intros acc; cbn [hex_digits of_hex_acc].
- f_equal. simpl. rewrite N.mod_1_r. lia.
- rewrite digit_mod, hex_val_char by (apply N.mod_lt; lia).
rewrite IH, mod_pow16_succ. f_equal.
rewrite Nat2N.inj_succ, N.pow_succ_r'. lia.
Qed.

Lemma of_hex_acc_range s acc n :
of_hex_acc acc s = Some n →
(acc * 16 ^ N.of_nat (String.length s) <= n <
(acc + 1) * 16 ^ N.of_nat (String.length s))%N.
Proof.
revert acc. induction s as [|c s IH]; intros acc H; simpl in *.
- simplify_eq. lia.
- destruct (hex_val c) as [d|] eqn:Hd; [|done].
apply hex_val_lt in Hd. apply IH in H.
rewrite Nat2N.inj_succ, N.pow_succ_r'. nia.
Qed.

Lemma length_list_ascii s : String.length s = length (list_ascii_of_string s).
Proof. induction s; simpl; auto. Qed.

Lemma of_bytes_range (l : list ascii) acc :
(fold_left (λ acc c, acc * 256 + N_of_ascii c)%N l acc <
(acc + 1) * 256 ^ N.of_nat (length l))%N.
Proof.
revert acc. induction l as [|c l IH]; intros acc; simpl; [lia|].
specialize (IH (acc * 256 + N_of_ascii c)%N).
pose proof (N_ascii_bounded c).
rewrite Nat2N.inj_succ, N.pow_succ_r'. nia.
Qed.

(** The characters of the string form are hexadecimal digits; in
particular none is a space. *)
Lemma hex_digits_chars k n c :
c ∈ list_ascii_of_string (hex_digits k n) → is_Some (hex_val c).
Proof.
induction k as [|k IH]; cbn [hex_digits list_ascii_of_string]; [set_solver|]. rewrite elem_of_cons.
intros [->|Hc]; [|auto]. rewrite digit_mod, hex_val_char; [eauto|].
apply N.mod_lt. lia.
Qed.

Lemma to_hex_no_space n c : c ∈ list_ascii_of_string (to_hex n) → c ≠ " "%char.
Proof.
intros Hc ->. apply hex_digits_chars in Hc as [d Hd]. vm_compute in Hd. discriminate.
Qed.

End ObjectId.

(** ** Theorems of the codec *)

Section codec.
Import ObjectId.

(** The string form of an id casts back to the id: Mongoose's
[findById(id.toString())] finds the document [id] names. *)
Theorem cast_to_hex n : (n < bound)%N → cast (to_hex n) = Some n.
Proof.
intros Hn. unfold cast, to_hex. rewrite length_hex_digits, Nat.eqb_refl.
rewrite of_hex_acc_digits, N.mod_small; [f_equal; lia|].
replace (16 ^ N.of_nat width)%N with bound by reflexivity. exact Hn.
Qed.

(** Every id a path string casts to fits in 12 bytes (96 bits). *)
Theorem cast_bound s n : cast s = Some n → (n < bound)%N.
Proof.
unfold cast. destruct (String.length s =? width)%nat eqn:Hl.
- intros H. apply Nat.eqb_eq in Hl. apply of_hex_acc_range in H.
  rewrite Hl in H.
  replace (16 ^ N.of_nat width)%N with bound in H by reflexivity. lia.
- destruct (String.length s =? 12)%nat eqn:H12; [|done]. intros [= <-].
  apply Nat.eqb_eq in H12. unfold of_bytes.
  rewrite length_list_ascii in H12.
  pose proof (of_bytes_range (list_ascii_of_string s) 0) as Hr.
  rewrite H12 in Hr. replace bound with (256 ^ N.of_nat 12)%N by reflexivity. lia.
Qed.

(** [toString] is injective on ids: comparing the string forms,
as the controllers do ([task.createdBy.toString() !== req.user.id]),
is comparing the ids. *)
Theorem to_hex_inj a b :
(a < bound)%N → (b < bound)%N → to_hex a = to_hex b → a = b.
Proof.
intros Ha Hb Heq. apply cast_to_hex in Ha, Hb. congruence.
Qed.

(** [isValid] accepts exactly the strings that cast. *)
Theorem is_valid_cast s : is_valid s = true ↔ ∃ n, cast s = Some n.
Proof. unfold is_valid. destruct (cast s); naive_solver. Qed.
End codec.

#[export] Hint Resolve cast_to_hex cast_bound : tm.
