(* ===== verification/Schema.v ===== *)
(** * Schema: the documents of the task store

    [src/backend/models/Task.js] declares the task document: required
    strings [title] and [shortDescription], an optional
    [longDescription], three string enumerations ([status] with default
    ['todo'], [priority] with default ['medium'], [group] required), a
    required [deadline] date, required [assignedTo] and [createdBy]
    references, and two embedded arrays [photos] and [comments];
    [timestamps: true] adds [createdAt] and [updatedAt].

    This file holds the records, the enumerations with their string
    forms, and the two validations Mongoose runs on them: the document
    validation of [Task.create] ([validate_create]) and the update
    validators of [findByIdAndUpdate(.., {runValidators: true})]
    ([apply_patch]).  The User model is not under [src/]; its record is
    modelled from the spec (name, email, role, and the [tasks] array the
    controller pushes to and pulls from). *)

From S2P Require Import Prelude ObjectId.

(** A document id (see [ObjectId]). *)
Abbreviation Id := N (only parsing).

(** A JavaScript [Date]: milliseconds since the epoch. *)
Abbreviation Date := Z (only parsing).

Module Schema.

(** ** Enumerations *)

Inductive Status := todo | inProgress | completed.
Inductive Priority := low | medium | high.
Inductive Group := Frontend | Backend | Database.
Inductive Role := admin | user.

#[export] Instance Status_eq_dec : EqDecision Status.
Proof. solve_decision. Defined.
#[export] Instance Priority_eq_dec : EqDecision Priority.
Proof. solve_decision. Defined.
#[export] Instance Group_eq_dec : EqDecision Group.
Proof. solve_decision. Defined.
#[export] Instance Role_eq_dec : EqDecision Role.
Proof. solve_decision. Defined.

Definition status_to_string (s : Status) : string :=
match s with
| todo => "todo" | inProgress => "inProgress" | completed => "completed"
end.

(** [enum: ['todo', 'inProgress', 'completed']]. *)
Definition status_of_string (s : string) : option Status :=
if decide (s = "todo") then Some todo
else if decide (s = "inProgress") then Some inProgress
else if decide (s = "completed") then Some completed
else None.

Definition priority_to_string (p : Priority) : string :=
match p with low => "low" | medium => "medium" | high => "high" end.

(** [enum: ['low', 'medium', 'high']]. *)
Definition priority_of_string (s : string) : option Priority :=
if decide (s = "low") then Some low
else if decide (s = "medium") then Some medium
else if decide (s = "high") then Some high
else None.

Definition group_to_string (g : Group) : string :=
match g with
| Frontend => "Frontend" | Backend => "Backend" | Database => "Database"
end.

(** [enum: ['Frontend', 'Backend', 'Database']]. *)
Definition group_of_string (s : string) : option Group :=
if decide (s = "Frontend") then Some Frontend
else if decide (s = "Backend") then Some Backend
else if decide (s = "Database") then Some Database
else None.

Definition role_to_string (r : Role) : string :=
match r with admin => "admin" | user => "user" end.

(** ** Documents *)

(** An element of [photos]: [imageUrl], [caption], [createdAt] (default
[Date.now]), [uploadedBy]; [_id] is added by Mongoose. *)
Record Photo := mkPhoto {
photo_id : Id;
imageUrl : option string;
caption : option string;
photo_createdAt : Date;
uploadedBy : option Id;
}.

(** An element of [comments]: [text], [createdBy], [createdAt]. *)
Record Comment := mkComment {
comment_id : Id;
text : option string;
comment_createdBy : option Id;
comment_createdAt : Date;
}.

Record Task := mkTask {
task_id : Id;
title : string;
shortDescription : string;
longDescription : option string;
status : Status;
priority : Priority;
deadline : Date;
group : Group;
assignedTo : Id;
createdBy : Id;
photos : list Photo;
comments : list Comment;
createdAt : Date;
updatedAt : Date;
}.

(** The user document (spec-modelled): identity, display fields, role,
and the [tasks] array of task ids. *)
Record User := mkUser {
user_id : Id;
name : string;
email : string;
role : Role;
tasks : list Id;
}.

(** ** Validation of [Task.create]

The fields the handler destructures from [req.body]; an absent
field is [undefined] ([None]).  The deadline is taken after its
cast to a [Date]; [assignedTo] is the raw string Mongoose casts to
an ObjectId. *)
Record TaskInput := mkTaskInput {
in_title : option string;
in_shortDescription : option string;
in_longDescription : option string;
in_priority : option string;
in_deadline : option Date;
in_status : option string;
in_assignedTo : option string;
in_group : option string;
}.

(** The [required] validator of a [String] path: [undefined] and the
empty string fail. *)
Definition required_string (v : option string) : option string :=
match v with
| Some s => if decide (s = ""%string) then None else Some s
| None => None
end.

(** An enum path with a default: [undefined] takes the default, a
present value must be one of the enumeration. *)
Definition enum_default {A} (parse : string → option A) (d : A)
(v : option string) : option A :=
match v with None => Some d | Some s => parse s end.

(** The error path reported for a failed field. *)
Definition failed {A} (path : string) (o : option A) : list string :=
match o with None => [path] | Some _ => [] end.

(** Mongoose validates every path and reports all failures, in schema
order, in one [ValidationError]. *)
Definition validate_create (id : Id) (creator : Id) (now : Date)
(i : TaskInput) : list string + Task :=
let t := required_string (in_title i) in
let sd := required_string (in_shortDescription i) in
let st := enum_default status_of_string todo (in_status i) in
let pr := enum_default priority_of_string medium (in_priority i) in
let dl := in_deadline i in
let g := in_group i ≫= group_of_string in
let a := in_assignedTo i ≫= ObjectId.cast in
match t, sd, st, pr, dl, g, a with
| Some t, Some sd, Some st, Some pr, Some dl, Some g, Some a =>
  inr (mkTask id t sd (in_longDescription i) st pr dl g a creator
         [] [] now now)
| _, _, _, _, _, _, _ =>
  inl (failed "title" t ++ failed "shortDescription" sd ++
       failed "status" st ++ failed "priority" pr ++
       failed "deadline" dl ++ failed "group" g ++
       failed "assignedTo" a)
end.

(** ** Update validation

[findByIdAndUpdate(id, req.body, {new: true, runValidators: true})]
casts and validates only the paths present in the body, then sets
them and the [updatedAt] timestamp.  A path absent from the body is
[None]. *)
Record TaskPatch := mkTaskPatch {
p_title : option string;
p_shortDescription : option string;
p_longDescription : option string;
p_status : option string;
p_priority : option string;
p_deadline : option Date;
p_group : option string;
p_assignedTo : option string;
p_createdBy : option string;
}.

(** A present path is checked by its validator; an absent one keeps the
stored value. *)
Definition patch_field {A} (check : string → option A) (old : A)
(v : option string) : option A :=
match v with None => Some old | Some s => check s end.

Definition nonempty (s : string) : option string :=
if decide (s = ""%string) then None else Some s.

Definition apply_patch (t : Task) (p : TaskPatch) (now : Date)
: list string + Task :=
let ti := patch_field nonempty (title t) (p_title p) in
let sd := patch_field nonempty (shortDescription t) (p_shortDescription p) in
let st := patch_field status_of_string (status t) (p_status p) in
let pr := patch_field priority_of_string (priority t) (p_priority p) in
let g := patch_field group_of_string (group t) (p_group p) in
let a := patch_field ObjectId.cast (assignedTo t) (p_assignedTo p) in
let c := patch_field ObjectId.cast (createdBy t) (p_createdBy p) in
match ti, sd, st, pr, g, a, c with
| Some ti, Some sd, Some st, Some pr, Some g, Some a, Some c =>
  inr (mkTask (task_id t) ti sd
         (match p_longDescription p with
          | Some l => Some l | None => longDescription t end)
         st pr (from_option id (deadline t) (p_deadline p)) g a c
         (photos t) (comments t) (createdAt t) now)
| _, _, _, _, _, _, _ =>
  inl (failed "title" ti ++ failed "shortDescription" sd ++
       failed "status" st ++ failed "priority" pr ++
       failed "group" g ++ failed "assignedTo" a ++
       failed "createdBy" c)
end.

(** ** Lemmas on the enumerations *)

(** The status validator accepts exactly the three strings of the
enumeration, each naming its own status. *)
Lemma status_of_string_spec str s :
status_of_string str = Some s ↔ str = status_to_string s.
Proof. unfold status_of_string. destruct s; split_guards; naive_solver. Qed.

Lemma priority_of_string_spec str p :
priority_of_string str = Some p ↔ str = priority_to_string p.
Proof. unfold priority_of_string. destruct p; split_guards; naive_solver. Qed.

Lemma group_of_string_spec str g :
group_of_string str = Some g ↔ str = group_to_string g.
Proof. unfold group_of_string. destruct g; split_guards; naive_solver. Qed.

End Schema.
