(* ===== verification/Http.v ===== *)
(** * Http: Express responses and the handler monad

    Every controller of [taskController.js] has the shape
    {[
      exports.h = async (req, res) => {
        try { ... return res.status(c).json({success: false, message}) ...
              res.status(c).json({success: true, data}) }
        catch (error) { res.status(500).json({success: false, message: error.message}) }
      };
    ]}
    A handler is modelled in the monad [M S A := S -> S * (Halt + A)]:
    state passing over the database [S], where a computation either
    yields a value or halts, by an early [return res.status(c).json(..)]
    ([Respond]) or by an exception ([Throw]).  The state reached at the
    halt is kept: the code has no transaction, so writes done before an
    exception persist.  [run] is the [try/catch] envelope. *)

From S2P Require Import Prelude.

Module Http.

(** The exceptions the handlers can raise. *)
Inductive Exn :=
| ValidationError (paths : list string)
(** Mongoose validation failed on these paths *)
| CastError (path : string)
(** a string did not cast to an ObjectId *)
| TypeError (what : string)
(** a property was read on [null] or [undefined] *)
| FsError (errno : string).
(** [fs.unlink] failed *)

Definition exn_message (e : Exn) : string :=
match e with
| ValidationError ps => "Task validation failed: " ++ String.concat ", " ps
| CastError p => "Cast to ObjectId failed for path " ++ p
| TypeError w => "Cannot read properties of null (reading '" ++ w ++ "')"
| FsError c => c ++ ": no such file or directory, unlink"
end.

Inductive Halt :=
| Respond (code : N) (message : string)
| Throw (e : Exn).

(** The response the client receives. *)
Inductive Reply (P : Type) :=
| Success (code : N) (data : P)
| Failure (code : N) (message : string).
Arguments Success {P}.
Arguments Failure {P}.

Definition M (S A : Type) : Type := S → S * (Halt + A).

#[export] Instance M_ret {S} : MRet (M S) := λ A a s, (s, inr a).
#[export] Instance M_bind {S} : MBind (M S) := λ A B f m s,
match m s with
| (s', inl h) => (s', inl h)
| (s', inr a) => f a s'
end.

Definition get {S} : M S S := λ s, (s, inr s).
Definition modify {S} (f : S → S) : M S unit := λ s, (f s, inr ()).
Definition halt {S A} (h : Halt) : M S A := λ s, (s, inl h).

(** [return res.status(code).json({success: false, message})]. *)
Definition respond {S A} (code : N) (msg : string) : M S A :=
halt (Respond code msg).

Definition throw {S A} (e : Exn) : M S A := halt (Throw e).

(** [try { m } catch (e) { /* logged */ }]: an exception is
swallowed, the state it reached is kept. *)
Definition try_log {S} (m : M S unit) : M S unit := λ s,
match m s with
| (s', inl (Throw _)) => (s', inr ())
| r => r
end.

(** The [try/catch] envelope of a controller: an exception becomes a
500 response carrying [error.message]. *)
Definition run {S P} (m : M S (N * P)) (s : S) : S * Reply P :=
match m s with
| (s', inr (c, d)) => (s', Success c d)
| (s', inl (Respond c msg)) => (s', Failure c msg)
| (s', inl (Throw e)) => (s', Failure 500 (exn_message e))
end.

(** The status code of a reply. *)
Definition code_of {P} (r : Reply P) : N :=
match r with Success c _ => c | Failure c _ => c end.

(** ** Laws of the monad *)

Lemma bind_ret {S A B} (a : A) (f : A → M S B) (s : S) :
(x ← mret a; f x) s = f a s.
Proof. done. Qed.

Lemma bind_halt {S A B} (h : Halt) (f : A → M S B) (s : S) :
(x ← (halt h : M S A); f x) s = (s, inl h).
Proof. done. Qed.

Lemma bind_assoc {S A B C} (m : M S A) (f : A → M S B) (g : B → M S C) s :
(y ← (x ← m; f x); g y) s = (x ← m; y ← f x; g y) s.
Proof.
unfold mbind, M_bind. destruct (m s) as [s' [h|a]]; [done|].
destruct (f a s') as [s'' [h|b]]; done.
Qed.

Lemma bind_inr {S A B} (m : M S A) (f : A → M S B) s s' a :
m s = (s', inr a) → (x ← m; f x) s = f a s'.
Proof. intros H. unfold mbind, M_bind. by rewrite H. Qed.

Lemma bind_inl {S A B} (m : M S A) (f : A → M S B) s s' h :
m s = (s', inl h) → (x ← m; f x) s = (s', inl h).
Proof. intros H. unfold mbind, M_bind. by rewrite H. Qed.

End Http.

(** Expose the monad's plumbing, so that [cbn] runs a handler. *)
Ltac unfold_M :=
  unfold Http.run, mbind, Http.M_bind, mret, Http.M_ret, Http.get,
    Http.modify, Http.respond, Http.throw, Http.halt, Http.try_log in *.

#[export] Hint Rewrite @Http.bind_ret @Http.bind_halt : tm_rw.
