(* ===== verification/Store.v ===== *)
(** * Store: the database, the upload directory and their operations

    The backend's state is the MongoDB database (the [tasks] and [users]
    collections) and the [uploads/] directory on disk.  [Db] holds the
    two collections as finite maps from ObjectId to document, the
    directory as the set of file paths it contains (relative to the
    backend directory, where the server runs), and the counter behind
    [new ObjectId()].

    The operations are the Mongoose and [fs] calls of
    [taskController.js], each with its behaviour on a missing document:
    [User.findByIdAndUpdate] on a missing user does nothing and returns
    [null] (no error), [fs.unlink] on a missing file fails with
    [ENOENT], [Task.findById] on a string that is not an ObjectId throws
    a [CastError]. *)

From S2P Require Import Prelude ObjectId Schema Http.
Import Schema Http.

Module Store.

Record Db := mkDb {
db_tasks : gmap Id Task;
db_users : gmap Id User;
db_files : gset string;
db_next : Id;
}.

Definition set_tasks (f : gmap Id Task → gmap Id Task) (db : Db) : Db :=
mkDb (f (db_tasks db)) (db_users db) (db_files db) (db_next db).
Definition set_users (f : gmap Id User → gmap Id User) (db : Db) : Db :=
mkDb (db_tasks db) (f (db_users db)) (db_files db) (db_next db).
Definition set_files (f : gset string → gset string) (db : Db) : Db :=
mkDb (db_tasks db) (db_users db) (f (db_files db)) (db_next db).

(** [new ObjectId()], also used for the [_id] of embedded documents. *)
Definition new_oid : M Db Id := λ db,
(mkDb (db_tasks db) (db_users db) (db_files db) (N.succ (db_next db)),
inr (db_next db)).

(** [Task.findById(req.params.id)]: the path string is cast first. *)
Definition findById (sid : string) : M Db (option Task) :=
match ObjectId.cast sid with
| None => throw (CastError "_id")
| Some id => db ← get; mret (db_tasks db !! id)
end.

(** [User.findById(id)] for [populate]: [null] when the user is gone. *)
Definition find_user (db : Db) (uid : Id) : option User := db_users db !! uid.

(** [Task.create(doc)] and [task.save()]: write the whole document. *)
Definition save (t : Task) : M Db unit :=
modify (set_tasks (insert (task_id t) t)).

(** [task.remove()] ([Document.prototype.remove], which Mongoose 5
has; Mongoose 7 removed it). *)
Definition remove (id : Id) : M Db unit := modify (set_tasks (delete id)).

Definition with_tasks (u : User) (l : list Id) : User :=
mkUser (user_id u) (name u) (email u) (role u) l.

(** [User.findByIdAndUpdate(uid, { $push: { tasks: tid } })]: appends;
nothing happens when no user has id [uid]. *)
Definition push_task (uid tid : Id) : M Db unit :=
modify (set_users (alter (λ u, with_tasks u (tasks u ++ [tid])) uid)).

(** [User.findByIdAndUpdate(uid, { $pull: { tasks: tid } })]: removes
every occurrence. *)
Definition pull_task (uid tid : Id) : M Db unit :=
modify (set_users (alter (λ u, with_tasks u (filter (λ x, x ≠ tid) (tasks u))) uid)).

(** [photo.imageUrl.replace(/^\//, '')]: drops one leading slash. *)
Definition strip_leading_slash (s : string) : string :=
match s with
| String c s' => if decide (c = "/"%char) then s' else s
| EmptyString => s
end.

(** [path.join(__dirname, '..', url.replace(/^\//, ''))], relative to
the backend directory; [imageUrl] being [undefined] raises a
[TypeError] at [.replace]. *)
Definition photo_path (url : option string) : M Db string :=
match url with
| Some u => mret (strip_leading_slash u)
| None => throw (TypeError "replace")
end.

(** [await fs.unlink(path)]. *)
Definition unlink (p : string) : M Db unit := λ db,
if decide (p ∈ db_files db)
then (set_files (λ fs, fs ∖ {[p]}) db, inr ())
else (db, inl (Throw (FsError "ENOENT"))).

(** multer's [diskStorage] writing the uploaded file to [uploads/]. *)
Definition disk_write (p : string) : M Db unit :=
modify (set_files (λ fs, {[p]} ∪ fs)).

(** Every document is stored under its own [_id]. *)
Definition keyed (db : Db) : Prop :=
map_Forall (λ k t, task_id t = k) (db_tasks db) ∧
map_Forall (λ k u, user_id u = k) (db_users db).

(** ** Lemmas *)

Lemma keyed_user db uid u :
keyed db → db_users db !! uid = Some u → user_id u = uid.
Proof. intros [_ Hu] Hl. exact (Hu _ _ Hl). Qed.

Lemma keyed_task db id t :
keyed db → db_tasks db !! id = Some t → task_id t = id.
Proof. intros [Ht _] Hl. exact (Ht _ _ Hl). Qed.

Lemma findById_cast db sid n :
ObjectId.cast sid = Some n →
findById sid db = (db, inr (db_tasks db !! n)).
Proof. intros Hn. unfold findById. by rewrite Hn. Qed.

Lemma findById_bad db sid :
ObjectId.cast sid = None →
findById sid db = (db, inl (Throw (CastError "_id"))).
Proof. intros Hn. unfold findById. by rewrite Hn. Qed.

Lemma bind_findById {A} db sid n (f : option Task → M Db A) :
ObjectId.cast sid = Some n →
(x ← findById sid; f x) db = f (db_tasks db !! n) db.
Proof. intros H. apply bind_inr. by apply findById_cast. Qed.

Lemma bind_findById_bad {A} db sid (f : option Task → M Db A) :
ObjectId.cast sid = None →
(x ← findById sid; f x) db = (db, inl (Throw (CastError "_id"))).
Proof. intros H. apply bind_inl. by apply findById_bad. Qed.

Lemma unlink_present db p :
p ∈ db_files db → unlink p db = (set_files (λ fs, fs ∖ {[p]}) db, inr ()).
Proof. intros Hp. unfold unlink. by rewrite decide_True. Qed.

Lemma unlink_missing db p :
p ∉ db_files db → unlink p db = (db, inl (Throw (FsError "ENOENT"))).
Proof. intros Hp. unfold unlink. by rewrite decide_False. Qed.

Lemma strip_leading_slash_app s :
strip_leading_slash ("/" ++ s) = s.
Proof. reflexivity. Qed.

End Store.
