(* ===== verification/Auth.v ===== *)
(** * Auth: the authorization gate of [middleware/auth.js]

    [protect] reads the [Authorization] header, keeps it when it starts
    with ["Bearer"], takes the second field of [split(' ')] as the token,
    verifies it with [jwt.verify], and loads the user named by the
    token's [id].  Every failure, including an exception of [jwt.verify]
    or of the cast in [User.findById], answers 401 with the same message.
    [authorize(...roles)] answers 403 when [req.user.role] is not in the
    list.

    The JWT library (signature and expiry checks) is a library the code
    only calls: it is the typeclass [TokenVerifier], and the theorems
    hold for every instance.  Both middlewares only read the database;
    they are pure functions of it. *)

From S2P Require Import Prelude ObjectId Schema Http Store.
Import Schema Http Store.

(** [jwt.verify(token, process.env.JWT_SECRET)] at time [now]: the
    [id] claim of a token it accepts, [None] when it throws (bad
    signature, expired) or the payload has no [id]. *)
Class TokenVerifier := jwt_verify : Date → string → option string.

Module Auth.

(** [String.prototype.split(' ')]: the fields between single spaces,
empty fields included. *)
Fixpoint split_space (s : string) : list string :=
match s with
| EmptyString => [EmptyString]
| String c s' =>
  let rest := split_space s' in
  if decide (c = " "%char) then EmptyString :: rest
  else match rest with
       | f :: fs => String c f :: fs
       | [] => [String c EmptyString]
       end
end.

(** [req.headers.authorization && req.headers.authorization.startsWith('Bearer')]
then [token = authorization.split(' ')[1]]; [!token] covers
[undefined] and the empty string. *)
Definition bearer_token (hdr : option string) : option string :=
match hdr with
| Some h =>
  if String.prefix "Bearer" h then
    match split_space h !! 1 with
    | Some tok => if decide (tok = ""%string) then None else Some tok
    | None => None
    end
  else None
| None => None
end.

Definition not_authorized : string := "Not authorized to access this route".

Section protect.
Context `{TokenVerifier}.

(** [exports.protect]: the user attached to [req.user], or the 401
answer. *)
Definition protect (db : Db) (now : Date) (hdr : option string) : Halt + User :=
match bearer_token hdr with
| None => inl (Respond 401 not_authorized)
| Some tok =>
match jwt_verify now tok with
| None => inl (Respond 401 not_authorized)
| Some sub =>
  match ObjectId.cast sub with
  | None => inl (Respond 401 not_authorized)
  | Some uid =>
      match find_user db uid with
      | None => inl (Respond 401 not_authorized)
      | Some u => inr u
      end
  end
end
end.
End protect.

(** [exports.authorize(...roles)]: [roles.includes(req.user.role)]. *)
Definition authorize (roles : list Role) (u : User) : Halt + unit :=
if decide (role u ∈ roles) then inr ()
else inl (Respond 403 ("User role " ++ role_to_string (role u) ++
                     " is not authorized to access this route")).

(** ** Lemmas *)

Lemma split_space_no_space s :
(∀ c, c ∈ list_ascii_of_string s → c ≠ " "%char) → split_space s = [s].
Proof.
induction s as [|c s IH]; intros Hs; simpl; [done|].
rewrite decide_False by (apply Hs; simpl; set_solver).
rewrite IH; [done|]. intros c' Hc'. apply Hs. simpl. set_solver.
Qed.

Lemma split_space_bearer tok :
(∀ c, c ∈ list_ascii_of_string tok → c ≠ " "%char) →
split_space ("Bearer " ++ tok) = ["Bearer"; tok].
Proof. intros Htok. simpl. by rewrite split_space_no_space. Qed.

Lemma prefix_bearer tok : String.prefix "Bearer" ("Bearer " ++ tok) = true.
Proof. reflexivity. Qed.

End Auth.

(** ** Theorems of the authorization gate *)

Section auth_theorems.
Context `{TokenVerifier}.
Import Auth.

(** Authentication failures are indistinguishable.  Whatever
fails in [protect] (no header, no [Bearer] prefix, no token field,
a token [jwt.verify] rejects, a subject that is not an ObjectId, a
deleted user), the answer is the same 401 with the same message. *)
Theorem protect_failure_uniform db now hdr h :
protect db now hdr = inl h → h = Respond 401 not_authorized.
Proof. unfold protect. split_guards; congruence. Qed.

(** [protect] lets a request through exactly when the header
carries a token the verifier accepts, whose subject is the id of a
user present in the database; that user becomes [req.user]. *)
Theorem protect_success db now hdr u :
protect db now hdr = inr u ↔
∃ tok sub uid, bearer_token hdr = Some tok ∧ jwt_verify now tok = Some sub ∧
ObjectId.cast sub = Some uid ∧ db_users db !! uid = Some u.
Proof.
unfold protect, find_user. split.
- intros Hp; split_guards; eauto 10.
- intros (tok & sub & uid & -> & -> & -> & ->). done.
Qed.

(** C9: the contract of the [protect] middleware.  It lets a request
through exactly when the header carries a [Bearer] token the verifier
accepts, whose subject casts to the id of a user present in the
database, and that user becomes [req.user]; every other request, for
whatever reason it fails, gets the same 401 with the same message. *)
Theorem protect_spec db now hdr :
(∀ u, protect db now hdr = inr u ↔
  ∃ tok sub uid, bearer_token hdr = Some tok ∧ jwt_verify now tok = Some sub ∧
    ObjectId.cast sub = Some uid ∧ db_users db !! uid = Some u) ∧
(∀ h, protect db now hdr = inl h → h = Respond 401 not_authorized).
Proof. split; [apply protect_success|apply protect_failure_uniform]. Qed.

(** The header the client builds ([`Bearer ${token}`] in
[lib/api.ts]) gives back the token, for every non-empty token
without spaces (a JWT is three base64url fields joined by dots). *)
Theorem bearer_token_roundtrip tok :
tok ≠ ""%string →
(∀ c, c ∈ list_ascii_of_string tok → c ≠ " "%char) →
bearer_token (Some ("Bearer " ++ tok)%string) = Some tok.
Proof.
intros Hne Hsp. unfold bearer_token. rewrite prefix_bearer.
rewrite split_space_bearer by done. simpl. by rewrite decide_False.
Qed.

(** [authorize(...roles)] passes exactly the users whose role is in
the list, and answers 403 otherwise. *)
Theorem authorize_spec roles u :
(authorize roles u = inr () ↔ role u ∈ roles) ∧
(role u ∉ roles → ∃ msg, authorize roles u = inl (Respond 403 msg)).
Proof.
unfold authorize. split.
- case_decide; naive_solver.
- intros Hn. rewrite decide_False by done. eauto.
Qed.
End auth_theorems.
