(* ===== verification/TaskController.v ===== *)
(** * TaskController: the request handlers of [controllers/taskController.js]

    One definition per exported handler, statement by statement: the
    [findById] lookup and its 404, the role/ownership guard and its 403,
    the writes in the order the code performs them, and the success
    response.  [req.user] is the user [protect] attached; [req.params.id]
    is the raw path string (cast by [findById]); [now] is [Date.now()]
    at the request; the body fields each handler reads are its
    arguments.

    The ids the code compares as strings ([x.toString() !== req.user.id])
    are compared as ObjectIds: the string form is injective
    ([ObjectId.to_hex_inj]). *)

From S2P Require Import Prelude ObjectId Schema Http Store.
Import Schema Http Store.

Module TaskController.

(** [populate(path, 'name email')]: the referenced user's id, name and
email, or [null] when that user no longer exists. *)
Definition populate_user (db : Db) (uid : Id) : option (Id * string * string) :=
(λ u, (user_id u, name u, email u)) <$> find_user db uid.

(** A task as sent to the client, with [assignedTo] and [createdBy]
populated. *)
Record TaskView := mkTaskView {
view_task : Task;
view_assignedTo : option (Id * string * string);
view_createdBy : option (Id * string * string);
}.

Definition view (db : Db) (t : Task) : TaskView :=
mkTaskView t (populate_user db (assignedTo t)) (populate_user db (createdBy t)).

(** The object [uploadTaskPhoto] answers with (it is not the stored
subdocument: [uploadedAt] is not a schema path). *)
Record PhotoReply := mkPhotoReply {
reply_imageUrl : string;
reply_caption : string;
reply_uploadedBy : Id;
reply_uploadedAt : Date;
}.

(** The [data] field of a successful response. *)
Inductive Payload :=
| PTask (t : Task)
| PView (v : TaskView)
| PTasks (vs : list TaskView)
| PPhoto (p : PhotoReply)
| PEmpty.

Abbreviation Handler := (M Db (N * Payload)).

(** [req.user.role !== 'admin' && task.createdBy.toString() !== req.user.id]. *)
Definition not_admin_nor_creator (u : User) (t : Task) : Prop :=
role u ≠ admin ∧ createdBy t ≠ user_id u.

(** [req.user.role !== 'admin' && task.assignedTo.toString() !== req.user.id]. *)
Definition not_admin_nor_assignee (u : User) (t : Task) : Prop :=
role u ≠ admin ∧ assignedTo t ≠ user_id u.

(** The filter of [getTasks] for a non-admin:
[{ $or: [{ assignedTo: req.user.id }, { createdBy: req.user.id }] }]. *)
Definition involves (u : User) (t : Task) : Prop :=
assignedTo t = user_id u ∨ createdBy t = user_id u.

Definition task_list (db : Db) : list Task := (map_to_list (db_tasks db)).*2.

(** ** [createTask] (lines 7-29) *)
Definition createTask (u : User) (now : Date) (i : TaskInput) : Handler :=
id ← new_oid;
match validate_create id (user_id u) now i with
| inl paths => throw (ValidationError paths)
| inr t =>
  _ ← save t;
  _ ← push_task (assignedTo t) (task_id t);
  mret (201%N, PTask t)
end.

(** ** [getTasks] (lines 31-53) *)
Definition getTasks (u : User) : Handler :=
db ← get;
let ts := if decide (role u = admin) then task_list db
        else filter (involves u) (task_list db) in
mret (200%N, PTasks (view db <$> ts)).

(** ** [getTask] (lines 55-76): the guard reads [task.assignedTo._id]
and [task.createdBy._id] on the populated task, which throws when
the referenced user is gone; [&&] evaluates left to right and stops
at the first [false].  [.populate('comments.user', ...)] (line 60)
names a path the schema does not have (comments have [createdBy]):
Mongoose 5, the version modelled, ignores it (Mongoose 6 and later
reject it with [strictPopulate], which would make every [getTask] of
an existing task a 500). *)
Definition getTask (u : User) (sid : string) : Handler :=
ot ← findById sid;
match ot with
| None => respond 404 "Task not found"
| Some t =>
  db ← get;
  let ok := mret (200%N, PView (view db t)) in
  if decide (role u = admin) then ok
  else match find_user db (assignedTo t) with
       | None => throw (TypeError "_id")
       | Some a =>
           if decide (user_id a = user_id u) then ok
           else match find_user db (createdBy t) with
                | None => throw (TypeError "_id")
                | Some c =>
                    if decide (user_id c = user_id u) then ok
                    else respond 403 "Not authorized"
                end
       end
end.

(** ** [updateTask] (lines 78-93) *)
Definition updateTask (u : User) (sid : string) (p : TaskPatch) (now : Date) : Handler :=
ot ← findById sid;
match ot with
| None => respond 404 "Task not found"
| Some t =>
  if decide (not_admin_nor_creator u t) then respond 403 "Not authorized"
  else match apply_patch t p now with
       | inl paths => throw (ValidationError paths)
       | inr t' => _ ← save t'; mret (200%N, PTask t')
       end
end.

(** The loop of [deleteTask] over [task.photos]: each [fs.unlink] is in
its own [try/catch] that only logs. *)
Fixpoint delete_photo_files (ps : list Photo) : M Db unit :=
match ps with
| [] => mret ()
| p :: ps' =>
  _ ← try_log (path ← photo_path (imageUrl p); unlink path);
  delete_photo_files ps'
end.

(** ** [deleteTask] (lines 95-124) *)
Definition deleteTask (u : User) (sid : string) : Handler :=
ot ← findById sid;
match ot with
| None => respond 404 "Task not found"
| Some t =>
  if decide (not_admin_nor_creator u t) then respond 403 "Not authorized"
  else
    _ ← delete_photo_files (photos t);
    _ ← remove (task_id t);
    _ ← pull_task (assignedTo t) (task_id t);
    mret (200%N, PEmpty)
end.

Definition with_comments (t : Task) (cs : list Comment) (now : Date) : Task :=
mkTask (task_id t) (title t) (shortDescription t) (longDescription t)
(status t) (priority t) (deadline t) (group t) (assignedTo t)
(createdBy t) (photos t) cs (createdAt t) now.

Definition with_photos (t : Task) (ps : list Photo) (st : Status) (now : Date) : Task :=
mkTask (task_id t) (title t) (shortDescription t) (longDescription t)
st (priority t) (deadline t) (group t) (assignedTo t)
(createdBy t) ps (comments t) (createdAt t) now.

(** ** [addComment] (lines 126-138): the pushed object has keys [user]
and [text]; [user] is not a path of the comment schema, so strict
mode drops it and [createdBy] stays unset. *)
Definition addComment (u : User) (sid : string) (txt : option string) (now : Date) : Handler :=
ot ← findById sid;
match ot with
| None => respond 404 "Task not found"
| Some t =>
  cid ← new_oid;
  let t' := with_comments t (comments t ++ [mkComment cid txt None now]) now in
  _ ← save t';
  mret (200%N, PTask t')
end.

(** ** [uploadTaskPhoto] (lines 140-187); [file] is the name multer
gave the stored file ([req.file.filename]), [None] when no file
came with the request. *)
Definition uploadTaskPhoto (u : User) (sid : string) (file : option string)
(cap : option string) (now : Date) : Handler :=
ot ← findById sid;
match ot with
| None => respond 404 "Task not found"
| Some t =>
  if decide (not_admin_nor_assignee u t) then respond 403 "Not authorized"
  else match file with
       | None => respond 400 "Please upload a file"
       | Some fn =>
           pid ← new_oid;
           let url := ("/uploads/" ++ fn)%string in
           let c := from_option id ""%string cap in
           let st := if decide (status t = todo) then inProgress else status t in
           let p := mkPhoto pid (Some url) (Some c) now (Some (user_id u)) in
           _ ← save (with_photos t (photos t ++ [p]) st now);
           mret (200%N, PPhoto (mkPhotoReply url c (user_id u) now))
       end
end.

(** [task.photos.id(photoId)]: the first embedded photo with that id;
[null] when the string is not an ObjectId or no photo matches. *)
Definition find_photo (ps : list Photo) (spid : string) : option Photo :=
match ObjectId.cast spid with
| Some pid => snd <$> list_find (λ p, photo_id p = pid) ps
| None => None
end.

(** ** [deleteTaskPhoto] (lines 189-212): the unlink is not caught
here, its failure reaches the handler's [catch].  [photo.remove()]
(Mongoose 5's subdocument [remove]) takes the photo out of the array,
and [task.save()] stores the task. *)
Definition deleteTaskPhoto (u : User) (sid spid : string) (now : Date) : Handler :=
ot ← findById sid;
match ot with
| None => respond 404 "Task not found"
| Some t =>
  if decide (not_admin_nor_assignee u t) then respond 403 "Not authorized"
  else match find_photo (photos t) spid with
       | None => respond 404 "Photo not found"
       | Some p =>
           path ← photo_path (imageUrl p);
           _ ← unlink path;
           _ ← save (with_photos t (filter (λ q, photo_id q ≠ photo_id p) (photos t))
                        (status t) now);
           mret (200%N, PEmpty)
       end
end.

End TaskController.

(** ** Lemmas on the handlers *)

Section controller_lemmas.
Import TaskController.

Lemma task_list_elem db t :
t ∈ task_list db ↔ ∃ k, db_tasks db !! k = Some t.
Proof.
unfold task_list. rewrite list_elem_of_fmap. split.
- intros ([k t'] & -> & Hin). apply elem_of_map_to_list in Hin. eauto.
- intros [k Hk]. exists (k, t). split; [done|]. by apply elem_of_map_to_list.
Qed.

Lemma view_task_fmap db (ts : list Task) : view_task <$> (view db <$> ts) = ts.
Proof. induction ts as [|t ts IH]; simpl; [done|]. f_equal. exact IH. Qed.

(** The fields of a validated document are the fields of the body, with
the schema defaults for an absent status or priority. *)
Lemma validate_create_fields id c now i t :
validate_create id c now i = inr t →
task_id t = id ∧ createdBy t = c ∧
required_string (in_title i) = Some (title t) ∧
required_string (in_shortDescription i) = Some (shortDescription t) ∧
longDescription t = in_longDescription i ∧
enum_default status_of_string todo (in_status i) = Some (status t) ∧
enum_default priority_of_string medium (in_priority i) = Some (priority t) ∧
in_deadline i = Some (deadline t) ∧
(in_group i ≫= group_of_string) = Some (group t) ∧
(in_assignedTo i ≫= ObjectId.cast) = Some (assignedTo t) ∧
photos t = [] ∧ comments t = [].
Proof. unfold validate_create. intros H. split_guards. naive_solver. Qed.
End controller_lemmas.

(** ** Theorems of the task API *)

Section controller_theorems.
Import TaskController.

(** The database after the [new ObjectId()] of a request. *)
Definition bump (db : Db) : Db :=
mkDb (db_tasks db) (db_users db) (db_files db) (N.succ (db_next db)).

(** [createTask] on every branch.  A body that fails validation
answers 500 with the validation message and stores nothing; a
valid body is stored under the fresh id, its id is pushed on the
assignee's [tasks] array, and the answer is 201 with the task. *)
Lemma createTask_run u now i db :
run (createTask u now i) db =
match validate_create (db_next db) (user_id u) now i with
| inl ps => (bump db, Failure 500 (exn_message (ValidationError ps)))
| inr t =>
  (set_users (alter (λ v, with_tasks v (tasks v ++ [task_id t])) (assignedTo t))
     (set_tasks (insert (task_id t) t) (bump db)),
   Success 201 (PTask t))
end.
Proof.
unfold createTask. unfold_M. cbn -[validate_create].
by destruct (validate_create _ _ _ _).
Qed.

Lemma createTask_success u now i db db' t :
run (createTask u now i) db = (db', Success 201 (PTask t)) →
validate_create (db_next db) (user_id u) now i = inr t ∧
db' = set_users (alter (λ v, with_tasks v (tasks v ++ [task_id t])) (assignedTo t))
      (set_tasks (insert (task_id t) t) (bump db)).
Proof.
rewrite createTask_run. destruct (validate_create _ _ _ _); naive_solver.
Qed.

(** creating a task whose assignee [U] exists adds the task's id to
[U]'s task list exactly once (the id is fresh: it is not yet in the
list). *)
Theorem createTask_push_once u now i db db' t a :
run (createTask u now i) db = (db', Success 201 (PTask t)) →
db_users db !! assignedTo t = Some a →
db_next db ∉ tasks a →
∃ a', db_users db' !! assignedTo t = Some a' ∧
    occurrences (task_id t) (tasks a') = 1.
Proof.
intros [Hv ->]%createTask_success Ha Hfresh.
destruct (validate_create_fields _ _ _ _ _ Hv) as (Hid & _).
eexists. simpl. rewrite lookup_alter_eq, Ha. split; [done|].
simpl. rewrite Hid. by apply occurrences_push_fresh.
Qed.

(** C20 (finding): [createTask] does not check that the assignee exists.
For a body that passes the schema's validation and names an
[assignedTo] that is no user, the answer is 201 with the task, the
task is stored, and the users are left as they were: the [$push] on the
missing user silently updates nothing. *)
Theorem createTask_unknown_assignee u now i db t :
validate_create (db_next db) (user_id u) now i = inr t →
db_users db !! assignedTo t = None →
run (createTask u now i) db = (set_tasks (insert (task_id t) t) (bump db), Success 201 (PTask t)).
Proof.
intros Hv Ha. rewrite createTask_run, Hv. f_equal.
unfold set_users. rewrite alter_id' by (by destruct db). by destruct db.
Qed.

(** C5: round trip.  After a successful [createTask], an admin's
[getTask] on the new id returns the stored task, whose title,
descriptions, deadline, group and assignee are the values of the
request body, and whose status and priority are the body's or the
schema defaults. *)
Theorem create_then_get u adm now i db db' t :
role adm = admin → (db_next db < ObjectId.bound)%N →
run (createTask u now i) db = (db', Success 201 (PTask t)) →
run (getTask adm (ObjectId.to_hex (task_id t))) db' =
(db', Success 200 (PView (view db' t))) ∧
in_title i = Some (title t) ∧
in_shortDescription i = Some (shortDescription t) ∧
in_longDescription i = longDescription t ∧
in_deadline i = Some (deadline t) ∧
in_group i = Some (group_to_string (group t)) ∧
(in_assignedTo i ≫= ObjectId.cast) = Some (assignedTo t) ∧
enum_default priority_of_string medium (in_priority i) = Some (priority t) ∧
enum_default status_of_string todo (in_status i) = Some (status t).
Proof.
intros Hadm Hb Hrun. pose proof Hrun as [Hv ->]%createTask_success.
destruct (validate_create_fields _ _ _ _ _ Hv)
as (Hid & _ & Ht & Hs & Hl & Hst & Hp & Hd & Hg & Ha & _).
split.
- unfold getTask, Http.run. rewrite bind_findById with (n := task_id t)
  by (rewrite Hid; by apply cast_to_hex).
simpl. rewrite lookup_insert_eq. unfold_M. simpl. by rewrite decide_True.
- unfold required_string in Ht, Hs.
destruct (in_title i), (in_shortDescription i); split_guards.
destruct (in_group i) as [g|]; simplify_eq/=.
apply group_of_string_spec in Hg. subst. naive_solver.
Qed.

(** C1: visibility of [getTasks].  An admin receives every stored
task; any other user receives exactly the tasks they are assigned
to or created.  The database is unchanged. *)
Theorem getTasks_visibility u db :
∃ vs, run (getTasks u) db = (db, Success 200 (PTasks vs)) ∧
∀ t, t ∈ view_task <$> vs ↔
     (∃ k, db_tasks db !! k = Some t) ∧ (role u = admin ∨ involves u t).
Proof.
eexists. split; [unfold getTasks; unfold_M; reflexivity|].
intros t. rewrite view_task_fmap. case_decide.
- rewrite task_list_elem. naive_solver.
- rewrite list_elem_of_filter, task_list_elem. naive_solver.
Qed.

(** [getTask] answers 404 for an id that names no task, whoever
asks: "not found" is told apart from "not permitted" (see C2). *)
Theorem getTask_not_found u sid n db :
ObjectId.cast sid = Some n → db_tasks db !! n = None →
run (getTask u sid) db = (db, Failure 404 "Task not found").
Proof.
intros Hc Hn. unfold getTask, Http.run. rewrite (bind_findById db sid n) by done.
rewrite Hn. reflexivity.
Qed.

(** C2: [getTask] on an existing task whose assignee and creator
still exist: an admin, or a user the task involves (assignee or
creator), gets 200 with the populated task; every other user gets
403, not 404. *)
Theorem getTask_access u sid n t db :
keyed db → ObjectId.cast sid = Some n → db_tasks db !! n = Some t →
is_Some (db_users db !! assignedTo t) → is_Some (db_users db !! createdBy t) →
run (getTask u sid) db =
(db, if decide (role u = admin ∨ involves u t)
     then Success 200 (PView (view db t))
     else Failure 403 "Not authorized").
Proof.
intros Hk Hc Hn [a Ha] [c Hcr]. unfold getTask, Http.run. rewrite (bind_findById db sid n) by done.
rewrite Hn. unfold_M. cbn. unfold find_user. rewrite Ha, Hcr.
rewrite (keyed_user _ _ _ Hk Ha), (keyed_user _ _ _ Hk Hcr).
unfold involves. repeat case_decide; naive_solver.
Qed.

(** C21 (finding): [getTask] crashes on a dangling assignee.  When the
user a task is assigned to no longer exists, [populate] yields
[null], the guard reads [task.assignedTo._id] and throws: a
non-admin caller gets 500, not 403 or 200. *)
Theorem getTask_dangling_assignee u sid n t db :
ObjectId.cast sid = Some n → db_tasks db !! n = Some t →
role u ≠ admin → db_users db !! assignedTo t = None →
run (getTask u sid) db = (db, Failure 500 (exn_message (TypeError "_id"))).
Proof.
intros Hc Hn Hr Ha. unfold getTask, Http.run. rewrite (bind_findById db sid n) by done.
rewrite Hn. unfold_M. cbn. rewrite decide_False by done.
unfold find_user. by rewrite Ha.
Qed.
End controller_theorems.

(** ** Lemmas on the photo cascade *)

Section cascade.
Import TaskController.

(** The files [deleteTask] tries to unlink: the paths of the photos
that have an [imageUrl]. *)
Definition photo_paths (ps : list Photo) : list string :=
omap (λ p, strip_leading_slash <$> imageUrl p) ps.

Lemma set_files_set_files f g db :
set_files f (set_files g db) = set_files (f ∘ g) db.
Proof. done. Qed.

(** The loop never fails and removes exactly the photos' files: an
[unlink] of a missing file is caught and logged, which leaves the
directory as removing it would. *)
Lemma delete_photo_files_run ps db :
delete_photo_files ps db =
(set_files (λ fs, fs ∖ list_to_set (photo_paths ps)) db, inr ()).
Proof.
revert db. induction ps as [|p ps IH]; intros db; simpl; unfold_M.
- destruct db. unfold set_files. simpl. by rewrite difference_empty_L.
- unfold photo_paths in *. destruct (imageUrl p) as [url|]; simpl.
+ unfold unlink. case_decide; rewrite IH; destruct db; unfold set_files;
    simpl in *; f_equal; f_equal; set_solver.
+ by rewrite IH.
Qed.
End cascade.

Section controller_theorems2.
Import TaskController.

(** [updateTask] on every branch.  A missing task answers 404;
a caller who is neither admin nor the task's creator gets 403 and
nothing changes; a patch that fails a validator (an empty title,
a status outside the enumeration, ...) answers 500 and leaves the
task as it was; otherwise the patched task is stored and
returned. *)
Lemma updateTask_run u sid n p now db :
ObjectId.cast sid = Some n →
run (updateTask u sid p now) db =
match db_tasks db !! n with
| None => (db, Failure 404 "Task not found")
| Some t =>
  if decide (not_admin_nor_creator u t) then (db, Failure 403 "Not authorized")
  else match apply_patch t p now with
       | inl ps => (db, Failure 500 (exn_message (ValidationError ps)))
       | inr t' => (set_tasks (insert (task_id t') t') db, Success 200 (PTask t'))
       end
end.
Proof.
intros Hc. unfold updateTask, Http.run. rewrite (bind_findById db sid n) by done.
destruct (db_tasks db !! n) as [t|]; [|done]. unfold_M. cbn -[apply_patch].
case_decide; [done|]. by destruct (apply_patch t p now).
Qed.

(** C22 (finding): the assignee of a task cannot change it on the
server.  A non-admin assignee who did not create the task gets
403 from [updateTask], whatever the patch (a status change
included), although the client's [updateTaskStatus] lets the
assignee change the status and the spec lists the assignee among
those who may update. *)
Theorem updateTask_assignee_denied u sid n t p now db :
ObjectId.cast sid = Some n → db_tasks db !! n = Some t →
role u = user → assignedTo t = user_id u → createdBy t ≠ user_id u →
run (updateTask u sid p now) db = (db, Failure 403 "Not authorized").
Proof.
intros Hc Hn Hr Ha Hcr. rewrite (updateTask_run u sid n) by done. rewrite Hn.
rewrite decide_True; [done|]. unfold not_admin_nor_creator. rewrite Hr. done.
Qed.

(** [deleteTask] on every branch.  On success the task's photo
files are removed from [uploads/] (a missing file is only logged),
the task is removed, and its id is pulled from its current
assignee's [tasks] array. *)
Lemma deleteTask_run u sid n db :
ObjectId.cast sid = Some n →
run (deleteTask u sid) db =
match db_tasks db !! n with
| None => (db, Failure 404 "Task not found")
| Some t =>
  if decide (not_admin_nor_creator u t) then (db, Failure 403 "Not authorized")
  else (set_users (alter (λ v, with_tasks v (filter (λ x, x ≠ task_id t) (tasks v)))
                   (assignedTo t))
          (set_tasks (delete (task_id t))
             (set_files (λ fs, fs ∖ list_to_set (photo_paths (photos t))) db)),
        Success 200 PEmpty)
end.
Proof.
intros Hc. unfold deleteTask, Http.run. rewrite (bind_findById db sid n) by done.
destruct (db_tasks db !! n) as [t|]; [|done]. unfold_M. cbn -[delete_photo_files].
case_decide; [done|]. by rewrite delete_photo_files_run.
Qed.

(** C6: the cascade of a successful [deleteTask]: the task is gone,
the assignee's list no longer holds its id, none of its photo
files is left, and deleting the same id again answers 404. *)
Theorem deleteTask_cascade u u2 sid n t db db' :
keyed db → ObjectId.cast sid = Some n → db_tasks db !! n = Some t →
run (deleteTask u sid) db = (db', Success 200 PEmpty) →
db_tasks db' !! n = None ∧
(∀ a, db_users db' !! assignedTo t = Some a → task_id t ∉ tasks a) ∧
(∀ p, p ∈ photo_paths (photos t) → p ∉ db_files db') ∧
run (deleteTask u2 sid) db' = (db', Failure 404 "Task not found").
Proof.
intros Hk Hc Hn. rewrite (deleteTask_run u sid n) by done. rewrite Hn.
pose proof (keyed_task _ _ _ Hk Hn) as Hid.
case_decide; [done|]. intros [= <-]. simpl. split_and!.
- by rewrite Hid, lookup_delete_eq.
- intros a. rewrite lookup_alter_eq. intros (a0 & _ & ->)%fmap_Some. simpl.
rewrite list_elem_of_filter. naive_solver.
- intros p Hp. set_solver.
- rewrite (deleteTask_run u2 sid n) by done. simpl.
by rewrite Hid, lookup_delete_eq.
Qed.
End controller_theorems2.

Section controller_theorems3.
Import TaskController.

(** The photo subdocument [uploadTaskPhoto] stores. *)
Definition uploaded_photo (u : User) (pid : Id) (fn : string) (cap : option string)
(now : Date) : Photo :=
mkPhoto pid (Some ("/uploads/" ++ fn)%string) (Some (from_option id ""%string cap))
now (Some (user_id u)).

(** The status after an upload: [if (task.status === 'todo') task.status = 'inProgress']. *)
Definition status_after_upload (s : Status) : Status :=
if decide (s = todo) then inProgress else s.

(** [uploadTaskPhoto] on every branch: 404 for a missing task, 403
for a caller who is neither admin nor the assignee, 400 without a
file; otherwise the photo is appended, a [todo] task moves to
[inProgress], and the answer is 200 with the photo object. *)
Lemma uploadTaskPhoto_run u sid n file cap now db :
ObjectId.cast sid = Some n →
run (uploadTaskPhoto u sid file cap now) db =
match db_tasks db !! n with
| None => (db, Failure 404 "Task not found")
| Some t =>
  if decide (not_admin_nor_assignee u t) then (db, Failure 403 "Not authorized")
  else match file with
       | None => (db, Failure 400 "Please upload a file")
       | Some fn =>
           (set_tasks (insert (task_id t)
              (with_photos t (photos t ++ [uploaded_photo u (db_next db) fn cap now])
                 (status_after_upload (status t)) now)) (bump db),
            Success 200 (PPhoto (mkPhotoReply ("/uploads/" ++ fn)
                                   (from_option id ""%string cap) (user_id u) now)))
       end
end.
Proof.
intros Hc. unfold uploadTaskPhoto, Http.run. rewrite (bind_findById db sid n) by done.
destruct (db_tasks db !! n) as [t|]; [|done]. unfold_M. cbn.
case_decide; [done|]. by destruct file.
Qed.

(** C7: the status transition of an upload.  After a successful upload
the stored task has one more photo, and its status is [inProgress]
if it was [todo] and unchanged otherwise: a second upload leaves
[inProgress] as it is, and a [completed] task stays completed.
The transition does not depend on the photo being the first. *)
Theorem upload_status_transition u sid n t fn cap now db db' r :
keyed db → ObjectId.cast sid = Some n → db_tasks db !! n = Some t →
run (uploadTaskPhoto u sid (Some fn) cap now) db = (db', Success 200 r) →
∃ t', db_tasks db' !! n = Some t' ∧
status t' = (if decide (status t = todo) then inProgress else status t) ∧
photos t' = photos t ++ [uploaded_photo u (db_next db) fn cap now].
Proof.
intros Hk Hc Hn. rewrite (uploadTaskPhoto_run u sid n) by done. rewrite Hn.
case_decide; [done|]. intros [= <- _]. eexists. simpl.
rewrite (keyed_task _ _ _ Hk Hn), lookup_insert_eq. done.
Qed.

(** [deleteTaskPhoto] on every branch.  After the guards (404
task, 403, 404 photo), the photo's file is unlinked; a failed
unlink is not caught, so the request answers 500 and the photo
stays; otherwise the photo is removed from the task. *)
Lemma deleteTaskPhoto_run u sid spid n now db :
ObjectId.cast sid = Some n →
run (deleteTaskPhoto u sid spid now) db =
match db_tasks db !! n with
| None => (db, Failure 404 "Task not found")
| Some t =>
  if decide (not_admin_nor_assignee u t) then (db, Failure 403 "Not authorized")
  else match find_photo (photos t) spid with
       | None => (db, Failure 404 "Photo not found")
       | Some p =>
           match imageUrl p with
           | None => (db, Failure 500 (exn_message (TypeError "replace")))
           | Some url =>
               if decide (strip_leading_slash url ∈ db_files db)
               then (set_tasks (insert (task_id t)
                       (with_photos t (filter (λ q, photo_id q ≠ photo_id p) (photos t))
                          (status t) now))
                       (set_files (λ fs, fs ∖ {[strip_leading_slash url]}) db),
                     Success 200 PEmpty)
               else (db, Failure 500 (exn_message (FsError "ENOENT")))
           end
       end
end.
Proof.
intros Hc. unfold deleteTaskPhoto, Http.run. rewrite (bind_findById db sid n) by done.
destruct (db_tasks db !! n) as [t|]; [|done]. unfold_M. cbn -[find_photo].
case_decide; [done|]. destruct (find_photo (photos t) spid) as [p|]; [|done].
simpl. destruct (imageUrl p) as [url|]; [|done]. simpl.
unfold unlink. by case_decide.
Qed.

(** An authorized delete of a photo whose file is gone answers 500
and changes nothing. *)
Lemma deleteTaskPhoto_file_gone u sid spid n t p url now db :
ObjectId.cast sid = Some n → db_tasks db !! n = Some t →
¬ not_admin_nor_assignee u t →
find_photo (photos t) spid = Some p → imageUrl p = Some url →
strip_leading_slash url ∉ db_files db →
run (deleteTaskPhoto u sid spid now) db = (db, Failure 500 (exn_message (FsError "ENOENT"))).
Proof.
intros Hc Hn Hg Hp Hu Hf. rewrite (deleteTaskPhoto_run u sid spid n) by done.
rewrite Hn, decide_False, Hp, Hu, decide_False by done. done.
Qed.

(** C23 (finding): a photo whose file is missing from [uploads/] can
never be deleted.  Every authorized [deleteTaskPhoto] on it
answers 500 and leaves the database unchanged, so the photo record
stays on the task for good. *)
Theorem deleteTaskPhoto_missing_file u sid spid n t p url now db :
ObjectId.cast sid = Some n → db_tasks db !! n = Some t →
¬ not_admin_nor_assignee u t →
find_photo (photos t) spid = Some p → imageUrl p = Some url →
strip_leading_slash url ∉ db_files db →
run (deleteTaskPhoto u sid spid now) db = (db, Failure 500 (exn_message (FsError "ENOENT"))).
Proof. intros. by eapply deleteTaskPhoto_file_gone. Qed.

(** The comment [addComment] stores. *)
Definition new_comment (cid : Id) (txt : option string) (now : Date) : Comment :=
mkComment cid txt None now.

(** [addComment] on every branch: 404 for a missing task;
otherwise, for every caller, the comment is appended and the whole
task is returned. *)
Lemma addComment_run u sid n txt now db :
ObjectId.cast sid = Some n →
run (addComment u sid txt now) db =
match db_tasks db !! n with
| None => (db, Failure 404 "Task not found")
| Some t =>
  let t' := with_comments t (comments t ++ [new_comment (db_next db) txt now]) now in
  (set_tasks (insert (task_id t) t') (bump db), Success 200 (PTask t'))
end.
Proof.
intros Hc. unfold addComment, Http.run. rewrite (bind_findById db sid n) by done.
by destruct (db_tasks db !! n).
Qed.

(** C18 (finding): [addComment] has no authorization check.  A user
whom [getTask] answers 403 (not admin, neither assignee nor
creator: see [getTask_access]) can still comment on the task, and
the 200 answer carries
the whole task: title, descriptions, assignee, creator, photos and
comments. *)
Theorem addComment_unauthorized u sid n t txt now db :
ObjectId.cast sid = Some n → db_tasks db !! n = Some t →
¬ (role u = admin ∨ involves u t) →
∃ t' db', run (addComment u sid txt now) db = (db', Success 200 (PTask t')) ∧
title t' = title t ∧ shortDescription t' = shortDescription t ∧
longDescription t' = longDescription t ∧ assignedTo t' = assignedTo t ∧
createdBy t' = createdBy t ∧ photos t' = photos t.
Proof.
intros Hc Hn _. rewrite (addComment_run u sid n) by done. rewrite Hn. eauto 10.
Qed.

(** Finding: the author of a comment is never recorded.  The
handler pushes [{ user: req.user.id, text }], but the comment
schema's author path is [createdBy]; strict mode drops [user], so
the stored comment has no author. *)
Theorem addComment_author_dropped u sid n txt now db db' t' :
ObjectId.cast sid = Some n →
run (addComment u sid txt now) db = (db', Success 200 (PTask t')) →
∃ c, last (comments t') = Some c ∧ comment_createdBy c = None ∧ text c = txt.
Proof.
intros Hc. rewrite (addComment_run u sid n) by done.
destruct (db_tasks db !! n); [|done]. intros [= _ <-]. simpl.
rewrite last_snoc. eauto.
Qed.
End controller_theorems3.

Section controller_theorems4.
Import TaskController.

Lemma apply_patch_bad_status t p now s :
p_status p = Some s → status_of_string s = None →
∃ ps, apply_patch t p now = inl ps.
Proof.
intros Hp Hs. unfold apply_patch, patch_field. rewrite Hp, Hs.
repeat case_match; eauto.
Qed.

(** An update cannot leave the enumeration.  A patch whose
[status] is not one of ['todo', 'inProgress', 'completed'] is
refused by the update validators: the answer is 500 and the
stored task is unchanged. *)
Theorem updateTask_rejects_bad_status u sid n t p s now db :
ObjectId.cast sid = Some n → db_tasks db !! n = Some t →
¬ not_admin_nor_creator u t →
p_status p = Some s → status_of_string s = None →
∃ msg, run (updateTask u sid p now) db = (db, Failure 500 msg).
Proof.
intros Hc Hn Hg Hp Hs. rewrite (updateTask_run u sid n) by done.
rewrite Hn, decide_False by done.
destruct (apply_patch_bad_status t p now s Hp Hs) as [ps ->]. eauto.
Qed.
End controller_theorems4.
