(* ===== verification/Routes.v ===== *)
(** * Routes: the task router of [routes/taskRoutes.js]

    [router.use(protect)] runs [protect] before every task route; the
    create and delete routes add [authorize('admin')]; the photo upload
    route runs multer's [upload.single('photo')] before the handler,
    and multer writes the file to [uploads/${Date.now()}-${originalname}]
    as soon as it parses the request, before [uploadTaskPhoto] has
    checked anything.  The middleware [validateObjectId.js] exists but
    no route mounts it.

    [dispatch] is one request through this pipeline: the database before
    and after, and the reply the client gets. *)

From stdpp Require Import pretty.
From S2P Require Import Prelude ObjectId Schema Http Store Auth TaskController.
Import Schema Http Store TaskController.

Module Routes.

(** The file part of a multipart request ([req.file] before multer
names it). *)
Record Upload := mkUpload { originalname : string }.

(** The task routes, with the path parameters and body fields each
handler reads. *)
Inductive Route :=
| GetTasks
| CreateTask (i : TaskInput)
| GetTask (id : string)
| UpdateTask (id : string) (p : TaskPatch)
| DeleteTask (id : string)
| AddComment (id : string) (txt : option string)
| UploadPhoto (id : string) (file : option Upload) (cap : option string)
| DeletePhoto (id photoId : string).

Record Request := mkRequest {
rq_authorization : option string;
rq_now : Date;
rq_route : Route;
}.

(** The answer of a middleware that stops the chain. *)
Definition halt_reply {P} (h : Halt) : Reply P :=
match h with
| Respond c m => Failure c m
| Throw e => Failure 500 (exn_message e)
end.

(** multer's [filename] callback: [`${Date.now()}-${file.originalname}`]. *)
Definition multer_filename (now : Date) (f : Upload) : string :=
(pretty (Z.to_N now) ++ "-" ++ originalname f)%string.

(** [destination: 'uploads/']. *)
Definition upload_path (fn : string) : string := ("uploads/" ++ fn)%string.

(** [authorize('admin')] in front of a handler. *)
Definition admin_only (u : User) (db : Db) (k : Db → Db * Reply Payload) : Db * Reply Payload :=
match Auth.authorize [admin] u with
| inl h => (db, halt_reply h)
| inr _ => k db
end.

Section dispatch.
Context `{TokenVerifier}.

Definition dispatch (db : Db) (rq : Request) : Db * Reply Payload :=
let now := rq_now rq in
match Auth.protect db now (rq_authorization rq) with
| inl h => (db, halt_reply h)
| inr u =>
match rq_route rq with
| GetTasks => run (getTasks u) db
| CreateTask i => admin_only u db (run (createTask u now i))
| GetTask id => run (getTask u id) db
| UpdateTask id p => run (updateTask u id p now) db
| DeleteTask id => admin_only u db (run (deleteTask u id))
| AddComment id txt => run (addComment u id txt now) db
| UploadPhoto id None cap => run (uploadTaskPhoto u id None cap now) db
| UploadPhoto id (Some f) cap =>
  let fn := multer_filename now f in
  let '(db1, _) := disk_write (upload_path fn) db in
  run (uploadTaskPhoto u id (Some fn) cap now) db1
| DeletePhoto id pid => run (deleteTaskPhoto u id pid now) db
end
end.
End dispatch.

(** [validateObjectId] (not mounted on any route): 400 when
[req.params.id] is not an ObjectId, or when a non-empty
[req.params.photoId] is not. *)
Definition validateObjectId (id : string) (photoId : option string) : option (Reply Payload) :=
if negb (ObjectId.is_valid id) then Some (Failure 400 "Invalid ID format")
else match photoId with
   | Some p =>
       if bool_decide (p ≠ ""%string) && negb (ObjectId.is_valid p)
       then Some (Failure 400 "Invalid photo ID format")
       else None
   | None => None
   end.

End Routes.

(** ** Theorems of the router *)

Section routes_theorems.
Context `{TokenVerifier}.
Import Routes.

(** C12: no task route changes anything for an unauthenticated
request.  When [protect] rejects the request, the answer is its
401 and the database and the upload directory are untouched
(multer runs after [protect], so no file is written either). *)
Theorem dispatch_unauthenticated db rq h :
Auth.protect db (rq_now rq) (rq_authorization rq) = inl h →
dispatch db rq = (db, Failure 401 Auth.not_authorized).
Proof.
intros Hp. unfold dispatch. rewrite Hp.
unfold Auth.protect in Hp. split_guards; done.
Qed.

(** C24 (finding): only admins can delete a task.  The route mounts
[authorize('admin')] in front of [deleteTask], so a non-admin
creator, whom the controller and the spec allow to delete, gets
403 from the role gate and nothing is deleted. *)
Theorem delete_route_admin_only db rq u id n t :
keyed db →
Auth.protect db (rq_now rq) (rq_authorization rq) = inr u →
rq_route rq = DeleteTask id → role u = user →
ObjectId.cast id = Some n → db_tasks db !! n = Some t → createdBy t = user_id u →
db_tasks (fst (run (deleteTask u id) db)) !! n = None ∧
dispatch db rq = (db, Failure 403 "User role user is not authorized to access this route").
Proof.
intros Hk Hp Hr Hu Hc Hn Hcr. split.
- rewrite (deleteTask_run u id n) by done. rewrite Hn, decide_False.
+ simpl. by rewrite (keyed_task _ _ _ Hk Hn), lookup_delete_eq.
+ unfold not_admin_nor_creator. naive_solver.
- unfold dispatch. rewrite Hp, Hr. unfold admin_only, Auth.authorize.
rewrite Hu. done.
Qed.

(** C25 (finding): an upload the handler refuses leaves its file on
disk.  multer stores the file before [uploadTaskPhoto] runs; when
the caller is neither admin nor the assignee the answer is 403,
no task references the file, and the file stays in [uploads/]. *)
Theorem upload_orphan_file db rq u id n t f cap :
Auth.protect db (rq_now rq) (rq_authorization rq) = inr u →
rq_route rq = UploadPhoto id (Some f) cap →
ObjectId.cast id = Some n → db_tasks db !! n = Some t →
not_admin_nor_assignee u t →
dispatch db rq =
(set_files (λ fs, {[upload_path (multer_filename (rq_now rq) f)]} ∪ fs) db,
 Failure 403 "Not authorized").
Proof.
intros Hp Hr Hc Hn Hg. unfold dispatch. rewrite Hp, Hr. simpl.
rewrite (uploadTaskPhoto_run u id n) by done. simpl. rewrite Hn.
by rewrite decide_True.
Qed.

(** C26 (finding): malformed ids are not answered 400.  The spec says a
malformed path id short-circuits with 400, and [validateObjectId]
would answer so, but no route mounts it: [Task.findById] throws a
[CastError] and the handler answers 500. *)
Theorem malformed_id_500 db rq u id :
Auth.protect db (rq_now rq) (rq_authorization rq) = inr u →
rq_route rq = GetTask id → ObjectId.cast id = None →
validateObjectId id None = Some (Failure 400 "Invalid ID format") ∧
dispatch db rq = (db, Failure 500 (exn_message (CastError "_id"))).
Proof.
intros Hp Hr Hc. split.
- unfold validateObjectId, ObjectId.is_valid. by rewrite Hc.
- unfold dispatch. rewrite Hp, Hr. unfold getTask, Http.run.
by rewrite bind_findById_bad.
Qed.
End routes_theorems.
