(* ===== verification/Invariants.v ===== *)
(** * Invariants: what every reachable server state satisfies

    The server's states are the databases reachable from an initial one
    by [Routes.dispatch], one request at a time, in any order and from
    any client.  [inv] holds of each of them: every task and user is
    stored under its own [_id] ([keyed]), and every id in a user's
    [tasks] array was allocated before ([lists_fresh]: it is below the
    ObjectId counter).  The second half is what makes the [$push] of
    [createTask] add an id that is not yet in the list. *)

From S2P Require Import Prelude ObjectId Schema Http Store Auth TaskController Routes.
Import Schema Http Store TaskController Routes.

Module Invariants.

Definition lists_fresh (db : Db) : Prop :=
map_Forall (λ _ u, Forall (λ x, (x < db_next db)%N) (tasks u)) (db_users db).

Definition inv (db : Db) : Prop := keyed db ∧ lists_fresh db.

Section reach.
Context `{TokenVerifier}.

(** The states reachable from [db0] by a sequence of requests. *)
Inductive reachable (db0 : Db) : Db → Prop :=
| reach_init : reachable db0 db0
| reach_step db rq : reachable db0 db → reachable db0 (fst (dispatch db rq)).
End reach.

(** ** Preservation by the store operations *)

Lemma inv_bump db : inv db → inv (bump db).
Proof.
intros [Hk Hf]. split; [done|]. intros k u Hu. simpl.
eapply Forall_impl; [exact (Hf k u Hu)|]. simpl. lia.
Qed.

Lemma inv_set_files f db : inv db → inv (set_files f db).
Proof. done. Qed.

Lemma inv_insert_task k t db :
task_id t = k → inv db → inv (set_tasks (insert k t) db).
Proof.
intros Hk [[Ht Hu] Hf]. split; [split|]; [|done|done].
apply map_Forall_insert_2; [done|]. exact Ht.
Qed.

Lemma inv_delete_task k db : inv db → inv (set_tasks (delete k) db).
Proof.
intros [[Ht Hu] Hf]. split; [split|]; [|done|done].
by apply map_Forall_delete.
Qed.

(** Changing a user's [tasks] array keeps the user's id; the new array
must hold only allocated ids. *)
Lemma inv_alter_tasks (g : list Id → list Id) uid db :
(∀ l, Forall (λ x, (x < db_next db)%N) l → Forall (λ x, (x < db_next db)%N) (g l)) →
inv db → inv (set_users (alter (λ v, with_tasks v (g (tasks v))) uid) db).
Proof.
intros Hg [[Ht Hu] Hf]. split; [split|]; simpl; [done| |].
- intros k v [(-> & v0 & Hv0 & ->)|(_ & Hv)]%lookup_alter_Some.
+ exact (Hu _ _ Hv0).
+ exact (Hu _ _ Hv).
- unfold lists_fresh. simpl.
intros k v [(-> & v0 & Hv0 & ->)|(_ & Hv)]%lookup_alter_Some.
+ apply Hg, (Hf _ _ Hv0).
+ exact (Hf _ _ Hv).
Qed.

Lemma apply_patch_task_id t p now t' :
apply_patch t p now = inr t' → task_id t' = task_id t.
Proof. unfold apply_patch. intros H. split_guards; done. Qed.

(** ** Preservation by the handlers *)

Lemma inv_createTask u now i db : inv db → inv (fst (run (createTask u now i) db)).
Proof.
intros Hi. rewrite createTask_run.
destruct (validate_create _ _ _ _) as [ps|t] eqn:Hv; simpl; [by apply inv_bump|].
destruct (validate_create_fields _ _ _ _ _ Hv) as (Hid & _).
apply (inv_alter_tasks (λ l, l ++ [task_id t])).
- intros l Hl. apply Forall_app_2; [done|]. constructor; [|done].
rewrite Hid. simpl. lia.
- apply inv_insert_task, inv_bump; done.
Qed.

Lemma inv_getTasks u db : fst (run (getTasks u) db) = db.
Proof. done. Qed.

Lemma inv_getTask u sid db : fst (run (getTask u sid) db) = db.
Proof.
unfold getTask, Http.run. destruct (ObjectId.cast sid) as [n|] eqn:Hc;
[rewrite (bind_findById db sid n) by done|by rewrite bind_findById_bad].
destruct (db_tasks db !! n) as [t|]; [|done]. unfold_M. cbn.
unfold find_user. split_guards; done.
Qed.

(** A handler whose first step is [findById] leaves the state as it is
on an id that does not cast. *)
Ltac bad_cast h :=
unfold h, Http.run; by rewrite bind_findById_bad.

Lemma inv_updateTask u sid p now db : inv db → inv (fst (run (updateTask u sid p now) db)).
Proof.
intros Hi. destruct (ObjectId.cast sid) as [n|] eqn:Hc; [|bad_cast updateTask].
rewrite (updateTask_run u sid n) by done.
destruct (db_tasks db !! n) as [t|]; [|done]. case_decide; [done|].
destruct (apply_patch t p now); [done|]. by apply inv_insert_task.
Qed.

Lemma inv_deleteTask u sid db : inv db → inv (fst (run (deleteTask u sid) db)).
Proof.
intros Hi. destruct (ObjectId.cast sid) as [n|] eqn:Hc; [|bad_cast deleteTask].
rewrite (deleteTask_run u sid n) by done.
destruct (db_tasks db !! n) as [t|]; [|done]. case_decide; [done|].
apply (inv_alter_tasks (filter (λ x, x ≠ task_id t))); [by intros; apply Forall_filter_sub|].
by apply inv_delete_task, inv_set_files.
Qed.

Lemma inv_addComment u sid txt now db : inv db → inv (fst (run (addComment u sid txt now) db)).
Proof.
intros Hi. destruct (ObjectId.cast sid) as [n|] eqn:Hc; [|bad_cast addComment].
rewrite (addComment_run u sid n) by done.
destruct (db_tasks db !! n) as [t|]; [|done].
by apply inv_insert_task, inv_bump.
Qed.

Lemma inv_uploadTaskPhoto u sid file cap now db :
inv db → inv (fst (run (uploadTaskPhoto u sid file cap now) db)).
Proof.
intros Hi. destruct (ObjectId.cast sid) as [n|] eqn:Hc; [|bad_cast uploadTaskPhoto].
rewrite (uploadTaskPhoto_run u sid n) by done.
destruct (db_tasks db !! n) as [t|]; [|done]. case_decide; [done|].
destruct file; [|done]. by apply inv_insert_task, inv_bump.
Qed.

Lemma inv_deleteTaskPhoto u sid spid now db :
inv db → inv (fst (run (deleteTaskPhoto u sid spid now) db)).
Proof.
intros Hi. destruct (ObjectId.cast sid) as [n|] eqn:Hc; [|bad_cast deleteTaskPhoto].
rewrite (deleteTaskPhoto_run u sid spid n) by done.
destruct (db_tasks db !! n) as [t|]; [|done]. case_decide; [done|].
destruct (find_photo _ _) as [p|]; [|done]. destruct (imageUrl p); [|done].
case_decide; [|done]. by apply inv_insert_task, inv_set_files.
Qed.

Section dispatch_inv.
Context `{TokenVerifier}.

Lemma inv_dispatch db rq : inv db → inv (fst (dispatch db rq)).
Proof.
intros Hi. unfold dispatch.
destruct (Auth.protect _ _ _) as [h|u]; [done|].
destruct (rq_route rq) as [|i|id|id p|id|id txt|id [f|] cap|id pid]; unfold admin_only.
- by rewrite inv_getTasks.
- destruct (Auth.authorize _ _); [done|]. by apply inv_createTask.
- by rewrite inv_getTask.
- by apply inv_updateTask.
- destruct (Auth.authorize _ _); [done|]. by apply inv_deleteTask.
- by apply inv_addComment.
- simpl. by apply inv_uploadTaskPhoto, inv_set_files.
- by apply inv_uploadTaskPhoto.
- by apply inv_deleteTaskPhoto.
Qed.
End dispatch_inv.

End Invariants.

(** ** Theorems on reachable states *)

Section reachable_theorems.
Context `{TokenVerifier}.
Import Invariants.

Lemma inv_reachable db0 db : inv db0 → reachable db0 db → inv db.
Proof. intros H0 Hr. induction Hr; [done|]. by apply inv_dispatch. Qed.

Lemma fresh_not_in db uid a :
inv db → db_users db !! uid = Some a → db_next db ∉ tasks a.
Proof.
intros [_ Hf] Ha Hin. pose proof (Hf _ _ Ha) as Hall.
rewrite Forall_forall in Hall. apply Hall in Hin. lia.
Qed.

(** C4: in every state the server can reach, a successful
[POST /api/tasks] adds the new task's id to its (existing)
assignee's task list exactly once. *)
Theorem reachable_create_push_once db0 db rq u i db' t a :
inv db0 → reachable db0 db →
Auth.protect db (rq_now rq) (rq_authorization rq) = inr u →
rq_route rq = CreateTask i →
dispatch db rq = (db', Success 201 (PTask t)) →
db_users db !! assignedTo t = Some a →
∃ a', db_users db' !! assignedTo t = Some a' ∧ occurrences (task_id t) (tasks a') = 1.
Proof.
intros H0 Hr Hp Hrt Hd Ha. pose proof (inv_reachable _ _ H0 Hr) as Hi.
unfold dispatch in Hd. rewrite Hp, Hrt in Hd. unfold admin_only in Hd.
destruct (Auth.authorize _ _) as [h|]; [destruct h; simplify_eq/=|].
eapply createTask_push_once; [exact Hd|exact Ha|].
by eapply fresh_not_in.
Qed.
End reachable_theorems.
