(* ===== verification/ClientMirror.v ===== *)
(** * ClientMirror: the client's task cache of [contexts/TaskContext.tsx]

    [TaskProvider] holds [tasks: Task[]], filled once at mount by
    [fetchTasks] from [GET /api/tasks], extended by [addTask] with the
    server's answer to [POST /api/tasks], and otherwise patched locally:
    [updateTask], [updateTaskStatus], [deleteTask], [addTaskPhoto],
    [deleteTaskPhoto], [addTaskComment] and [deleteTaskComment] change
    the array and send nothing to the server.  The read-only helpers
    count and filter the array for the dashboards.

    A client task is the server's JSON object after the mapping of
    [fetchTasks]; a field the TypeScript interface declares but the
    server does not send (a photo's [id], a comment's [createdByName])
    is [None] here, as it is [undefined] at run time.  The random ids of
    [Math.random().toString(36)] and the [new Date()] of each call are
    inputs. *)

From Stdlib Require Import Sorted.
From S2P Require Import Prelude ObjectId Schema Http Store TaskController.
Import Schema TaskController.

Module ClientMirror.

(** [interface TaskPhoto]. *)
Record CPhoto := mkCPhoto {
cp_id : option string;
cp_taskId : option string;
cp_imageUrl : option string;
cp_caption : option string;
cp_createdAt : option Date;
cp_createdBy : option string;
}.

(** [interface TaskComment]. *)
Record CComment := mkCComment {
cc_id : option string;
cc_text : option string;
cc_createdBy : option string;
cc_createdByName : option string;
}.

(** [interface Task]. *)
Record CTask := mkCTask {
c_id : string;
c_title : string;
c_shortDescription : string;
c_longDescription : option string;
c_deadline : Date;
c_status : Status;
c_priority : Priority;
c_assignedTo : string;
c_createdBy : string;
c_createdAt : Date;
c_group : option Group;
c_photos : list CPhoto;
c_comments : list CComment;
c_lastUpdated : option Date;
c_lastUpdatedBy : option string;
}.

(** The [currentUser] of [AuthContext]. *)
Record CUser := mkCUser { cu_id : string; cu_name : string; cu_email : string; cu_role : Role }.

(** ** From the server's JSON to the cache *)

(** A photo as the server sends it: [_id] (not [id]), [imageUrl],
  [caption], [createdAt] and [uploadedBy]; the client's [taskId] and
  [createdBy] are absent. *)
Definition photo_of_server (p : Photo) : CPhoto :=
mkCPhoto None None (imageUrl p) (caption p) (Some (photo_createdAt p)) None.

Definition comment_of_server (c : Comment) : CComment :=
mkCComment None (text c) (ObjectId.to_hex <$> comment_createdBy c) None.

(** [{...task, id: task._id, assignedTo, createdBy, photos, comments}]
  with [assignedTo]/[createdBy] already strings (the unpopulated
  task [createTask] answers with). *)
Definition of_task (t : Task) (a c : string) : CTask :=
mkCTask (ObjectId.to_hex (task_id t)) (title t) (shortDescription t)
  (longDescription t) (deadline t) (status t) (priority t) a c
  (createdAt t) (Some (group t)) (photo_of_server <$> photos t)
  (comment_of_server <$> comments t) None None.

Definition of_raw_task (t : Task) : CTask :=
of_task t (ObjectId.to_hex (assignedTo t)) (ObjectId.to_hex (createdBy t)).

(** [typeof task.assignedTo === 'object' ? task.assignedTo._id : ..]: a
  populated reference is an object, and so is [null], whose [._id]
  throws. *)
Definition populated_id (r : option (Id * string * string)) : option string :=
(λ '(uid, _, _), ObjectId.to_hex uid) <$> r.

Definition of_view (v : TaskView) : option CTask :=
a ← populated_id (view_assignedTo v);
c ← populated_id (view_createdBy v);
Some (of_task (view_task v) a c).

(** [fetchTasks] (lines 78-99): the mapped list, or [None] when the
  [map] throws; the catch only logs, so the cache keeps its value. *)
Definition fetchTasks (reply : Http.Reply Payload) (cache : list CTask) : list CTask :=
match reply with
| Http.Success _ (PTasks vs) =>
    match mapM of_view vs with Some l => l | None => cache end
| _ => cache
end.

(** [addTask] (lines 102-118): appends the created task of a
  successful [POST /api/tasks]. *)
Definition addTask (reply : Http.Reply Payload) (cache : list CTask) : list CTask :=
match reply with
| Http.Success _ (PTask t) => cache ++ [of_raw_task t]
| _ => cache
end.

(** ** Read-only helpers *)

(** [getAssignedToName] (lines 121-124), [getCreatedByName] (126-129). *)
Definition user_name (allUsers : list CUser) (dflt uid : string) : string :=
match list_find (λ u, cu_id u = uid) allUsers with
| Some (_, u) => cu_name u
| None => dflt
end.

(** [getUserTasks] (lines 132-134). *)
Definition getUserTasks (tasks : list CTask) (uid : string) : list CTask :=
filter (λ t, c_assignedTo t = uid) tasks.

Definition count_status (tasks : list CTask) (s : Status) : nat :=
length (filter (λ t, c_status t = s) tasks).
Definition count_priority (tasks : list CTask) (p : Priority) : nat :=
length (filter (λ t, c_priority t = p) tasks).
Definition count_group (tasks : list CTask) (g : Group) : nat :=
length (filter (λ t, c_group t = Some g) tasks).

(** [getTasksByStatus], [getTasksByPriority], [getTasksByGroup]
  (lines 137-161): one count per value of the enumeration. *)
Definition getTasksByStatus (tasks : list CTask) : nat * nat * nat :=
(count_status tasks todo, count_status tasks inProgress, count_status tasks completed).
Definition getTasksByPriority (tasks : list CTask) : nat * nat * nat :=
(count_priority tasks high, count_priority tasks medium, count_priority tasks low).
Definition getTasksByGroup (tasks : list CTask) : nat * nat * nat :=
(count_group tasks Frontend, count_group tasks Backend, count_group tasks Database).

(** [a.lastUpdated || a.createdAt]. *)
Definition recency (t : CTask) : Date := from_option id (c_createdAt t) (c_lastUpdated t).

(** [Array.prototype.sort] is stable: insertion keeping equal keys in
  order, with [(a, b) => date(b) - date(a)] (most recent first). *)
Fixpoint insert_recent (t : CTask) (l : list CTask) : list CTask :=
match l with
| [] => [t]
| t' :: l' => if decide (recency t' < recency t)%Z then t :: l
              else t' :: insert_recent t l'
end.

Fixpoint sort_recent (l : list CTask) : list CTask :=
match l with [] => [] | t :: l' => insert_recent t (sort_recent l') end.

(** [getRecentTasks(limit = 5)] (lines 164-173). *)
Definition getRecentTasks (tasks : list CTask) (limit : nat) : list CTask :=
take limit (sort_recent tasks).

(** [getOverdueTasks] (lines 176-178): [new Date(task.deadline) < new Date()]. *)
Definition getOverdueTasks (tasks : list CTask) (now : Date) : list CTask :=
filter (λ t, c_deadline t < now)%Z tasks.

Definition day_ms : Z := 86400000.

(** [getUpcomingDeadlines(days)] (lines 181-186):
  [tomorrow.setDate(today.getDate() + (days || 7))] then
  [new Date(task.deadline) >= tomorrow]. *)
Definition getUpcomingDeadlines (tasks : list CTask) (now : Date) (days : option nat) : list CTask :=
let n := match days with Some (S k) => S k | _ => 7%nat end in
filter (λ t, now + Z.of_nat n * day_ms <= c_deadline t)%Z tasks.

(** ** Local patches *)

(** A [Partial<Task>]: each field the object has ([Some]), or not
  ([None]).  The optional fields [longDescription] and [group] may be
  present with the value [undefined] ([Some None]), which the spread
  [{ ...task, ...updatedTask }] copies over the task's value.
  [lastUpdated] and [lastUpdatedBy] are left out: [updateTask] always
  overwrites them. *)
Record CPatch := mkCPatch {
cpt_id : option string;
cpt_title : option string;
cpt_shortDescription : option string;
cpt_longDescription : option (option string);
cpt_deadline : option Date;
cpt_status : option Status;
cpt_priority : option Priority;
cpt_assignedTo : option string;
cpt_createdBy : option string;
cpt_createdAt : option Date;
cpt_group : option (option Group);
cpt_photos : option (list CPhoto);
cpt_comments : option (list CComment);
}.

(** [{ status, lastUpdated, lastUpdatedBy }] of [updateTaskStatus]. *)
Definition status_patch (s : Status) : CPatch :=
mkCPatch None None None None None (Some s) None None None None None None None.

Definition over {A} (o : option A) (a : A) : A := from_option id a o.

(** [{ ...task, ...updatedTask, lastUpdated, lastUpdatedBy,
  photos: updatedTask.photos || task.photos || [],
  comments: updatedTask.comments || task.comments || [] }]: an array,
  even empty, is truthy, so a patch's photos and comments win. *)
Definition patch_task (t : CTask) (p : CPatch) (now : Date) (uid : string) : CTask :=
mkCTask (over (cpt_id p) (c_id t)) (over (cpt_title p) (c_title t))
  (over (cpt_shortDescription p) (c_shortDescription t))
  (over (cpt_longDescription p) (c_longDescription t))
  (over (cpt_deadline p) (c_deadline t)) (over (cpt_status p) (c_status t))
  (over (cpt_priority p) (c_priority t)) (over (cpt_assignedTo p) (c_assignedTo t))
  (over (cpt_createdBy p) (c_createdBy t)) (over (cpt_createdAt p) (c_createdAt t))
  (over (cpt_group p) (c_group t))
  (over (cpt_photos p) (c_photos t)) (over (cpt_comments p) (c_comments t)) (Some now) (Some uid).

(** [prevTasks.map(task => task.id === taskId ? f(task) : task)]. *)
Definition map_id (f : CTask → CTask) (tid : string) (tasks : list CTask) : list CTask :=
(λ t, if decide (c_id t = tid) then f t else t) <$> tasks.

Definition find_task (tasks : list CTask) (tid : string) : option CTask :=
snd <$> list_find (λ t, c_id t = tid) tasks.

(** [updateTask] (lines 189-207). *)
Definition updateTask (cu : option CUser) (now : Date) (tid : string) (p : CPatch)
  (tasks : list CTask) : list CTask :=
match cu with
| None => tasks
| Some u => map_id (λ t, patch_task t p now (cu_id u)) tid tasks
end.

(** [currentUser.role === 'admin' || task.assignedTo === currentUser.id]. *)
Definition may_edit (u : CUser) (t : CTask) : Prop :=
cu_role u = admin ∨ c_assignedTo t = cu_id u.

(** [updateTaskStatus] (lines 210-225). *)
Definition updateTaskStatus (cu : option CUser) (now : Date) (tid : string) (s : Status)
  (tasks : list CTask) : list CTask :=
match cu with
| None => tasks
| Some u =>
    match find_task tasks tid with
    | None => tasks
    | Some t =>
        if decide (may_edit u t) then updateTask cu now tid (status_patch s) tasks
        else tasks
    end
end.

(** [deleteTask] (lines 228-230). *)
Definition deleteTask (tid : string) (tasks : list CTask) : list CTask :=
filter (λ t, c_id t ≠ tid) tasks.

Definition with_photos (t : CTask) (ps : list CPhoto) (now : Date) (uid : string) : CTask :=
mkCTask (c_id t) (c_title t) (c_shortDescription t) (c_longDescription t)
  (c_deadline t) (c_status t) (c_priority t) (c_assignedTo t) (c_createdBy t)
  (c_createdAt t) (c_group t) ps (c_comments t) (Some now) (Some uid).

Definition with_comments (t : CTask) (cs : list CComment) (now : Date) (uid : string) : CTask :=
mkCTask (c_id t) (c_title t) (c_shortDescription t) (c_longDescription t)
  (c_deadline t) (c_status t) (c_priority t) (c_assignedTo t) (c_createdBy t)
  (c_createdAt t) (c_group t) (c_photos t) cs (Some now) (Some uid).

(** [addTaskPhoto] (lines 233-264); [rid] is the random id. *)
Definition addTaskPhoto (cu : option CUser) (now : Date) (rid : string) (tid : string)
  (url : string) (cap : option string) (tasks : list CTask) : list CTask :=
match cu with
| None => tasks
| Some u =>
    match find_task tasks tid with
    | None => tasks
    | Some t =>
        if decide (may_edit u t) then
          let p := mkCPhoto (Some rid) (Some tid) (Some url) cap (Some now) (Some (cu_id u)) in
          map_id (λ t, with_photos t (c_photos t ++ [p]) now (cu_id u)) tid tasks
        else tasks
    end
end.

(** [deleteTaskPhoto] (lines 267-291): [photo.id !== photoId], where
  either side may be [undefined] ([None]): a fetched photo has no [id]. *)
Definition deleteTaskPhoto (cu : option CUser) (now : Date) (tid : string) (pid : option string)
  (tasks : list CTask) : list CTask :=
match cu with
| None => tasks
| Some u =>
    match find_task tasks tid with
    | None => tasks
    | Some t =>
        if decide (may_edit u t) then
          map_id (λ t, with_photos t (filter (λ p, cp_id p ≠ pid) (c_photos t))
                          now (cu_id u)) tid tasks
        else tasks
    end
end.

(** [addTaskComment] (lines 300-331). *)
Definition addTaskComment (cu : option CUser) (now : Date) (rid : string) (tid : string)
  (txt : string) (tasks : list CTask) : list CTask :=
match cu with
| None => tasks
| Some u =>
    match find_task tasks tid with
    | None => tasks
    | Some t =>
        if decide (may_edit u t) then
          let c := mkCComment (Some rid) (Some txt) (Some (cu_id u)) (Some (cu_name u)) in
          map_id (λ t, with_comments t (c_comments t ++ [c]) now (cu_id u)) tid tasks
        else tasks
    end
end.

(** [deleteTaskComment] (lines 334-361): admin or the comment's author. *)
Definition deleteTaskComment (cu : option CUser) (now : Date) (tid cid : string)
  (tasks : list CTask) : list CTask :=
match cu with
| None => tasks
| Some u =>
    match find_task tasks tid with
    | None => tasks
    | Some t =>
        match snd <$> list_find (λ c, cc_id c = Some cid) (c_comments t) with
        | None => tasks
        | Some c =>
            if decide (cu_role u = admin ∨ cc_createdBy c = Some (cu_id u)) then
              map_id (λ t, with_comments t (filter (λ c, cc_id c ≠ Some cid) (c_comments t))
                              now (cu_id u)) tid tasks
            else tasks
        end
    end
end.

(** [getTaskPhotos] (lines 294-297), [getTaskComments] (364-367). *)
Definition getTaskPhotos (tasks : list CTask) (tid : string) : list CPhoto :=
from_option c_photos [] (find_task tasks tid).
Definition getTaskComments (tasks : list CTask) (tid : string) : list CComment :=
from_option c_comments [] (find_task tasks tid).

End ClientMirror.

(** ** Lemmas on the cache *)

Section mirror_lemmas.
Import ClientMirror.

(** [recency b <= recency a]: [a] is at least as recent as [b]. *)
Definition newer (a b : CTask) : Prop := (recency b <= recency a)%Z.

#[local] Instance newer_trans : Transitive newer.
Proof. intros a b c. unfold newer. lia. Qed.

Lemma insert_recent_perm t l : insert_recent t l ≡ₚ t :: l.
Proof.
induction l as [|t' l IH]; simpl; [done|].
case_decide; [done|]. rewrite IH. constructor.
Qed.

Lemma sort_recent_perm l : sort_recent l ≡ₚ l.
Proof.
induction l as [|t l IH]; simpl; [done|].
by rewrite insert_recent_perm, IH.
Qed.

Lemma insert_recent_sorted t l :
Sorted newer l → Sorted newer (insert_recent t l).
Proof.
induction 1 as [|t' l Hl IH Hhd]; simpl; [by repeat constructor|].
case_decide as Hlt.
- constructor; [by constructor|]. constructor. unfold newer. lia.
- constructor; [done|]. destruct l as [|t'' l]; simpl in *.
  + constructor. unfold newer. lia.
  + inversion Hhd as [|? ? Hnew]; subst. case_decide; constructor; unfold newer in *; lia.
Qed.

Lemma sort_recent_sorted l : Sorted newer (sort_recent l).
Proof. induction l; simpl; [constructor|]. by apply insert_recent_sorted. Qed.

Lemma strongly_sorted_app_inv {A} (R : A → A → Prop) l1 l2 :
StronglySorted R (l1 ++ l2) → ∀ x y, x ∈ l1 → y ∈ l2 → R x y.
Proof.
induction l1 as [|z l1 IH]; simpl; [set_solver|].
intros Hs x y Hx Hy. inversion Hs as [|? ? Hs' Hall]; subst.
apply elem_of_cons in Hx as [->|Hx].
- rewrite Forall_forall in Hall. apply Hall. apply elem_of_app. by right.
- by apply IH.
Qed.

Lemma count_status_cons t l s :
count_status (t :: l) s = (if decide (c_status t = s) then 1 else 0) + count_status l s.
Proof. unfold count_status. rewrite filter_cons. by case_decide. Qed.

Lemma count_group_cons t l g :
count_group (t :: l) g = (if decide (c_group t = Some g) then 1 else 0) + count_group l g.
Proof. unfold count_group. rewrite filter_cons. by case_decide. Qed.
End mirror_lemmas.

(** ** Theorems of the cache *)

Section mirror_theorems.
Import ClientMirror.

(** The three status counts of [getTasksByStatus] add up to the
  number of cached tasks: the chart's slices partition the list. *)
Theorem status_counts_partition tasks :
let '(a, b, c) := getTasksByStatus tasks in a + b + c = length tasks.
Proof.
unfold getTasksByStatus. induction tasks as [|t l IH]; [done|].
rewrite !count_status_cons. simpl.
destruct (c_status t); repeat case_decide; simplify_eq; lia.
Qed.

(** The group counts of [getTasksByGroup] miss exactly the tasks
  without a group ([group?] is optional in the client's type): their
  sum plus the number of group-less tasks is the number of tasks. *)
Theorem group_counts_partition tasks :
let '(a, b, c) := getTasksByGroup tasks in
a + b + c + length (filter (λ t, c_group t = None) tasks) = length tasks.
Proof.
unfold getTasksByGroup. induction tasks as [|t l IH]; [done|].
rewrite !count_group_cons, filter_cons. simpl.
destruct (c_group t) as [[]|]; repeat case_decide; simplify_eq/=; lia.
Qed.

(** [getRecentTasks tasks k] returns [min k n] of the [n] cached
  tasks, and they are the most recent ones: together with the tasks
  it leaves out they are a permutation of the cache, and each task
  returned is at least as recent ([lastUpdated || createdAt]) as
  every task left out. *)
Theorem getRecentTasks_top tasks k :
length (getRecentTasks tasks k) = min k (length tasks) ∧
∃ rest, getRecentTasks tasks k ++ rest ≡ₚ tasks ∧
  ∀ x y, x ∈ getRecentTasks tasks k → y ∈ rest → (recency y <= recency x)%Z.
Proof.
unfold getRecentTasks. split.
- by rewrite length_take, (Permutation_length (sort_recent_perm tasks)).
- exists (drop k (sort_recent tasks)). split.
  + by rewrite take_drop, sort_recent_perm.
  + intros x y Hx Hy. change (newer x y).
    apply (strongly_sorted_app_inv newer (take k (sort_recent tasks))
             (drop k (sort_recent tasks))); [|done|done].
    rewrite take_drop. apply Sorted_StronglySorted; [apply newer_trans|].
    apply sort_recent_sorted.
Qed.

(** Finding: [getUpcomingDeadlines] returns the tasks due at least
  [days] (default 7) days from now, not the tasks due soon: a cached
  task due within the next 24 hours is never in it, whatever [days]
  is. *)
Theorem getUpcomingDeadlines_excludes_soon tasks now days t :
(now <= c_deadline t < now + day_ms)%Z →
t ∉ getUpcomingDeadlines tasks now days.
Proof.
intros Hd Hin. unfold getUpcomingDeadlines in Hin.
apply list_elem_of_filter in Hin as [Hle _].
destruct days as [[|k]|]; unfold day_ms in *; lia.
Qed.

(** [updateTaskStatus] on the client.  A user who is admin or the
  task's assignee changes the status of the cached task (and stamps
  [lastUpdated]/[lastUpdatedBy]), leaving every other task as it was;
  anyone else changes nothing. *)
Theorem updateTaskStatus_local u now tid s tasks t :
find_task tasks tid = Some t →
(may_edit u t →
 ∀ i t0, tasks !! i = Some t0 →
   updateTaskStatus (Some u) now tid s tasks !! i =
     Some (if decide (c_id t0 = tid)
           then patch_task t0 (status_patch s) now (cu_id u) else t0)) ∧
(¬ may_edit u t → updateTaskStatus (Some u) now tid s tasks = tasks).
Proof.
intros Hf. unfold updateTaskStatus. rewrite Hf. split.
- intros Hm i t0 Hi. rewrite decide_True by done. simpl.
  unfold map_id. by rewrite list_lookup_fmap, Hi.
- intros Hm. by rewrite decide_False.
Qed.
End mirror_theorems.

(** ** Lookups after a local patch *)

Section patch_lemmas.
Import ClientMirror.

Lemma find_task_cons t l tid :
  find_task (t :: l) tid = if decide (c_id t = tid) then Some t else find_task l tid.
Proof. unfold find_task. simpl. case_decide; [done|]. by destruct (list_find _ l) as [[]|]. Qed.

(** [map_id] patches the task [find] returns, when the patch keeps ids. *)
Lemma find_task_map_id f tid tasks :
  (∀ t, c_id t = tid → c_id (f t) = tid) →
  find_task (map_id f tid tasks) tid = f <$> find_task tasks tid.
Proof.
  intros Hf. induction tasks as [|t l IH]; [done|]. unfold map_id in *. simpl fmap.
  destruct (decide (c_id t = tid)) as [E|E]; rewrite !find_task_cons.
  - rewrite !decide_True by auto. done.
  - rewrite !decide_False by done. done.
Qed.
End patch_lemmas.
