(* ===== verification/ClientServer.v ===== *)
(** * ClientServer: the client's cache against the server's store

    The cache of [TaskContext.tsx] is meant to mirror what
    [GET /api/tasks] returns.  [consistent db u cache] says it does, up
    to order (the cache's order is the order of fetches and appends, the
    server's is the store's): the cache is a permutation of the
    client-side form of the tasks [u] may see.

    The photo upload of [pages/UserDashboard.tsx] ([handlePhotoUpload])
    is a flow across both sides: a client-side id check, the multipart
    request through the router, and a local [addTaskPhoto] with the
    server's answer. *)

From S2P Require Import Prelude ObjectId Schema Http Store Auth TaskController Routes ClientMirror.
Import Schema Http Store TaskController Routes ClientMirror.

Module ClientServer.

(** The tasks [getTasks] sends to [u]. *)
Definition visible (db : Db) (u : User) : list Task :=
if decide (role u = admin) then task_list db else filter (involves u) (task_list db).

(** The cache mirrors the server, up to order. *)
Definition consistent (db : Db) (u : User) (cache : list CTask) : Prop :=
cache ≡ₚ of_raw_task <$> visible db u.

(** [const objectIdRegex = /^[0-9a-fA-F]{24}$/; objectIdRegex.test(id)]. *)
Definition is_hex_char (c : ascii) : bool :=
let n := N_of_ascii c in
((48 <=? n)%N && (n <=? 57)%N) || ((97 <=? n)%N && (n <=? 102)%N) ||
((65 <=? n)%N && (n <=? 70)%N).

Definition objectIdRegex_test (s : string) : bool :=
(String.length s =? 24)%nat && forallb is_hex_char (list_ascii_of_string s).

(** The outcome of the upload form. *)
Inductive UploadOutcome :=
| Toast_error (msg : string)
| Uploaded.

Section upload.
Context `{TokenVerifier}.

(** [handlePhotoUpload] (lines 119-170): the client's checks, the
request, then [addTaskPhoto(selectedTaskId, response.data.data)] on
success.  [rid] is the random id [addTaskPhoto] draws.  The request
carries [Authorization: Bearer <token>] with the context's [token];
the interceptor of [api.ts] replaces it by the [localStorage] token
when there is one, which in the sessions [AuthContext] produces is the
same token (login, register and initialisation set both). *)
Definition handlePhotoUpload (cu : option CUser) (token : string)
(selectedTaskId : option string) (selectedFile : option Upload) (photoCaption : string)
(now : Date) (rid : string) (db : Db) (cache : list CTask)
: Db * list CTask * UploadOutcome :=
match selectedTaskId, selectedFile, cu with
| Some sid, Some f, Some u =>
  if negb (objectIdRegex_test sid) then (db, cache, Toast_error "Invalid task ID format")
  else
    let rq := mkRequest (Some ("Bearer " ++ token)%string) now
                (UploadPhoto sid (Some f) (Some photoCaption)) in
    match dispatch db rq with
    | (db', Success _ (PPhoto r)) =>
        (db', addTaskPhoto cu now rid sid (reply_imageUrl r) (Some (reply_caption r)) cache,
         Uploaded)
    | (db', Success _ _) => (db', cache, Uploaded)
    | (db', Failure _ msg) => (db', cache, Toast_error msg)
    end
| _, _, _ => (db, cache, Toast_error "Missing required information")
end.
End upload.

End ClientServer.

(** ** Lemmas *)

Section client_server_lemmas.
Import ClientServer.

(** Both users a task references still exist. *)
Definition refs_exist (db : Db) (t : Task) : Prop :=
is_Some (db_users db !! assignedTo t) ∧ is_Some (db_users db !! createdBy t).

#[export] Instance refs_exist_dec db t : Decision (refs_exist db t).
Proof. unfold refs_exist. apply _. Defined.

Lemma of_view_view db t :
keyed db → refs_exist db t → of_view (view db t) = Some (of_raw_task t).
Proof.
intros Hk [[a Ha] [c Hc]]. unfold of_view, view, populate_user, find_user.
rewrite Ha, Hc. simpl. by rewrite (keyed_user _ _ _ Hk Ha), (keyed_user _ _ _ Hk Hc).
Qed.

Lemma of_view_dangling db t :
db_users db !! assignedTo t = None → of_view (view db t) = None.
Proof. intros Ha. unfold of_view, view, populate_user, find_user. by rewrite Ha. Qed.

Lemma mapM_of_view db ts :
keyed db → Forall (refs_exist db) ts → mapM of_view (view db <$> ts) = Some (of_raw_task <$> ts).
Proof.
intros Hk Hf. apply mapM_Some_2, Forall2_fmap, Forall_Forall2_diag.
eapply Forall_impl; [exact Hf|]. intros t. by apply of_view_view.
Qed.

Lemma getTasks_reply u db :
run (getTasks u) db = (db, Success 200 (PTasks (view db <$> visible db u))).
Proof. reflexivity. Qed.

(** The cache [fetchTasks] makes of the answer of [getTasks]. *)
Lemma fetchTasks_getTasks u db cache :
keyed db → Forall (refs_exist db) (visible db u) →
fetchTasks (snd (run (getTasks u) db)) cache = of_raw_task <$> visible db u.
Proof. intros Hk Hf. rewrite getTasks_reply. simpl. by rewrite mapM_of_view. Qed.

Lemma is_hex_char_hex_val c : is_hex_char c = bool_decide (is_Some (ObjectId.hex_val c)).
Proof.
unfold is_hex_char, ObjectId.hex_val. cbv zeta.
destruct ((48 <=? _)%N && _); [done|]. destruct ((97 <=? _)%N && _); [done|].
destruct ((65 <=? _)%N && _); reflexivity.
Qed.

Lemma of_hex_acc_is_Some s acc :
is_Some (ObjectId.of_hex_acc acc s) ↔ forallb is_hex_char (list_ascii_of_string s) = true.
Proof.
revert acc. induction s as [|c s IH]; intros acc; simpl; [split; eauto|].
rewrite is_hex_char_hex_val. destruct (ObjectId.hex_val c) as [d|]; simpl.
- by rewrite IH.
- split; [by intros []|done].
Qed.

Lemma addTaskPhoto_status cu now rid tid url cap cache :
c_status <$> addTaskPhoto cu now rid tid url cap cache = c_status <$> cache.
Proof.
unfold addTaskPhoto, map_id. repeat case_match; try done.
rewrite <-list_fmap_compose. apply list_fmap_ext. intros _ x _. unfold compose. destruct (decide (c_id x = tid)); reflexivity.
Qed.
End client_server_lemmas.

(** ** Theorems: the cache against the server *)

Section client_server_theorems.
Import ClientServer.

(** C35 (finding): one task whose assignee no longer exists empties the
  dashboard.  [populate] answers [null] for it, [typeof null] is
  ['object'], [task.assignedTo._id] throws inside the [map], and the
  catch of [fetchTasks] only logs: the cache keeps its previous value
  (the empty array after mount) however many other tasks the server
  sent. *)
Theorem fetch_dangling_keeps_cache u db cache t :
t ∈ visible db u → db_users db !! assignedTo t = None →
fetchTasks (snd (run (getTasks u) db)) cache = cache.
Proof.
intros Ht Ha. rewrite getTasks_reply. simpl.
rewrite mapM_None_2; [done|]. apply Exists_fmap, Exists_exists.
exists t. split; [done|]. by apply of_view_dangling.
Qed.

(** C29: creating a task keeps the admin's cache consistent.  When the
  cache mirrors the server for an admin, and the ObjectId the create
  allocates is free, appending the created task of the 201 answer
  ([addTask]) gives a cache that mirrors the server after the
  create. *)
Theorem addTask_consistent adm now i db db' t cache :
role adm = admin → db_tasks db !! db_next db = None → consistent db adm cache →
run (createTask adm now i) db = (db', Success 201 (PTask t)) →
consistent db' adm (addTask (Success 201 (PTask t)) cache).
Proof.
intros Hadm Hfree Hc [Hv ->]%createTask_success.
destruct (validate_create_fields _ _ _ _ _ Hv) as [Hid _].
unfold consistent, visible in *. rewrite decide_True in * by done.
unfold task_list. simpl. rewrite map_to_list_insert by (by rewrite Hid).
simpl. rewrite Hc. symmetry. apply Permutation_cons_append.
Qed.

(** C36 (finding): deleting a task on the client sends no request.
  [deleteTask] of [TaskContext] (called by the dashboards' delete
  buttons) only filters the cache, so the server still stores the
  task: the cache no longer mirrors the server, and the next fetch
  brings the task back. *)
Theorem local_delete_diverges u db t cache :
keyed db → t ∈ visible db u → refs_exist db t →
¬ consistent db u (deleteTask (ObjectId.to_hex (task_id t)) cache) ∧
(Forall (refs_exist db) (visible db u) →
 of_raw_task t ∈ fetchTasks (snd (run (getTasks u) db))
                   (deleteTask (ObjectId.to_hex (task_id t)) cache)).
Proof.
intros Hk Ht Hr. split.
- unfold consistent. intros Hperm.
  assert (Hin : of_raw_task t ∈ deleteTask (ObjectId.to_hex (task_id t)) cache).
  { rewrite Hperm. by apply list_elem_of_fmap_2. }
  apply list_elem_of_filter in Hin as [Hne _]. by apply Hne.
- intros Hf. rewrite getTasks_reply. simpl. rewrite mapM_of_view by done.
  by apply list_elem_of_fmap_2.
Qed.

(** C30: the client's id check against Mongoose's.  Mongoose's
  [isValid] (and the cast of [Task.findById]) accepts exactly the
  strings the regular expression [/^[0-9a-fA-F]{24}$/] of
  [handlePhotoUpload] accepts, and besides them every 12-character
  string, which bson reads as the 12 bytes of an ObjectId: the client
  refuses ids such as ["abcdefghijkl"] that the server casts. *)
Theorem objectIdRegex_is_valid s :
  ObjectId.is_valid s = objectIdRegex_test s || (String.length s =? 12)%nat.
Proof.
unfold objectIdRegex_test, ObjectId.is_valid, ObjectId.cast, ObjectId.width.
destruct (String.length s =? 24)%nat eqn:H24; simpl.
- replace (String.length s =? 12)%nat with false
    by (symmetry; apply Nat.eqb_neq; apply Nat.eqb_eq in H24; lia).
  rewrite orb_false_r.
  pose proof (of_hex_acc_is_Some s 0) as [H1 H2].
  destruct (ObjectId.of_hex_acc 0 s), (forallb _ _); try done.
  + by destruct H1.
  + by destruct (H2 eq_refl).
- by destruct (String.length s =? 12)%nat.
Qed.

Section upload_theorems.
Context `{TokenVerifier}.

(** C28: refinement of the fetch.  A [GET /api/tasks] request that
  [protect] lets through as [u] changes nothing on the server, and when
  every task [u] may see references users that still exist,
  [fetchTasks] applied to its answer sets the cache to exactly the
  client form of those tasks, in the server's order: the fetched cache
  is [consistent] with the server. *)
Theorem fetch_refines_getTasks db rq u cache :
keyed db → Auth.protect db (rq_now rq) (rq_authorization rq) = inr u →
rq_route rq = GetTasks → Forall (refs_exist db) (visible db u) →
fst (dispatch db rq) = db ∧
fetchTasks (snd (dispatch db rq)) cache = of_raw_task <$> visible db u.
Proof.
intros Hk Hp Hr Hf. unfold dispatch. rewrite Hp, Hr, getTasks_reply.
split; [done|]. by apply fetchTasks_getTasks.
Qed.


(** C37 (finding): the upload flow leaves a stale status in the cache.
When an authenticated assignee (or admin) uploads a photo for a
task in [todo], the server moves the task to [inProgress], but
[handlePhotoUpload] only appends the photo to the cached task
([addTaskPhoto]): every cached status stays what it was, so the
dashboard shows [todo] until the next reload. *)
Theorem upload_stale_status cu token sid f cap now rid db cache u n t :
keyed db → Auth.protect db now (Some ("Bearer " ++ token)%string) = inr u →
objectIdRegex_test sid = true → ObjectId.cast sid = Some n →
db_tasks db !! n = Some t → ¬ not_admin_nor_assignee u t → status t = todo →
let '(db', cache', out) :=
handlePhotoUpload (Some cu) token (Some sid) (Some f) cap now rid db cache in
out = Uploaded ∧
(∃ t', db_tasks db' !! n = Some t' ∧ status t' = inProgress) ∧
c_status <$> cache' = c_status <$> cache.
Proof.
intros Hk Hp Hre Hc Ht Hg Hs. unfold handlePhotoUpload. rewrite Hre. simpl negb. cbv iota.
unfold dispatch. simpl rq_now. simpl rq_authorization. rewrite Hp. simpl rq_route.
unfold disk_write, Http.modify. cbv beta iota zeta.
rewrite (uploadTaskPhoto_run u sid n) by done. simpl db_tasks. rewrite Ht.
rewrite decide_False by done. cbn -[addTaskPhoto insert]. split; [done|]. split; [|apply addTaskPhoto_status].
rewrite (keyed_task _ _ _ Hk Ht), lookup_insert_eq. eexists. split; [done|].
simpl. by rewrite Hs.
Qed.
End upload_theorems.
End client_server_theorems.
