(* ===== verification/CacheWf.v ===== *)
(** * CacheWf: the well-formedness of the client's task cache

    The [tasks] array of [TaskContext.tsx] is typed [Task[]], whose [id]
    and [createdBy] are declared [string]; the code relies on them being
    ObjectId strings (the upload form tests [objectIdRegex] on a task id
    before sending it).  [wf_task] states it with the client's own test,
    [ClientServer.objectIdRegex_test].  Every operation of the context is
    a constructor of [CacheOp]; [step_cache] runs one, [run_ops] a
    sequence, from the empty array the provider starts with.  The
    theorem [cache_wf] shows that every cache reachable this way is
    well formed, whatever the server answers: the ids of the cache are
    produced by [ObjectId.toString], which always yields 24 hexadecimal
    characters, and no local patch rewrites an id or a creator. *)

From S2P Require Import Prelude ObjectId Schema Http Store Auth TaskController Routes ClientMirror ClientServer.
Import Schema Http TaskController ClientMirror ClientServer.

Module CacheWf.

(** An id and a creator the client's ObjectId test accepts. *)
Definition wf_task (t : CTask) : Prop :=
  objectIdRegex_test (c_id t) = true ∧ objectIdRegex_test (c_createdBy t) = true.

#[export] Instance wf_task_dec t : Decision (wf_task t).
Proof. unfold wf_task. apply _. Defined.

Definition wf_cache (tasks : list CTask) : Prop := Forall wf_task tasks.

(** The functions of [TaskContext] that call [setTasks]. *)
Inductive CacheOp :=
| OpFetch (reply : Reply Payload)
| OpAdd (reply : Reply Payload)
| OpUpdate (cu : option CUser) (now : Date) (tid : string) (p : CPatch)
| OpStatus (cu : option CUser) (now : Date) (tid : string) (s : Status)
| OpDelete (tid : string)
| OpAddPhoto (cu : option CUser) (now : Date) (rid tid url : string) (cap : option string)
| OpDeletePhoto (cu : option CUser) (now : Date) (tid : string) (pid : option string)
| OpAddComment (cu : option CUser) (now : Date) (rid tid txt : string)
| OpDeleteComment (cu : option CUser) (now : Date) (tid cid : string).

Definition step_cache (op : CacheOp) (tasks : list CTask) : list CTask :=
  match op with
  | OpFetch r => fetchTasks r tasks
  | OpAdd r => ClientMirror.addTask r tasks
  | OpUpdate cu now tid p => updateTask cu now tid p tasks
  | OpStatus cu now tid s => updateTaskStatus cu now tid s tasks
  | OpDelete tid => deleteTask tid tasks
  | OpAddPhoto cu now rid tid url cap => addTaskPhoto cu now rid tid url cap tasks
  | OpDeletePhoto cu now tid pid => deleteTaskPhoto cu now tid pid tasks
  | OpAddComment cu now rid tid txt => addTaskComment cu now rid tid txt tasks
  | OpDeleteComment cu now tid cid => deleteTaskComment cu now tid cid tasks
  end.

(** The cache after a sequence of operations, oldest first, from the
    [useState<Task[]>([])] of the provider. *)
Definition run_ops (ops : list CacheOp) : list CTask := foldl (λ ts op, step_cache op ts) [] ops.

(** A condition on the patches given to [updateTask], the only
    operation whose argument may rewrite any field of a task. *)
Definition op_patch_ok (Q : CPatch → Prop) (op : CacheOp) : Prop :=
  match op with OpUpdate _ _ _ p => Q p | _ => True end.

(** A patch whose [id] and [createdBy], when it has them, pass the
    client's ObjectId test. *)
Definition patch_wf (p : CPatch) : bool :=
  from_option objectIdRegex_test true (cpt_id p) && from_option objectIdRegex_test true (cpt_createdBy p).

End CacheWf.

(** ** Lemmas: where the cache's ids come from *)

Section wf_lemmas.
Import CacheWf.

(** [toString()] of any ObjectId passes the client's test. *)
Lemma to_hex_regex n : objectIdRegex_test (ObjectId.to_hex n) = true.
Proof.
  unfold objectIdRegex_test, ObjectId.to_hex. rewrite ObjectId.length_hex_digits.
  replace (ObjectId.width =? 24)%nat with true by reflexivity. rewrite andb_true_l.
  apply forallb_forall. intros c Hc%list_elem_of_In. rewrite is_hex_char_hex_val.
  apply bool_decide_eq_true. by eapply ObjectId.hex_digits_chars.
Qed.

Lemma of_raw_task_wf t : wf_task (of_raw_task t).
Proof. split; apply to_hex_regex. Qed.

Lemma of_view_wf v c : of_view v = Some c → wf_task c.
Proof.
  unfold of_view, populated_id.
  destruct (view_assignedTo v) as [[[a ?] ?]|], (view_createdBy v) as [[[b ?] ?]|]; simpl; try done.
  intros [= <-]. split; apply to_hex_regex.
Qed.

End wf_lemmas.

(** ** A property of every task of every reachable cache

    A property that every task the server sends has, and that the local
    patches keep ([patch_task] with a patch satisfying [Q], the status
    patch, [with_photos], [with_comments]), holds of every task of every
    cache [run_ops] reaches by operations whose [updateTask] patches
    satisfy [Q]. *)

Section cache_forall.
Import CacheWf.
Context (P : CTask → Prop) (Q : CPatch → Prop).
Hypothesis P_raw : ∀ t, P (of_raw_task t).
Hypothesis P_view : ∀ v c, of_view v = Some c → P c.
Hypothesis Q_status : ∀ s, Q (status_patch s).
Hypothesis P_patch : ∀ t p now uid, Q p → P t → P (patch_task t p now uid).
Hypothesis P_photos : ∀ t ps now uid, P t → P (with_photos t ps now uid).
Hypothesis P_comments : ∀ t cs now uid, P t → P (with_comments t cs now uid).

Lemma map_id_forall f tid tasks :
  (∀ t, P t → P (f t)) → Forall P tasks → Forall P (map_id f tid tasks).
Proof.
  intros Hf Hw. apply Forall_fmap, Forall_forall. intros t Ht. simpl.
  rewrite Forall_forall in Hw. specialize (Hw t Ht). case_decide; auto.
Qed.

Lemma fetchTasks_forall r tasks : Forall P tasks → Forall P (fetchTasks r tasks).
Proof using P_view.
  intros Hw. unfold fetchTasks. repeat case_match; try done.
  match goal with H : mapM of_view _ = Some _ |- _ => apply mapM_Some_1 in H end.
  apply Forall_forall. intros c Hc. apply list_elem_of_lookup_1 in Hc as [i Hi].
  match goal with H : Forall2 _ _ _ |- _ => destruct (Forall2_lookup_r _ _ _ _ _ H Hi) as (v & _ & Hv) end.
  by eapply P_view.
Qed.

Lemma step_cache_forall op tasks :
  op_patch_ok Q op → Forall P tasks → Forall P (step_cache op tasks).
Proof using P_raw P_view Q_status P_patch P_photos P_comments.
  intros Hop Hw. destruct op; simpl in *.
  - by apply fetchTasks_forall.
  - unfold ClientMirror.addTask. repeat case_match; try done. apply Forall_app. split; [done|]. by constructor.
  - destruct cu; [|done]. apply map_id_forall; auto.
  - unfold updateTaskStatus. repeat case_match; try done. apply map_id_forall; auto.
  - by apply Forall_filter_sub.
  - unfold addTaskPhoto. repeat case_match; try done. apply map_id_forall; auto.
  - unfold deleteTaskPhoto. repeat case_match; try done. apply map_id_forall; auto.
  - unfold addTaskComment. repeat case_match; try done. apply map_id_forall; auto.
  - unfold deleteTaskComment. repeat case_match; try done. apply map_id_forall; auto.
Qed.

Lemma run_ops_forall ops : Forall (op_patch_ok Q) ops → Forall P (run_ops ops).
Proof using P_raw P_view Q_status P_patch P_photos P_comments.
  unfold run_ops. generalize (Forall_nil_2 P). generalize (@nil CTask).
  induction ops as [|op ops IH]; intros ts Hw Hops; simpl; [done|].
  inversion Hops; subst. apply IH; [by apply step_cache_forall|done].
Qed.
End cache_forall.

(** A patch that does not set [group] to [undefined]. *)
Definition keeps_group (p : CPatch) : Prop := cpt_group p ≠ Some None.

(** Every cached task has a group: the server's schema requires one,
    and the patches that keep it only replace it. *)
Lemma run_ops_grouped ops :
  Forall (CacheWf.op_patch_ok keeps_group) ops → Forall (λ t, is_Some (c_group t)) (CacheWf.run_ops ops).
Proof.
  apply run_ops_forall; try (intros; simpl; by eauto).
  - intros v c. unfold of_view. destruct (populated_id _), (populated_id _); simpl; try done.
    intros [= <-]. simpl. eauto.
  - intros t p now uid Hk. simpl. unfold keeps_group in Hk. destruct (cpt_group p) as [[]|]; by eauto.
Qed.


(** ** The type invariant *)

Section wf_theorems.
Import CacheWf.

(** C13: the type of the cache.  Whatever sequence of [TaskContext]
    operations runs from the empty array, and whatever the server
    answers, every cached task has an id and a creator that the client's
    ObjectId test accepts, provided every patch given to [updateTask]
    that has an [id] or a [createdBy] has ObjectId ones: the context
    itself checks nothing, fetched and created tasks get their ids from
    [ObjectId.toString], and the local photo, comment and status
    operations keep them. *)
Theorem cache_wf ops : Forall (op_patch_ok (λ p, patch_wf p = true)) ops → wf_cache (run_ops ops).
Proof.
  apply run_ops_forall; [apply of_raw_task_wf|apply of_view_wf|done|..];
    intros; unfold wf_task in *; try by simpl.
  unfold patch_wf in *. apply andb_true_iff in H as [Hi Hc]. simpl.
  destruct (cpt_id p), (cpt_createdBy p); simpl in *; naive_solver.
Qed.
End wf_theorems.
