(* ===== verification/AuthServer.v ===== *)
(** * AuthServer: the credential store and the routes of [routes/authRoutes.js]

    [authRoutes.js] mounts eight handlers of [controllers/authController.js]:
    [register] and [login] are public, [getProfile], [updateProfile] and
    [getDevices] sit behind [protect], and [getAllUsers], [deleteUser]
    and [updateUserRole] behind [protect] and [authorize('admin')].  The
    router is modelled from its lines.  The controller and the User model
    are not among the repository's sources: their handlers are modelled
    from the spec (section 6: register and login answer a token and the
    user; the profile is read and written by its owner; the user list,
    deletion and role change are admin operations; section 3: e-mails are
    unique, an admin cannot delete themself), with the plainest behaviour
    it allows, and are marked so in the map.

    The server's state is the task server's [Db] (whose [db_users] is the
    user collection) together with the stored password of each user.
    [bcrypt.compare] is modelled as equality with the stored password.
    [jwt.sign] is the class [TokenSigner], whose laws say that a token
    signed at [t] is accepted by [jwt.verify] until it expires and is a
    single non-empty field (three base64url parts joined by dots). *)

From S2P Require Import Prelude ObjectId Schema Http Store Auth TaskController Routes.
Import Schema Http Store.

(** [jwt.sign({ id }, process.env.JWT_SECRET, { expiresIn })] at time
    [t], with the laws the session relies on. *)
Class TokenSigner `{TokenVerifier} := {
  jwt_sign : Date → Id → string;
  jwt_lifetime : Z;
  jwt_sign_verify t t' id :
    (id < ObjectId.bound)%N → (t <= t' < t + jwt_lifetime)%Z →
    jwt_verify t' (jwt_sign t id) = Some (ObjectId.to_hex id);
  jwt_sign_nonempty t id : jwt_sign t id ≠ ""%string;
  jwt_sign_no_space t id c : c ∈ list_ascii_of_string (jwt_sign t id) → c ≠ " "%char;
}.

Module AuthServer.

Record Server := mkServer {
  srv_db : Db;
  srv_pw : gmap Id string;
}.

(** The body of [PUT /api/auth/profile]: the fields the client sends. *)
Record ProfilePatch := mkProfilePatch {
  pp_name : option string;
  pp_email : option string;
}.

(** The routes of [authRoutes.js], with their body and path fields. *)
Inductive AuthRoute :=
| Register (nm em pw : string) (r : Role)
| Login (em pw : string)
| GetProfile
| UpdateProfile (p : ProfilePatch)
| GetDevices
| GetAllUsers
| DeleteUser (id : string)
| UpdateUserRole (id : string) (r : Role).

(** The device/session metadata of a user (optional in the spec; the
    model stores none). *)
Record Device := mkDevice {
  deviceName : string;
  ipAddress : string;
  dev_lastLogin : string;
  isActive : bool;
}.

(** The [data] (or [token]/[user], [users]) of a successful answer. *)
Inductive AuthPayload :=
| PSession (token : string) (u : User)
| PUser (u : User)
| PUsers (us : list User)
| PDevices (ds : list Device)
| PDone.

(** The user with this e-mail (e-mails are unique). *)
Definition find_by_email (db : Db) (em : string) : option User :=
  snd <$> head (filter (λ p : Id * User, email p.2 = em) (map_to_list (db_users db))).

Definition set_db (f : Db → Db) (s : Server) : Server := mkServer (f (srv_db s)) (srv_pw s).

Section handlers.
Context `{TokenSigner}.

(** [register]: a new user with the role of the body, and a session. *)
Definition register (now : Date) (nm em pw : string) (r : Role) (s : Server)
    : Server * Reply AuthPayload :=
  let db := srv_db s in
  match find_by_email db em with
  | Some _ => (s, Failure 400 "User already exists")
  | None =>
      let id := db_next db in
      let u := mkUser id nm em r [] in
      (mkServer (mkDb (db_tasks db) (<[id := u]> (db_users db)) (db_files db) (N.succ id))
                (<[id := pw]> (srv_pw s)),
       Success 201 (PSession (jwt_sign now id) u))
  end.

(** [login]: a session for the matching e-mail and password. *)
Definition login (now : Date) (em pw : string) (s : Server) : Server * Reply AuthPayload :=
  match find_by_email (srv_db s) em with
  | Some u =>
      if decide (srv_pw s !! user_id u = Some pw)
      then (s, Success 200 (PSession (jwt_sign now (user_id u)) u))
      else (s, Failure 401 "Invalid credentials")
  | None => (s, Failure 401 "Invalid credentials")
  end.
End handlers.

(** [updateProfile]: the fields of the body, on [req.user]'s record. *)
Definition updateProfile (u : User) (p : ProfilePatch) (s : Server) : Server * Reply AuthPayload :=
  let u' := mkUser (user_id u) (from_option id (name u) (pp_name p))
                   (from_option id (email u) (pp_email p)) (role u) (tasks u) in
  (set_db (set_users (insert (user_id u) u')) s, Success 200 (PUser u')).

(** [deleteUser]: 404 for an unknown id, 400 for the caller's own id. *)
Definition deleteUser (u : User) (sid : string) (s : Server) : Server * Reply AuthPayload :=
  match ObjectId.cast sid ≫= λ n, db_users (srv_db s) !! n with
  | None => (s, Failure 404 "User not found")
  | Some v =>
      if decide (user_id v = user_id u) then (s, Failure 400 "You cannot delete your own account")
      else (mkServer (set_users (delete (user_id v)) (srv_db s)) (delete (user_id v) (srv_pw s)),
            Success 200 PDone)
  end.

(** [updateUserRole]. *)
Definition updateUserRole (sid : string) (r : Role) (s : Server) : Server * Reply AuthPayload :=
  match ObjectId.cast sid ≫= λ n, db_users (srv_db s) !! n with
  | None => (s, Failure 404 "User not found")
  | Some v =>
      let v' := mkUser (user_id v) (name v) (email v) r (tasks v) in
      (set_db (set_users (insert (user_id v) v')) s, Success 200 (PUser v'))
  end.

Definition users_list (s : Server) : list User := (map_to_list (db_users (srv_db s))).*2.

Section dispatch.
Context `{TokenSigner}.

(** [protect] in front of a handler. *)
Definition protected (s : Server) (now : Date) (hdr : option string)
    (k : User → Server * Reply AuthPayload) : Server * Reply AuthPayload :=
  match Auth.protect (srv_db s) now hdr with
  | inl h => (s, Routes.halt_reply h)
  | inr u => k u
  end.

(** [authorize('admin')] in front of a handler. *)
Definition admin_gate (u : User) (s : Server) (k : Server * Reply AuthPayload)
    : Server * Reply AuthPayload :=
  match Auth.authorize [admin] u with
  | inl h => (s, Routes.halt_reply h)
  | inr _ => k
  end.

(** One request through [authRoutes.js]. *)
Definition auth_dispatch (s : Server) (hdr : option string) (now : Date) (r : AuthRoute)
    : Server * Reply AuthPayload :=
  match r with
  | Register nm em pw ro => register now nm em pw ro s
  | Login em pw => login now em pw s
  | GetProfile => protected s now hdr (λ u, (s, Success 200 (PUser u)))
  | UpdateProfile p => protected s now hdr (λ u, updateProfile u p s)
  | GetDevices => protected s now hdr (λ _, (s, Success 200 (PDevices [])))
  | GetAllUsers => protected s now hdr (λ u, admin_gate u s (s, Success 200 (PUsers (users_list s))))
  | DeleteUser id => protected s now hdr (λ u, admin_gate u s (deleteUser u id s))
  | UpdateUserRole id ro => protected s now hdr (λ u, admin_gate u s (updateUserRole id ro s))
  end.

(** The whole API ([server.js] mounts the two routers under
    [/api/auth] and [/api/tasks]). *)
Inductive Api :=
| AuthApi (r : AuthRoute)
| TaskApi (r : Routes.Route).

Definition Answer : Type := Reply AuthPayload + Reply TaskController.Payload.

Definition serve (s : Server) (hdr : option string) (now : Date) (a : Api) : Server * Answer :=
  match a with
  | AuthApi r => let '(s', rep) := auth_dispatch s hdr now r in (s', inl rep)
  | TaskApi r =>
      let '(db', rep) := Routes.dispatch (srv_db s) (Routes.mkRequest hdr now r) in
      (mkServer db' (srv_pw s), inr rep)
  end.
End dispatch.

End AuthServer.

(** ** Theorems of the auth routes *)

Section auth_server_theorems.
Context `{TokenSigner}.
Import AuthServer.

(** C15: deleting a user (spec, section 8).  For an authenticated caller
    and an existing user, [DELETE /api/auth/users/:id] deletes the user
    (and their password) exactly when the caller is an admin and the user
    is not the caller; otherwise nothing changes and the answer is 403
    (the role gate, for a non-admin) or 400 (an admin deleting themself). *)
Theorem delete_user_policy s hdr now u v :
  Auth.protect (srv_db s) now hdr = inr u → db_users (srv_db s) !! user_id v = Some v →
  (user_id v < ObjectId.bound)%N →
  (role u = admin → user_id v ≠ user_id u →
   auth_dispatch s hdr now (DeleteUser (ObjectId.to_hex (user_id v))) =
     (mkServer (set_users (delete (user_id v)) (srv_db s)) (delete (user_id v) (srv_pw s)),
      Success 200 PDone)) ∧
  (¬ (role u = admin ∧ user_id v ≠ user_id u) →
   ∃ c m, auth_dispatch s hdr now (DeleteUser (ObjectId.to_hex (user_id v))) = (s, Failure c m) ∧
          (c = 403 ∨ c = 400)%N).
Proof.
  intros Hp Hv Hb. cbn [auth_dispatch]. unfold protected, admin_gate, deleteUser.
  rewrite Hp, ObjectId.cast_to_hex by done. simpl. rewrite Hv. unfold Auth.authorize. split.
  - intros Ha Hne. rewrite Ha. simpl. by rewrite decide_False.
  - intros Hn. destruct (role u) eqn:Hr; simpl.
    + rewrite decide_True by (destruct (decide (user_id v = user_id u)); naive_solver).
      eauto.
    + eauto.
Qed.
End auth_server_theorems.
