(* ===== verification/ServerApp.v ===== *)
(** * ServerApp: the Express application of [server.js]

    [server.js] mounts, in this order, the JSON and form body parsers,
    the static files of [uploads/] under [/uploads], the auth router
    under [/api/auth], the task router under [/api/tasks], and a final
    error handler.  [app] is one incoming HTTP request through that
    stack: a [GET] of an uploaded file, an API call ([AuthServer.serve]),
    or a body the JSON parser rejects, which reaches the error handler.
    The database connection and [listen] are start-up, not modelled. *)

From stdpp Require Import pretty.
From S2P Require Import Prelude ObjectId Schema Http Store Auth TaskController Routes AuthServer.
Import Schema Http Store TaskController Routes AuthServer.

Module ServerApp.

(** *** The static route: [app.use('/uploads', express.static(...))]

    A photo's [imageUrl] is used as the [src] of an [<img>].  The
    browser sends the URL without its fragment (from the first ['#'])
    and with ['\'] read as ['/']; the characters it percent-encodes
    (space, quotes, angle brackets, braces, backquote) are decoded back
    by the server, so they are left as they are here.  Express splits
    the query off at the first ['?'] ([parseurl]), matches the mount
    [/uploads] without regard to case, and hands the rest to
    [serve-static], which calls [send]: [decodeURIComponent] (a
    failure answers 400), a NUL byte (400), [path.normalize] of the
    path and the [..] test of [UP_PATH_REGEXP] (403), a last segment
    starting with ['.'] (ignored: 404), a trailing ['/'] (an index
    file: 404), and the file under [uploads/].  With the default
    [fallthrough], every answer below 500 falls through to the routers,
    none of which matches, so all of them end as Express's 404. *)

Inductive StaticReply := ServeFile (path : string) | Redirect301 | NotFound404.

Definition lower (c : ascii) : ascii :=
  let n := N_of_ascii c in
  if (65 <=? n)%N && (n <=? 90)%N then ascii_of_N (n + 32) else c.

(** The mount: [pre] (lower case) at the start of [s], any case. *)
Fixpoint strip_prefix_ci (pre s : string) : option string :=
  match pre, s with
  | EmptyString, _ => Some s
  | String p pre', String c s' => if ascii_dec (lower c) p then strip_prefix_ci pre' s' else None
  | String _ _, EmptyString => None
  end.

(** The path of the request: up to the first ['?'] or ['#'], with
    ['\'] as ['/']. *)
Fixpoint url_path (s : string) : string :=
  match s with
  | EmptyString => EmptyString
  | String c s' =>
      if ascii_dec c "?" then EmptyString
      else if ascii_dec c "#" then EmptyString
      else String (if ascii_dec c "\" then "/"%char else c) (url_path s')
  end.

(** [%XY]: the byte of two hexadecimal digits. *)
Definition escape (s : string) : option (N * string) :=
  match s with
  | String h1 (String h2 s') =>
      a ← ObjectId.hex_val h1; b ← ObjectId.hex_val h2; Some ((a * 16 + b)%N, s')
  | _ => None
  end.

Definition next_escape (s : string) : option (N * string) :=
  match s with
  | String c s' => if ascii_dec c "%" then escape s' else None
  | EmptyString => None
  end.

(** The lead byte of a UTF-8 sequence: the number of continuation
    bytes and the lead's payload bits. *)
Definition utf8_lead (b : N) : option (nat * N) :=
  if (N.land b 224 =? 192)%N then Some (1%nat, N.land b 31)
  else if (N.land b 240 =? 224)%N then Some (2%nat, N.land b 15)
  else if (N.land b 248 =? 240)%N then Some (3%nat, N.land b 7)
  else None.

Fixpoint utf8_conts (k : nat) (v : N) (s : string) : option (N * string) :=
  match k with
  | O => Some (v, s)
  | S k' =>
      '(b, s') ← next_escape s;
      if (N.land b 192 =? 128)%N then utf8_conts k' (v * 64 + N.land b 63)%N s' else None
  end.

(** A sequence of [k] continuation bytes is valid when it is not
    overlong, not a surrogate and at most U+10FFFF. *)
Definition valid_code (k : nat) (v : N) : bool :=
  let lo := match k with 1%nat => 128%N | 2%nat => 2048%N | _ => 65536%N end in
  (lo <=? v)%N && (v <=? 1114111)%N && negb ((55296 <=? v)%N && (v <=? 57343)%N).

(** [decodeURIComponent]: the code points of the decoded string, or
    [None] for a [URIError]; each step consumes a character, so the
    length of the string is enough fuel. *)
Fixpoint decode_fuel (fuel : nat) (s : string) : option (list N) :=
  match s with
  | EmptyString => Some []
  | String c s' =>
      match fuel with
      | O => None
      | S f =>
          if ascii_dec c "%" then
            '(b, r) ← escape s';
            if (b <? 128)%N then cons b <$> decode_fuel f r
            else '(k, v0) ← utf8_lead b; '(v, r') ← utf8_conts k v0 r;
                 if valid_code k v then cons v <$> decode_fuel f r' else None
          else cons (N_of_ascii c) <$> decode_fuel f s'
      end
  end.

Definition decodeURIComponent (s : string) : option (list N) := decode_fuel (String.length s) s.

(** [str.split(sep)] on code points. *)
Fixpoint split_on (sep : N → bool) (l : list N) : list (list N) :=
  match l with
  | [] => [[]]
  | x :: l' =>
      if sep x then [] :: split_on sep l'
      else match split_on sep l' with
           | seg :: segs => (x :: seg) :: segs
           | [] => [[x]]
           end
  end.

(** [path.normalize('.' + sep + path)] on the segments, kept in
    reverse: empty and ['.'] segments go, [..] removes the segment
    before it, and stays when there is none. *)
Definition push_seg (acc : list (list N)) (seg : list N) : list (list N) :=
  if decide (seg = []) then acc
  else if decide (seg = [46%N]) then acc
  else if decide (seg = [46; 46]%N) then
    match acc with
    | s :: acc' => if decide (s = [46; 46]%N) then seg :: acc else acc'
    | [] => [seg]
    end
  else seg :: acc.

Definition normalize (segs : list (list N)) : list (list N) := rev (foldl push_seg [] segs).

(** [UP_PATH_REGEXP = /(?:^|[\\/])\.\.(?:[\\/]|$)/]. *)
Definition up_path (segs : list (list N)) : bool :=
  existsb (λ seg, existsb (λ piece, bool_decide (piece = [46; 46]%N)) (split_on (λ x, x =? 92)%N seg)) segs.

(** The last segment is a dot file ([dotfiles] left to [send]'s
    default: ignored). *)
Definition last_dot (segs : list (list N)) : bool :=
  match last segs with Some (x :: _) => bool_decide (x = 46%N) | _ => false end.

Fixpoint join_segs (segs : list (list N)) : list N :=
  match segs with
  | [] => []
  | [seg] => seg
  | seg :: segs' => seg ++ 47%N :: join_segs segs'
  end.

(** File names of [uploads/] are ASCII: a path with another character
    names no file. *)
Definition ascii_path (l : list N) : option string :=
  string_of_list_ascii <$> mapM (λ n, if (n <? 128)%N then Some (ascii_of_N n) else None) l.

Definition serve_static (files : gset string) (url : string) : StaticReply :=
  match strip_prefix_ci "/uploads" (url_path url) with
  | None => NotFound404
  | Some EmptyString => Redirect301
  | Some rest =>
      if negb (String.prefix "/" rest) then NotFound404 else
      match decodeURIComponent rest with
      | None => NotFound404
      | Some cps =>
          let segs := normalize (split_on (λ x, x =? 47)%N cps) in
          if bool_decide (0%N ∈ cps) || up_path segs || last_dot segs || bool_decide (last cps = Some 47%N)
          then NotFound404
          else match ascii_path (join_segs segs) with
               | Some p => let f := ("uploads/" ++ p)%string in
                           if bool_decide (f ∈ files) then ServeFile f else NotFound404
               | None => NotFound404
               end
      end
  end.

(** The characters an uploaded file's name may have for its
    [imageUrl] to name it: none of ['?'], ['#'] and ['%'], which the
    URL handling above reads as a query, a fragment or an escape, no
    ['/'] or ['\'] (multer's parser keeps only the base name), no NUL,
    and ASCII. *)
Definition safe_char (c : ascii) : bool :=
  negb (bool_decide (c ∈ ["?"; "#"; "%"; "/"; "\"; "000"]%char)) && (N_of_ascii c <? 128)%N.

Definition name_safe (s : string) : bool := forallb safe_char (list_ascii_of_string s).

Definition is_digit (c : ascii) : bool := (48 <=? N_of_ascii c)%N && (N_of_ascii c <=? 57)%N.

(** The error-handling middleware (lines 36-43): every error that
    reaches it is a 500 "Internal server error", whatever its status,
    with [err.message] attached. *)
Record ErrorReply := mkErrorReply { er_status : N; er_message : string; er_error : string }.

Definition error_handler (err_message : string) : ErrorReply :=
  mkErrorReply 500 "Internal server error" err_message.

(** An incoming request, as the body parsers leave it. *)
Inductive HttpIn :=
| StaticGet (url : string)
| ApiCall (hdr : option string) (call : Api)
| BadJson (parse_error : string).

Inductive AppReply :=
| StaticOut (r : StaticReply)
| ApiOut (a : Answer)
| ErrorOut (e : ErrorReply).

Section app.
Context `{TokenSigner}.

(** The stack of lines 13-43. *)
Definition app (s : Server) (now : Date) (x : HttpIn) : Server * AppReply :=
  match x with
  | StaticGet url => (s, StaticOut (serve_static (db_files (srv_db s)) url))
  | ApiCall hdr call => let '(s', a) := serve s hdr now call in (s', ApiOut a)
  | BadJson msg => (s, ErrorOut (error_handler msg))
  end.
End app.

End ServerApp.

(** ** Lemmas *)

Section app_lemmas.
Import TaskController ServerApp.

(** A successful upload keeps the files and answers the URL of its file. *)
Lemma uploadTaskPhoto_success_files u sid fn cap now db db' c r :
  run (uploadTaskPhoto u sid (Some fn) cap now) db = (db', Success c (PPhoto r)) →
  db_files db' = db_files db ∧ reply_imageUrl r = ("/uploads/" ++ fn)%string.
Proof.
  destruct (ObjectId.cast sid) as [n|] eqn:Hc.
  - rewrite (uploadTaskPhoto_run u sid n) by done.
    destruct (db_tasks db !! n); [case_decide|]; intros [=]; subst; done.
  - unfold Http.run, uploadTaskPhoto. rewrite bind_findById_bad by done. intros [=].
Qed.

(** The upload handler never touches [uploads/]: multer wrote the file
    before it runs, whatever it answers. *)
Lemma uploadTaskPhoto_files u sid file cap now db :
  db_files (fst (run (uploadTaskPhoto u sid file cap now) db)) = db_files db.
Proof.
  destruct (ObjectId.cast sid) as [n|] eqn:Hc.
  - rewrite (uploadTaskPhoto_run u sid n) by done.
    destruct (db_tasks db !! n); [case_decide; [|destruct file]|]; done.
  - unfold Http.run, uploadTaskPhoto. by rewrite bind_findById_bad.
Qed.

Lemma list_ascii_of_string_app a b :
  list_ascii_of_string (a ++ b) = list_ascii_of_string a ++ list_ascii_of_string b.
Proof. induction a; simpl; f_equal; auto. Qed.

Lemma url_path_plain s :
  (∀ c, c ∈ list_ascii_of_string s → c ∉ ["?"; "#"; "\"]%char) → ServerApp.url_path s = s.
Proof.
  induction s as [|c s IH]; intros Hs; [done|]. simpl.
  assert (c ∉ ["?"; "#"; "\"]%char) as Hc by (apply Hs; set_solver).
  repeat (destruct (ascii_dec _ _); [subst; set_solver|]). rewrite IH; [done|].
  intros d Hd. apply Hs. set_solver.
Qed.

Lemma safe_chars s c :
  name_safe s = true → c ∈ list_ascii_of_string s →
  (c ∉ ["?"; "#"; "%"; "/"; "\"; "000"]%char) ∧ (N_of_ascii c < 128)%N.
Proof.
  unfold ServerApp.name_safe. intros Hs Hc. eapply forallb_forall in Hs; [|apply list_elem_of_In, Hc].
  unfold ServerApp.safe_char in Hs. apply andb_true_iff in Hs as [Hs Hb].
  apply negb_true_iff, bool_decide_eq_false in Hs. by apply N.ltb_lt in Hb.
Qed.

Lemma decode_fuel_plain fuel s :
  (String.length s <= fuel)%nat → "%"%char ∉ list_ascii_of_string s →
  ServerApp.decode_fuel fuel s = Some (N_of_ascii <$> list_ascii_of_string s).
Proof.
  revert fuel. induction s as [|c s IH]; intros [|f] Hl Hp; simpl in *; try done; [lia|].
  destruct (ascii_dec c "%"); [subst; set_solver|]. rewrite IH by (set_solver || lia). done.
Qed.

Lemma split_on_none sep l : Forall (λ x, sep x = false) l → ServerApp.split_on sep l = [l].
Proof. induction 1 as [|x l Hx _ IH]; [done|]. simpl. by rewrite Hx, IH. Qed.

Lemma safe_codes s :
  name_safe s = true →
  Forall (λ x, x ≠ 0 ∧ x ≠ 37 ∧ x ≠ 47 ∧ x ≠ 92 ∧ x < 128)%N (N_of_ascii <$> list_ascii_of_string s).
Proof.
  intros Hs. apply Forall_fmap, Forall_forall. intros c Hc.
  destruct (safe_chars s c Hs Hc) as [Hn Hb]. unfold compose.
  split_and!; try done; intros E; apply Hn; rewrite <-(ascii_N_embedding c), E; set_solver.
Qed.

Lemma ascii_path_codes s :
  name_safe s = true → ServerApp.ascii_path (N_of_ascii <$> list_ascii_of_string s) = Some s.
Proof.
  intros Hs. apply safe_codes in Hs. unfold ServerApp.ascii_path.
  assert (mapM (λ n, if (n <? 128)%N then Some (ascii_of_N n) else None)
            (N_of_ascii <$> list_ascii_of_string s) = Some (list_ascii_of_string s)) as ->.
  { induction (list_ascii_of_string s) as [|c l IH]; [done|].
    inversion Hs as [|? ? (_&_&_&_&Hc) Hl]; subst. simpl.
    apply N.ltb_lt in Hc. specialize (IH Hl). change (list_fmap ascii N N_of_ascii l) with (N_of_ascii <$> l).
    rewrite Hc, ascii_N_embedding, IH. done. }
  simpl. by rewrite string_of_list_ascii_of_string.
Qed.

Lemma strip_uploads x :
  ServerApp.strip_prefix_ci "/uploads" ("/uploads/" ++ x) = Some ("/" ++ x)%string.
Proof. reflexivity. Qed.

(** For a safe name that starts with a digit, [/uploads/<name>] is
    answered with the file [uploads/<name>], or 404 when it is gone. *)
Lemma serve_static_upload files fn c rest :
  fn = String c rest → ServerApp.is_digit c = true → name_safe fn = true →
  ServerApp.serve_static files ("/uploads/" ++ fn) =
    if bool_decide (upload_path fn ∈ files) then ServerApp.ServeFile (upload_path fn)
    else ServerApp.NotFound404.
Proof.
  intros -> Hd Hs. unfold ServerApp.serve_static.
  rewrite url_path_plain; last first.
  { rewrite list_ascii_of_string_app. intros d [Hx|Hx]%elem_of_app.
    - cbn in Hx. set_solver.
    - apply (safe_chars _ _ Hs) in Hx. set_solver. }
  rewrite strip_uploads. change ("/" ++ String c rest)%string with (String "/" (String c rest)).
  cbn -[ServerApp.decodeURIComponent].
  pose proof (safe_codes _ Hs) as Hc.
  unfold ServerApp.decodeURIComponent.
  rewrite decode_fuel_plain by (cbn [String.length list_ascii_of_string]; first [lia|
    intros Hp; apply elem_of_cons in Hp as [Hp|Hp]; [done|];
    apply (safe_chars _ _ Hs) in Hp; set_solver]).
  change (N_of_ascii <$> list_ascii_of_string (String "/" (String c rest)))
    with (47%N :: (N_of_ascii <$> list_ascii_of_string (String c rest))).
  set (L := N_of_ascii <$> list_ascii_of_string (String c rest)) in *.
  assert (HLc : L = N_of_ascii c :: (N_of_ascii <$> list_ascii_of_string rest)) by reflexivity.
  assert (Hfile : ServerApp.ascii_path L = Some (String c rest)) by (apply ascii_path_codes, Hs).
  clearbody L.
  assert (Hd' : (48 <= N_of_ascii c <= 57)%N).
  { unfold ServerApp.is_digit in Hd. apply andb_true_iff in Hd as [H1 H2].
    apply N.leb_le in H1, H2. lia. }
  assert (Hsp : ∀ k : N, k ∈ [47; 92]%N → ServerApp.split_on (λ x, x =? k)%N L = [L]).
  { intros k Hk. apply split_on_none. eapply Forall_impl; [exact Hc|].
    intros x Hx. apply N.eqb_neq. set_solver. }
  assert (Hsplit : ServerApp.split_on (λ x, x =? 47)%N (47%N :: L) = [[]; L]).
  { simpl. by rewrite Hsp by set_solver. }
  assert (Hnd : L ≠ [46; 46]%N ∧ L ≠ [46%N] ∧ L ≠ []) by (rewrite HLc; split_and!; intros [= E]; lia).
  assert (Hn : ServerApp.normalize [[]; L] = [L]).
  { unfold ServerApp.normalize, ServerApp.push_seg. simpl.
    rewrite !decide_False by tauto. done. }
  assert (Hup : ServerApp.up_path [L] = false).
  { unfold ServerApp.up_path. simpl. rewrite Hsp by set_solver. simpl.
    by rewrite bool_decide_eq_false_2 by tauto. }
  assert (Hdot : ServerApp.last_dot [L] = false).
  { unfold ServerApp.last_dot. simpl. rewrite HLc. apply bool_decide_eq_false_2. lia. }
  assert (H0 : bool_decide (0%N ∈ 47%N :: L) = false).
  { apply bool_decide_eq_false_2. intros [E|E]%elem_of_cons; [done|].
    eapply Forall_forall in Hc; [|exact E]. naive_solver. }
  assert (Hlast : bool_decide (last (47%N :: L) = Some 47%N) = false).
  { apply bool_decide_eq_false_2. rewrite last_cons. destruct (last L) as [x|] eqn:Hx; [|rewrite HLc, last_cons in Hx; by destruct (last _)].
    intros [= ->]. apply last_Some_elem_of in Hx. eapply Forall_forall in Hc; [|exact Hx]. naive_solver. }
  rewrite Hsplit, Hn, Hup, Hdot, H0, Hlast. simpl. by rewrite Hfile.
Qed.

Lemma pretty_N_go_digits x s :
  Forall (λ c, ServerApp.is_digit c = true) (list_ascii_of_string s) →
  Forall (λ c, ServerApp.is_digit c = true) (list_ascii_of_string (pretty_N_go x s)) ∧
  (String.length s <= String.length (pretty_N_go x s))%nat.
Proof.
  revert s. induction (N.lt_wf_0 x) as [x _ IH]; intros s Hs.
  destruct (decide (x = 0%N)) as [->|Hx]; [by rewrite pretty_N_go_0|].
  rewrite pretty_N_go_step by lia.
  destruct (IH (x `div` 10)%N ltac:(apply N.div_lt; lia)
              (String (pretty_N_char (x `mod` 10)) s)) as [H1 H2].
  - constructor; [|done]. unfold pretty_N_char. by repeat case_match.
  - split; [done|]. simpl in H2. lia.
Qed.

(** multer's name [<Date.now()>-<originalname>] starts with a digit,
    and is safe when the original name is. *)
Lemma multer_filename_safe now f :
  name_safe (originalname f) = true →
  ∃ c rest, Routes.multer_filename now f = String c rest ∧ ServerApp.is_digit c = true ∧
    name_safe (Routes.multer_filename now f) = true.
Proof.
  intros Hs. unfold Routes.multer_filename.
  assert (Hp : Forall (λ c, ServerApp.is_digit c = true) (list_ascii_of_string (pretty (Z.to_N now))) ∧
            pretty (Z.to_N now) ≠ ""%string).
  { unfold pretty, pretty_N. case_decide; [split; [by repeat constructor|done]|].
    rewrite pretty_N_go_step by lia.
    destruct (pretty_N_go_digits (Z.to_N now `div` 10)%N
                (String (pretty_N_char (Z.to_N now `mod` 10)) "")) as [H1 H2].
    { constructor; [|done]. unfold pretty_N_char. by repeat case_match. }
    split; [done|]. intros E. rewrite E in H2. simpl in H2. lia. }
  destruct Hp as [Hd Hne]. destruct (pretty (Z.to_N now)) as [|c rest] eqn:E; [done|].
  exists c, (rest ++ "-" ++ originalname f)%string. split; [done|].
  inversion Hd as [|? ? Hc Hr]; subst. split; [done|].
  unfold name_safe. simpl. rewrite list_ascii_of_string_app, forallb_app. simpl.
  change ("" ++ originalname f)%string with (originalname f).
  unfold name_safe in Hs. rewrite Hs, !andb_true_r.
  assert (Hdig : ∀ d, ServerApp.is_digit d = true → safe_char d = true).
  { intros d Hdd. unfold ServerApp.is_digit in Hdd. apply andb_true_iff in Hdd as [H1 H2].
    apply N.leb_le in H1, H2. unfold safe_char. apply andb_true_iff. split; [|apply N.ltb_lt; lia].
    apply negb_true_iff, bool_decide_eq_false.
    intros Hm. rewrite <-(ascii_N_embedding d) in Hm.
    repeat (apply elem_of_cons in Hm as [Hm|Hm]; [apply (f_equal N_of_ascii) in Hm;
      rewrite ascii_N_embedding in Hm; cbn in Hm; lia|]). by apply elem_of_nil in Hm. }
  rewrite Hdig by done. simpl. apply forallb_forall. intros d Hd'.
  apply Hdig. apply list_elem_of_In in Hd'. eapply Forall_forall in Hr; [exact Hr|exact Hd'].
Qed.

End app_lemmas.

(** ** Lemmas on the task router's photo routes *)

Section dispatch_lemmas.
Context `{TokenVerifier}.
Import TaskController.

(** A successful upload through the router answers the URL of the file
    multer named. *)
Lemma dispatch_upload_url db rq id f cap db' c r :
  Routes.rq_route rq = Routes.UploadPhoto id (Some f) cap →
  Routes.dispatch db rq = (db', Success c (PPhoto r)) →
  reply_imageUrl r = ("/uploads/" ++ Routes.multer_filename (Routes.rq_now rq) f)%string.
Proof.
  intros Hr. unfold Routes.dispatch. rewrite Hr.
  destruct (Auth.protect _ _ _) as [[]|u]; [by intros [=]..|]. cbn -[Http.run uploadTaskPhoto].
  intros Hrun. by apply uploadTaskPhoto_success_files in Hrun as [_ ->].
Qed.

(** A successful photo delete through the router removes the photo's
    file. *)
Lemma dispatch_delete_file db rq id pid n t p url db' c :
  Routes.rq_route rq = Routes.DeletePhoto id pid →
  ObjectId.cast id = Some n → db_tasks db !! n = Some t →
  find_photo (photos t) pid = Some p → imageUrl p = Some url →
  Routes.dispatch db rq = (db', Success c PEmpty) →
  strip_leading_slash url ∉ db_files db'.
Proof.
  intros Hr Hc Ht Hp Hu. unfold Routes.dispatch. rewrite Hr.
  destruct (Auth.protect _ _ _) as [[]|u]; [by intros [=]..|]. cbn -[Http.run deleteTaskPhoto].
  rewrite (deleteTaskPhoto_run u id pid n) by done. rewrite Ht.
  case_decide; [by intros [=]|]. rewrite Hp, Hu.
  case_decide; [|by intros [=]]. intros [= <-]. simpl. set_solver.
Qed.

End dispatch_lemmas.

(** ** The multer file-name collision *)

Section collision.
Context `{TokenVerifier}.
Import TaskController.

(** C27 (finding): two uploads of files with the same name in the same
    millisecond get the same multer file name, so both photos point to
    one file.  Once a delete of the first photo succeeds the file is
    gone, and from then on an authorized request to delete the second
    photo answers 500 and leaves the server as it is: it is a fixed
    point of every retry, so the photo can never be deleted. *)
Theorem upload_filename_collision db db1 db2 db3 rq1 rq2 rq3 rq id1 id2 f cap1 cap2 c1 c2 c3 r1 r2
    tid1 pid1 n1 t1 p1 id pid n t p u :
  Routes.rq_route rq1 = Routes.UploadPhoto id1 (Some f) cap1 →
  Routes.rq_route rq2 = Routes.UploadPhoto id2 (Some f) cap2 →
  Routes.rq_now rq2 = Routes.rq_now rq1 →
  Routes.dispatch db rq1 = (db1, Success c1 (PPhoto r1)) →
  Routes.dispatch db1 rq2 = (db2, Success c2 (PPhoto r2)) →
  Routes.rq_route rq3 = Routes.DeletePhoto tid1 pid1 →
  ObjectId.cast tid1 = Some n1 → db_tasks db2 !! n1 = Some t1 →
  find_photo (photos t1) pid1 = Some p1 → imageUrl p1 = Some (reply_imageUrl r1) →
  Routes.dispatch db2 rq3 = (db3, Success c3 PEmpty) →
  Routes.rq_route rq = Routes.DeletePhoto id pid →
  Auth.protect db3 (Routes.rq_now rq) (Routes.rq_authorization rq) = inr u →
  ObjectId.cast id = Some n → db_tasks db3 !! n = Some t → ¬ not_admin_nor_assignee u t →
  find_photo (photos t) pid = Some p → imageUrl p = Some (reply_imageUrl r2) →
  reply_imageUrl r1 = reply_imageUrl r2 ∧
  Routes.dispatch db3 rq = (db3, Failure 500 (exn_message (FsError "ENOENT"))) ∧
  ∀ k, Nat.iter k (λ d, fst (Routes.dispatch d rq)) db3 = db3.
Proof.
  intros Hr1 Hr2 Hnow Hd1 Hd2 Hr3 Hc1 Ht1 Hp1 Hu1 Hd3 Hr Hpr Hc Ht Hg Hp Hu.
  assert (Hurl : reply_imageUrl r1 = reply_imageUrl r2).
  { rewrite (dispatch_upload_url _ _ _ _ _ _ _ _ Hr1 Hd1), (dispatch_upload_url _ _ _ _ _ _ _ _ Hr2 Hd2).
    by rewrite Hnow. }
  pose proof (dispatch_delete_file _ _ _ _ _ _ _ _ _ _ Hr3 Hc1 Ht1 Hp1 Hu1 Hd3) as Hgone.
  assert (Hstep : Routes.dispatch db3 rq = (db3, Failure 500 (exn_message (FsError "ENOENT")))).
  { unfold Routes.dispatch. rewrite Hpr, Hr. cbn -[Http.run deleteTaskPhoto].
    eapply deleteTaskPhoto_file_gone; [done..|]. by rewrite <-Hurl. }
  split_and!; [done|done|]. intros k. induction k as [|k IH]; [done|].
  simpl. by rewrite IH, Hstep.
Qed.

End collision.

(** ** Theorems: the static route and the task routes together *)

Section app_theorems.
Context `{TokenSigner}.
Import TaskController ServerApp.

(** C3: a photo uploaded through [POST /api/tasks/:id/photos] is served
    at the URL the reply gives, when the uploaded file's name has none
    of the characters the URL handling reads specially (['?'], ['#'],
    ['%']; multer keeps only a base name, without ['/'] or ['\']):
    after a successful upload, a [GET] of the reply's [imageUrl]
    reaches [express.static], which answers the file multer wrote
    under [uploads/], and leaves the server as it is. *)
Theorem upload_then_served s s' now hdr id f cap c r :
  name_safe (originalname f) = true →
  app s now (ApiCall hdr (TaskApi (Routes.UploadPhoto id (Some f) cap))) =
    (s', ApiOut (inr (Success c (PPhoto r)))) →
  app s' now (StaticGet (reply_imageUrl r)) =
    (s', StaticOut (ServeFile (Routes.upload_path (Routes.multer_filename now f)))).
Proof.
  intros Hsafe. unfold app, serve, Routes.dispatch. simpl Routes.rq_now.
  destruct (Auth.protect _ _ _) as [[]|u]; [by intros [=]..|].
  cbn -[Http.run uploadTaskPhoto]. destruct (Http.run _ _) as [db' rep] eqn:Hrun. intros [= <- ->].
  apply uploadTaskPhoto_success_files in Hrun as [Hf ->]. simpl.
  destruct (multer_filename_safe now f Hsafe) as (c0 & rest & E & Hd & Hs).
  rewrite (serve_static_upload _ _ c0 rest E Hd Hs), bool_decide_eq_true_2; [done|].
  rewrite Hf. simpl. set_solver.
Qed.

(** Deleting a photo through [DELETE /api/tasks/:id/photos/:photoId] takes
    its file off the static route: once the delete of a photo whose
    [imageUrl] is [/uploads/<fn>] succeeds (as for the photos of an
    upload, [fn] starting with a digit and safe), that URL answers 404. *)
Theorem delete_then_not_served s s' now hdr id pid n t p fn c0 rest c :
  ObjectId.cast id = Some n → db_tasks (srv_db s) !! n = Some t →
  find_photo (photos t) pid = Some p → imageUrl p = Some ("/uploads/" ++ fn)%string →
  fn = String c0 rest → is_digit c0 = true → name_safe fn = true →
  app s now (ApiCall hdr (TaskApi (Routes.DeletePhoto id pid))) =
    (s', ApiOut (inr (Success c PEmpty))) →
  app s' now (StaticGet ("/uploads/" ++ fn)) = (s', StaticOut NotFound404).
Proof.
  intros Hc Ht Hp Hu Efn Hd Hs. unfold app, serve, Routes.dispatch. simpl Routes.rq_now.
  destruct (Auth.protect _ _ _) as [[]|u]; [by intros [=]..|]. cbn -[Http.run deleteTaskPhoto].
  rewrite (deleteTaskPhoto_run u id pid n) by done. rewrite Ht.
  case_decide; [by intros [=]|]. rewrite Hp, Hu.
  case_decide; [|by intros [=]]. intros [= <-]. simpl.
  rewrite (serve_static_upload _ _ c0 rest Efn Hd Hs), bool_decide_eq_false_2; [done|].
  unfold upload_path. simpl. set_solver.
Qed.

(** The static route asks for no token: the file of every upload that
    passed [protect] is served to anyone at [/uploads/<name>], also when
    the upload was refused (403, 404, 400 or 500) and no photo refers
    to it (for a name without the characters the URL reads
    specially). *)
Theorem upload_file_public s s' now now' hdr u id f cap a :
  name_safe (originalname f) = true → Auth.protect (srv_db s) now hdr = inr u →
  app s now (ApiCall hdr (TaskApi (Routes.UploadPhoto id (Some f) cap))) = (s', a) →
  app s' now' (StaticGet ("/uploads/" ++ Routes.multer_filename now f)) =
    (s', StaticOut (ServeFile (Routes.upload_path (Routes.multer_filename now f)))).
Proof.
  intros Hsafe Hp. unfold app, serve, Routes.dispatch. cbn [Routes.rq_now Routes.rq_authorization]. rewrite Hp.
  cbn -[Http.run uploadTaskPhoto]. destruct (Http.run _ _) as [db1 rep] eqn:Hrun. intros [= <- _]. simpl.
  destruct (multer_filename_safe now f Hsafe) as (c0 & rest & E & Hd & Hs).
  rewrite (serve_static_upload _ _ c0 rest E Hd Hs), bool_decide_eq_true_2; [done|]. pose proof (f_equal (db_files ∘ fst) Hrun) as Hf. simpl in Hf.
  rewrite uploadTaskPhoto_files in Hf. rewrite <-Hf. set_solver.
Qed.

(** A name with ['#'] is not served at its own URL: the browser drops
    the fragment, so [/uploads/5-report#1.png] asks for
    [uploads/5-report], whatever files there are. *)
Example hash_name_not_served files :
  ServerApp.serve_static files "/uploads/5-report#1.png" ≠ ServeFile "uploads/5-report#1.png".
Proof. unfold ServerApp.serve_static. simpl. by case_bool_decide. Qed.

End app_theorems.
