(* ===== verification/AuthClient.v ===== *)
(** * AuthClient: the session of [contexts/AuthContext.tsx] and the requests of [lib/api.ts]

    [AuthProvider] keeps [currentUser], [allUsers], [devices],
    [isLoading] and [token] in React state; the token also lives in
    [localStorage] and, after [setAuthToken], in the axios instance's
    default [Authorization] header.  Every request of [lib/api.ts] goes
    through the request interceptor, which overwrites the header with
    [`Bearer ${localStorage.getItem('token')}`] when that item is set.

    An operation of the context is a program [Prog] over API calls: it
    either finishes, or sends one request (with the header computed from
    the browser state at that point) and continues with the answer.
    [exec] runs a program against the server model of [AuthServer] (the
    auth routes, and the task routes of [Routes.dispatch]).  The two
    requests of [Promise.all] in [login] are sent one after the other,
    which is one of the orders the browser may use; both are reads. *)

From S2P Require Import Prelude ObjectId Schema Http Store Auth TaskController Routes ClientMirror ClientServer AuthServer.
Import Schema Http Store TaskController Routes ClientMirror AuthServer.

Module AuthClient.

(** The browser-side state of the session. *)
Record St := mkSt {
  currentUser : option CUser;
  allUsers : list CUser;
  devices : list Device;
  isLoading : bool;
  token : option string;
  ls_token : option string;
  ax_auth : option string;
}.

Definition set_user (u : option CUser) (st : St) : St :=
  mkSt u (allUsers st) (devices st) (isLoading st) (token st) (ls_token st) (ax_auth st).
Definition set_users (us : list CUser) (st : St) : St :=
  mkSt (currentUser st) us (devices st) (isLoading st) (token st) (ls_token st) (ax_auth st).
Definition set_devices (ds : list Device) (st : St) : St :=
  mkSt (currentUser st) (allUsers st) ds (isLoading st) (token st) (ls_token st) (ax_auth st).
Definition set_loading (b : bool) (st : St) : St :=
  mkSt (currentUser st) (allUsers st) (devices st) b (token st) (ls_token st) (ax_auth st).
Definition set_token (t : option string) (st : St) : St :=
  mkSt (currentUser st) (allUsers st) (devices st) (isLoading st) t (ls_token st) (ax_auth st).
Definition set_ls (t : option string) (st : St) : St :=
  mkSt (currentUser st) (allUsers st) (devices st) (isLoading st) (token st) t (ax_auth st).
Definition set_ax (h : option string) (st : St) : St :=
  mkSt (currentUser st) (allUsers st) (devices st) (isLoading st) (token st) (ls_token st) h.

(** [if (token)]: a string is truthy when it is not empty. *)
Definition truthy (o : option string) : option string :=
  match o with
  | Some t => if decide (t = ""%string) then None else Some t
  | None => None
  end.

(** The header a request carries: the interceptor's
    [`Bearer ${token}`] when [localStorage] holds a token, otherwise the
    request's own header, otherwise the instance default. *)
Definition request_header (st : St) (explicit : option string) : option string :=
  match truthy (ls_token st) with
  | Some t => Some ("Bearer " ++ t)%string
  | None => match explicit with Some h => Some h | None => ax_auth st end
  end.

(** [api.setAuthToken(token)]: sets or deletes the default header. *)
Definition setAuthToken (tok : option string) (st : St) : St :=
  set_ax ((λ t, "Bearer " ++ t)%string <$> truthy tok) st.

(** The user object of an answer, as the client stores it. *)
Definition cuser_of (u : User) : CUser :=
  mkCUser (ObjectId.to_hex (user_id u)) (name u) (email u) (role u).

(** A program over API calls. *)
Inductive Prog (A : Type) : Type :=
| Done (a : A)
| Send (hdr : option string) (call : Api) (k : Answer → Prog A).
Arguments Done {A}.
Arguments Send {A}.

(** [await]: run [p], continue with its result. *)
Fixpoint pbind {A B} (p : Prog A) (f : A → Prog B) : Prog B :=
  match p with
  | Done a => f a
  | Send hdr c k => Send hdr c (λ ans, pbind (k ans) f)
  end.

(** [error.response?.data?.message || dflt]: an exception raised in the
    client (a reply of the wrong shape) has no [response]. *)
Definition err_msg (dflt : string) (a : Answer) : string :=
  match a with
  | inl (Failure _ m) | inr (Failure _ m) => if decide (m = ""%string) then dflt else m
  | _ => dflt
  end.

Definition is_success (a : Answer) : bool :=
  match a with inl (Success _ _) | inr (Success _ _) => true | _ => false end.

Definition session_of (a : Answer) : option (string * User) :=
  match a with inl (Success _ (PSession t u)) => Some (t, u) | _ => None end.

(** [usersResponse.data.users || []]. *)
Definition users_of (a : Answer) : list CUser :=
  match a with inl (Success _ (PUsers us)) => cuser_of <$> us | _ => [] end.

(** [devicesResponse.data.data || []]. *)
Definition devices_of (a : Answer) : list Device :=
  match a with inl (Success _ (PDevices ds)) => ds | _ => [] end.

(** Clearing the session after a failed login or initialisation. *)
Definition clear_session (st : St) : St :=
  set_devices [] (set_users [] (set_user None (set_token None (set_ls None st)))).

(** [initializeAuth] (lines 50-93), run once at mount. *)
Definition initializeAuth (st : St) : Prog St :=
  match truthy (ls_token st) with
  | None => Done (set_loading false st)
  | Some tok =>
      let st1 := setAuthToken (Some tok) (set_token (Some tok) st) in
      Send (request_header st1 None) (AuthApi GetProfile) (λ a,
        match a with
        | inl (Success _ (PUser u)) =>
            let st2 := set_user (Some (cuser_of u)) st1 in
            let devs st3 :=
              Send (request_header st3 None) (AuthApi GetDevices) (λ d,
                Done (set_loading false (set_devices (devices_of d) st3))) in
            if decide (role u = admin) then
              Send (request_header st2 None) (AuthApi GetAllUsers) (λ ua,
                devs (set_users (users_of ua) st2))
            else devs st2
        | _ => Done (set_loading false (clear_session st1))
        end)
  end.

(** [login] (lines 98-145): the session, then the devices and (for an
    admin) the users; the error of a failed login is rethrown as
    [Error(message || 'Login failed')]. *)
Definition login (em pw : string) (st : St) : Prog (St * option string) :=
  let st0 := set_loading true st in
  Send (request_header st0 None) (AuthApi (Login em pw)) (λ a,
    match session_of a with
    | None => Done (set_loading false (clear_session st0), Some (err_msg "Login failed" a))
    | Some (tok, u) =>
        let st1 := set_user (Some (cuser_of u))
                     (setAuthToken (Some tok) (set_token (Some tok) (set_ls (Some tok) st0))) in
        Send (request_header st1 None) (AuthApi GetDevices) (λ d,
          if decide (role u = admin) then
            Send (request_header st1 None) (AuthApi GetAllUsers) (λ ua,
              let st2 := if is_success d && is_success ua
                         then set_users (users_of ua) (set_devices (devices_of d) st1)
                         else set_users [] (set_devices [] st1) in
              Done (set_loading false st2, None))
          else
            let st2 := if is_success d then set_devices (devices_of d) st1
                       else set_devices [] st1 in
            Done (set_loading false st2, None))
    end).

(** [register] (lines 147-167): no [setAuthToken], no devices; a failed
    user-list fetch is rethrown after the session was set. *)
Definition register (nm em pw : string) (r : Role) (st : St) : Prog (St * option string) :=
  Send (request_header st None) (AuthApi (Register nm em pw r)) (λ a,
    match session_of a with
    | None => Done (st, Some (err_msg "Registration failed" a))
    | Some (tok, u) =>
        let st1 := set_user (Some (cuser_of u)) (set_token (Some tok) (set_ls (Some tok) st)) in
        if decide (role u = admin) then
          Send (request_header st1 None) (AuthApi GetAllUsers) (λ ua,
            if is_success ua then Done (set_users (users_of ua) st1, None)
            else Done (st1, Some (err_msg "Registration failed" ua)))
        else Done (st1, None)
    end).

(** [currentUser.id !== userId && currentUser.role !== 'admin']. *)
Definition may_update (cu : CUser) (userId : string) : Prop :=
  cu_id cu = userId ∨ cu_role cu = admin.

(** [updateUser] (lines 169-188).  The request is [PUT /auth/profile]:
    [userId] only enters the guard.  The guard's own [Error] has no
    [response], so the caller sees ['Failed to update user']. *)
Definition updateUser (userId : string) (p : ProfilePatch) (st : St) : Prog (St * option string) :=
  match currentUser st with
  | Some cu =>
      if decide (may_update cu userId) then
        Send (request_header st None) (AuthApi (UpdateProfile p)) (λ a,
          if is_success a then
            let st1 := set_user (match a with
                                 | inl (Success _ (PUser u)) => Some (cuser_of u)
                                 | _ => None
                                 end) st in
            Send (request_header st1 None) (AuthApi GetAllUsers) (λ ua,
              if is_success ua then Done (set_users (users_of ua) st1, None)
              else Done (st1, Some (err_msg "Failed to update user" ua)))
          else Done (st, Some (err_msg "Failed to update user" a)))
      else Done (st, Some "Failed to update user"%string)
  | None => Done (st, Some "Failed to update user"%string)
  end.

(** [deleteUser] (lines 190-212): admins only, never oneself; the
    guards' messages are lost the same way. *)
Definition deleteUser (userId : string) (st : St) : Prog (St * option string) :=
  match currentUser st with
  | Some cu =>
      if decide (cu_role cu = admin ∧ cu_id cu ≠ userId) then
        Send (request_header st None) (AuthApi (DeleteUser userId)) (λ a,
          if is_success a then
            Send (request_header st None) (AuthApi GetAllUsers) (λ ua,
              if is_success ua then Done (set_users (users_of ua) st, None)
              else Done (st, Some (err_msg "Failed to delete user" ua)))
          else Done (st, Some (err_msg "Failed to delete user" a)))
      else Done (st, Some "Failed to delete user"%string)
  | None => Done (st, Some "Failed to delete user"%string)
  end.

(** [logout] (lines 214-225): the axios default header is not reset. *)
Definition logout (st : St) : St :=
  set_users [] (set_devices [] (set_user None (set_token None (set_ls None st)))).

(** [isAuthenticated: !!currentUser], [isAdmin: currentUser?.role === 'admin']. *)
Definition isAuthenticated (st : St) : bool := bool_decide (is_Some (currentUser st)).
Definition isAdmin (st : St) : bool :=
  match currentUser st with Some u => bool_decide (cu_role u = admin) | None => false end.

(** The [fetchTasks] effect of [TaskProvider]: [api.getTasks()], then
    [ClientMirror.fetchTasks] on the answer. *)
Definition task_reply (a : Answer) : Reply Payload :=
  match a with inr r => r | inl _ => Failure 500 "" end.

Definition fetch (st : St) (cache : list CTask) : Prog (list CTask) :=
  Send (request_header st None) (TaskApi GetTasks) (λ a, Done (fetchTasks (task_reply a) cache)).

(** The browser after a fresh start: nothing stored. *)
Definition fresh_browser : St := mkSt None [] [] true (None) None None.

(** The state [useState(localStorage.getItem('token'))] starts from. *)
Definition boot (stored : option string) : St := mkSt None [] [] true stored stored None.

Section exec.
Context `{TokenSigner}.

(** Run a program against the server, every request at time [now]. *)
Fixpoint exec {A} (now : Date) (s : Server) (p : Prog A) : Server * A :=
  match p with
  | Done a => (s, a)
  | Send hdr c k => let '(s', a) := serve s hdr now c in exec now s' (k a)
  end.

(** [App] at mount: [TaskProvider]'s fetch (a child's effect runs
    first) and [AuthProvider]'s [initializeAuth]. *)
Definition mount (now : Date) (s : Server) (stored : option string)
    : Server * (St * list CTask) :=
  let '(s1, cache) := exec now s (fetch (boot stored) []) in
  let '(s2, st) := exec now s1 (initializeAuth (boot stored)) in
  (s2, (st, cache)).

Lemma exec_pbind {A B} now s (p : Prog A) (f : A → Prog B) :
  exec now s (pbind p f) = let '(s', a) := exec now s p in exec now s' (f a).
Proof.
  revert s. induction p as [a|hdr c k IH]; intros s; [done|]. simpl.
  destruct (serve s hdr now c) as [s' ans]. apply IH.
Qed.
End exec.

End AuthClient.

(** ** Lemmas on sessions *)

Section session_lemmas.
Context `{TokenSigner}.
Import AuthClient ClientServer.

Lemma find_by_email_Some db em u :
  keyed db → find_by_email db em = Some u → db_users db !! user_id u = Some u ∧ email u = em.
Proof.
  intros Hk. unfold find_by_email.
  destruct (filter _ _) as [|[k v] l] eqn:E; simpl; [done|]. intros [= <-].
  assert ((k, v) ∈ filter (λ p : Id * User, email p.2 = em) (map_to_list (db_users db))) as Hin
    by (rewrite E; left).
  apply list_elem_of_filter in Hin as [Hem Hin%elem_of_map_to_list]. simpl in Hem.
  by rewrite (keyed_user _ _ _ Hk Hin).
Qed.

(** The read-only auth routes leave the server as it was. *)
Lemma serve_auth_read s hdr now r :
  r = GetProfile ∨ r = GetDevices ∨ r = GetAllUsers →
  serve s hdr now (AuthApi r) = (s, snd (serve s hdr now (AuthApi r))).
Proof.
  intros Hr. unfold serve, auth_dispatch, protected, admin_gate.
  destruct Hr as [->|[->| ->]]; repeat case_match; simplify_eq; done.
Qed.

Lemma serve_login s hdr now em pw u :
  find_by_email (srv_db s) em = Some u → srv_pw s !! user_id u = Some pw →
  serve s hdr now (AuthApi (Login em pw)) =
    (s, inl (Success 200 (PSession (jwt_sign now (user_id u)) u))).
Proof. intros Hf Hp. simpl. unfold AuthServer.login. rewrite Hf. by rewrite decide_True. Qed.

(** A login with the right password: the server is unchanged, the
    token is stored and installed as the default header, and the user
    becomes [currentUser]. *)
Lemma login_session now s em pw st u :
  find_by_email (srv_db s) em = Some u → srv_pw s !! user_id u = Some pw →
  ∃ st', exec now s (login em pw st) = (s, (st', None)) ∧
    currentUser st' = Some (cuser_of u) ∧
    ls_token st' = Some (jwt_sign now (user_id u)) ∧
    ax_auth st' = Some ("Bearer " ++ jwt_sign now (user_id u))%string.
Proof.
  intros Hf Hp. unfold login. cbn [exec]. erewrite (serve_login s _ now em pw u Hf Hp).
  cbn [exec session_of]. erewrite (serve_auth_read s _ now GetDevices) by auto.
  cbn [exec]. case_decide.
  - cbn [exec]. erewrite (serve_auth_read s _ now GetAllUsers) by auto. cbn [exec].
    eexists. split; [reflexivity|].
    repeat case_match; simpl; by rewrite decide_False by apply jwt_sign_nonempty.
  - eexists. split; [reflexivity|]. repeat case_match; simpl; by rewrite decide_False by apply jwt_sign_nonempty.
Qed.

(** The header [`Bearer ${token}`] of a signed token authenticates its
    user while the token is valid. *)
Lemma protect_signed db t t' u :
  keyed db → db_users db !! user_id u = Some u → (user_id u < ObjectId.bound)%N →
  (t <= t' < t + jwt_lifetime)%Z →
  Auth.protect db t' (Some ("Bearer " ++ jwt_sign t (user_id u))%string) = inr u.
Proof.
  intros Hk Hu Hb Ht. unfold Auth.protect.
  rewrite bearer_token_roundtrip.
  - rewrite (jwt_sign_verify t t') by done. rewrite ObjectId.cast_to_hex by done.
    unfold find_user. by rewrite Hu.
  - apply jwt_sign_nonempty.
  - intros c Hc. exact (jwt_sign_no_space t (user_id u) c Hc).
Qed.
End session_lemmas.

(** ** Theorems of the session *)

Section session_theorems.
Context `{TokenSigner}.
Import AuthClient ClientServer.

(** C14: the session works as the spec's control flow says.  After a
    login with the right password, every request the client sends while
    the token is valid (whatever header the call adds itself) is
    authenticated by [protect] as the user who logged in. *)
Theorem login_then_authenticated now t' s em pw st u :
  keyed (srv_db s) → find_by_email (srv_db s) em = Some u → srv_pw s !! user_id u = Some pw →
  (user_id u < ObjectId.bound)%N → (now <= t' < now + jwt_lifetime)%Z →
  ∃ st', exec now s (login em pw st) = (s, (st', None)) ∧
    currentUser st' = Some (cuser_of u) ∧
    ∀ explicit, Auth.protect (srv_db s) t' (request_header st' explicit) = inr u.
Proof.
  intros Hk Hf Hp Hb Ht. destruct (login_session now s em pw st u) as (st' & Hx & Hu & Hls & _); [done..|].
  exists st'. split_and!; [done|done|]. intros explicit.
  unfold request_header. rewrite Hls. unfold truthy.
  rewrite decide_False by apply jwt_sign_nonempty.
  apply protect_signed; [done| |done|done]. by apply (find_by_email_Some _ em).
Qed.

(** C32 (finding): logging out does not log the client out of the API.
    [logout] clears [localStorage] and the React state but never calls
    [setAuthToken(null)]: the axios default header still carries the
    token, so every later request (the task list, the user list) is
    authenticated as the user who logged out until the token expires. *)
Theorem logout_still_authenticated now t' s em pw st u :
  keyed (srv_db s) → find_by_email (srv_db s) em = Some u → srv_pw s !! user_id u = Some pw →
  (user_id u < ObjectId.bound)%N → (now <= t' < now + jwt_lifetime)%Z →
  ∃ st', exec now s (login em pw st) = (s, (st', None)) ∧
    currentUser (logout st') = None ∧ ls_token (logout st') = None ∧
    Auth.protect (srv_db s) t' (request_header (logout st') None) = inr u.
Proof.
  intros Hk Hf Hp Hb Ht. destruct (login_session now s em pw st u) as (st' & Hx & _ & _ & Hax); [done..|].
  exists st'. split_and!; [done|done|done|]. unfold request_header. simpl. rewrite Hax.
  apply protect_signed; [done| |done|done]. by apply (find_by_email_Some _ em).
Qed.

(** C34 (finding): the first login of a browser shows no tasks.  The
    task list is fetched once, when [TaskProvider] mounts; in a browser
    with no stored token that request is refused (401) and the cache
    stays empty.  A later login succeeds, and a fetch with its token
    would return every task the user may see, but nothing fetches again
    before a reload of the page. *)
Theorem first_login_no_tasks now s em pw u :
  keyed (srv_db s) → find_by_email (srv_db s) em = Some u → srv_pw s !! user_id u = Some pw →
  (user_id u < ObjectId.bound)%N → (0 < jwt_lifetime)%Z →
  Forall (refs_exist (srv_db s)) (visible (srv_db s) u) →
  let '(s1, (st1, cache)) := mount now s None in
  cache = [] ∧
  ∃ st2, exec now s1 (login em pw st1) = (s1, (st2, None)) ∧
    currentUser st2 = Some (cuser_of u) ∧
    exec now s1 (fetch st2 []) = (s1, of_raw_task <$> visible (srv_db s) u).
Proof.
  intros Hk Hf Hp Hb Hl Hr. destruct s as [db pw']. simpl in *.
  change (mount now (mkServer db pw') None)
    with (mkServer db pw', (set_loading false (boot None), @nil CTask)).
  split; [done|].
  destruct (login_session now (mkServer db pw') em pw (set_loading false (boot None)) u)
    as (st2 & Hx & Hu & Hls & _); [done..|].
  exists st2. split_and!; [done|done|]. unfold fetch. cbn [exec serve].
  assert (Hhdr : request_header st2 None = Some ("Bearer " ++ jwt_sign now (user_id u))%string).
  { unfold request_header. rewrite Hls. unfold truthy. by rewrite decide_False by apply jwt_sign_nonempty. }
  rewrite Hhdr. unfold dispatch. simpl.
  rewrite (protect_signed db now now u) by (try apply (find_by_email_Some _ em); auto with lia).
  rewrite getTasks_reply. cbn [exec task_reply]. f_equal.
  rewrite <-(fetchTasks_getTasks u db [] Hk Hr). by rewrite getTasks_reply.
Qed.

(** C33 (finding): an admin who edits another user's profile edits their
    own.  [updateUser(userId, data)] checks [userId] against the current
    user, but the request is [PUT /auth/profile], which applies [data] to
    [req.user]: the other user's record is unchanged, the admin's own
    name and e-mail are overwritten, and the admin's session shows the
    overwritten record. *)
Theorem updateUser_edits_caller now s st cu adm v p :
  currentUser st = Some cu → cu_role cu = admin →
  Auth.protect (srv_db s) now (request_header st None) = inr adm →
  db_users (srv_db s) !! user_id v = Some v → user_id v ≠ user_id adm →
  let adm' := mkUser (user_id adm) (from_option id (name adm) (pp_name p))
                (from_option id (email adm) (pp_email p)) (role adm) (tasks adm) in
  let '(s', (st', _)) := exec now s (updateUser (ObjectId.to_hex (user_id v)) p st) in
  db_users (srv_db s') !! user_id v = Some v ∧
  db_users (srv_db s') !! user_id adm = Some adm' ∧
  currentUser st' = Some (cuser_of adm').
Proof.
  intros Hcu Hadm Hp Hv Hne. unfold updateUser. rewrite Hcu.
  rewrite decide_True by (right; done). cbn [exec serve auth_dispatch].
  unfold protected. rewrite Hp. unfold AuthServer.updateProfile. cbn [exec is_success].
  erewrite (serve_auth_read _ _ now GetAllUsers) by auto. cbn [exec].
  destruct (is_success _); simpl; (split; [by rewrite lookup_insert_ne|]);
    by rewrite lookup_insert_eq.
Qed.
End session_theorems.
