(* ===== verification/ClientRoutes.v ===== *)
(** * ClientRoutes: the pages of [App.tsx], [ProtectedRoute] and the sidebar

    [App.tsx] maps each path to an element: a page, a [<Navigate>] to
    another path, or a page wrapped in [<ProtectedRoute>] (with or
    without [requireAdmin]).  [ProtectedRoute] reads [isAuthenticated]
    and [isAdmin] of the session and either renders its child or
    navigates away.  [render] follows the navigations from a path to the
    page the browser ends on; the longest chain of navigations in the
    table has two steps, so two steps of fuel are enough (theorem
    [render_total]).  The sidebar ([components/Sidebar.tsx]) offers a
    set of links that depends on the role; the login form
    ([pages/Login.tsx]) checks its fields, calls [login] and navigates
    to [/dashboard]. *)

From S2P Require Import Prelude ObjectId Schema Http Store Auth TaskController Routes ClientMirror ClientServer AuthServer AuthClient.
Import Schema Store ClientMirror AuthServer AuthClient.

Module ClientRoutes.

(** The page components [App.tsx] imports. *)
Inductive Page :=
| LoginPage | RegisterPage | AdminDashboardPage | UsersPage
| UserDashboardPage | SettingsPage | NotFoundPage.

#[export] Instance Page_eq_dec : EqDecision Page.
Proof. solve_decision. Defined.

Inductive Element :=
| Render (p : Page)
| NavigateTo (path : string)
| Protected (requireAdmin : bool) (child : Element).

(** The [<Route>]s of [App.tsx] (lines 48-113). *)
Definition app_routes : list (string * Element) := [
  ("/login", Render LoginPage);
  ("/register", Render RegisterPage);
  ("/dashboard", Protected false (NavigateTo "/user-dashboard"));
  ("/admin-dashboard", Protected true (Render AdminDashboardPage));
  ("/users", Protected true (Render UsersPage));
  ("/task-management", Protected true (NavigateTo "/admin-dashboard"));
  ("/user-dashboard", Protected false (Render UserDashboardPage));
  ("/settings", Protected false (Render SettingsPage));
  ("/", NavigateTo "/login")]%string.

(** React Router matches a path without regard to case and with any
    number of trailing slashes ([caseSensitive] is false by default); the
    table's paths are lower case without a trailing slash.  (It also
    decodes percent-escapes of the location; no path of the table has a
    character a browser escapes, and escaped letters are not
    modelled.) *)
Definition lower_char (c : ascii) : ascii :=
  let n := N_of_ascii c in
  if (65 <=? n)%N && (n <=? 90)%N then ascii_of_N (n + 32) else c.

Definition lower_path (s : string) : string :=
  string_of_list_ascii (lower_char <$> list_ascii_of_string s).

Fixpoint drop_trailing_slashes (l : list ascii) : list ascii :=
  match l with
  | [] => []
  | c :: l' =>
      match drop_trailing_slashes l' with
      | [] => if ascii_dec c "/" then [] else [c]
      | l'' => c :: l''
      end
  end.

(** The key a location is matched with: lower case, trailing slashes
    dropped, the root staying ["/"]. *)
Definition route_key (path : string) : string :=
  match drop_trailing_slashes (list_ascii_of_string (lower_path path)) with
  | [] => if decide (path = ""%string) then ""%string else "/"%string
  | l => string_of_list_ascii l
  end.

(** The element of a path; [path="*"] renders [NotFound]. *)
Definition route_element (path : string) : Element :=
  match list_find (λ r, r.1 = route_key path) app_routes with
  | Some (_, (_, e)) => e
  | None => Render NotFoundPage
  end.

(** One render of an element: a page, or the path it navigates to.
    [ProtectedRoute] (lines 10-28) checks [isAuthenticated], then
    [requireAdmin && !isAdmin]. *)
Fixpoint step_element (isAuth isAdm : bool) (e : Element) : Page + string :=
  match e with
  | Render p => inl p
  | NavigateTo path => inr path
  | Protected ra c =>
      if negb isAuth then inr "/login"%string
      else if ra && negb isAdm then inr "/user-dashboard"%string
      else step_element isAuth isAdm c
  end.

(** The page the browser shows for [path], following navigations,
    with the [isAuthenticated] and [isAdmin] of [useAuth()]. *)
Fixpoint render (fuel : nat) (isAuth isAdm : bool) (path : string) : option Page :=
  match fuel with
  | O => None
  | S f =>
      match step_element isAuth isAdm (route_element path) with
      | inl p => Some p
      | inr path' => render f isAuth isAdm path'
      end
  end.

(** The page a session is shown. *)
Definition show (fuel : nat) (st : St) (path : string) : option Page :=
  render fuel (isAuthenticated st) (isAdmin st) path.

(** The pages only an admin should see, and those behind a login. *)
Definition admin_page (p : Page) : bool :=
  match p with AdminDashboardPage | UsersPage => true | _ => false end.
Definition member_page (p : Page) : bool :=
  match p with AdminDashboardPage | UsersPage | UserDashboardPage | SettingsPage => true | _ => false end.

(** A [<SidebarItem>]: its [to] path and query. *)
Record Link := mkLink { link_text : string; link_path : string; link_search : string }.

(** The items of [Sidebar] (lines 32-92): none without a user. *)
Definition sidebar_links (st : St) : list Link :=
  if negb (isAuthenticated st) then [] else
  let dashboardLink := if isAdmin st then "/admin-dashboard" else "/user-dashboard" in
  [mkLink "Dashboard" dashboardLink ""] ++
  (if isAdmin st then [mkLink "Task Management" "/admin-dashboard" "";
                       mkLink "Manage Users" "/users" ""] else []) ++
  (if isAdmin st then [] else [mkLink "Upload Task Photos" "/user-dashboard" "?tab=upload"]) ++
  [mkLink "Settings" "/settings" ""].

(** The outcome of the login form. *)
Inductive LoginOutcome :=
| FormError (msg : string)
| NavigatedTo (path : string).

(** [handleSubmit] of [Login.tsx] (lines 18-48). *)
Definition handleSubmit (em pw : string) (st : St) : Prog (St * LoginOutcome) :=
  if decide (em = ""%string ∨ pw = ""%string)
  then Done (st, FormError "Please enter both email and password")
  else pbind (login em pw st) (λ '(st', err),
         match err with
         | None => Done (st', NavigatedTo "/dashboard")
         | Some m => Done (st', FormError (if decide (m = ""%string) then "Invalid email or password" else m))
         end).

End ClientRoutes.

(** ** Lemmas on the route table *)

(** Destructs the membership of an element in the table into its nine
    cases. *)
Ltac route_cases Hin :=
  repeat (apply elem_of_cons in Hin as [Hin|Hin]); [..|by apply elem_of_nil in Hin].


Section route_lemmas.
Import ClientRoutes.

Lemma route_element_cases path :
  route_element path ∈ app_routes.*2 ∨ route_element path = Render NotFoundPage.
Proof.
  unfold route_element.
  destruct (list_find _ _) as [[i [q e]]|] eqn:E; [left|by right].
  apply list_find_Some in E as (Hl & _ & _). apply list_elem_of_fmap.
  exists (q, e). split; [done|]. by eapply list_elem_of_lookup_2.
Qed.

(** What [step_element] yields on an element of the table: a page only
    when the session may see it. *)
Lemma step_route_guarded a d path p :
  step_element a d (route_element path) = inl p →
  (member_page p = true → a = true) ∧ (admin_page p = true → d = true).
Proof.
  destruct (route_element_cases path) as [Hin| ->]; [|intros [= <-]; done].
  simpl in Hin. route_cases Hin; rewrite Hin; destruct a, d; simpl; intros [= <-]; done.
Qed.
End route_lemmas.

(** ** Theorems of the client router *)

Section route_theorems.
Import ClientRoutes.

(** C17: rendering terminates.  Every path, in every session, ends on a
    page after at most two renders (the longest chain of navigations is
    [/task-management] to [/admin-dashboard] or [/user-dashboard], and
    [/dashboard] to [/user-dashboard]), and more fuel changes nothing. *)
Theorem render_total st path : ∃ p, ∀ n, (2 <= n)%nat → show n st path = Some p.
Proof.
  unfold show. destruct (isAuthenticated st), (isAdmin st);
  (destruct (route_element_cases path) as [Hin|Hnf]; [simpl in Hin; route_cases Hin|]);
  eexists; intros [|[|n]] Hn; try lia; cbn [render]; rewrite ?Hin, ?Hnf; reflexivity.
Qed.

(** C16: the client's route guard.  Whatever the path and the number of
    renders, the browser shows a page behind a login only to an
    authenticated session, and the admin dashboard or the user
    management page only to an admin. *)
Theorem render_guarded n st path p :
  show n st path = Some p →
  (member_page p = true → isAuthenticated st = true) ∧ (admin_page p = true → isAdmin st = true).
Proof.
  unfold show. generalize (isAuthenticated st) (isAdmin st). intros a d.
  revert path. induction n as [|n IH]; intros path; [done|]. cbn [render].
  destruct (step_element a d (route_element path)) as [q|path'] eqn:E.
  - intros [= <-]. by apply (step_route_guarded a d path).
  - apply IH.
Qed.

Section session_route_theorems.
Context `{TokenSigner}.

(** C39 (finding): an admin who logs in lands on the user dashboard.
    The login form navigates to [/dashboard], whose route (commented
    "redirects based on user role") always navigates to
    [/user-dashboard]; the admin's own dashboard is the sidebar's
    [/admin-dashboard]. *)
Theorem admin_login_lands_on_user_dashboard now s em pw st u :
  find_by_email (srv_db s) em = Some u → srv_pw s !! user_id u = Some pw →
  em ≠ ""%string → pw ≠ ""%string → role u = admin →
  ∃ st', exec now s (handleSubmit em pw st) = (s, (st', NavigatedTo "/dashboard")) ∧
    show 2 st' "/dashboard" = Some UserDashboardPage ∧
    link_path <$> head (sidebar_links st') = Some "/admin-dashboard"%string.
Proof.
  intros Hf Hp Hem Hpw Hr. unfold handleSubmit. rewrite decide_False by naive_solver.
  rewrite exec_pbind. destruct (login_session now s em pw st u) as (st' & -> & Hu & _); [done..|].
  exists st'. cbn. split; [done|].
  assert (isAuthenticated st' = true ∧ isAdmin st' = true) as [Ha Hd].
  { unfold isAuthenticated, isAdmin. rewrite Hu. simpl. rewrite Hr. done. }
  unfold show, sidebar_links. rewrite Ha, Hd. done.
Qed.

(** C40 (finding): reloading a page logs the user out of the interface.
    After a reload the session starts with the stored token but no
    [currentUser] while [initializeAuth] runs ([isLoading] is true);
    [ProtectedRoute] does not wait for it and navigates every protected
    path to [/login] (with [replace]), although [initializeAuth] then
    restores the user from the still valid token. *)
Theorem reload_shows_login now s t0 u path :
  keyed (srv_db s) → db_users (srv_db s) !! user_id u = Some u → (user_id u < ObjectId.bound)%N →
  (t0 <= now < t0 + jwt_lifetime)%Z →
  path ∈ ["/dashboard"; "/admin-dashboard"; "/users"; "/task-management";
          "/user-dashboard"; "/settings"]%string →
  let st0 := boot (Some (jwt_sign t0 (user_id u))) in
  isLoading st0 = true ∧ show 2 st0 path = Some LoginPage ∧
  ∃ st', exec now s (initializeAuth st0) = (s, st') ∧ currentUser st' = Some (cuser_of u).
Proof.
  intros Hk Hu Hb Ht Hpath. simpl. split; [done|]. split.
  { route_cases Hpath; subst; reflexivity. }
  unfold initializeAuth. cbn [ls_token boot].
  unfold truthy at 1. rewrite decide_False by apply jwt_sign_nonempty.
  cbn [exec]. cbn [serve auth_dispatch]. unfold protected.
  assert (Hhdr : ∀ st, ls_token st = Some (jwt_sign t0 (user_id u)) →
            request_header st None = Some ("Bearer " ++ jwt_sign t0 (user_id u))%string).
  { intros st Hls. unfold request_header. rewrite Hls. unfold truthy.
    by rewrite decide_False by apply jwt_sign_nonempty. }
  rewrite Hhdr by done. rewrite (protect_signed _ t0 now u) by done. cbn [exec].
  case_decide.
  - cbn [exec]. erewrite (serve_auth_read _ _ now GetAllUsers) by auto. cbn [exec].
    erewrite (serve_auth_read _ _ now GetDevices) by auto. cbn [exec]. by eexists.
  - cbn [exec]. erewrite (serve_auth_read _ _ now GetDevices) by auto. cbn [exec]. by eexists.
Qed.
End session_route_theorems.
End route_theorems.
