(* ===== verification/Fallbacks.v ===== *)
(** * Fallbacks: the 404 page and the error boundary of the client

    [pages/NotFound.tsx] is the element of [path="*"] in [App.tsx]: it
    shows "404" and one link, "Return to Dashboard", to [/dashboard].
    [components/ErrorBoundary.tsx] is a class component whose state is
    [{hasError, error}]: React calls [getDerivedStateFromError] when a
    child throws while rendering, and [render] then shows "Something
    went wrong", the error's message and a "Reload page" button instead
    of the children.  Nothing in the state is ever reset, so a boundary
    that caught an error keeps showing it until the page is reloaded;
    [App.tsx] renders no [ErrorBoundary] at all. *)

From S2P Require Import Prelude ObjectId Schema Http Store Auth TaskController Routes ClientMirror ClientServer AuthServer AuthClient ClientRoutes.
Import AuthClient ClientRoutes.

Module NotFoundView.

(** What [NotFound] renders (lines 17-33): the code, the two
    messages and the target of its only link. *)
Record View := mkView {
  nf_code : string;
  nf_title : string;
  nf_text : string;
  nf_link_text : string;
  nf_link : string;
}.

Definition render : View :=
  mkView "404" "Oops! Page not found"
    "The page you're looking for doesn't exist or has been moved."
    "Return to Dashboard" "/dashboard".

End NotFoundView.

Module ErrorBoundaryView.

(** [interface State] (lines 7-10); [error] holds [error.message]. *)
Record State := mkState { hasError : bool; error : option string }.

(** The constructor (lines 13-16). *)
Definition init : State := mkState false None.

(** [static getDerivedStateFromError] (lines 18-20). *)
Definition getDerivedStateFromError (message : string) : State := mkState true (Some message).

(** What [render] returns (lines 26-45): the children, or the fallback
    with [this.state.error?.message] (nothing when [error] is [null]). *)
Inductive Shown (A : Type) :=
| Children (a : A)
| Fallback (message : string) (button : string).
Arguments Children {A} a.
Arguments Fallback {A} message button.

Definition fallback {A} (st : State) : Shown A :=
  Fallback (from_option id ""%string (error st)) "Reload page".

Definition render {A} (st : State) (children : A) : Shown A :=
  if hasError st then fallback st else Children children.

(** One commit of the boundary: when it has not failed, React renders
    the children, which either throw (with a message) or give a view;
    a throw goes through [getDerivedStateFromError] and the boundary
    renders again, now with [hasError].  A failed boundary does not
    render its children. *)
Definition commit {A} (st : State) (child : string + A) : State * Shown A :=
  if hasError st then (st, fallback st)
  else match child with
       | inl msg => let st' := getDerivedStateFromError msg in (st', fallback st')
       | inr a => (st, render st a)
       end.

(** Successive commits, one per re-render of the tree below. *)
Fixpoint commits {A} (st : State) (cs : list (string + A)) : State * list (Shown A) :=
  match cs with
  | [] => (st, [])
  | c :: cs' =>
      let '(st1, v) := commit st c in
      let '(st2, vs) := commits st1 cs' in (st2, v :: vs)
  end.

(** The button's [onClick]: [window.location.reload()], a new page
    whose boundary starts from the constructor. *)
Definition reload (_ : State) : State := init.

End ErrorBoundaryView.

(** ** Lemmas *)

Section boundary_lemmas.
Import ErrorBoundaryView.
Context {A : Type}.

Lemma commits_failed (st : State) (cs : list (string + A)) :
  hasError st = true → commits st cs = (st, replicate (length cs) (fallback st)).
Proof.
  intros He. induction cs as [|c cs IH]; [done|].
  simpl. unfold commit at 1. rewrite He, IH. done.
Qed.

Lemma commits_children (st : State) (pre : list A) cs :
  hasError st = false →
  commits st ((inr <$> pre) ++ cs) =
    let '(st', vs) := commits st cs in (st', (Children <$> pre) ++ vs).
Proof.
  intros He. induction pre as [|a pre IH].
  - simpl. by destruct (commits st cs).
  - rewrite fmap_cons, <-app_comm_cons. cbn [commits].
    unfold commit at 1, render. rewrite He. cbv iota beta zeta.
    rewrite IH. by destruct (commits st cs).
Qed.

End boundary_lemmas.

(** ** Theorems *)

Section fallback_theorems.

(** The error boundary shows the first error for good: children render
    until one throws; from that commit on, every commit shows the
    fallback with the first error's message, whatever the children
    do later, since nothing but a reload clears [hasError]. *)
Theorem boundary_first_error {A} (pre : list A) (msg : string) (post : list (string + A)) :
  snd (ErrorBoundaryView.commits ErrorBoundaryView.init ((inr <$> pre) ++ inl msg :: post)) =
    (ErrorBoundaryView.Children <$> pre) ++
      replicate (S (length post)) (ErrorBoundaryView.Fallback msg "Reload page").
Proof.
  rewrite (commits_children ErrorBoundaryView.init pre) by done. simpl.
  rewrite commits_failed by done. done.
Qed.

(** "Return to Dashboard" of the 404 page goes through the [/dashboard]
    route: a signed-in user, admin or not, lands on the user dashboard
    (the admin dashboard is never reached from it); a visitor without a
    session lands on the login page. *)
Theorem notfound_return_lands (st : St) :
  show 2 st (NotFoundView.nf_link NotFoundView.render) =
    Some (if isAuthenticated st then UserDashboardPage else LoginPage).
Proof. unfold show. by destruct (isAuthenticated st), (isAdmin st). Qed.

End fallback_theorems.
