(* ===== verification/Pages.v ===== *)
(** * Pages: the logic of the dashboard pages

    The pages read the two contexts and derive what they show: the
    tasks of the current user, the tasks matching the search box
    ([title] or [shortDescription] containing the query, ignoring case),
    counts per status and group, completion rates, new tasks and
    upcoming deadlines; their handlers call the contexts' operations.
    One Module per page: [Dashboard] ([pages/Dashboard.tsx]),
    [TaskManagement], [MyTasks], [UserDashboard], [UsersPage]
    ([pages/Users.tsx]).  [TaskContextApi.addTask] is the [addTask] of
    [TaskContext.tsx], which posts the task and appends the answer.

    Strings are ASCII: [toLowerCase] maps ['A'..'Z'] and leaves every
    other character.  [Math.round(k / n * 100)] is computed exactly, as
    [(200k + n) / 2n] rounded down. *)

From S2P Require Import Prelude ObjectId Schema Http Store Auth TaskController Routes ClientMirror ClientServer AuthServer AuthClient.
Import Schema Http Store TaskController ClientMirror AuthServer AuthClient.

Module JsString.

Definition lower (c : ascii) : ascii :=
  let n := N_of_ascii c in
  if (65 <=? n)%N && (n <=? 90)%N then ascii_of_N (n + 32) else c.

(** [String.prototype.toLowerCase]. *)
Definition toLowerCase (s : string) : string :=
  string_of_list_ascii (lower <$> list_ascii_of_string s).

Fixpoint startsWith (q s : list ascii) : bool :=
  match q, s with
  | [], _ => true
  | c :: q', d :: s' => bool_decide (c = d) && startsWith q' s'
  | _ :: _, [] => false
  end.

Fixpoint includes_l (s q : list ascii) : bool :=
  startsWith q s || match s with [] => false | _ :: s' => includes_l s' q end.

(** [s.includes(q)]. *)
Definition includes (s q : string) : bool :=
  includes_l (list_ascii_of_string s) (list_ascii_of_string q).

(** [Math.round((k / n) * 100)] for [n > 0]. *)
Definition round_pct (k n : nat) : nat := ((200 * k + n) / (2 * n))%nat.

(** [n > 0 ? Math.round((k / n) * 100) : 0]. *)
Definition rate (k n : nat) : nat := if decide (n = 0%nat) then 0%nat else round_pct k n.

(** The white space [String.prototype.trim] removes and [\s] matches,
    on ASCII: tab, line feed, vertical tab, form feed, carriage return
    and space. *)
Definition is_space (c : ascii) : bool :=
  let n := nat_of_ascii c in ((9 <=? n) && (n <=? 13)) || (n =? 32).

(** [!s.trim()]: the string is empty once trimmed. *)
Definition trim_empty (s : string) : bool := forallb is_space (list_ascii_of_string s).

End JsString.

Import JsString.

(** The search box of every page:
    [task.title.toLowerCase().includes(searchQuery.toLowerCase()) ||
     task.shortDescription.toLowerCase().includes(searchQuery.toLowerCase())]. *)
Definition matches_query (q : string) (t : CTask) : bool :=
  includes (toLowerCase (c_title t)) (toLowerCase q) ||
  includes (toLowerCase (c_shortDescription t)) (toLowerCase q).

Definition search (q : string) (tasks : list CTask) : list CTask :=
  filter (λ t, matches_query q t = true) tasks.

Definition with_status (s : Status) (tasks : list CTask) : list CTask :=
  filter (λ t, c_status t = s) tasks.

Definition with_group (g : Group) (tasks : list CTask) : list CTask :=
  filter (λ t, c_group t = Some g) tasks.

Definition assigned_to (uid : string) (tasks : list CTask) : list CTask :=
  filter (λ t, c_assignedTo t = uid) tasks.

Module TaskContextApi.

(** [addTask] of [TaskContext.tsx] (lines 102-118): [api.createTask(task)],
    then the answer appended to the cache. *)
Definition addTask (st : St) (body : TaskInput) (cache : list CTask) : Prog (list CTask) :=
  Send (request_header st None) (TaskApi (Routes.CreateTask body)) (λ a,
    Done (ClientMirror.addTask (task_reply a) cache)).

End TaskContextApi.

(** The task form of the admin pages. *)
Record NewTask := mkNewTask {
  nt_title : string;
  nt_shortDescription : string;
  nt_longDescription : string;
  nt_deadline : Date;
  nt_status : Status;
  nt_priority : Priority;
  nt_assignedTo : string;
  nt_group : Group;
}.

(** [{ ...newTask, createdBy, assignedTo }] as the JSON body the server
    reads ([createdBy] is ignored by [createTask]). *)
Definition task_body (nt : NewTask) (assignedTo : string) : TaskInput :=
  mkTaskInput (Some (nt_title nt)) (Some (nt_shortDescription nt)) (Some (nt_longDescription nt))
    (Some (priority_to_string (nt_priority nt))) (Some (nt_deadline nt))
    (Some (status_to_string (nt_status nt))) (Some assignedTo)
    (Some (group_to_string (nt_group nt))).

(** The form after a reset: empty texts, today, [todo], [medium], the
    current user, [Frontend]. *)
Definition blank_task (today : Date) (uid : string) : NewTask :=
  mkNewTask "" "" "" today todo medium uid Frontend.

(** The toasts of the handlers. *)
Inductive Toast :=
| AssignmentRequired
| TaskCreated
| TaskDeleted.

Module Dashboard.

(** [handleCreateTask] (lines 72-112): [addTask] is called once with the
    fallback assignee, and then, when the form names an assignee, a
    second time; the form is reset only on the second path. *)
Definition handleCreateTask (st : St) (today : Date) (nt : NewTask) (cache : list CTask)
    : Prog (list CTask * NewTask * option Toast) :=
  match currentUser st with
  | Some cu =>
      if isAdmin st then
        let assigned := if decide (nt_assignedTo nt = ""%string) then cu_id cu else nt_assignedTo nt in
        pbind (TaskContextApi.addTask st (task_body nt assigned) cache) (λ c1,
          if decide (nt_assignedTo nt = ""%string) then Done (c1, nt, Some AssignmentRequired)
          else pbind (TaskContextApi.addTask st (task_body nt (nt_assignedTo nt)) c1) (λ c2,
                 Done (c2, blank_task today (cu_id cu), Some TaskCreated)))
      else Done (cache, nt, None)
  | None => Done (cache, nt, None)
  end.

(** [handleDeleteTask] (lines 114-120): the local [deleteTask]. *)
Definition handleDeleteTask (tid : string) (cache : list CTask) : list CTask * Toast :=
  (ClientMirror.deleteTask tid cache, TaskDeleted).

(** The four counters (lines 122-129). *)
Definition counters (tasks : list CTask) : nat * nat * nat * nat :=
  (length tasks, length (with_status completed tasks),
   length (with_status inProgress tasks), length (with_status todo tasks)).

(** [filteredTasks], [tasksByStatus], [tasksByGroup] (lines 131-148). *)
Definition filteredTasks (q : string) (tasks : list CTask) : list CTask := search q tasks.
Definition tasksByStatus (q : string) (tasks : list CTask) : list CTask * list CTask * list CTask :=
  let f := filteredTasks q tasks in
  (with_status todo f, with_status inProgress f, with_status completed f).
Definition tasksByGroup (q : string) (tasks : list CTask) : list CTask * list CTask * list CTask :=
  let f := filteredTasks q tasks in
  (with_group Frontend f, with_group Backend f, with_group Database f).

End Dashboard.

Module TaskManagement.

(** [handleCreateTask] (lines 88-116): one [addTask], assignee defaulting
    to the current user. *)
Definition handleCreateTask (st : St) (today : Date) (nt : NewTask) (cache : list CTask)
    : Prog (list CTask * NewTask * option Toast) :=
  match currentUser st with
  | Some cu =>
      let assigned := if decide (nt_assignedTo nt = ""%string) then cu_id cu else nt_assignedTo nt in
      pbind (TaskContextApi.addTask st (task_body nt assigned) cache) (λ c1,
        Done (c1, blank_task today (cu_id cu), Some TaskCreated))
  | None => Done (cache, nt, None)
  end.

(** [userTasksCount] (lines 127-133): tasks per assignee. *)
Definition userTasksCount (tasks : list CTask) : gmap string nat :=
  foldl (λ m t, <[c_assignedTo t := S (from_option id 0%nat (m !! c_assignedTo t))]> m) ∅ tasks.

(** [getTasksByGroup] (lines 136-143) with the user filter of the page. *)
Definition getTasksByGroup (q : string) (selectedUser : string) (group : option Group)
    (tasks : list CTask) : list CTask :=
  filter (λ t, (match group with Some g => bool_decide (c_group t = Some g) | None => true end) = true ∧
               (selectedUser = ""%string ∨ c_assignedTo t = selectedUser))
    (search q tasks).

End TaskManagement.

Module MyTasks.

(** [myTasks], [filteredTasks], [tasksByStatus], [getTasksByGroup]
    (lines 30-49). *)
Definition myTasks (cu : CUser) (tasks : list CTask) : list CTask := assigned_to (cu_id cu) tasks.
Definition filteredTasks (cu : CUser) (q : string) (tasks : list CTask) : list CTask :=
  search q (myTasks cu tasks).
Definition getTasksByGroup (cu : CUser) (q : string) (group : option Group)
    (tasks : list CTask) : list CTask :=
  match group with
  | None => filteredTasks cu q tasks
  | Some g => with_group g (filteredTasks cu q tasks)
  end.

(** [handleStatusChange] (lines 51-57): the local [updateTaskStatus]. *)
Definition handleStatusChange (st : St) (now : Date) (tid : string) (s : Status)
    (tasks : list CTask) : list CTask :=
  ClientMirror.updateTaskStatus (currentUser st) now tid s tasks.

End MyTasks.

Module UserDashboard.

(** The derived values of lines 71-102. *)
Definition userTasks (st : St) (tasks : list CTask) : list CTask :=
  match currentUser st with Some cu => assigned_to (cu_id cu) tasks | None => [] end.

Definition filteredTasks (st : St) (q : string) (tasks : list CTask) : list CTask :=
  search q (userTasks st tasks).

Definition completionRate (st : St) (tasks : list CTask) : nat :=
  rate (length (with_status completed (userTasks st tasks))) (length (userTasks st tasks)).

(** [new Date(task.createdAt) > last24Hours]. *)
Definition newTasks (st : St) (now : Date) (tasks : list CTask) : list CTask :=
  filter (λ t, now - day_ms < c_createdAt t)%Z (userTasks st tasks).

(** [deadline >= today && deadline <= nextWeek && status !== 'completed'],
    sorted by deadline (a stable sort: insertion). *)
Fixpoint insert_by_deadline (t : CTask) (l : list CTask) : list CTask :=
  match l with
  | [] => [t]
  | t' :: l' => if decide (c_deadline t < c_deadline t')%Z then t :: l
                else t' :: insert_by_deadline t l'
  end.

Definition upcomingDeadlines (st : St) (now : Date) (tasks : list CTask) : list CTask :=
  foldr insert_by_deadline []
    (filter (λ t, (now <= c_deadline t <= now + 7 * day_ms)%Z ∧ c_status t ≠ completed)
       (userTasks st tasks)).

(** [Math.ceil((deadline - today) / 86400000)]: whole days left. *)
Definition daysLeft (now : Date) (t : CTask) : Z := - ((now - c_deadline t) / day_ms).

(** The tab the page opens on, from [?tab=upload] or [?taskId=..]
    (lines 51-69). *)
Definition initial_tab (tab taskId : option string) : string :=
  let t0 := if decide (tab = Some "upload"%string) then "uploadPhotos" else "myTasks" in
  match taskId with
  | Some id => if decide (id = ""%string) then t0 else "uploadPhotos"
  | None => t0
  end%string.

(** [handleTaskPhotoUpload], [handleTabChange] (lines 177-186): the
    location they navigate to. *)
Definition handleTaskPhotoUpload (taskId : string) : string :=
  ("/user-dashboard?tab=upload&taskId=" ++ taskId)%string.
Definition handleTabChange (value : string) : string :=
  ("/user-dashboard" ++ (if decide (value = "uploadPhotos"%string) then "?tab=upload" else ""))%string.

End UserDashboard.

Module UsersPage.

(** [getUserTaskCounts] (lines 101-117). *)
Record TaskCounts := mkTaskCounts {
  tc_total : nat; tc_completed : nat; tc_inProgress : nat; tc_todo : nat;
  tc_completion : nat; tc_tasks : list CTask;
}.

Definition getUserTaskCounts (uid : string) (tasks : list CTask) : TaskCounts :=
  let ut := assigned_to uid tasks in
  let c := length (with_status completed ut) in
  mkTaskCounts (length ut) c (length (with_status inProgress ut))
    (length (with_status todo ut)) (rate c (length ut)) ut.

(** [getUserPhotos] (lines 120-137): the photos of the user's tasks
    whose [createdBy] is the user, with the task's title. *)
Definition getUserPhotos (uid : string) (tasks : list CTask) : list (CPhoto * string) :=
  mjoin ((λ t, (λ p, (p, c_title t)) <$>
                 filter (λ p, cp_createdBy p = Some uid) (getTaskPhotos tasks (c_id t)))
         <$> assigned_to uid tasks).

(** [getTaskChartData] (lines 196-204): the non-empty segments. *)
Definition getTaskChartData (uid : string) (tasks : list CTask) : list (string * nat) :=
  let c := getUserTaskCounts uid tasks in
  filter (λ s, (0 < s.2)%nat)
    [("Completed", tc_completed c); ("In Progress", tc_inProgress c); ("To Do", tc_todo c)]%string.

(** What the page renders first (lines 73-95). *)
Inductive Gate := ShowLoading | AccessDenied | ShowUsers.
Definition gate (st : St) : Gate :=
  if isLoading st then ShowLoading else if negb (isAdmin st) then AccessDenied else ShowUsers.

(** [handleUpdateUser] (lines 160-171) and [handleDeleteUser]
    (lines 179-186).  The form's [role] is sent too, but
    [updateProfile] reads only the name and the email. *)
Definition handleUpdateUser (editing : option CUser) (nm em : string) (st : St)
    : Prog (St * option string) :=
  match editing with
  | Some u => updateUser (cu_id u) (mkProfilePatch (Some nm) (Some em)) st
  | None => Done (st, None)
  end.

Definition handleDeleteUser (userToDelete : option string) (st : St) : Prog (St * option string) :=
  match userToDelete with
  | Some uid => if decide (uid = ""%string) then Done (st, None) else deleteUser uid st
  | None => Done (st, None)
  end.

End UsersPage.

(** ** Lemmas on the pages *)

Section pages_lemmas.
Context `{TokenVerifier}.

Lemma to_hex_nonempty n : ObjectId.to_hex n ≠ ""%string.
Proof.
  intros Hn. pose proof (ObjectId.length_hex_digits ObjectId.width n) as Hl.
  change (ObjectId.hex_digits ObjectId.width n) with (ObjectId.to_hex n) in Hl. by rewrite Hn in Hl.
Qed.

(** The document the server builds from the body of the task form. *)
Lemma validate_task_body id c now nt asg a :
  nt_title nt ≠ ""%string → nt_shortDescription nt ≠ ""%string → ObjectId.cast asg = Some a →
  validate_create id c now (task_body nt asg) =
    inr (mkTask id (nt_title nt) (nt_shortDescription nt) (Some (nt_longDescription nt))
           (nt_status nt) (nt_priority nt) (nt_deadline nt) (nt_group nt) a c [] [] now now).
Proof.
  intros Ht Hs Ha. unfold validate_create, task_body, required_string. simpl.
  rewrite !decide_False by done. rewrite Ha.
  assert (Hst : enum_default status_of_string todo (Some (status_to_string (nt_status nt)))
                = Some (nt_status nt)) by (by destruct (nt_status nt)).
  assert (Hpr : enum_default priority_of_string medium (Some (priority_to_string (nt_priority nt)))
                = Some (nt_priority nt)) by (by destruct (nt_priority nt)).
  assert (Hg : group_of_string (group_to_string (nt_group nt)) = Some (nt_group nt))
    by (by destruct (nt_group nt)).
  simpl in *. rewrite Hst, Hpr, Hg. done.
Qed.

(** [POST /api/tasks] by an admin with a valid body. *)
Lemma dispatch_create db hdr now i u t :
  Auth.protect db now hdr = inr u → role u = admin →
  validate_create (db_next db) (user_id u) now i = inr t →
  Routes.dispatch db (Routes.mkRequest hdr now (Routes.CreateTask i)) =
    (Store.set_users (alter (λ v, with_tasks v (tasks v ++ [task_id t])) (assignedTo t))
       (set_tasks (insert (task_id t) t) (bump db)), Success 201 (PTask t)).
Proof.
  intros Hp Hr Hv. unfold Routes.dispatch. simpl. rewrite Hp.
  unfold Routes.admin_only, Auth.authorize. rewrite Hr. simpl.
  by rewrite createTask_run, Hv.
Qed.

(** A create keeps every user's id and role, so the caller is still
    authenticated, with the same role, afterwards. *)
Lemma protect_after_create db now hdr u g x f :
  Auth.protect db now hdr = inr u →
  ∃ u', Auth.protect (Store.set_users (alter (λ v, with_tasks v (g v)) x) (set_tasks f (bump db))) now hdr = inr u' ∧
        role u' = role u ∧ user_id u' = user_id u.
Proof.
  intros Hp. unfold Auth.protect, find_user in *. simpl.
  destruct (Auth.bearer_token hdr) as [tok|]; [|done].
  destruct (jwt_verify now tok) as [sub|]; [|done].
  destruct (ObjectId.cast sub) as [n|]; [|done].
  destruct (db_users db !! n) as [v|] eqn:Hv; [|done]. injection Hp as <-.
  destruct (decide (x = n)) as [->|Hne].
  - rewrite lookup_alter_eq, Hv. simpl. eauto.
  - rewrite lookup_alter_ne, Hv by done. eauto.
Qed.

(** Every photo of a task of the fetched cache comes from the server's
    photo object, which has no [createdBy]. *)
(** The photos of a fetched task are the server's photos. *)
Lemma of_view_server_photos v c p : of_view v = Some c → p ∈ c_photos c → ∃ q, p = photo_of_server q.
Proof.
  unfold of_view. destruct (populated_id _), (populated_id _); simpl; try done.
  intros [= <-]. simpl. intros (q & -> & _)%list_elem_of_fmap. eauto.
Qed.

Lemma of_view_photos v c p :
  of_view v = Some c → p ∈ c_photos c → cp_createdBy p = None.
Proof. intros Hv Hp. by destruct (of_view_server_photos v c p Hv Hp) as [q ->]. Qed.

Lemma getTaskPhotos_elem tasks tid p :
  p ∈ getTaskPhotos tasks tid → ∃ c, c ∈ tasks ∧ p ∈ c_photos c.
Proof.
  unfold getTaskPhotos, find_task. destruct (list_find _ _) as [[i c]|] eqn:E; simpl; [|set_solver].
  intros Hp. apply list_find_Some in E as (Hi & _ & _). exists c. split; [|done].
  by eapply list_elem_of_lookup_2.
Qed.

Lemma getUserPhotos_none uid tasks :
  (∀ c p, c ∈ tasks → p ∈ c_photos c → cp_createdBy p = None) →
  UsersPage.getUserPhotos uid tasks = [].
Proof.
  intros Hn. apply elem_of_nil_inv. intros x Hx.
  unfold UsersPage.getUserPhotos in Hx. apply list_elem_of_join in Hx as (l & Hx & Hl).
  apply list_elem_of_fmap in Hl as (t & -> & _).
  apply list_elem_of_fmap in Hx as (p & -> & Hp).
  apply list_elem_of_filter in Hp as [Hc Hp].
  destruct (getTaskPhotos_elem _ _ _ Hp) as (c & Hin & Hpc).
  rewrite (Hn c p Hin Hpc) in Hc. discriminate.
Qed.

(** [userTasksCount] after some of the tasks: the count of [uid] grows
    by the number of its tasks. *)
Lemma userTasksCount_foldl uid tasks (m : gmap string nat) :
  foldl (λ m t, <[c_assignedTo t := S (from_option id 0%nat (m !! c_assignedTo t))]> m) m tasks !! uid =
  if decide (length (assigned_to uid tasks) = 0%nat) then m !! uid
  else Some (from_option id 0%nat (m !! uid) + length (assigned_to uid tasks))%nat.
Proof.
  revert m. induction tasks as [|t tasks IH]; intros m; simpl; [done|].
  rewrite IH. unfold assigned_to. rewrite filter_cons.
  destruct (decide (c_assignedTo t = uid)) as [<-|Hne].
  - rewrite lookup_insert_eq. simpl. repeat case_decide; simpl in *; f_equal; lia.
  - rewrite lookup_insert_ne by done. done.
Qed.
End pages_lemmas.

(** ** Theorems of the pages *)

Section pages_theorems.
Context `{TokenSigner}.

(** C38 (finding): the admin dashboard creates every task twice.
    [Dashboard.handleCreateTask] calls [addTask] with the assignee (or
    the admin when none is chosen) and then, when the form names an
    assignee, calls it again: for a valid form naming user [a], the
    server stores two tasks with the same fields under two fresh ids,
    and both are appended to the cache. *)
Theorem dashboard_creates_twice now today s st cu adm nt a cache :
  currentUser st = Some cu → isAdmin st = true →
  Auth.protect (srv_db s) now (request_header st None) = inr adm → role adm = admin →
  nt_assignedTo nt = ObjectId.to_hex a → (a < ObjectId.bound)%N →
  nt_title nt ≠ ""%string → nt_shortDescription nt ≠ ""%string →
  let '(s', (cache', _, toast)) := exec now s (Dashboard.handleCreateTask st today nt cache) in
  toast = Some TaskCreated ∧
  ∃ t1 t2, db_tasks (srv_db s') !! db_next (srv_db s) = Some t1 ∧
           db_tasks (srv_db s') !! N.succ (db_next (srv_db s)) = Some t2 ∧
           cache' = cache ++ [of_raw_task t1; of_raw_task t2] ∧
           title t1 = nt_title nt ∧ title t2 = nt_title nt ∧
           assignedTo t1 = a ∧ assignedTo t2 = a.
Proof.
  intros Hcu Had Hp Hr Ha Hb Ht Hs. destruct s as [db pw]. simpl in *.
  unfold Dashboard.handleCreateTask. rewrite Hcu, Had.
  assert (Hne : nt_assignedTo nt ≠ ""%string) by (rewrite Ha; apply to_hex_nonempty).
  rewrite !decide_False by done. rewrite exec_pbind. cbn [TaskContextApi.addTask exec serve srv_db srv_pw].
  pose proof (ObjectId.cast_to_hex a Hb) as Hc. rewrite <-Ha in Hc.
  rewrite (dispatch_create db _ now _ adm _ Hp Hr (validate_task_body _ _ _ nt _ a Ht Hs Hc)).
  cbn [exec fst snd task_reply ClientMirror.addTask]. rewrite decide_False by done.
  rewrite exec_pbind. cbn [TaskContextApi.addTask exec serve srv_db srv_pw].
  destruct (protect_after_create db now (request_header st None) adm
              (λ v, tasks v ++ [db_next db]) a (insert (db_next db)
                 (mkTask (db_next db) (nt_title nt) (nt_shortDescription nt)
                    (Some (nt_longDescription nt)) (nt_status nt) (nt_priority nt)
                    (nt_deadline nt) (nt_group nt) a (user_id adm) [] [] now now)) Hp)
    as (adm' & Hp' & Hr' & Hid').
  rewrite (dispatch_create _ _ now _ adm' _ Hp') by (try congruence; apply validate_task_body; done).
  cbn. split; [done|]. eexists _, _. split_and!.
  - rewrite lookup_insert_ne by lia. apply lookup_insert_eq.
  - apply lookup_insert_eq.
  - by rewrite <-app_assoc.
  - done.
  - done.
  - done.
  - done.
Qed.

(** C8 (finding): the users page never shows a photo uploaded through
    the server.  [getUserPhotos] keeps the photos whose [createdBy] is
    the user, but the server's photo object carries [uploadedBy]: in the
    cache fetched from [GET /api/tasks] no photo has [createdBy], so the
    page lists no photo for any user; only photos added locally in the
    same session ([addTaskPhoto]) can appear. *)
Theorem getUserPhotos_fetched_empty db u uid :
  UsersPage.getUserPhotos uid (fetchTasks (snd (run (getTasks u) db)) []) = [].
Proof.
  rewrite getTasks_reply. simpl. destruct (mapM of_view _) as [l|] eqn:E; [|done].
  apply getUserPhotos_none. intros c p Hc Hp.
  apply mapM_Some_1 in E. apply list_elem_of_lookup_1 in Hc as [i Hi].
  destruct (Forall2_lookup_r _ _ _ _ _ E Hi) as (v & _ & Hv).
  by apply (of_view_photos v c).
Qed.
End pages_theorems.
