(* ===== verification/Stats.v ===== *)
(** * Stats: the statistics of [TaskInsights], [TaskAnalytics] and [TaskChart]

    The three chart components derive their data from the task cache:
    counts per status, priority and group, the tasks of each user, the
    tasks created and completed per month of the current year
    ([TaskInsights.getMonthData]), a productivity score (the rounded
    share of completed tasks), the completions per day over the last 30
    days ([TaskAnalytics.getTimelineChartData]) and the per-group
    progress bars ([TaskChart]).

    Dates are milliseconds since the epoch and the calendar is the
    proleptic Gregorian one in UTC (time-zone offset 0):
    [civil_from_days] is the standard conversion of a day number to a
    year, month and day, written with floor division.  [getMonth()]
    indexes a 12-element array; [month_of_range] shows the index is
    always in range, by checking the 146097 days of a 400-year cycle
    with [vm_compute]. *)

From Stdlib Require Import Sorted.
From S2P Require Import Prelude ObjectId Schema Http Store Auth TaskController Routes ClientMirror ClientServer AuthServer AuthClient Pages.
Import Schema ClientMirror JsString.

Module Calendar.
#[local] Open Scope Z_scope.

(** Days since 1970-01-01 of a time in milliseconds. *)
Definition day_of (ms : Z) : Z := ms / day_ms.

(** Year, month (1-12) and day (1-31) of a day number. *)
Definition civil_from_days (days : Z) : Z * Z * Z :=
  let z := days + 719468 in
  let era := z / 146097 in
  let doe := z - era * 146097 in
  let yoe := (doe - doe / 1460 + doe / 36524 - doe / 146096) / 365 in
  let y := yoe + era * 400 in
  let doy := doe - (365 * yoe + yoe / 4 - yoe / 100) in
  let mp := (5 * doy + 2) / 153 in
  let d := doy - (153 * mp + 2) / 5 + 1 in
  let m := if mp <? 10 then mp + 3 else mp - 9 in
  (if m <=? 2 then y + 1 else y, m, d).

(** [getFullYear()] and [getMonth()] (0-11). *)
Definition getFullYear (ms : Z) : Z := let '(y, _, _) := civil_from_days (day_of ms) in y.
Definition getMonth (ms : Z) : Z := let '(_, m, _) := civil_from_days (day_of ms) in m - 1.

(** The day of the cycle and the day of the year computed inside
    [civil_from_days]. *)
Definition doy_of_doe (doe : Z) : Z :=
  let yoe := (doe - doe / 1460 + doe / 36524 - doe / 146096) / 365 in
  doe - (365 * yoe + yoe / 4 - yoe / 100).

End Calendar.

Module TaskInsights.
Import Calendar.

(** [statusData], [priorityData], [groupData] (lines 17-36): the
    entries of the counts, in the order of the object literal. *)
Definition statusData (tasks : list CTask) : list (string * nat) :=
  let '(a, b, c) := getTasksByStatus tasks in
  [("To Do", a); ("In Progress", b); ("Completed", c)]%string.
Definition priorityData (tasks : list CTask) : list (string * nat) :=
  let '(a, b, c) := getTasksByPriority tasks in
  [("High", a); ("Medium", b); ("Low", c)]%string.
Definition groupData (tasks : list CTask) : list (string * nat) :=
  let '(a, b, c) := getTasksByGroup tasks in
  [("Frontend", a); ("Backend", b); ("Database", c)]%string.

(** [tasksByUser] (lines 39-48). *)
Record UserRow := mkUserRow {
  ur_name : string; ur_total : nat; ur_completed : nat; ur_inProgress : nat; ur_todo : nat;
}.

Definition tasksByUser (allUsers : list CUser) (tasks : list CTask) : list UserRow :=
  (λ u, let ut := assigned_to (cu_id u) tasks in
        mkUserRow (cu_name u) (length ut) (length (with_status completed ut))
          (length (with_status inProgress ut)) (length (with_status todo ut))) <$> allUsers.

(** A month of [getMonthData]: name, tasks created, tasks completed. *)
Record MonthRow := mkMonthRow { mr_name : string; mr_created : nat; mr_completed : nat }.

Definition months : list string :=
  ["Jan"; "Feb"; "Mar"; "Apr"; "May"; "Jun"; "Jul"; "Aug"; "Sep"; "Oct"; "Nov"; "Dec"]%string.

(** [data[i].created += 1]; reading [data[i]] outside the array is a
    [TypeError] ([None]). *)
Definition bump_created (i : Z) (data : list MonthRow) : option (list MonthRow) :=
  r ← data !! Z.to_nat i;
  if decide (0 <= i)%Z
  then Some (<[Z.to_nat i := mkMonthRow (mr_name r) (S (mr_created r)) (mr_completed r)]> data)
  else None.

Definition bump_completed (i : Z) (data : list MonthRow) : option (list MonthRow) :=
  r ← data !! Z.to_nat i;
  if decide (0 <= i)%Z
  then Some (<[Z.to_nat i := mkMonthRow (mr_name r) (mr_created r) (S (mr_completed r))]> data)
  else None.

(** The body of [tasks.forEach] in [getMonthData] (lines 63-75). *)
Definition count_task (currentYear : Z) (acc : option (list MonthRow)) (t : CTask)
  : option (list MonthRow) :=
  data ← acc;
  data1 ← (if decide (getFullYear (c_createdAt t) = currentYear)
           then bump_created (getMonth (c_createdAt t)) data else Some data);
  match c_status t, c_lastUpdated t with
  | completed, Some lu =>
      if decide (getFullYear lu = currentYear)
      then bump_completed (getMonth lu) data1 else Some data1
  | _, _ => Some data1
  end.

(** [getMonthData] (lines 51-78). *)
Definition getMonthData (now : Date) (tasks : list CTask) : option (list MonthRow) :=
  foldl (count_task (getFullYear now)) (Some ((λ m, mkMonthRow m 0 0) <$> months)) tasks.

(** [calculateProductivityScore] (lines 83-87). *)
Definition productivityScore (tasks : list CTask) : nat :=
  rate (length (with_status completed tasks)) (length tasks).

(** The label under the gauge (lines 346-351). *)
Definition score_label (score : nat) : string :=
  if decide (70 < score)%nat then "Excellent!"
  else if decide (40 < score)%nat then "Good Progress" else "Needs Improvement".

End TaskInsights.

Module TaskAnalytics.
Import Calendar.

(** [getTimelineChartData] (lines 89-127): completions whose
    [lastUpdated] is at most 30 days old, counted per UTC day, shown for
    the 30 days ending today. *)
Definition completed_since (lo : Z) (t : CTask) : bool :=
  bool_decide (c_status t = completed) &&
  match c_lastUpdated t with Some lu => bool_decide (lo <= lu)%Z | None => false end.

Definition recentCompletedTasks (now : Date) (tasks : list CTask) : list CTask :=
  filter (λ t, completed_since (now - 30 * day_ms) t = true) tasks.

Definition completed_on (day : Z) (t : CTask) : bool :=
  match c_lastUpdated t with Some lu => bool_decide (day_of lu = day) | None => false end.

Definition completions_on (now : Date) (tasks : list CTask) (day : Z) : nat :=
  length (filter (λ t, completed_on day t = true) (recentCompletedTasks now tasks)).

Definition timelineData (now : Date) (tasks : list CTask) : list (Z * nat) :=
  (λ i : nat, let day := day_of (now - (29 - Z.of_nat i) * day_ms) in
              (day, completions_on now tasks day)) <$> seq 0 30.

End TaskAnalytics.

Module TaskChart.

(** [progressData] (lines 49-68): per group, the tasks in each status. *)
Definition progress (g : Group) (tasks : list CTask) : nat * nat * nat :=
  let gt := with_group g tasks in
  (length (with_status completed gt), length (with_status inProgress gt),
   length (with_status todo gt)).

Definition progressData (tasks : list CTask) : list (Group * (nat * nat * nat)) :=
  (λ g, (g, progress g tasks)) <$> [Frontend; Backend; Database].

(** [getTasksByDate] (lines 29-44): the number of tasks created on each
    day, one entry per day, in increasing order of day. *)
Fixpoint insert_day (d : Z) (l : list Z) : list Z :=
  match l with
  | [] => [d]
  | d' :: l' => if decide (d < d')%Z then d :: l else d' :: insert_day d l'
  end.

Definition tasksByDate (tasks : list CTask) : list (Z * nat) :=
  let days := foldl (λ ds t, let d := Calendar.day_of (c_createdAt t) in
                             if decide (d ∈ ds) then ds else ds ++ [d]) [] tasks in
  (λ d, (d, length (filter (λ t, Calendar.day_of (c_createdAt t) = d) tasks)))
    <$> foldr insert_day [] days.

End TaskChart.

(** ** Lemmas on the calendar and the counts *)

Section stats_lemmas.
Import Calendar.

(** Check [p] on the [n] integers from [z]. *)
Fixpoint check_from (p : Z → bool) (n : nat) (z : Z) : bool :=
  match n with O => true | S n' => p z && check_from p n' (z + 1) end.

Lemma check_from_spec p n z k :
  check_from p n z = true → (z <= k < z + Z.of_nat n)%Z → p k = true.
Proof.
  revert z. induction n as [|n IH]; intros z; simpl; [lia|].
  rewrite andb_true_iff. intros [Hz Hn] Hk.
  destruct (decide (k = z)) as [->|Hne]; [done|]. apply (IH (z + 1)%Z); [done|lia].
Qed.

(** The day of the year is in [0, 365] on each of the 146097 days of a
    400-year cycle: checked day by day. *)
Lemma doy_cycle : check_from (λ doe, (0 <=? doy_of_doe doe)%Z && (doy_of_doe doe <=? 365)%Z)
                    (Z.to_nat 146097) 0 = true.
Proof. vm_compute. reflexivity. Qed.

Lemma doy_range doe : (0 <= doe < 146097)%Z → (0 <= doy_of_doe doe <= 365)%Z.
Proof.
  intros Hd. pose proof (check_from_spec _ _ _ doe doy_cycle) as Hc.
  rewrite Z2Nat.id in Hc by lia. specialize (Hc Hd).
  apply andb_true_iff in Hc as [H1 H2]. apply Z.leb_le in H1, H2. lia.
Qed.

Lemma civil_month_range days : let '(_, m, _) := civil_from_days days in (1 <= m <= 12)%Z.
Proof.
  unfold civil_from_days. cbv zeta.
  set (z := (days + 719468)%Z).
  assert (Hdoe : (0 <= z - z / 146097 * 146097 < 146097)%Z).
  { pose proof (Z.mod_pos_bound z 146097). rewrite Z.mod_eq in * by lia. lia. }
  set (doe := (z - z / 146097 * 146097)%Z) in *.
  pose proof (doy_range doe Hdoe) as Hdoy. unfold doy_of_doe in Hdoy. cbv zeta in Hdoy.
  set (doy := (doe - _)%Z) in *.
  assert (Hmp : (0 <= (5 * doy + 2) / 153 <= 11)%Z).
  { split; [apply Z.div_pos; lia|]. apply Z.lt_succ_r, Z.div_lt_upper_bound; lia. }
  set (mp := ((5 * doy + 2) / 153)%Z) in *.
  cbv beta iota.
  destruct (mp <? 10)%Z eqn:E; [apply Z.ltb_lt in E|apply Z.ltb_ge in E]; lia.
Qed.

(** [n > 0 ? Math.round(k / n * 100) : 0] is at most 100 when [k <= n]. *)
Lemma rate_le_100 k n : (k <= n)%nat → (rate k n <= 100)%nat.
Proof.
  unfold rate, round_pct. case_decide; [lia|]. intros Hk.
  apply Nat.lt_succ_r, Nat.Div0.div_lt_upper_bound. lia.
Qed.

Lemma length_with_status_le s l : (length (with_status s l) <= length l)%nat.
Proof. apply length_filter. Qed.
End stats_lemmas.

Section month_lemmas.
Import Calendar TaskInsights.

Lemma getMonth_range ms : (0 <= getMonth ms < 12)%Z.
Proof.
  unfold getMonth. pose proof (civil_month_range (day_of ms)) as H.
  destruct (civil_from_days _) as [[y m] d]. lia.
Qed.

(** The created and the completed counts of a list of rows. *)
Definition created_total (data : list MonthRow) : nat := sum_list_with mr_created data.
Definition completed_total (data : list MonthRow) : nat := sum_list_with mr_completed data.

(** The tasks [getMonthData] counts as created, or completed, in year [y]. *)
Definition created_in (y : Z) (t : CTask) : bool := bool_decide (getFullYear (c_createdAt t) = y).
Definition completed_in (y : Z) (t : CTask) : bool :=
  match c_status t, c_lastUpdated t with
  | completed, Some lu => bool_decide (getFullYear lu = y)
  | _, _ => false
  end.

Lemma sum_list_with_insert {A} (f : A → nat) l j x r :
  l !! j = Some r → (sum_list_with f (<[j:=x]> l) + f r = sum_list_with f l + f x)%nat.
Proof.
  intros Hr. rewrite <-(take_drop_middle l j r) at 2 by done.
  rewrite insert_take_drop by (eapply lookup_lt_Some; eauto).
  rewrite !sum_list_with_app. simpl. lia.
Qed.

(** Replacing a row by one of the same name keeps the names and moves
    the totals by the difference. *)
Lemma replace_row data j r x :
  data !! j = Some r → mr_name x = mr_name r →
  mr_name <$> <[j:=x]> data = mr_name <$> data ∧
  (created_total (<[j:=x]> data) + mr_created r = created_total data + mr_created x)%nat ∧
  (completed_total (<[j:=x]> data) + mr_completed r = completed_total data + mr_completed x)%nat.
Proof.
  intros Hr Hn. split; [|split; by apply sum_list_with_insert].
  rewrite list_fmap_insert, Hn. apply list_insert_id. by rewrite list_lookup_fmap, Hr.
Qed.

Lemma bump_created_spec i data :
  (0 <= i < 12)%Z → length data = 12%nat →
  ∃ data', bump_created i data = Some data' ∧ mr_name <$> data' = mr_name <$> data ∧
    created_total data' = S (created_total data) ∧ completed_total data' = completed_total data.
Proof.
  intros Hi Hl. unfold bump_created.
  destruct (lookup_lt_is_Some_2 data (Z.to_nat i)) as [r Hr]; [lia|]. rewrite Hr. simpl.
  rewrite decide_True by lia. eexists. split; [done|].
  destruct (replace_row data (Z.to_nat i) r (mkMonthRow (mr_name r) (S (mr_created r)) (mr_completed r)))
    as (? & ? & ?); simpl in *; [done..|]. split_and!; [done|lia..].
Qed.

Lemma bump_completed_spec i data :
  (0 <= i < 12)%Z → length data = 12%nat →
  ∃ data', bump_completed i data = Some data' ∧ mr_name <$> data' = mr_name <$> data ∧
    created_total data' = created_total data ∧ completed_total data' = S (completed_total data).
Proof.
  intros Hi Hl. unfold bump_completed.
  destruct (lookup_lt_is_Some_2 data (Z.to_nat i)) as [r Hr]; [lia|]. rewrite Hr. simpl.
  rewrite decide_True by lia. eexists. split; [done|].
  destruct (replace_row data (Z.to_nat i) r (mkMonthRow (mr_name r) (mr_created r) (S (mr_completed r))))
    as (? & ? & ?); simpl in *; [done..|]. split_and!; [done|lia..].
Qed.

Lemma length_of_names data : mr_name <$> data = months → length data = 12%nat.
Proof. intros H. by rewrite <-(length_fmap mr_name), H. Qed.

(** One task of the [forEach]: the counts move by what it contributes. *)
Lemma count_task_spec y data t :
  mr_name <$> data = months →
  ∃ data', count_task y (Some data) t = Some data' ∧ mr_name <$> data' = months ∧
    created_total data' = (created_total data + if created_in y t then 1 else 0)%nat ∧
    completed_total data' = (completed_total data + if completed_in y t then 1 else 0)%nat.
Proof.
  intros Hn. pose proof (length_of_names _ Hn) as Hl. unfold count_task, created_in, completed_in.
  cbn [mbind option_bind].
  assert (∃ d1, (if decide (getFullYear (c_createdAt t) = y)
                 then bump_created (getMonth (c_createdAt t)) data else Some data) = Some d1 ∧
          mr_name <$> d1 = months ∧
          created_total d1 = (created_total data + if bool_decide (getFullYear (c_createdAt t) = y) then 1 else 0)%nat ∧
          completed_total d1 = completed_total data) as (d1 & -> & Hn1 & Hc1 & Hd1).
  { destruct (decide (getFullYear (c_createdAt t) = y)) as [E|E];
      [rewrite bool_decide_true by done|rewrite bool_decide_false by done].
    - destruct (bump_created_spec (getMonth (c_createdAt t)) data) as (d & ? & ? & ? & ?);
        [apply getMonth_range|done|]. exists d. split_and!; [done|congruence|lia|done].
    - exists data. split_and!; [done..|lia|done]. }
  cbn [mbind option_bind].
  destruct (c_status t); [exists d1; split_and!; try done; lia..|].
  destruct (c_lastUpdated t) as [lu|]; [|exists d1; split_and!; try done; lia].
  destruct (decide (getFullYear lu = y)) as [E|E];
    [rewrite (bool_decide_true (getFullYear lu = y)) by done
    |rewrite (bool_decide_false (getFullYear lu = y)) by done; exists d1; split_and!; try done; lia].
  destruct (bump_completed_spec (getMonth lu) d1) as (d & ? & ? & ? & ?);
    [apply getMonth_range|by apply length_of_names|].
  exists d. split_and!; [done|congruence|lia|lia].
Qed.

Lemma count_tasks_spec y tasks data :
  mr_name <$> data = months →
  ∃ data', foldl (count_task y) (Some data) tasks = Some data' ∧ mr_name <$> data' = months ∧
    created_total data' = (created_total data + length (filter (λ t, created_in y t = true) tasks))%nat ∧
    completed_total data' = (completed_total data + length (filter (λ t, completed_in y t = true) tasks))%nat.
Proof.
  revert data. induction tasks as [|t tasks IH]; intros data Hn; cbn [foldl filter length].
  - exists data. simpl. split_and!; [done..|lia|lia].
  - destruct (count_task_spec y data t Hn) as (d1 & -> & Hn1 & Hc1 & Hd1).
    destruct (IH d1 Hn1) as (d & -> & ? & ? & ?). exists d.
    rewrite !filter_cons. split_and!; [done|done|..];
      [destruct (created_in y t)|destruct (completed_in y t)]; simpl in *; lia.
Qed.
End month_lemmas.

Section timeline_lemmas.
Import Calendar TaskAnalytics.

Lemma length_filter_or {A} (P Q : A → Prop) `{∀ x, Decision (P x), ∀ x, Decision (Q x)} l :
  (∀ x, P x → Q x → False) →
  length (filter (λ x, P x ∨ Q x) l) = (length (filter P l) + length (filter Q l))%nat.
Proof.
  intros Hd. induction l as [|x l IH]; [done|]. rewrite !filter_cons.
  specialize (Hd x). repeat case_decide; simpl; naive_solver lia.
Qed.

(** Counting per key over distinct keys counts the elements whose key
    is one of them, each once. *)
Lemma sum_counts {A} (key : A → option Z) (ds : list Z) l :
  NoDup ds →
  sum_list_with (λ d, length (filter (λ x, key x = Some d) l)) ds =
  length (filter (λ x, from_option (λ d, bool_decide (d ∈ ds)) false (key x) = true) l).
Proof.
  induction 1 as [|d ds Hd Hnd IH].
  - simpl. induction l as [|x l IHl]; [done|]. rewrite filter_cons, decide_False; [done|].
    destruct (key x); simpl; [rewrite ?bool_decide_eq_true, ?elem_of_nil|]; naive_solver.
  - simpl. rewrite IH, <-length_filter_or.
    + f_equal. apply list_filter_iff. intros x. destruct (key x); simpl; [|naive_solver].
      rewrite !bool_decide_eq_true, elem_of_cons. naive_solver.
    + intros x -> Hin. simpl in Hin. apply bool_decide_eq_true in Hin. contradiction.
Qed.

Lemma day_of_shift now k : day_of (now - k * day_ms) = (day_of now - k)%Z.
Proof.
  unfold day_of. replace (now - k * day_ms)%Z with (now + (- k) * day_ms)%Z by lia.
  rewrite Z.div_add by (unfold day_ms; lia). lia.
Qed.

Lemma sum_list_with_fmap {A B} (f : B → nat) (g : A → B) l :
  sum_list_with f (g <$> l) = sum_list_with (f ∘ g) l.
Proof. induction l; simpl; auto. Qed.


(** The 30 days of the chart, oldest first. *)
Definition window (now : Date) : list Z :=
  (λ i : nat, (day_of now - 29 + Z.of_nat i)%Z) <$> seq 0 30.

Lemma window_NoDup now : NoDup (window now).
Proof. apply NoDup_fmap_2; [intros i j; lia|apply NoDup_seq]. Qed.

Lemma elem_of_window now d : d ∈ window now ↔ (day_of now - 29 <= d <= day_of now)%Z.
Proof.
  unfold window. rewrite list_elem_of_fmap. setoid_rewrite elem_of_seq. split.
  - intros (i & -> & Hi). lia.
  - intros Hd. exists (Z.to_nat (d - (day_of now - 29))). lia.
Qed.

Lemma completed_on_key day t :
  completed_on day t = true ↔ day_of <$> c_lastUpdated t = Some day.
Proof.
  unfold completed_on. destruct (c_lastUpdated t); simpl; [|done].
  rewrite bool_decide_eq_true. naive_solver.
Qed.
End timeline_lemmas.

(** ** Theorems of the statistics *)

Section stats_theorems.
Import Calendar TaskInsights TaskAnalytics.

(** C10: [getMonthData] never reads a month outside its array (the
    [TypeError] of [data[m].created += 1] cannot happen, since
    [getMonth()] is always in [0, 11]); it keeps the twelve month names
    in order, and its created and completed counts add up to the number
    of tasks created this year and of completed tasks last updated this
    year: each such task is counted once, in one month. *)
Theorem getMonthData_counts now tasks :
  ∃ data, getMonthData now tasks = Some data ∧ mr_name <$> data = months ∧
    created_total data = length (filter (λ t, created_in (getFullYear now) t = true) tasks) ∧
    completed_total data = length (filter (λ t, completed_in (getFullYear now) t = true) tasks).
Proof.
  destruct (count_tasks_spec (getFullYear now) tasks ((λ m, mkMonthRow m 0 0) <$> months))
    as (d & Hd & Hn & Hc & Hk); [done|].
  exists d. unfold getMonthData. rewrite Hd. split_and!; [done|done|..]; [rewrite Hc|rewrite Hk]; done.
Qed.

(** The chart draws a completion when its day is one of the 30 days
    ending today. *)
Definition drawn (now : Date) (t : CTask) : bool :=
  match c_lastUpdated t with
  | Some lu => bool_decide (day_of now - 29 <= day_of lu <= day_of now)%Z
  | None => false
  end.

(** C11 (finding): the activity timeline draws exactly the recent
    completions whose day is one of its 30 buckets.  [recentCompletedTasks]
    keeps the completions of the last 30 times 24 hours, but the buckets
    are the 30 calendar days ending today, so a completion from 30 days
    ago before the start of the oldest bucket's day (and any completion
    dated in the future) is counted as recent and drawn nowhere: the
    heights sum to fewer than the recent completions. *)
Theorem timeline_counts now tasks :
  sum_list_with snd (timelineData now tasks) =
  length (filter (λ t, drawn now t = true) (recentCompletedTasks now tasks)).
Proof.
  unfold timelineData. rewrite sum_list_with_fmap.
  transitivity (sum_list_with (λ d, length (filter (λ t, day_of <$> c_lastUpdated t = Some d)
                                                   (recentCompletedTasks now tasks))) (window now)).
  - unfold window. rewrite sum_list_with_fmap. apply sum_list_with_ext. intros i _. simpl.
    rewrite day_of_shift. unfold completions_on. f_equal. apply list_filter_iff. intros t.
    rewrite completed_on_key. by replace (day_of now - (29 - Z.of_nat i))%Z with (day_of now - 29 + Z.of_nat i)%Z by lia.
  - rewrite sum_counts by apply window_NoDup. f_equal. apply list_filter_iff. intros t.
    unfold drawn. destruct (c_lastUpdated t); simpl; [|done].
    by rewrite !bool_decide_eq_true, elem_of_window.
Qed.

(** The productivity score is a percentage: at most 100, 100 when every
    task is completed and 0 when none is. *)
Theorem productivityScore_range tasks :
  (productivityScore tasks <= 100)%nat ∧
  (tasks ≠ [] → with_status completed tasks = tasks → productivityScore tasks = 100%nat) ∧
  (with_status completed tasks = [] → productivityScore tasks = 0%nat).
Proof.
  unfold productivityScore. split; [apply rate_le_100, length_filter|split].
  - intros Hne ->. unfold rate, round_pct.
    rewrite decide_False by (destruct tasks; simpl; congruence).
    symmetry. apply (Nat.div_unique _ _ _ (length tasks)); [destruct tasks; simpl in *; [done|lia]|lia].
  - intros ->. unfold rate, round_pct. simpl. case_decide; [done|]. apply Nat.div_small. lia.
Qed.
End stats_theorems.

(** ** The per-day chart of [TaskChart] *)

Section by_date_lemmas.
Import Calendar TaskChart.

Lemma insert_day_perm d l : insert_day d l ≡ₚ d :: l.
Proof.
  induction l as [|d' l IH]; simpl; [done|]. case_decide; [done|].
  rewrite IH. apply Permutation_swap.
Qed.

Lemma insert_day_sorted d l : Sorted Z.le l → Sorted Z.le (insert_day d l).
Proof.
  induction 1 as [|d' l Hs IH Hh]; simpl; [by repeat constructor|].
  case_decide; [constructor; [by constructor|constructor; lia]|].
  constructor; [done|]. destruct l as [|d'' l]; simpl; [constructor; lia|].
  inversion Hh; subst. case_decide; constructor; lia.
Qed.

(** The distinct days of the [forEach], in order of first appearance. *)
Lemma days_fold_spec (tasks : list CTask) (ds : list Z) :
  NoDup ds →
  let ds' := foldl (λ ds t, let d := day_of (c_createdAt t) in
                            if decide (d ∈ ds) then ds else ds ++ [d]) ds tasks in
  NoDup ds' ∧ ∀ x, x ∈ ds' ↔ x ∈ ds ∨ ∃ t, t ∈ tasks ∧ day_of (c_createdAt t) = x.
Proof.
  revert ds. induction tasks as [|t tasks IH]; intros ds Hnd; simpl.
  - split; [done|]. set_solver.
  - case_decide as Hin.
    + destruct (IH ds Hnd) as [? Hx]. split; [done|]. intros x. rewrite Hx. set_solver.
    + destruct (IH (ds ++ [day_of (c_createdAt t)])) as [? Hx].
      { apply NoDup_app. split_and!; [done|set_solver|apply NoDup_singleton]. }
      split; [done|]. intros x. rewrite Hx. set_solver.
Qed.

Lemma fst_pairs {A B} (f : A → B) l : ((λ x, (x, f x)) <$> l).*1 = l.
Proof. induction l; simpl; f_equal; auto. Qed.

Lemma sorted_le_nodup_lt l : Sorted Z.le l → NoDup l → Sorted Z.lt l.
Proof.
  intros Hs Hnd. apply Sorted_StronglySorted in Hs; [|intros ???; lia].
  apply StronglySorted_Sorted. induction Hs as [|a l Hs IH Ha]; constructor.
  - apply IH. by apply NoDup_cons in Hnd as [].
  - apply NoDup_cons in Hnd as [Hn _]. rewrite Forall_forall in Ha |- *.
    intros x Hx. specialize (Ha x Hx). assert (a ≠ x) by set_solver. lia.
Qed.

End by_date_lemmas.

Section by_date_theorems.
Import Calendar TaskChart.

(** [getTasksByDate] of [TaskChart]: the days are in increasing order,
    each appears once, each is the creation day of some task, and the
    counts add up to the number of tasks: every task is counted once, on
    its creation day. *)
Theorem tasksByDate_spec tasks :
  let rows := tasksByDate tasks in
  Sorted Z.lt rows.*1 ∧
  (∀ d, d ∈ rows.*1 ↔ ∃ t, t ∈ tasks ∧ day_of (c_createdAt t) = d) ∧
  sum_list_with snd rows = length tasks.
Proof.
  unfold tasksByDate. cbv zeta.
  destruct (days_fold_spec tasks [] NoDup_nil_2) as [Hnd Hx].
  set (ds := foldl _ [] tasks) in *.
  assert (Hp : foldr insert_day [] ds ≡ₚ ds).
  { clear. induction ds as [|d ds IH]; simpl; [done|]. by rewrite insert_day_perm, IH. }
  assert (Hs : Sorted Z.le (foldr insert_day [] ds)).
  { clear. induction ds; simpl; [constructor|]. by apply insert_day_sorted. }
  rewrite fst_pairs. split_and!.
  - apply sorted_le_nodup_lt; [done|]. by rewrite Hp.
  - intros d. rewrite Hp, Hx. set_solver.
  - rewrite sum_list_with_fmap. simpl. rewrite Hp.
    rewrite (sum_list_with_ext _ (λ d, length (filter (λ t, Some (day_of (c_createdAt t)) = Some d) tasks))).
    2:{ intros d _. simpl. f_equal. apply list_filter_iff. naive_solver. }
    rewrite (sum_counts (λ t, Some (day_of (c_createdAt t)))) by done. simpl.
    f_equal. apply filter_all_in. apply Forall_forall. intros t Ht.
    apply bool_decide_eq_true. apply Hx. eauto.
Qed.
End by_date_theorems.
