(* ===== verification/Cards.v ===== *)
(** * Cards: the task cards and the edit form

    [components/TaskCard.tsx] is the card of the admin dashboard and of
    [MyTasks]; [components/EnhancedTaskCard.tsx] the card of the user
    dashboard, which swaps itself for [components/EditTaskForm.tsx]
    while editing.  Each card keeps a little local state ([useState]),
    shows controls that depend on the session and the task, and calls
    the local operations of [TaskContext] ([updateTask],
    [updateTaskStatus]), modelled in [ClientMirror].

    A card's local state is a record, each handler a function from that
    state and the task cache to the new state and cache, and what the
    card renders is a record of the controls it shows.  The deadline
    field of the edit form holds a day number: the string
    [yyyy-MM-dd] of [deadline.split('T')[0]] names a UTC day. *)

From S2P Require Import Prelude ObjectId Schema Http Store Auth TaskController Routes ClientMirror ClientServer AuthServer AuthClient Pages Stats.
Import Schema ClientMirror JsString.

Module TaskCard.

(** The [useState]s of the card (lines 40-44): [editedTask] starts as the
    [task] prop at mount. *)
Record Card := mkCard {
  isEditDialogOpen : bool;
  isDeleteDialogOpen : bool;
  isPhotosDialogOpen : bool;
  editedTask : CTask;
  isEditing : bool;
}.

Definition init (task : CTask) : Card := mkCard false false false task false.

(** [canEdit] (line 47). *)
Definition canEdit (isAdmin : bool) (cu : option CUser) (task : CTask) : bool :=
  isAdmin || match cu with Some u => bool_decide (cu_id u = c_assignedTo task) | None => false end.

(** [updateTask(task.id, editedTask)]: [editedTask] is a whole copy of
    the task, so every field of it overrides the cached task ([{ ...task,
    ...updatedTask }]), its id, creator, photos and comments included; a
    [longDescription] or [group] the copy lacks leaves the cached one. *)
Definition full_patch (t : CTask) : CPatch :=
  mkCPatch (Some (c_id t)) (Some (c_title t)) (Some (c_shortDescription t))
    (Some <$> c_longDescription t)
    (Some (c_deadline t)) (Some (c_status t)) (Some (c_priority t))
    (Some (c_assignedTo t)) (Some (c_createdBy t)) (Some (c_createdAt t))
    (Some <$> c_group t) (Some (c_photos t)) (Some (c_comments t)).

(** [handleStatusChange] (lines 49-55). *)
Definition handleStatusChange (cu : option CUser) (now : Date) (task : CTask) (s : Status)
    (tasks : list CTask) : list CTask :=
  updateTaskStatus cu now (c_id task) s tasks.

(** [handleSaveEdit] (lines 57-65). *)
Definition handleSaveEdit (cu : option CUser) (now : Date) (task : CTask) (c : Card)
    (tasks : list CTask) : Card * list CTask :=
  (mkCard false (isDeleteDialogOpen c) (isPhotosDialogOpen c) (editedTask c) false,
   updateTask cu now (c_id task) (full_patch (editedTask c)) tasks).

(** [handleDelete] (lines 67-72): the id passed to [onDelete], when the
    parent gave one. *)
Definition handleDelete (onDelete : bool) (task : CTask) (c : Card) : Card * option string :=
  (mkCard (isEditDialogOpen c) false (isPhotosDialogOpen c) (editedTask c) (isEditing c),
   if onDelete then Some (c_id task) else None).

(** [handlePhotoUploadClick] (lines 74-78). *)
Definition handlePhotoUploadClick (onPhotoUpload : bool) (task : CTask) : option string :=
  if onPhotoUpload then Some (c_id task) else None.

(** [toggleEdit] (lines 80-89): leaving the edit mode saves. *)
Definition toggleEdit (cu : option CUser) (now : Date) (task : CTask) (c : Card)
    (tasks : list CTask) : Card * list CTask :=
  (mkCard (isEditDialogOpen c) (isDeleteDialogOpen c) (isPhotosDialogOpen c) (editedTask c)
     (negb (isEditing c)),
   if isEditing c then updateTask cu now (c_id task) (full_patch (editedTask c)) tasks else tasks).

(** The inputs of the inline editor (lines 185-211):
    [setEditedTask({...editedTask, title: e.target.value})] and the
    short description. *)
Definition set_title (c : Card) (v : string) : Card :=
  let t := editedTask c in
  mkCard (isEditDialogOpen c) (isDeleteDialogOpen c) (isPhotosDialogOpen c)
    (mkCTask (c_id t) v (c_shortDescription t) (c_longDescription t) (c_deadline t)
       (c_status t) (c_priority t) (c_assignedTo t) (c_createdBy t) (c_createdAt t)
       (c_group t) (c_photos t) (c_comments t) (c_lastUpdated t) (c_lastUpdatedBy t))
    (isEditing c).

Definition set_shortDescription (c : Card) (v : string) : Card :=
  let t := editedTask c in
  mkCard (isEditDialogOpen c) (isDeleteDialogOpen c) (isPhotosDialogOpen c)
    (mkCTask (c_id t) (c_title t) v (c_longDescription t) (c_deadline t)
       (c_status t) (c_priority t) (c_assignedTo t) (c_createdBy t) (c_createdAt t)
       (c_group t) (c_photos t) (c_comments t) (c_lastUpdated t) (c_lastUpdatedBy t))
    (isEditing c).

(** [getStatusColor], [getPriorityColor], [getGroupColor] (lines 91-124). *)
Definition getStatusColor (s : Status) : string :=
  match s with
  | completed => "bg-green-500/20 text-green-400"
  | inProgress => "bg-amber-500/20 text-amber-400"
  | todo => "bg-taskPurple/20 text-taskPurple"
  end.

Definition getPriorityColor (p : Priority) : string :=
  match p with
  | high => "bg-red-500/20 text-red-400"
  | medium => "bg-amber-500/20 text-amber-400"
  | low => "bg-blue-500/20 text-blue-400"
  end.

Definition getGroupColor (g : option Group) : string :=
  match g with
  | Some Frontend => "bg-indigo-500/20 text-indigo-400"
  | Some Backend => "bg-emerald-500/20 text-emerald-400"
  | Some Database => "bg-orange-500/20 text-orange-400"
  | None => "bg-taskPurple/20 text-taskPurple"
  end.

(** The badges (lines 214-227). *)
Definition status_label (s : Status) : string :=
  match s with todo => "To Do" | inProgress => "In Progress" | completed => "Completed" end.

Definition priority_label (p : Priority) : string :=
  match p with high => "High Priority" | medium => "Medium Priority" | low => "Low Priority" end.

(** The controls the card renders (lines 126-278). *)
Record Controls := mkControls {
  editButtons : bool;          (** edit/save and delete *)
  uploadButton : bool;
  photoCount : nat;            (** the photos button and its badge when positive *)
  statusSelect : bool;
  thumbnails : list CPhoto;
  morePhotos : nat;            (** the [+n more] tile when positive *)
}.

Definition controls (showEditOptions isAdmin : bool) (cu : option CUser) (tasks : list CTask)
    (task : CTask) : Controls :=
  let photos := getTaskPhotos tasks (c_id task) in
  mkControls (showEditOptions && isAdmin)
    (negb isAdmin && match cu with Some u => bool_decide (c_assignedTo task = cu_id u) | None => false end)
    (length photos)
    (canEdit isAdmin cu task && negb isAdmin)
    (take 3 photos)
    (length photos - 3).

End TaskCard.

Module EditTaskForm.

(** The [editedTask] state (lines 57-66): the deadline is the day
    [task.deadline.split('T')[0]] names, and a task without a group is
    shown in [Frontend]. *)
Record Form := mkForm {
  ef_title : string;
  ef_shortDescription : string;
  ef_longDescription : option string;
  ef_deadline : Z;
  ef_status : Status;
  ef_priority : Priority;
  ef_assignedTo : string;
  ef_group : Group;
}.

Definition init (t : CTask) : Form :=
  mkForm (c_title t) (c_shortDescription t) (c_longDescription t)
    (Calendar.day_of (c_deadline t)) (c_status t) (c_priority t) (c_assignedTo t)
    (from_option id Frontend (c_group t)).

(** The form is rendered only when [tasks.find] finds the task
    (lines 39-55); otherwise the card says "Task not found!". *)
Definition mount (tasks : list CTask) (taskId : string) : option Form :=
  init <$> find_task tasks taskId.

(** The inputs of the form (lines 120-256), each a
    [setEditedTask({...editedTask, field: value})], and the calendar,
    whose effect (lines 73-80) writes [format(calendarDate, 'yyyy-MM-dd')]. *)
Inductive Edit :=
| SetTitle (v : string) | SetShortDescription (v : string) | SetLongDescription (v : string)
| SetCalendar (d : Date) | SetStatus (s : Status) | SetPriority (p : Priority)
| SetAssignedTo (uid : string) | SetGroup (g : Group).

Definition apply_edit (f : Form) (e : Edit) : Form :=
  let '(mkForm ti sd ld dl st pr asg gr) := f in
  match e with
  | SetTitle v => mkForm v sd ld dl st pr asg gr
  | SetShortDescription v => mkForm ti v ld dl st pr asg gr
  | SetLongDescription v => mkForm ti sd (Some v) dl st pr asg gr
  | SetCalendar d => mkForm ti sd ld (Calendar.day_of d) st pr asg gr
  | SetStatus s => mkForm ti sd ld dl s pr asg gr
  | SetPriority p => mkForm ti sd ld dl st p asg gr
  | SetAssignedTo u => mkForm ti sd ld dl st pr u gr
  | SetGroup g => mkForm ti sd ld dl st pr asg g
  end.

(** [{ ...editedTask, deadline: new Date(editedTask.deadline).toISOString() }]:
    a date-only string is read as midnight UTC. *)
Definition form_patch (f : Form) : CPatch :=
  mkCPatch None (Some (ef_title f)) (Some (ef_shortDescription f)) (Some (ef_longDescription f))
    (Some (ef_deadline f * day_ms)%Z) (Some (ef_status f)) (Some (ef_priority f))
    (Some (ef_assignedTo f)) None None (Some (Some (ef_group f))) None None.

(** [handleSave] (lines 82-104): a blank title is refused with a toast;
    otherwise the local [updateTask] and [onSave]. *)
Definition handleSave (cu : option CUser) (now : Date) (taskId : string) (f : Form)
    (tasks : list CTask) : list CTask * option string :=
  if trim_empty (ef_title f) then (tasks, Some "Task title is required"%string)
  else (updateTask cu now taskId (form_patch f) tasks, None).

End EditTaskForm.

Module EnhancedTaskCard.

(** [canEditTask] (lines 35-38). *)
Definition canEditTask (isAdmin : bool) (cu : option CUser) (task : CTask) : bool :=
  match cu with None => false | Some u => isAdmin || bool_decide (c_assignedTo task = cu_id u) end.

(** [isOverdue] (lines 47-52). *)
Definition isOverdue (now : Date) (task : CTask) : bool :=
  bool_decide (c_status task ≠ completed) && bool_decide (c_deadline task < now)%Z.

(** [getStatusBadgeClass], [getPriorityBadgeClass] (lines 55-77). *)
Definition getStatusBadgeClass (s : Status) : string :=
  match s with
  | completed => "bg-green-100 text-green-700 dark:bg-green-900 dark:text-green-300"
  | inProgress => "bg-blue-100 text-blue-700 dark:bg-blue-900 dark:text-blue-300"
  | todo => "bg-gray-100 text-gray-700 dark:bg-gray-700 dark:text-gray-300"
  end.

Definition getPriorityBadgeClass (p : Priority) : string :=
  match p with
  | high => "bg-red-100 text-red-700 dark:bg-red-900 dark:text-red-300"
  | medium => "bg-orange-100 text-orange-700 dark:bg-orange-900 dark:text-orange-300"
  | low => "bg-green-100 text-green-700 dark:bg-green-900 dark:text-green-300"
  end.

(** The controls of the card (lines 106-276). *)
Record Controls := mkControls {
  overdue : bool;
  commentCount : nat;
  editButton : bool;
  deleteButton : bool;
  uploadButton : bool;
  completeButton : bool;
}.

Definition controls (showEditOptions onDelete onPhotoUpload isAdmin : bool) (cu : option CUser)
    (now : Date) (tasks : list CTask) (task : CTask) : Controls :=
  let ce := canEditTask isAdmin cu task in
  mkControls (isOverdue now task) (length (getTaskComments tasks (c_id task)))
    (ce && showEditOptions) (ce && showEditOptions && onDelete)
    (ce && onPhotoUpload && negb showEditOptions)
    (negb showEditOptions && ce && bool_decide (c_status task ≠ completed)).

(** What the card renders (lines 93-102): the edit form while editing. *)
Inductive View := Editing (f : option EditTaskForm.Form) | Showing (c : Controls).

Definition render (isEditing showEditOptions onDelete onPhotoUpload isAdmin : bool)
    (cu : option CUser) (now : Date) (tasks : list CTask) (task : CTask) : View :=
  if isEditing then Editing (EditTaskForm.mount tasks (c_id task))
  else Showing (controls showEditOptions onDelete onPhotoUpload isAdmin cu now tasks task).

(** The "Mark Complete" button (lines 253-261). *)
Definition markComplete (cu : option CUser) (now : Date) (task : CTask) (tasks : list CTask)
    : list CTask :=
  updateTaskStatus cu now (c_id task) completed tasks.

End EnhancedTaskCard.

(** [TaskManagement] passes its cards a copy of the task whose
    [assignedTo] is the assignee's name (lines 411-418). *)
Module TaskManagementCard.
Definition card_task (allUsers : list CUser) (t : CTask) : CTask :=
  mkCTask (c_id t) (c_title t) (c_shortDescription t) (c_longDescription t) (c_deadline t)
    (c_status t) (c_priority t) (user_name allUsers "Unknown User" (c_assignedTo t))
    (c_createdBy t) (c_createdAt t) (c_group t) (c_photos t) (c_comments t)
    (c_lastUpdated t) (c_lastUpdatedBy t).
End TaskManagementCard.

(** ** Lemmas on the local updates the cards call *)

(** Discharge a [keeps_id] side goal, also once the patch is unfolded. *)
Ltac keeps_id_tac :=
  first [done | let i := fresh in let Hi := fresh in intros i Hi; simpl in Hi; congruence].

Section card_lemmas.

Lemma find_task_Some_id tasks tid t : find_task tasks tid = Some t → c_id t = tid.
Proof.
  unfold find_task. destruct (list_find _ _) as [[i t']|] eqn:E; simpl; [|done].
  intros [= <-]. apply list_find_Some in E. naive_solver.
Qed.

(** A patch without an id, or with the id of the task it patches. *)
Definition keeps_id (p : CPatch) (tid : string) : Prop := ∀ i, cpt_id p = Some i → i = tid.

Lemma keeps_id_full t : keeps_id (TaskCard.full_patch t) (c_id t).
Proof. by intros i [= <-]. Qed.

Lemma keeps_id_status s tid : keeps_id (status_patch s) tid.
Proof. by intros i. Qed.

Lemma keeps_id_form f tid : keeps_id (EditTaskForm.form_patch f) tid.
Proof. by intros i. Qed.

#[local] Hint Resolve keeps_id_full keeps_id_status keeps_id_form : core.

Lemma updateTask_found u now tid p tasks t :
  keeps_id p tid → find_task tasks tid = Some t →
  find_task (updateTask (Some u) now tid p tasks) tid = Some (patch_task t p now (cu_id u)).
Proof.
  intros Hp Ht. simpl. rewrite find_task_map_id; [by rewrite Ht|].
  intros t' <-. simpl. destruct (cpt_id p) as [i|] eqn:E; [|done]. by apply Hp.
Qed.

Lemma updateTaskStatus_found u now tid s tasks t :
  find_task tasks tid = Some t → may_edit u t →
  find_task (updateTaskStatus (Some u) now tid s tasks) tid =
    Some (patch_task t (status_patch s) now (cu_id u)).
Proof.
  intros Ht He. unfold updateTaskStatus. rewrite Ht, decide_True by done.
  by apply updateTask_found.
Qed.

Lemma length_take_drop3 {A} (l : list A) : (length (take 3 l) + (length l - 3))%nat = length l.
Proof. rewrite length_take. lia. Qed.
End card_lemmas.

(** ** Theorems of the cards *)

Section card_theorems.

(** The controls of [TaskCard] by role: the edit and delete buttons only
    for an admin, the status select and the upload button exactly for a
    signed-in non-admin who is the task's assignee, and the thumbnails
    plus the [+n more] tile account for every photo. *)
Theorem taskcard_controls_roles showEditOptions isAdmin cu tasks task :
  let c := TaskCard.controls showEditOptions isAdmin cu tasks task in
  (TaskCard.editButtons c = true → isAdmin = true) ∧
  (TaskCard.statusSelect c = true ↔
     isAdmin = false ∧ ∃ u, cu = Some u ∧ c_assignedTo task = cu_id u) ∧
  TaskCard.uploadButton c = TaskCard.statusSelect c ∧
  (length (TaskCard.thumbnails c) + TaskCard.morePhotos c = TaskCard.photoCount c)%nat.
Proof.
  simpl. split_and!.
  - by destruct showEditOptions, isAdmin.
  - destruct isAdmin, cu as [u|]; simpl; [naive_solver..| |naive_solver].
    rewrite andb_true_r, bool_decide_eq_true. naive_solver.
  - destruct isAdmin, cu as [u|]; simpl; [done..| |done].
    rewrite andb_true_r. apply bool_decide_ext. naive_solver.
  - apply length_take_drop3.
Qed.

(** The status select of [TaskCard] works on the cached task: when the
    card shows it, choosing a status sets that status (and the
    [lastUpdated] stamps) on the task in the cache. *)
Theorem taskcard_status_select cu now tasks task s u :
  TaskCard.statusSelect (TaskCard.controls false false cu tasks task) = true →
  cu = Some u → find_task tasks (c_id task) = Some task →
  find_task (TaskCard.handleStatusChange cu now task s tasks) (c_id task) =
    Some (patch_task task (status_patch s) now (cu_id u)).
Proof.
  intros Hs -> Ht. simpl in Hs. rewrite andb_true_r in Hs. apply bool_decide_eq_true in Hs.
  apply updateTaskStatus_found; [done|]. by right.
Qed.

(** The inline editor of [TaskCard]: opening it, typing a title and
    closing it writes the card's copy of the task, with the new title,
    over the cached task; nothing is written while it is open. *)
Theorem taskcard_inline_edit cu u now tasks task v :
  cu = Some u → find_task tasks (c_id task) = Some task →
  let '(c1, tasks1) := TaskCard.toggleEdit cu now task (TaskCard.init task) tasks in
  let '(c3, tasks3) := TaskCard.toggleEdit cu now task (TaskCard.set_title c1 v) tasks1 in
  tasks1 = tasks ∧ TaskCard.isEditing c1 = true ∧ TaskCard.isEditing c3 = false ∧
  ∃ t', find_task tasks3 (c_id task) = Some t' ∧ c_title t' = v ∧
    c_shortDescription t' = c_shortDescription task ∧ c_status t' = c_status task ∧
    c_deadline t' = c_deadline task ∧ c_assignedTo t' = c_assignedTo task ∧
    c_photos t' = c_photos task ∧ c_lastUpdated t' = Some now.
Proof.
  intros -> Ht. cbn -[updateTask find_task]. split_and!; [done..|].
  rewrite (updateTask_found _ _ _ _ _ task) by keeps_id_tac. by eexists.
Qed.

(** Finding: [TaskManagement] gives its cards a copy of the task whose
    [assignedTo] is the assignee's name; an inline edit through such a
    card writes the name over the id in the cache, and the task drops
    out of its assignee's [MyTasks] list. *)
Theorem management_edit_writes_name cu u now allUsers tasks task v a :
  cu = Some u → find_task tasks (c_id task) = Some task →
  user_name allUsers "Unknown User" (c_assignedTo task) = a → a ≠ c_assignedTo task →
  let ct := TaskManagementCard.card_task allUsers task in
  let '(c1, tasks1) := TaskCard.toggleEdit cu now ct (TaskCard.init ct) tasks in
  let '(_, tasks3) := TaskCard.toggleEdit cu now ct (TaskCard.set_title c1 v) tasks1 in
  ∃ t', find_task tasks3 (c_id task) = Some t' ∧ c_assignedTo t' = a ∧
    t' ∉ MyTasks.myTasks (mkCUser (c_assignedTo task) "" "" user) tasks3.
Proof.
  intros -> Ht Ha Hne. cbn -[updateTask find_task MyTasks.myTasks].
  rewrite (updateTask_found _ _ _ _ _ task) by keeps_id_tac. eexists. split; [done|].
  simpl. split; [done|]. unfold MyTasks.myTasks, assigned_to. rewrite list_elem_of_filter.
  simpl. naive_solver.
Qed.
(** The edit form round trip: saving the form of a cached task without
    touching it succeeds (for a title that is not blank), keeps the
    photos and comments, moves the deadline to midnight UTC of its day
    and gives a task without a group the group [Frontend]; the form read
    back from the saved task is the form that was saved, so a second
    save writes the same fields. *)
Theorem edit_form_roundtrip u now tasks tid t :
  find_task tasks tid = Some t → trim_empty (c_title t) = false →
  let '(tasks', err) := EditTaskForm.handleSave (Some u) now tid (EditTaskForm.init t) tasks in
  err = None ∧
  ∃ t', find_task tasks' tid = Some t' ∧ EditTaskForm.init t' = EditTaskForm.init t ∧
    c_deadline t' = (Calendar.day_of (c_deadline t) * day_ms)%Z ∧
    c_group t' = Some (from_option id Frontend (c_group t)) ∧
    c_photos t' = c_photos t ∧ c_comments t' = c_comments t.
Proof.
  intros Ht Hb. unfold EditTaskForm.handleSave. cbn [EditTaskForm.ef_title EditTaskForm.init].
  rewrite Hb. split; [done|]. rewrite (updateTask_found _ _ _ _ _ t) by keeps_id_tac.
  eexists. split; [done|]. split_and!; try done.
  unfold EditTaskForm.init. simpl. f_equal.
  unfold Calendar.day_of. rewrite Z.div_mul by (unfold day_ms; lia). done.
Qed.

(** The card of the user dashboard ([showEditOptions={false}] with an
    [onPhotoUpload] handler): for the assignee, who is not an admin, it
    shows no edit or delete button, always the upload button, and the
    "Mark Complete" button exactly while the task is not completed;
    pressing it completes the cached task. *)
Theorem dashboard_card_controls u now tasks task :
  cu_role u = user → c_assignedTo task = cu_id u → find_task tasks (c_id task) = Some task →
  EnhancedTaskCard.render false false false true false (Some u) now tasks task =
    EnhancedTaskCard.Showing (EnhancedTaskCard.mkControls (EnhancedTaskCard.isOverdue now task)
      (length (getTaskComments tasks (c_id task))) false false true
      (bool_decide (c_status task ≠ completed))) ∧
  find_task (EnhancedTaskCard.markComplete (Some u) now task tasks) (c_id task) =
    Some (patch_task task (status_patch completed) now (cu_id u)).
Proof.
  intros Hr Ha Ht. split.
  - unfold EnhancedTaskCard.render, EnhancedTaskCard.controls, EnhancedTaskCard.canEditTask.
    rewrite bool_decide_true by done. done.
  - apply updateTaskStatus_found; [done|]. by right.
Qed.
End card_theorems.
