(* ===== verification/Forms.v ===== *)
(** * Forms: registration, comments, photos and the task detail views

    [pages/Register.tsx] validates its three fields (the e-mail against
    the regular expression [/\S+@\S+\.\S+/]) before calling [register]
    of [AuthContext] with the role ['user'].  [components/TaskComments.tsx]
    and [components/TaskPhotoGallery.tsx] add and delete comments and
    photos through the local operations of [TaskContext];
    [components/TaskDetail.tsx] and [components/TaskDetailView.tsx] show a
    task with its status buttons.  [pages/Settings.tsx] keeps the theme
    in [localStorage].

    The regular expression is implemented as a backtracking matcher in
    continuation-passing style, one function per construct of the
    expression; [email_regex_spec] shows it accepts exactly the strings
    that contain a match. *)

From S2P Require Import Prelude ObjectId Schema Http Store Auth TaskController Routes ClientMirror ClientServer AuthServer AuthClient ClientRoutes Pages Stats Cards.
Import Schema Http Store TaskController ClientMirror ClientServer AuthServer AuthClient JsString.

Module Regex.

(** [\S+] followed by the rest of the expression [k]: one or more
    characters that are not white space, trying every length. *)
Fixpoint plus_then (k : list ascii → bool) (s : list ascii) : bool :=
  match s with
  | [] => false
  | c :: s' => negb (is_space c) && (k s' || plus_then k s')
  end.

(** A literal character followed by [k]. *)
Definition lit (c : ascii) (k : list ascii → bool) (s : list ascii) : bool :=
  match s with
  | [] => false
  | c' :: s' => bool_decide (c' = c) && k s'
  end.

(** [\S+@\S+\.\S+] at the start of the input. *)
Definition email_at (s : list ascii) : bool :=
  plus_then (lit "@" (plus_then (lit "." (plus_then (λ _, true))))) s.

(** [RegExp.prototype.test]: a match at some position. *)
Fixpoint email_test (s : list ascii) : bool :=
  email_at s || match s with [] => false | _ :: s' => email_test s' end.

End Regex.

Module Register.

(** The [errors] object of [validate] (lines 20-41). *)
Record Errors := mkErrors {
  err_name : option string;
  err_email : option string;
  err_password : option string;
}.

Definition no_errors (e : Errors) : bool :=
  match e with mkErrors None None None => true | _ => false end.

(** [validate] (lines 20-41); [password.length] counts characters. *)
Definition validate (name email password : string) : Errors :=
  mkErrors
    (if trim_empty name then Some "Name is required" else None)
    (if trim_empty email then Some "Email is required"
     else if negb (Regex.email_test (list_ascii_of_string email)) then Some "Email is invalid"
     else None)
    (if trim_empty password then Some "Password is required"
     else if decide (String.length password < 6)%nat then Some "Password must be at least 6 characters"
     else None)%string.

(** The outcome of the form. *)
Inductive Outcome :=
| Invalid (e : Errors)
| Failed (msg : string)
| NavigatedTo (path : string).

(** [handleSubmit] (lines 43-67): nothing is sent when [validate]
    fails; otherwise [register(name, email, password, 'user')] and
    [/dashboard], or the error's message. *)
Definition handleSubmit (name email password : string) (st : St) : Prog (St * Outcome) :=
  let e := validate name email password in
  if negb (no_errors e) then Done (st, Invalid e)
  else pbind (AuthClient.register name email password user st) (λ '(st', err),
         match err with
         | None => Done (st', NavigatedTo "/dashboard")
         | Some m => Done (st', Failed (if decide (m = ""%string) then "Registration failed" else m))
         end).

End Register.

(** [String.prototype.trim]: white space removed at both ends. *)
Fixpoint drop_spaces (l : list ascii) : list ascii :=
  match l with
  | c :: l' => if is_space c then drop_spaces l' else l
  | [] => []
  end.

Definition trim (s : string) : string :=
  string_of_list_ascii (rev (drop_spaces (rev (drop_spaces (list_ascii_of_string s))))).

(** The toasts of the comment and photo components. *)
Inductive Toast :=
| EmptyComment | CommentAdded | CommentDeleted
| UrlRequired | PhotoAdded | PhotoDeleted
| StatusUpdated (s : Status) | DependencyWarning.

Module TaskComments.

(** [canDeleteComment] (lines 64-67). *)
Definition canDeleteComment (cu : option CUser) (c : CComment) : bool :=
  match cu with
  | None => false
  | Some u => bool_decide (cu_role u = admin) || bool_decide (cc_createdBy c = Some (cu_id u))
  end.

(** [handleAddComment] (lines 25-42): [rid] is the id [addTaskComment]
    draws; the text box is cleared after a comment is added. *)
Definition handleAddComment (cu : option CUser) (now : Date) (rid taskId text : string)
    (tasks : list CTask) : list CTask * string * Toast :=
  if trim_empty text then (tasks, text, EmptyComment)
  else (addTaskComment cu now rid taskId text tasks, ""%string, CommentAdded).

(** [handleDeleteComment] (lines 44-51). *)
Definition handleDeleteComment (cu : option CUser) (now : Date) (taskId cid : string)
    (tasks : list CTask) : list CTask * Toast :=
  (deleteTaskComment cu now taskId cid tasks, CommentDeleted).

(** The list of comments (lines 79-115): each shows the first letter of
    [comment.createdByName], whose [charAt] throws a [TypeError] on a
    comment without that field ([None] here), and a delete button when
    [canDeleteComment]. *)
Definition render (cu : option CUser) (tasks : list CTask) (taskId : string)
    : option (list (CComment * bool)) :=
  mapM (λ c, match cc_createdByName c with
             | Some _ => Some (c, canDeleteComment cu c)
             | None => None
             end) (getTaskComments tasks taskId).

End TaskComments.

Module TaskPhotoGallery.

(** [handleAddPhoto] (lines 28-50): the form's fields are cleared after
    a photo is added; [caption: newPhotoCaption.trim() || undefined]. *)
Definition handleAddPhoto (cu : option CUser) (now : Date) (rid taskId url caption : string)
    (tasks : list CTask) : list CTask * string * string * Toast :=
  if trim_empty url then (tasks, url, caption, UrlRequired)
  else (addTaskPhoto cu now rid taskId url
          (if trim_empty caption then None else Some (trim caption)) tasks,
        ""%string, ""%string, PhotoAdded).

(** [handleDeletePhoto] (lines 52-60), called with [selectedPhoto.id]:
    the dialog is closed. *)
Definition handleDeletePhoto (cu : option CUser) (now : Date) (taskId : string)
    (selected : CPhoto) (tasks : list CTask) : list CTask * option CPhoto * Toast :=
  (deleteTaskPhoto cu now taskId (cp_id selected) tasks, None, PhotoDeleted).

End TaskPhotoGallery.

Module TaskDetail.

(** [dependentTasks] (lines 43-45): the cached tasks named in
    [task.dependsOn]; no task the client builds carries [dependsOn]. *)
Definition dependentTasks (dependsOn : option (list string)) (tasks : list CTask) : list CTask :=
  match dependsOn with
  | Some ids => filter (λ t, c_id t ∈ ids) tasks
  | None => []
  end.

(** [handleCommentSubmit] (lines 53-63). *)
Definition handleCommentSubmit (cu : option CUser) (now : Date) (rid : string) (task : CTask)
    (text : string) (tasks : list CTask) : list CTask * string * option Toast :=
  if trim_empty text then (tasks, text, None)
  else (addTaskComment cu now rid (c_id task) text tasks, ""%string, Some CommentAdded).

(** [handleStatusChange] (lines 65-84): a warning when the task
    depends on unfinished tasks, then the update in every case. *)
Definition handleStatusChange (cu : option CUser) (now : Date) (task : CTask)
    (dependsOn : option (list string)) (s : Status) (tasks : list CTask)
    : list CTask * list Toast :=
  let warn := bool_decide (s = inProgress) &&
              (match dependsOn with Some (_ :: _) => true | _ => false end) &&
              bool_decide (filter (λ t, c_status t ≠ completed) (dependentTasks dependsOn tasks) ≠ []) in
  (updateTaskStatus cu now (c_id task) s tasks,
   (if warn then [DependencyWarning] else []) ++ [StatusUpdated s]).

(** The status buttons (lines 247-282): one per status other than the
    task's. *)
Definition status_buttons (task : CTask) : list Status :=
  filter (λ s, s ≠ c_status task) [todo; inProgress; completed].

End TaskDetail.

Module TaskDetailView.

(** [canEditTask] (lines 71-74) and [isOverdue] (lines 83-88). *)
Definition canEditTask (isAdmin : bool) (cu : option CUser) (task : CTask) : bool :=
  match cu with None => false | Some u => isAdmin || bool_decide (c_assignedTo task = cu_id u) end.

Definition isOverdue (now : Date) (task : CTask) : bool :=
  bool_decide (c_status task ≠ completed) && bool_decide (c_deadline task < now)%Z.

(** [handleUpdateStatus] (lines 90-97) and [handleDelete] (lines 99-103):
    the id passed to [onDelete], when the parent gave one. *)
Definition handleUpdateStatus (cu : option CUser) (now : Date) (taskId : string) (s : Status)
    (tasks : list CTask) : list CTask * Toast :=
  (updateTaskStatus cu now taskId s tasks, StatusUpdated s).

Definition handleDelete (onDelete : bool) (taskId : string) : option string :=
  if onDelete then Some taskId else None.

(** The action buttons (lines 272-335). *)
Record Controls := mkControls {
  editButton : bool;
  completeButton : bool;
  deleteButton : bool;
  startButton : bool;
}.

Definition controls (isAdmin onDelete : bool) (cu : option CUser) (task : CTask) : Controls :=
  let ce := canEditTask isAdmin cu task in
  mkControls ce (ce && bool_decide (c_status task ≠ completed)) (ce && onDelete && isAdmin)
    (bool_decide (c_status task ≠ completed) && bool_decide (c_status task ≠ inProgress) && ce).

(** What the view renders (lines 47-60, 105-113): "Task Not Found", the
    edit form while editing, or the task with its controls. *)
Inductive View :=
| NotFound
| Editing (f : option EditTaskForm.Form)
| Showing (t : CTask) (c : Controls).

Definition render (isEditing isAdmin onDelete : bool) (cu : option CUser) (tasks : list CTask)
    (taskId : string) : View :=
  match find_task tasks taskId with
  | None => NotFound
  | Some t =>
      if isEditing then Editing (EditTaskForm.mount tasks taskId)
      else Showing t (controls isAdmin onDelete cu t)
  end.

End TaskDetailView.

Module Settings.

(** The theme: [darkMode] of the page, the ['darkMode'] key of
    [localStorage] and the [dark] class of the document. *)
Record Theme := mkTheme { darkMode : bool; ls_darkMode : option string; html_dark : bool }.

(** [localStorage.getItem('darkMode') !== 'light']. *)
Definition stored_dark (ls : option string) : bool :=
  negb (bool_decide (ls = Some "light"%string)).

(** [ThemeInitializer] of [App.tsx] (lines 24-35) at load, and the
    page's own effect (lines 16-25): the class and the state follow the
    stored preference. *)
Definition themeInitializer (ls : option string) : Theme :=
  mkTheme true ls (stored_dark ls).

Definition mount (th : Theme) : Theme :=
  mkTheme (stored_dark (ls_darkMode th)) (ls_darkMode th) (stored_dark (ls_darkMode th)).

(** [toggleDarkMode] (lines 28-44). *)
Definition toggleDarkMode (th : Theme) : Theme :=
  let d := negb (darkMode th) in
  mkTheme d (Some (if d then "dark" else "light")%string) d.

End Settings.

(** ** The regular expression *)

Section regex_lemmas.
Import Regex.

(** A character [\S] matches. *)
Definition nonspace (c : ascii) : Prop := is_space c = false.

Lemma plus_then_spec k s :
  plus_then k s = true ↔
  ∃ x r, s = x ++ r ∧ x ≠ [] ∧ Forall nonspace x ∧ k r = true.
Proof.
  induction s as [|c s IH]; simpl.
  - split; [done|]. intros (x & r & Hs & Hx & _). by destruct x.
  - rewrite andb_true_iff, negb_true_iff, orb_true_iff, IH. split.
    + intros [Hc [Hk | (x & r & -> & Hx & Hf & Hk)]].
      * exists [c], s. split_and!; [done|done|by repeat constructor|done].
      * exists (c :: x), r. split_and!; [done|done|by constructor|done].
    + intros ([|c' x] & r & Hs & Hx & Hf & Hk); [done|]. simpl in Hs. injection Hs as -> ->.
      apply Forall_cons in Hf as [Hc Hf]. split; [done|].
      destruct x as [|c'' x]; [by left|right]. by exists (c'' :: x), r.
Qed.

Lemma lit_spec c k s : lit c k s = true ↔ ∃ r, s = c :: r ∧ k r = true.
Proof. destruct s as [|c' s]; simpl; [naive_solver|]. rewrite andb_true_iff, bool_decide_eq_true. naive_solver. Qed.

Lemma email_test_spec s : email_test s = true ↔ ∃ pre r, s = pre ++ r ∧ email_at r = true.
Proof.
  induction s as [|c s IH]; cbn [email_test]; rewrite orb_true_iff.
  - split; [intros [H|[]]; by exists [], []|].
    intros ([|] & r & Hs & H); simpl in Hs; [left; by subst|done].
  - rewrite IH. split.
    + intros [H|(pre & r & -> & H)]; [by exists [], (c :: s)|by exists (c :: pre), r].
    + intros ([|c' pre] & r & Hs & H); simpl in Hs; [left; by subst|].
      injection Hs as -> ->. right. eauto.
Qed.
End regex_lemmas.

Section regex_theorems.
Import Regex.

(** C31: the e-mail check of [Register]: [/\S+@\S+\.\S+/.test(email)] holds
    exactly when the e-mail contains a run of non-space characters, an
    [@], another run, a dot and a third run. *)
Theorem email_regex_spec s :
  email_test s = true ↔
  ∃ pre x y z post, s = pre ++ x ++ "@"%char :: y ++ "."%char :: z ++ post ∧
    x ≠ [] ∧ y ≠ [] ∧ z ≠ [] ∧ Forall nonspace (x ++ y ++ z).
Proof.
  rewrite email_test_spec. unfold email_at. setoid_rewrite plus_then_spec.
  setoid_rewrite lit_spec. setoid_rewrite plus_then_spec. setoid_rewrite lit_spec.
  setoid_rewrite plus_then_spec. setoid_rewrite Forall_app. setoid_rewrite Forall_app. split.
  - intros (pre & ? & -> & x & ? & -> & Hx & Fx & ? & -> & y & ? & -> & Hy & Fy & ? & -> &
            z & post & -> & Hz & Fz & _).
    exists pre, x, y, z, post. split_and!; try done.
  - intros (pre & x & y & z & post & -> & Hx & Hy & Hz & Fx & Fy & Fz).
    eexists pre, _. split; [done|]. eexists x, _. split_and!; [done|done|done|].
    eexists. split; [done|]. eexists y, _. split_and!; [done|done|done|].
    eexists. split; [done|]. by exists z, post.
Qed.
End regex_theorems.

(** ** The registration form *)

Section register_theorems.
Context `{TokenSigner}.

(** The registration page: a form that fails [validate] sends nothing
    and reports its errors; a valid form with a new e-mail creates a
    user whose role is [user] (the page always sends ['user']), signs
    the browser in as that user, who is not an admin, and navigates to
    [/dashboard]. *)
Theorem register_submit now s nm em pw st :
  (Register.no_errors (Register.validate nm em pw) = false →
   exec now s (Register.handleSubmit nm em pw st) =
     (s, (st, Register.Invalid (Register.validate nm em pw)))) ∧
  (Register.no_errors (Register.validate nm em pw) = true → find_by_email (srv_db s) em = None →
   let u := mkUser (db_next (srv_db s)) nm em user [] in
   ∃ s' st', exec now s (Register.handleSubmit nm em pw st) =
               (s', (st', Register.NavigatedTo "/dashboard")) ∧
     db_users (srv_db s') !! user_id u = Some u ∧ srv_pw s' !! user_id u = Some pw ∧
     currentUser st' = Some (cuser_of u) ∧ isAuthenticated st' = true ∧ isAdmin st' = false).
Proof.
  unfold Register.handleSubmit. split.
  - intros Hv. by rewrite Hv.
  - intros Hv Hf. rewrite Hv. cbn [negb]. rewrite exec_pbind.
    unfold AuthClient.register. cbn [exec serve auth_dispatch].
    unfold AuthServer.register. rewrite Hf. cbn. eexists _, _. split; [reflexivity|].
    split_and!; [apply lookup_insert_eq..|done|done|done].
Qed.
End register_theorems.

(** ** The fetched cache seen by the comment and photo components *)

Section fetched_lemmas.

(** Every task of the cache fetched from [GET /api/tasks] is the
    client's copy of a task view of the server. *)
Lemma fetched_of_view db u c :
  c ∈ fetchTasks (snd (run (getTasks u) db)) [] → ∃ v, of_view v = Some c.
Proof.
  rewrite getTasks_reply. simpl. destruct (mapM of_view _) as [l|] eqn:E; [|set_solver].
  intros Hc. apply mapM_Some_1 in E. apply list_elem_of_lookup_1 in Hc as [i Hi].
  destruct (Forall2_lookup_r _ _ _ _ _ E Hi) as (v & _ & Hv). eauto.
Qed.

(** The server's comments and photos carry neither the client's [id]
    nor [createdByName]. *)
Lemma of_view_comments v c cm :
  of_view v = Some c → cm ∈ c_comments c → cc_createdByName cm = None.
Proof.
  unfold of_view. destruct (populated_id _), (populated_id _); simpl; try done.
  intros [= <-]. simpl. intros (q & -> & _)%list_elem_of_fmap. done.
Qed.

Lemma of_view_photo_ids v c p : of_view v = Some c → p ∈ c_photos c → cp_id p = None.
Proof. intros Hv Hp. by destruct (of_view_server_photos v c p Hv Hp) as [q ->]. Qed.

Lemma find_task_elem tasks tid t : find_task tasks tid = Some t → t ∈ tasks.
Proof.
  unfold find_task. destruct (list_find _ _) as [[i t']|] eqn:E; simpl; [|done].
  intros [= <-]. apply list_find_Some in E as (Hi & _ & _). by eapply list_elem_of_lookup_2.
Qed.

End fetched_lemmas.

Section component_theorems.

(** Finding: [TaskComments] cannot render a comment fetched from the
    server.  It shows [comment.createdByName.charAt(0)], but the
    server's comments carry no [createdByName]: on the fetched cache,
    the list renders (does not throw) only for a task without comments. *)
Theorem comments_fetched_crash db u cu tid :
  let cache := fetchTasks (snd (run (getTasks u) db)) [] in
  TaskComments.render cu cache tid ≠ None → getTaskComments cache tid = [].
Proof.
  simpl. unfold TaskComments.render, getTaskComments.
  destruct (find_task _ tid) as [t|] eqn:Ht; simpl; [|done].
  destruct (c_comments t) as [|cm cms] eqn:Hc; [done|]. simpl.
  destruct (fetched_of_view db u t) as [v Hv]; [by eapply find_task_elem|].
  rewrite (of_view_comments v t cm) by (rewrite ?Hc; set_solver). done.
Qed.

(** Finding: deleting one photo of a fetched task in [TaskPhotoGallery]
    deletes them all.  The server's photos have no [id], so
    [handleDeletePhoto(selectedPhoto.id)] passes [undefined] and
    [photo.id !== photoId] drops every photo of the task from the
    cache. *)
Theorem gallery_delete_removes_all db u cu usr now tid t p :
  let cache := fetchTasks (snd (run (getTasks u) db)) [] in
  cu = Some usr → find_task cache tid = Some t → may_edit usr t → p ∈ c_photos t →
  getTaskPhotos (TaskPhotoGallery.handleDeletePhoto cu now tid p cache).1.1 tid = [].
Proof.
  simpl. intros -> Ht He Hp. pose proof (find_task_elem _ _ _ Ht) as Hin.
  destruct (fetched_of_view db u t Hin) as [v Hv].
  unfold TaskPhotoGallery.handleDeletePhoto, deleteTaskPhoto. simpl.
  rewrite Ht, decide_True by done. rewrite (of_view_photo_ids v t p) by done.
  unfold getTaskPhotos. rewrite find_task_map_id by (by intros ? <-). rewrite Ht. simpl.
  apply filter_all_out. intros q Hq. rewrite (of_view_photo_ids v t q) by done. by intros [].
Qed.

(** The theme round trip: after a toggle, the stored preference decodes
    to the new theme, so a reload ([ThemeInitializer], then the page's
    effect) shows the theme the user chose; two toggles give back the
    theme of the page. *)
Theorem theme_roundtrip th :
  let th' := Settings.toggleDarkMode th in
  Settings.html_dark (Settings.themeInitializer (Settings.ls_darkMode th')) = Settings.darkMode th' ∧
  Settings.darkMode (Settings.mount (Settings.themeInitializer (Settings.ls_darkMode th'))) =
    Settings.darkMode th' ∧
  Settings.darkMode (Settings.toggleDarkMode th') = Settings.darkMode th.
Proof. destruct th as [[] ls h]; done. Qed.
End component_theorems.
