(* ===== verification/CardViews.v ===== *)
(** * CardViews: the events of a [TaskCard]

    [components/TaskCard.tsx] keeps five [useState]s ([Cards.TaskCard.Card])
    and offers, depending on the session and its props, the edit/save
    and delete buttons, the upload button, the photos button, the status
    select, the inline editor and three dialogs.  [step] runs one event
    the rendered card offers, on the card's state and the task cache.
    The edit dialog has no trigger: no event sets [isEditDialogOpen] to
    true, so its fields and its "Save Changes" are never offered. *)

From S2P Require Import Prelude Schema ClientMirror AuthClient Pages Cards.
Import Schema ClientMirror.

Module TaskCardEvents.
Import TaskCard.

(** The props and the session the card reads. *)
Record Ctx := mkCtx {
  cx_user : option CUser;
  cx_isAdmin : bool;
  cx_showEditOptions : bool;
  cx_onDelete : bool;
  cx_onPhotoUpload : bool;
  cx_now : Date;
}.

(** The fields of the edit dialog (lines 291-399); its assignee select
    offers the fixed values ["2"] and ["3"]. *)
Inductive FieldEdit :=
| FLongDescription (s : string)
| FDeadline (d : Date)
| FPriority (p : Priority)
| FStatus (s : Status)
| FGroup (g : Group)
| FAssignedTo (a : string).

Definition edit_task (t : CTask) (e : FieldEdit) : CTask :=
  let '(mkCTask i ti sd ld dl st pr asg cb ca gr ph cm lu lb) := t in
  match e with
  | FLongDescription s => mkCTask i ti sd (Some s) dl st pr asg cb ca gr ph cm lu lb
  | FDeadline d => mkCTask i ti sd ld d st pr asg cb ca gr ph cm lu lb
  | FPriority p => mkCTask i ti sd ld dl st p asg cb ca gr ph cm lu lb
  | FStatus s => mkCTask i ti sd ld dl s pr asg cb ca gr ph cm lu lb
  | FGroup g => mkCTask i ti sd ld dl st pr asg cb ca (Some g) ph cm lu lb
  | FAssignedTo a => mkCTask i ti sd ld dl st pr a cb ca gr ph cm lu lb
  end.

(** The events of the card. *)
Inductive Event :=
| ToggleEdit                      (** edit/save button, line 137, and "Save Update", 203 *)
| OpenDelete                      (** line 146 *)
| SetDeleteOpen (b : bool)        (** line 414 *)
| ConfirmDelete                   (** "Delete Task", line 427 *)
| UploadClick                     (** line 158 *)
| OpenPhotos                      (** lines 170, 256 *)
| SetPhotosOpen (b : bool)        (** lines 434, 470 *)
| SelectStatus (s : Status)       (** line 239 *)
| EditTitle (v : string)          (** lines 189, 295 *)
| EditShortDescription (v : string) (** lines 195, 305 *)
| EditField (e : FieldEdit)       (** lines 315-390 *)
| SetEditOpen (b : bool)          (** line 280; Cancel, 404 *)
| SaveEdit.                       (** "Save Changes", line 407 *)

Definition with_edited (c : Card) (t : CTask) : Card :=
  mkCard (isEditDialogOpen c) (isDeleteDialogOpen c) (isPhotosDialogOpen c) t (isEditing c).

(** The events the rendered card offers (lines 126-475): a dialog's
    controls only while it is open, the inline inputs only in the edit
    mode, a dialog's [onOpenChange(true)] only through a trigger, which
    the edit dialog lacks. *)
Definition offered (cx : Ctx) (tasks : list CTask) (task : CTask) (c : Card) (ev : Event) : bool :=
  let ctl := controls (cx_showEditOptions cx) (cx_isAdmin cx) (cx_user cx) tasks task in
  match ev with
  | ToggleEdit => editButtons ctl || isEditing c
  | OpenDelete => editButtons ctl
  | SetDeleteOpen b => isDeleteDialogOpen c && negb b
  | ConfirmDelete => isDeleteDialogOpen c
  | UploadClick => uploadButton ctl
  | OpenPhotos => bool_decide (0 < photoCount ctl)%nat
  | SetPhotosOpen b => isPhotosDialogOpen c && negb b
  | SelectStatus _ => statusSelect ctl
  | EditTitle _ | EditShortDescription _ => isEditing c || isEditDialogOpen c
  | EditField _ | SaveEdit => isEditDialogOpen c
  | SetEditOpen b => isEditDialogOpen c && negb b
  end.

(** The card and the cache after one event, with the id the card hands
    to [onDelete] or [onPhotoUpload]. *)
Definition handle (cx : Ctx) (tasks : list CTask) (task : CTask) (c : Card) (ev : Event)
    : Card * list CTask * option string :=
  let u := cx_user cx in
  let now := cx_now cx in
  match ev with
  | ToggleEdit => let '(c', ts) := toggleEdit u now task c tasks in (c', ts, None)
  | OpenDelete => (mkCard (isEditDialogOpen c) true (isPhotosDialogOpen c) (editedTask c) (isEditing c), tasks, None)
  | SetDeleteOpen b => (mkCard (isEditDialogOpen c) b (isPhotosDialogOpen c) (editedTask c) (isEditing c), tasks, None)
  | ConfirmDelete => let '(c', out) := handleDelete (cx_onDelete cx) task c in (c', tasks, out)
  | UploadClick => (c, tasks, handlePhotoUploadClick (cx_onPhotoUpload cx) task)
  | OpenPhotos => (mkCard (isEditDialogOpen c) (isDeleteDialogOpen c) true (editedTask c) (isEditing c), tasks, None)
  | SetPhotosOpen b => (mkCard (isEditDialogOpen c) (isDeleteDialogOpen c) b (editedTask c) (isEditing c), tasks, None)
  | SelectStatus s => (c, handleStatusChange u now task s tasks, None)
  | EditTitle v => (set_title c v, tasks, None)
  | EditShortDescription v => (set_shortDescription c v, tasks, None)
  | EditField e => (with_edited c (edit_task (editedTask c) e), tasks, None)
  | SetEditOpen b => (mkCard b (isDeleteDialogOpen c) (isPhotosDialogOpen c) (editedTask c) (isEditing c), tasks, None)
  | SaveEdit => let '(c', ts) := handleSaveEdit u now task c tasks in (c', ts, None)
  end.

Definition step (cx : Ctx) (tasks : list CTask) (task : CTask) (c : Card) (ev : Event)
    : option (Card * list CTask * option string) :=
  if offered cx tasks task c ev then Some (handle cx tasks task c ev) else None.

(** The photos dialog (lines 434-475): while open, the task's title and
    each photo's image, caption and date. *)
Definition photos_dialog (tasks : list CTask) (task : CTask) (c : Card)
    : option (string * list (option string * option string * option Date)) :=
  if isPhotosDialogOpen c then
    Some (c_title task, (λ p, (cp_imageUrl p, cp_caption p, cp_createdAt p)) <$> getTaskPhotos tasks (c_id task))
  else None.

End TaskCardEvents.

(** ** The states a card reaches *)

Section card_reach.
Import TaskCard TaskCardEvents.

(** The fields of [editedTask] that only the edit dialog can change,
    and those nothing changes. *)
Definition frozen (t : CTask) :
    string * option string * Date * Status * Priority * string * option Group *
    (string * Date * list CPhoto * list CComment) :=
  (c_id t, c_longDescription t, c_deadline t, c_status t, c_priority t, c_assignedTo t, c_group t,
   (c_createdBy t, c_createdAt t, c_photos t, c_comments t)).

(** The states of a card mounted with the task [task0], after any
    offered events, whatever the session, the props and the cache at
    each event (other components change the cache in between). *)
Inductive card_reach (task0 : CTask) : Card → Prop :=
| card_reach_init : card_reach task0 (init task0)
| card_reach_step cx tasks task c ev c' ts' out :
    card_reach task0 c → step cx tasks task c ev = Some (c', ts', out) → card_reach task0 c'.

Lemma handle_frozen cx tasks task c ev :
  isEditDialogOpen c = false → offered cx tasks task c ev = true →
  isEditDialogOpen (handle cx tasks task c ev).1.1 = false ∧
  frozen (editedTask (handle cx tasks task c ev).1.1) = frozen (editedTask c).
Proof. intros Hd Ho. destruct ev; cbn in *; rewrite ?Hd in Ho |- *; by try (rewrite Hd in Ho; discriminate). Qed.

Lemma card_reach_frozen task0 c :
  card_reach task0 c → isEditDialogOpen c = false ∧ frozen (editedTask c) = frozen task0.
Proof.
  induction 1 as [|cx tasks task c ev c' ts' out _ [Hd Hf] Hs]; [done|].
  unfold step in Hs. destruct (offered _ _ _ _ _) eqn:Ho; [|done]. injection Hs as Hs.
  destruct (handle_frozen cx tasks task c ev Hd Ho) as [Hd' Hf']. rewrite Hs in Hd', Hf'. simpl in *.
  split; congruence.
Qed.

End card_reach.

Section card_theorems.
Import TaskCard TaskCardEvents.

(** The edit dialog of a [TaskCard] never opens: in every state a card
    reaches it is closed, and the fields only it edits keep, in
    [editedTask], the values of the task the card was mounted with. *)
Theorem card_edit_dialog_closed task0 c :
  card_reach task0 c →
  isEditDialogOpen c = false ∧ c_status (editedTask c) = c_status task0 ∧
  c_priority (editedTask c) = c_priority task0 ∧ c_deadline (editedTask c) = c_deadline task0 ∧
  c_assignedTo (editedTask c) = c_assignedTo task0 ∧ c_group (editedTask c) = c_group task0.
Proof. intros Hr. destruct (card_reach_frozen _ _ Hr) as [Hd Hf]. unfold frozen in Hf. by simplify_eq. Qed.

(** Finding: the inline save of a [TaskCard] reverts the task to the
    values it had when the card was mounted.  [editedTask] is
    [useState(task)], read once; leaving the edit mode calls
    [updateTask(task.id, editedTask)] with the whole copy, so whatever
    the cached task's status, priority, deadline, assignee, photos and
    comments have become since, the save writes the mount-time ones
    back: a photo uploaded or a comment added meanwhile is lost. *)
Theorem card_inline_save_stale task0 c cx tasks task t u :
  card_reach task0 c → isEditing c = true → cx_user cx = Some u →
  c_id task = c_id task0 → find_task tasks (c_id task) = Some t →
  ∃ c' ts' t', step cx tasks task c ToggleEdit = Some (c', ts', None) ∧
    find_task ts' (c_id task) = Some t' ∧
    c_status t' = c_status task0 ∧ c_priority t' = c_priority task0 ∧
    c_deadline t' = c_deadline task0 ∧ c_assignedTo t' = c_assignedTo task0 ∧
    c_photos t' = c_photos task0 ∧ c_comments t' = c_comments task0.
Proof.
  intros Hr He Hu Hid Ht. destruct (card_reach_frozen _ _ Hr) as [_ Hf]. unfold frozen in Hf.
  unfold step, offered. rewrite He, orb_true_r. cbn [handle toggleEdit]. rewrite He, Hu.
  do 3 eexists. split; [reflexivity|]. rewrite (updateTask_found u _ _ _ _ t); [|intros i Hi; simpl in Hi; injection Hf; intros; congruence|done].
  split; [reflexivity|]. simplify_eq/=. done.
Qed.

End card_theorems.
