(* ===== verification/DetailViews.v ===== *)
(** * DetailViews: the state and the events of the task detail components

    [components/TaskDetail.tsx] shows a task's details, its dependencies,
    a comment panel and one button per other status;
    [components/TaskPhotoGallery.tsx] lists a task's photos, with an
    "Add Photo" dialog and a detail dialog that deletes;
    [components/TaskComments.tsx] lists a task's comments with a trash
    button on those the user may delete, and a text box to add one;
    [components/TaskDetailView.tsx] is the page around them.  Their
    [useState]s are records, each event a function on the state and the
    cache, as the handlers of [Forms] compose them. *)

From S2P Require Import Prelude Schema ClientMirror AuthClient Pages Cards Forms.
Import Schema ClientMirror JsString.

Module TaskDetailPanel.

(** [newComment] and [viewingComments] (lines 35-36). *)
Record PanelState := mkPanelState { newComment : string; viewingComments : bool }.

Definition init : PanelState := mkPanelState "" false.

(** The comment input (line 222), the comments and close buttons (186,
    238), the form's submit (218) and the status buttons (247-281). *)
Inductive Event :=
| SetComment (s : string)
| ShowComments (b : bool)
| SubmitComment
| StatusButton (s : Status).

(** The events the panel offers: the input and the submit inside the
    comment panel, a status button for each other status. *)
Definition offered (task : CTask) (ps : PanelState) (ev : Event) : bool :=
  match ev with
  | SetComment _ | SubmitComment => viewingComments ps
  | ShowComments b => negb (eqb b (viewingComments ps))
  | StatusButton s => bool_decide (s ∈ TaskDetail.status_buttons task)
  end.

(** One event; [rid] is the random id of a new comment. *)
Definition handle (cu : option CUser) (now : Date) (rid : string) (task : CTask)
    (dependsOn : option (list string)) (ps : PanelState) (tasks : list CTask) (ev : Event)
    : PanelState * list CTask * list Toast :=
  match ev with
  | SetComment s => (mkPanelState s (viewingComments ps), tasks, [])
  | ShowComments b => (mkPanelState (newComment ps) b, tasks, [])
  | SubmitComment =>
      let '(ts, txt, toast) := TaskDetail.handleCommentSubmit cu now rid task (newComment ps) tasks in
      (mkPanelState txt (viewingComments ps), ts, from_option (λ t, [t]) [] toast)
  | StatusButton s =>
      let '(ts, toasts) := TaskDetail.handleStatusChange cu now task dependsOn s tasks in
      (ps, ts, toasts)
  end.

(** The status label (lines 116-117): "In Progress", else the status
    with a capital. *)
Definition status_badge (s : Status) : string :=
  match s with inProgress => "In Progress" | todo => "Todo" | completed => "Completed" end.

(** What the panel shows (lines 104-287): nothing without a user
    (line 38); the details with the users' names; the dependencies with
    their state; the comments (each with the initial of its author's
    name, whose [charAt] throws without a name) or the buttons. *)
Inductive Rendered :=
| NoUser
| Throws
| Panel (badge : string) (assignee creator : string) (deps : list (string * bool))
    (comments : option (list (string * string))) (buttons : list Status).

Definition render (cu : option CUser) (allUsers : list CUser) (task : CTask)
    (dependsOn : option (list string)) (ps : PanelState) (tasks : list CTask) : Rendered :=
  match cu with
  | None => NoUser
  | Some _ =>
      let name := user_name allUsers "Unknown User" in
      let deps := (λ t, (c_title t, bool_decide (c_status t = completed)))
                    <$> TaskDetail.dependentTasks dependsOn tasks in
      let panel := Panel (status_badge (c_status task)) (name (c_assignedTo task))
                     (name (c_createdBy task)) deps in
      if viewingComments ps then
        match mapM (λ c, n ← cc_createdByName c; Some (n, from_option id ""%string (cc_text c)))
                (getTaskComments tasks (c_id task)) with
        | Some l => panel (Some l) []
        | None => Throws
        end
      else panel None (TaskDetail.status_buttons task)
  end.

End TaskDetailPanel.

Module GalleryView.

(** [newPhotoUrl], [newPhotoCaption], [selectedPhoto] (lines 22-24). *)
Record GalleryState := mkGalleryState {
  newPhotoUrl : string;
  newPhotoCaption : string;
  selectedPhoto : option CPhoto;
}.

Definition init : GalleryState := mkGalleryState "" "" None.

(** The inputs of the add dialog (97, 106), its Cancel and Add buttons
    (128-138), a thumbnail (152), the detail dialog's close (182) and
    its delete button (218). *)
Inductive Event :=
| SetUrl (s : string)
| SetCaption (s : string)
| CancelAdd
| AddPhoto
| SelectPhoto (p : CPhoto)
| ClosePhoto
| DeleteSelected.

(** One event; [rid] is the random id [addTaskPhoto] draws. *)
Definition handle (cu : option CUser) (now : Date) (rid taskId : string) (gs : GalleryState)
    (tasks : list CTask) (ev : Event) : GalleryState * list CTask * option Toast :=
  match ev with
  | SetUrl s => (mkGalleryState s (newPhotoCaption gs) (selectedPhoto gs), tasks, None)
  | SetCaption s => (mkGalleryState (newPhotoUrl gs) s (selectedPhoto gs), tasks, None)
  | CancelAdd => (mkGalleryState "" "" (selectedPhoto gs), tasks, None)
  | AddPhoto =>
      let '(ts, url, cap, toast) :=
        TaskPhotoGallery.handleAddPhoto cu now rid taskId (newPhotoUrl gs) (newPhotoCaption gs) tasks in
      (mkGalleryState url cap (selectedPhoto gs), ts, Some toast)
  | SelectPhoto p => (mkGalleryState (newPhotoUrl gs) (newPhotoCaption gs) (Some p), tasks, None)
  | ClosePhoto => (mkGalleryState (newPhotoUrl gs) (newPhotoCaption gs) None, tasks, None)
  | DeleteSelected =>
      match selectedPhoto gs with
      | Some p =>
          let '(ts, sel, toast) := TaskPhotoGallery.handleDeletePhoto cu now taskId p tasks in
          (mkGalleryState (newPhotoUrl gs) (newPhotoCaption gs) sel, ts, Some toast)
      | None => (gs, tasks, None)
      end
  end.

(** What the gallery shows (lines 71-228): the count, the thumbnails
    with their captions, the preview of a typed URL, the selected
    photo. *)
Record GalleryRender := mkGalleryRender {
  gr_count : nat;
  gr_thumbs : list (option string * option string);
  gr_preview : option string;
  gr_detail : option CPhoto;
}.

Definition render (taskId : string) (gs : GalleryState) (tasks : list CTask) : GalleryRender :=
  let photos := getTaskPhotos tasks taskId in
  mkGalleryRender (length photos) ((λ p, (cp_imageUrl p, cp_caption p)) <$> photos)
    (if decide (newPhotoUrl gs = ""%string) then None else Some (newPhotoUrl gs))
    (selectedPhoto gs).

End GalleryView.

Module CommentsView.

(** [commentText] (line 21). *)
Record State := mkState { commentText : string }.

Definition init : State := mkState "".

(** [String.prototype.toUpperCase] on ASCII. *)
Definition upper (c : ascii) : ascii :=
  let n := N_of_ascii c in
  if (97 <=? n)%N && (n <=? 122)%N then ascii_of_N (n - 32) else c.

(** [name.charAt(0).toUpperCase()]: the empty string for an empty name. *)
Definition initial (name : string) : string :=
  match name with EmptyString => "" | String c _ => String (upper c) "" end.

(** One comment of the list (lines 81-115): the avatar's letter, the
    author's name, the text, and whether the trash button shows. *)
Record Item := mkItem { it_id : option string; it_initial : string; it_name : string;
                        it_text : string; it_deletable : bool }.

(** What the card shows (lines 69-143): the count in the title, the
    items ("No comments yet" when there are none), the text box and
    whether the send button is enabled ([disabled={!currentUser}]).
    [None] is the [TypeError] of [charAt] on a comment without
    [createdByName]: the card does not render. *)
Record View := mkView { v_count : nat; v_items : list Item; v_text : string; v_send : bool }.

Definition render (cu : option CUser) (tasks : list CTask) (taskId : string) (st : State) : option View :=
  let comments := getTaskComments tasks taskId in
  items ← mapM (λ c, n ← cc_createdByName c;
                  Some (mkItem (cc_id c) (initial n) n (from_option id ""%string (cc_text c))
                          (TaskComments.canDeleteComment cu c))) comments;
  Some (mkView (length comments) items (commentText st) (bool_decide (is_Some cu))).

(** The text box (line 130), the send button (135) and the trash
    button of a comment (103). *)
Inductive Event := TypeText (s : string) | ClickSend | ClickDelete (cid : string).

(** The events the rendered card offers. *)
Definition offered (cu : option CUser) (tasks : list CTask) (taskId : string) (st : State) (ev : Event) : bool :=
  match render cu tasks taskId st with
  | None => false
  | Some v =>
      match ev with
      | TypeText _ => true
      | ClickSend => v_send v
      | ClickDelete cid => existsb (λ it, bool_decide (it_id it = Some cid) && it_deletable it) (v_items v)
      end
  end.

(** One event, through [handleAddComment] and [handleDeleteComment];
    [rid] is the random id of a new comment. *)
Definition handle (cu : option CUser) (now : Date) (rid taskId : string) (st : State)
    (tasks : list CTask) (ev : Event) : State * list CTask * list Toast :=
  match ev with
  | TypeText s => (mkState s, tasks, [])
  | ClickSend =>
      let '(ts, txt, toast) := TaskComments.handleAddComment cu now rid taskId (commentText st) tasks in
      (mkState txt, ts, [toast])
  | ClickDelete cid =>
      let '(ts, toast) := TaskComments.handleDeleteComment cu now taskId cid tasks in
      (st, ts, [toast])
  end.

End CommentsView.

(** ** Lemmas *)

Module TaskDetailPage.

(** [isEditing] (line 45), and the state of the [EditTaskForm] it
    mounts while editing (lines 105-113). *)
Record PageState := mkPageState { isEditing : bool; form : option EditTaskForm.Form }.

Definition init : PageState := mkPageState false None.

(** The colour of the header (line 140). *)
Inductive Header := HCompleted | HOverdue | HNormal.

Definition header (now : Date) (t : CTask) : Header :=
  if decide (c_status t = completed) then HCompleted
  else if TaskDetailView.isOverdue now t then HOverdue else HNormal.

(** [getStatusBadgeClass] and [getPriorityBadgeClass] (lines 115-135). *)
Definition getStatusBadgeClass (s : Status) : string :=
  match s with
  | completed => "bg-green-100 text-green-700 dark:bg-green-900 dark:text-green-300"
  | inProgress => "bg-blue-100 text-blue-700 dark:bg-blue-900 dark:text-blue-300"
  | todo => "bg-gray-100 text-gray-700 dark:bg-gray-700 dark:text-gray-300"
  end.

Definition getPriorityBadgeClass (p : Priority) : string :=
  match p with
  | high => "bg-red-100 text-red-700 dark:bg-red-900 dark:text-red-300"
  | medium => "bg-orange-100 text-orange-700 dark:bg-orange-900 dark:text-orange-300"
  | low => "bg-green-100 text-green-700 dark:bg-green-900 dark:text-green-300"
  end.

(** [task.priority.charAt(0).toUpperCase() + task.priority.slice(1)]
    (line 167). *)
Definition priority_cap (p : Priority) : string :=
  match p with high => "High" | medium => "Medium" | low => "Low" end.

(** The details tab (lines 154-256): the title, [Task #{task.id.substr(0, 6)}],
    the badges, the description or its placeholder, the deadline and
    whether it is overdue, the assignee's and creator's names with the
    defaults of [getAssignedToName] and [getCreatedByName], and the last
    update with its author or "Unknown". *)
Record Details := mkDetails {
  d_title : string;
  d_idPrefix : string;
  d_status : string;
  d_priority : string;
  d_group : option Group;
  d_description : string;
  d_overdue : bool;
  d_assignee : string;
  d_creator : string;
  d_lastUpdate : option (Date * string);
}.

Definition details (now : Date) (allUsers : list CUser) (t : CTask) : Details :=
  mkDetails (c_title t) (substring 0 6 (c_id t)) (TaskCard.status_label (c_status t))
    (priority_cap (c_priority t)) (c_group t)
    (match c_longDescription t with
     | Some d => if decide (d = ""%string) then "No detailed description provided." else d
     | None => "No detailed description provided."
     end)%string
    (TaskDetailView.isOverdue now t)
    (user_name allUsers "Unassigned" (c_assignedTo t)) (user_name allUsers "Unknown" (c_createdBy t))
    ((λ lu, (lu, from_option (user_name allUsers "Unknown") "Unknown"%string (c_lastUpdatedBy t)))
       <$> c_lastUpdated t).

(** The page (lines 47-339). *)
Inductive Rendered :=
| NotFoundPage (backButton : bool)
| EditingForm (f : option EditTaskForm.Form)
| Showing (h : Header) (d : Details) (c : TaskDetailView.Controls) (backButton : bool).

Definition render (now : Date) (cu : option CUser) (allUsers : list CUser) (isAdmin onDelete onBack : bool)
    (taskId : string) (ps : PageState) (tasks : list CTask) : Rendered :=
  match find_task tasks taskId with
  | None => NotFoundPage onBack
  | Some t =>
      if isEditing ps then EditingForm (form ps)
      else Showing (header now t) (details now allUsers t) (TaskDetailView.controls isAdmin onDelete cu t) onBack
  end.

(** The events: Edit Task (line 276), the form's inputs, Cancel and
    Save (109-110, [EditTaskForm] 82-104), Mark Complete (286), Start
    Working (329), the deletion dialog's Delete (314) and Go Back (59,
    148). *)
Inductive Event :=
| StartEdit
| FormEdit (e : EditTaskForm.Edit)
| FormCancel
| FormSave
| MarkComplete
| StartWorking
| ConfirmDelete
| Back.

(** What an event asks of the parent: [onDelete(taskId)] or [onBack()]. *)
Inductive Out := Deleted (tid : string) | WentBack.

(** The events the rendered page offers. *)
Definition offered (r : Rendered) (ev : Event) : bool :=
  match r, ev with
  | NotFoundPage b, Back => b
  | EditingForm (Some _), (FormEdit _ | FormCancel | FormSave) => true
  | Showing _ _ c b, StartEdit => TaskDetailView.editButton c
  | Showing _ _ c b, MarkComplete => TaskDetailView.completeButton c
  | Showing _ _ c b, StartWorking => TaskDetailView.startButton c
  | Showing _ _ c b, ConfirmDelete => TaskDetailView.deleteButton c
  | Showing _ _ c b, Back => b
  | _, _ => false
  end.

Definition handle (cu : option CUser) (now : Date) (onDelete : bool) (taskId : string)
    (ps : PageState) (tasks : list CTask) (ev : Event) : PageState * list CTask * option Out :=
  match ev with
  | StartEdit => (mkPageState true (EditTaskForm.mount tasks taskId), tasks, None)
  | FormEdit e => (mkPageState (isEditing ps) ((λ f, EditTaskForm.apply_edit f e) <$> form ps), tasks, None)
  | FormCancel => (init, tasks, None)
  | FormSave =>
      match form ps with
      | Some f =>
          match EditTaskForm.handleSave cu now taskId f tasks with
          | (ts, None) => (init, ts, None)
          | (ts, Some _) => (ps, ts, None)
          end
      | None => (ps, tasks, None)
      end
  | MarkComplete => (ps, (TaskDetailView.handleUpdateStatus cu now taskId completed tasks).1, None)
  | StartWorking => (ps, (TaskDetailView.handleUpdateStatus cu now taskId inProgress tasks).1, None)
  | ConfirmDelete => (ps, tasks, Deleted <$> TaskDetailView.handleDelete onDelete taskId)
  | Back => (ps, tasks, Some WentBack)
  end.

End TaskDetailPage.

Section detail_lemmas.

(** A photo added by an editor ends the task's photos. *)
Lemma addTaskPhoto_found u now rid tid url cap tasks t :
  find_task tasks tid = Some t → may_edit u t →
  find_task (addTaskPhoto (Some u) now rid tid url cap tasks) tid =
    Some (with_photos t (c_photos t ++ [mkCPhoto (Some rid) (Some tid) (Some url) cap (Some now) (Some (cu_id u))])
            now (cu_id u)).
Proof.
  intros Ht He. unfold addTaskPhoto. rewrite Ht, decide_True by done.
  rewrite find_task_map_id by (by intros ? <-). by rewrite Ht.
Qed.

(** A comment added by an editor ends the task's comments. *)
Lemma addTaskComment_found u now rid tid txt tasks t :
  find_task tasks tid = Some t → may_edit u t →
  find_task (addTaskComment (Some u) now rid tid txt tasks) tid =
    Some (with_comments t (c_comments t ++ [mkCComment (Some rid) (Some txt) (Some (cu_id u)) (Some (cu_name u))])
            now (cu_id u)).
Proof.
  intros Ht He. unfold addTaskComment. rewrite Ht, decide_True by done.
  rewrite find_task_map_id by (by intros ? <-). by rewrite Ht.
Qed.

(** Deleting, as its author, a comment whose id no other comment has
    gives back the comments before it. *)
Lemma deleteTaskComment_last u now tid cid tasks t cs c :
  find_task tasks tid = Some t → c_comments t = cs ++ [c] →
  cc_id c = Some cid → cc_createdBy c = Some (cu_id u) → Forall (λ d, cc_id d ≠ Some cid) cs →
  getTaskComments (deleteTaskComment (Some u) now tid cid tasks) tid = cs.
Proof.
  intros Ht Hc Hid Hby Hcs. unfold deleteTaskComment. rewrite Ht, Hc.
  rewrite list_find_app_r by (by apply list_find_None). simpl.
  case_decide; [|done]. simpl. rewrite decide_True by auto. unfold getTaskComments.
  rewrite find_task_map_id by (by intros ? <-). rewrite Ht. simpl.
  rewrite Hc, filter_app, filter_all_in by done. rewrite filter_cons, decide_False, filter_nil by auto.
  apply app_nil_r.
Qed.

End detail_lemmas.

(** ** Theorems *)

Section detail_theorems.

(** A status button of [TaskDetail], pressed by a user who may edit
    the task, sets the cached task's status to the button's, keeps the
    panel, and ends with the "Status updated" toast. *)
Theorem detail_status_button cu u now rid task dependsOn ps tasks t s :
  TaskDetailPanel.offered task ps (TaskDetailPanel.StatusButton s) = true →
  cu = Some u → find_task tasks (c_id task) = Some t → may_edit u t →
  let '(ps', ts', toasts) :=
    TaskDetailPanel.handle cu now rid task dependsOn ps tasks (TaskDetailPanel.StatusButton s) in
  ps' = ps ∧ s ≠ c_status task ∧
  find_task ts' (c_id task) = Some (patch_task t (status_patch s) now (cu_id u)) ∧
  last toasts = Some (StatusUpdated s).
Proof.
  intros Ho -> Ht He. simpl in Ho. apply bool_decide_eq_true in Ho.
  unfold TaskDetail.status_buttons in Ho. apply list_elem_of_filter in Ho as [Hs _].
  cbn [TaskDetailPanel.handle TaskDetail.handleStatusChange]. split_and!; [done|done| |].
  - by apply updateTaskStatus_found.
  - by rewrite last_app.
Qed.

(** The gallery's add dialog: by a user who may edit the task, a URL
    that is not blank and a caption give a photo at the end of the
    task's photos, with the URL and the trimmed caption (none when
    blank); the form is cleared. *)
Theorem gallery_add_listed cu u now rid tid gs tasks t url cap :
  cu = Some u → find_task tasks tid = Some t → may_edit u t → trim_empty url = false →
  let gs1 := (GalleryView.handle cu now rid tid gs tasks (GalleryView.SetUrl url)).1.1 in
  let gs2 := (GalleryView.handle cu now rid tid gs1 tasks (GalleryView.SetCaption cap)).1.1 in
  let '(gs3, ts, toast) := GalleryView.handle cu now rid tid gs2 tasks GalleryView.AddPhoto in
  toast = Some PhotoAdded ∧ GalleryView.newPhotoUrl gs3 = ""%string ∧
  GalleryView.newPhotoCaption gs3 = ""%string ∧
  getTaskPhotos ts tid = c_photos t ++
    [mkCPhoto (Some rid) (Some tid) (Some url) (if trim_empty cap then None else Some (trim cap))
       (Some now) (Some (cu_id u))].
Proof.
  intros -> Ht He Hu. cbn -[trim_empty trim addTaskPhoto].
  unfold TaskPhotoGallery.handleAddPhoto. rewrite Hu. cbn -[trim_empty trim addTaskPhoto]. split_and!; [done..|].
  unfold getTaskPhotos. by rewrite (addTaskPhoto_found u _ _ _ _ _ _ t).
Qed.

(** Mark Complete in [TaskDetailView], pressed by a user who may edit
    the task: the page shows the task completed, with the green header,
    not overdue, and neither Mark Complete nor Start Working. *)
Theorem detail_mark_complete now cu u allUsers isAdmin onDelete onBack tid ps tasks t :
  cu = Some u → TaskDetailPage.isEditing ps = false → find_task tasks tid = Some t → may_edit u t →
  TaskDetailPage.offered (TaskDetailPage.render now cu allUsers isAdmin onDelete onBack tid ps tasks)
    TaskDetailPage.MarkComplete = true →
  let '(ps', ts, out) := TaskDetailPage.handle cu now onDelete tid ps tasks TaskDetailPage.MarkComplete in
  out = None ∧ ∃ d c,
    TaskDetailPage.render now cu allUsers isAdmin onDelete onBack tid ps' ts =
      TaskDetailPage.Showing TaskDetailPage.HCompleted d c onBack ∧
    TaskDetailPage.d_status d = "Completed"%string ∧ TaskDetailPage.d_overdue d = false ∧
    TaskDetailView.completeButton c = false ∧ TaskDetailView.startButton c = false.
Proof.
  intros -> Hed Ht He _. cbn [TaskDetailPage.handle TaskDetailView.handleUpdateStatus fst].
  split; [done|]. unfold TaskDetailPage.render. rewrite (updateTaskStatus_found u _ _ _ _ t Ht He), Hed.
  do 2 eexists. split; [reflexivity|]. cbn. by rewrite !andb_false_r.
Qed.

(** The comment card's round trip: a non-empty comment sent by an
    editor clears the text box and is listed with its trash button; a
    click on that button gives back the task's comments as they were.
    The card renders only while every comment has an author name. *)
Theorem comments_send_then_delete cu u now rid tid text tasks t :
  cu = Some u → find_task tasks tid = Some t → may_edit u t → trim_empty text = false →
  Forall (λ c, cc_id c ≠ Some rid ∧ is_Some (cc_createdByName c)) (c_comments t) →
  let '(st1, ts1, toasts1) :=
    CommentsView.handle cu now rid tid (CommentsView.mkState text) tasks CommentsView.ClickSend in
  CommentsView.commentText st1 = ""%string ∧ toasts1 = [CommentAdded] ∧
  CommentsView.offered cu ts1 tid st1 (CommentsView.ClickDelete rid) = true ∧
  getTaskComments (snd (fst (CommentsView.handle cu now rid tid st1 ts1 (CommentsView.ClickDelete rid)))) tid =
    c_comments t.
Proof.
  intros -> Ht He Hx Hcs. unfold CommentsView.handle, TaskComments.handleAddComment.
  cbn [CommentsView.commentText]. rewrite Hx. cbn -[addTaskComment deleteTaskComment CommentsView.offered getTaskComments].
  split_and!; [done|done| |].
  - unfold CommentsView.offered, CommentsView.render, getTaskComments.
    rewrite (addTaskComment_found _ _ _ _ _ _ t) by done. cbn [from_option c_comments with_comments].
    destruct (mapM_is_Some_2 (λ c, n ← cc_createdByName c; Some (CommentsView.mkItem (cc_id c)
               (CommentsView.initial n) n (from_option id ""%string (cc_text c))
               (TaskComments.canDeleteComment (Some u) c))) (c_comments t)) as [k Hk].
    { eapply Forall_impl; [done|]. intros c [_ [n Hn]]. simpl. by rewrite Hn. }
    erewrite mapM_snoc by (done || reflexivity). simpl.
    rewrite existsb_app. simpl. unfold TaskComments.canDeleteComment.
    rewrite (bool_decide_eq_true_2 (Some rid = Some rid)), (bool_decide_eq_true_2 (Some (cu_id u) = _)) by done.
    by destruct (existsb _ k), (bool_decide (cu_role u = admin)).
  - eapply deleteTaskComment_last; [by apply addTaskComment_found|done|done|done|].
    eapply Forall_impl; [done|]. naive_solver.
Qed.

End detail_theorems.
