(* ===== verification/FormViews.v ===== *)
(** * FormViews: the state of the login, registration and settings pages

    [pages/Login.tsx] and [pages/Register.tsx] keep their fields, a
    loading flag and the errors in [useState]s; their submit runs the
    [handleSubmit] of [ClientRoutes] and [Forms] as a program over the
    API and then updates the page.  [pages/Settings.tsx] shows the
    profile, three notification switches and a "Save Settings" button.
    Navigation is an output; the page is left when it is [Some]. *)

From S2P Require Import Prelude Schema ClientMirror AuthServer AuthClient ClientRoutes Pages Forms.
Import Schema ClientMirror AuthClient JsString.

Module HtmlForm.

(** The [required] attribute of an input: the browser fires the form's
    [submit] event only when every required input has a value.  (The
    [type="email"] check the browser adds blocks more submissions; it is
    not modelled, so the submissions below are a superset of the real
    ones.) *)
Definition required_ok (vs : list string) : bool :=
  forallb (λ v, negb (bool_decide (v = ""%string))) vs.

End HtmlForm.

Module LoginPage.

(** The [useState]s (lines 9-12). *)
Record PageState := mkPageState { email : string; password : string; isLoading : bool; error : string }.

Definition init : PageState := mkPageState "" "" false "".

(** The inputs (lines 98, 114). *)
Definition setEmail (ps : PageState) (s : string) : PageState :=
  mkPageState s (password ps) (isLoading ps) (error ps).
Definition setPassword (ps : PageState) (s : string) : PageState :=
  mkPageState (email ps) s (isLoading ps) (error ps).

(** The form's submit (line 91): [ClientRoutes.handleSubmit], the
    error it sets, [isLoading] back to false after a request (the
    [finally]), and the navigation. *)
Definition submit (ps : PageState) (st : St) : Prog (PageState * St * option string) :=
  pbind (ClientRoutes.handleSubmit (email ps) (password ps) st) (λ '(st', out),
    match out with
    | ClientRoutes.FormError m =>
        let loading := if decide (email ps = ""%string ∨ password ps = ""%string) then isLoading ps else false in
        Done (mkPageState (email ps) (password ps) loading m, st', None)
    | ClientRoutes.NavigatedTo p => Done (mkPageState (email ps) (password ps) false "", st', Some p)
    end).

(** [loginAsAdmin] and [loginAsUser] (lines 51-79): the demo accounts;
    no button of the page calls them. *)
Definition quick_login (em : string) (ps : PageState) (st : St) : Prog (PageState * St * option string) :=
  let ps1 := mkPageState em "password" (isLoading ps) (error ps) in
  pbind (login em "password" st) (λ '(st', err),
    match err with
    | None => Done (ps1, st', Some "/dashboard"%string)
    | Some m => Done (mkPageState em "password" (isLoading ps) (if decide (m = ""%string) then "Login failed" else m),
                      st', None)
    end)%string.

(** Where the error is shown (lines 103-123): under the e-mail field
    when it mentions "email", under the password otherwise. *)
Definition error_slots (ps : PageState) : option string * option string :=
  if decide (error ps = ""%string) then (None, None)
  else if includes (error ps) "email" then (Some (error ps), None) else (None, Some (error ps)).

(** The submit button (lines 125-131): its label, and whether it is
    disabled. *)
Definition button (ps : PageState) : string * bool :=
  (if isLoading ps then "Logging in..." else "LOGIN", isLoading ps)%string.

(** The page's events: typing in the two inputs, and submitting the
    form (the LOGIN button, or Enter in an input). *)
Inductive Event := TypeEmail (s : string) | TypePassword (s : string) | SubmitForm.

(** The submit event fires when both inputs, which are [required]
    (lines 101, 117), have a value and the button is not disabled. *)
Definition fires (ps : PageState) : bool :=
  negb (isLoading ps) && HtmlForm.required_ok [email ps; password ps].

Section step.
Context `{TokenSigner}.

(** One event of the page against the server. *)
Definition step (now : Date) (s : AuthServer.Server) (ps : PageState) (st : St) (ev : Event)
    : AuthServer.Server * (PageState * St * option string) :=
  match ev with
  | TypeEmail x => (s, (setEmail ps x, st, None))
  | TypePassword x => (s, (setPassword ps x, st, None))
  | SubmitForm => if fires ps then exec now s (submit ps st) else (s, (ps, st, None))
  end.
End step.

End LoginPage.

Module RegisterPage.
Import Register.

(** The [useState]s (lines 10-14); [errors.form] is the error of the
    request. *)
Record PageState := mkPageState {
  name : string; email : string; password : string; isLoading : bool;
  errors : Errors; formError : option string;
}.

Definition init : PageState := mkPageState "" "" "" false (mkErrors None None None) None.

(** The form's submit (line 95): [validate] replaces the errors and,
    when it fails, nothing else happens; otherwise the request, after
    which [isLoading] is false and [errors] becomes [{form}] on
    failure. *)
Definition submit (ps : PageState) (st : St) : Prog (PageState * St * option string) :=
  pbind (Register.handleSubmit (name ps) (email ps) (password ps) st) (λ '(st', out),
    match out with
    | Invalid e => Done (mkPageState (name ps) (email ps) (password ps) (isLoading ps) e None, st', None)
    | Failed m => Done (mkPageState (name ps) (email ps) (password ps) false (mkErrors None None None) (Some m), st', None)
    | Register.NavigatedTo p =>
        Done (mkPageState (name ps) (email ps) (password ps) false (mkErrors None None None) None, st', Some p)
    end).

(** The messages under the fields and the form (lines 107-146), and the
    button (148-154). *)
Definition messages (ps : PageState) : list string :=
  from_option (λ m, [m]) [] (err_name (errors ps)) ++ from_option (λ m, [m]) [] (err_email (errors ps)) ++
  from_option (λ m, [m]) [] (err_password (errors ps)) ++ from_option (λ m, [m]) [] (formError ps).

Definition button (ps : PageState) : string * bool :=
  (if isLoading ps then "Creating account..." else "REGISTER", isLoading ps)%string.

(** The inputs (lines 102, 118, 134) and the form's submit; the three
    inputs are [required]. *)
Inductive Event := TypeName (s : string) | TypeEmail (s : string) | TypePassword (s : string) | SubmitForm.

Definition fires (ps : PageState) : bool :=
  negb (isLoading ps) && HtmlForm.required_ok [name ps; email ps; password ps].

Section step.
Context `{TokenSigner}.

Definition step (now : Date) (s : AuthServer.Server) (ps : PageState) (st : St) (ev : Event)
    : AuthServer.Server * (PageState * St * option string) :=
  match ev with
  | TypeName x => (s, (mkPageState x (email ps) (password ps) (isLoading ps) (errors ps) (formError ps), st, None))
  | TypeEmail x => (s, (mkPageState (name ps) x (password ps) (isLoading ps) (errors ps) (formError ps), st, None))
  | TypePassword x => (s, (mkPageState (name ps) (email ps) x (isLoading ps) (errors ps) (formError ps), st, None))
  | SubmitForm => if fires ps then exec now s (submit ps st) else (s, (ps, st, None))
  end.
End step.

End RegisterPage.

Module SettingsPage.

(** What the page shows (lines 46-150): nothing without a user; the
    name (an uncontrolled input), the e-mail and role (disabled), three
    notification switches (uncontrolled, on) and "Save Settings". *)
Record View := mkView { v_name : string; v_email : string; v_role : string; v_switches : list bool }.

Definition role_string (r : Role) : string := match r with admin => "admin" | user => "user" end.

Definition render (st : St) : option View :=
  (λ cu, mkView (cu_name cu) (cu_email cu) (role_string (cu_role cu)) [true; true; true]) <$> currentUser st.

(** [handleSaveSettings] (lines 48-53): only a toast. *)
Definition handleSaveSettings (st : St) (th : Settings.Theme) : St * Settings.Theme * string :=
  (st, th, "Settings saved"%string).

End SettingsPage.

(** ** Lemmas: what a login request can answer *)

Section login_lemmas.
Context `{TokenSigner}.

(** [login] of [AuthContext] fails with the server's only message,
    "Invalid credentials", or succeeds. *)
Lemma login_exec_err now s em pw st :
  snd (snd (exec now s (login em pw st))) ∈ [None; Some "Invalid credentials"%string].
Proof.
  unfold login. simpl exec. unfold AuthServer.serve, AuthServer.auth_dispatch, AuthServer.login.
  destruct (AuthServer.find_by_email _ em) as [u|]; [case_decide|]; simpl; [|set_solver..].
  destruct (AuthServer.protected _ _ _ _) as [s1 d]. case_decide; simpl; [|set_solver].
  destruct (AuthServer.protected _ _ _ _) as [s2 ua]. simpl. set_solver.
Qed.

(** A submit of the login page with both fields filled ends with no
    error or with "Invalid credentials". *)
Lemma login_submit_error now s ps st :
  LoginPage.email ps ≠ ""%string → LoginPage.password ps ≠ ""%string →
  LoginPage.error (fst (fst (snd (exec now s (LoginPage.submit ps st))))) ∈ [""; "Invalid credentials"]%string.
Proof.
  intros He Hp. unfold LoginPage.submit. rewrite exec_pbind. unfold ClientRoutes.handleSubmit.
  rewrite decide_False by tauto. rewrite exec_pbind.
  pose proof (login_exec_err now s (LoginPage.email ps) (LoginPage.password ps) st) as Hl.
  destruct (exec _ _ (login _ _ _)) as [s1 [st1 e]]. simpl in Hl.
  apply elem_of_cons in Hl as [->|Hl]; [simpl; set_solver|].
  apply list_elem_of_singleton in Hl as ->. simpl. set_solver.
Qed.

(** The states the login page reaches from its initial state by its
    events, each answered by the server. *)
Inductive login_reach : AuthServer.Server → LoginPage.PageState → St → Prop :=
| login_reach_init s st : login_reach s LoginPage.init st
| login_reach_step now s ps st ev s' ps' st' out :
    login_reach s ps st → LoginPage.step now s ps st ev = (s', (ps', st', out)) →
    login_reach s' ps' st'.

Lemma fires_filled ps :
  LoginPage.fires ps = true → LoginPage.email ps ≠ ""%string ∧ LoginPage.password ps ≠ ""%string.
Proof.
  unfold LoginPage.fires, HtmlForm.required_ok. simpl.
  rewrite !andb_true_iff, !negb_true_iff, !bool_decide_eq_false. tauto.
Qed.

Lemma login_reach_error s ps st :
  login_reach s ps st → LoginPage.error ps ∈ [""; "Invalid credentials"]%string.
Proof.
  induction 1 as [s st|now s ps st ev s' ps' st' out _ IH Hstep]; [set_solver|].
  destruct ev; simpl in Hstep; [by inv_clear Hstep..|].
  destruct (LoginPage.fires ps) eqn:Hf; [|by inv_clear Hstep].
  apply fires_filled in Hf as [He Hp].
  pose proof (login_submit_error now s ps st He Hp) as Hl. by rewrite Hstep in Hl.
Qed.

End login_lemmas.

(** ** Theorems: the forms' error paths *)

Section form_theorems.
Context `{TokenSigner}.

(** A login form with an empty field sends nothing: the server and the
    session are unchanged, the page stays, and the message, which
    mentions "email", is shown under the e-mail field. *)
Theorem login_empty_field now s ps st :
  (LoginPage.email ps = ""%string ∨ LoginPage.password ps = ""%string) →
  ∃ ps', exec now s (LoginPage.submit ps st) = (s, (ps', st, None)) ∧
    LoginPage.error_slots ps' = (Some "Please enter both email and password"%string, None) ∧
    LoginPage.isLoading ps' = LoginPage.isLoading ps.
Proof.
  intros He. unfold LoginPage.submit. rewrite exec_pbind. unfold ClientRoutes.handleSubmit.
  rewrite decide_True by done. simpl. rewrite decide_True by done.
  eexists. split; [reflexivity|]. split; [|done].
  unfold LoginPage.error_slots. simpl. by vm_compute.
Qed.

(** A registration that [validate] refuses sends nothing: the server
    and the session are unchanged, the page stays, and the messages are
    exactly those of [validate], in the order of the fields. *)
Theorem register_invalid_no_request now s ps st :
  Register.no_errors (Register.validate (RegisterPage.name ps) (RegisterPage.email ps) (RegisterPage.password ps)) = false →
  ∃ ps', exec now s (RegisterPage.submit ps st) = (s, (ps', st, None)) ∧
    RegisterPage.errors ps' = Register.validate (RegisterPage.name ps) (RegisterPage.email ps) (RegisterPage.password ps) ∧
    RegisterPage.formError ps' = None ∧ RegisterPage.isLoading ps' = RegisterPage.isLoading ps.
Proof.
  intros Hv. unfold RegisterPage.submit. rewrite exec_pbind. unfold Register.handleSubmit.
  rewrite Hv. simpl. eexists. split; [reflexivity|]. done.
Qed.

(** The empty-field check of the login form is dead code: both inputs
    are [required], so the browser never fires the submit with an empty
    field.  In every state the page reaches, against any server, the
    error is empty or the server's "Invalid credentials"; in particular
    "Please enter both email and password" is never shown, and nothing
    is ever shown under the e-mail field. *)
Theorem login_page_errors s ps st :
  login_reach s ps st →
  LoginPage.error ps ≠ "Please enter both email and password"%string ∧
  fst (LoginPage.error_slots ps) = None.
Proof.
  intros Hr. apply login_reach_error in Hr. revert Hr.
  unfold LoginPage.error_slots. generalize (LoginPage.error ps). intros e Hr.
  apply elem_of_cons in Hr as [->|Hr]; [|apply list_elem_of_singleton in Hr as ->];
    (split; [discriminate|vm_compute; reflexivity]).
Qed.

End form_theorems.
