(* ===== verification/UserViews.v ===== *)
(** * UserViews: what the user dashboard and [MyTasks] render

    [pages/UserDashboard.tsx] is the page of a signed-in user (an admin
    sees a welcome panel that links to the admin pages): counters, a
    completion bar, the deadlines of the week, the user's tasks as
    [EnhancedTaskCard]s, and an upload tab with a task picker, a file
    input with a preview, a caption and an upload dialog whose
    confirmation runs [handlePhotoUpload] ([ClientServer]).
    [pages/MyTasks.tsx] lists the tasks assigned to the user, filtered
    by a search box and a group select, in an "All Tasks" tab and one
    tab per status.

    The page state ([useState]) is a record, each handler a function on
    it, and what a page renders is a record of the values it shows. *)

From Stdlib Require Import Sorted.
From stdpp Require Import pretty.
From S2P Require Import Prelude ObjectId Schema Http Store Auth TaskController Routes ClientMirror ClientServer AuthServer AuthClient Pages Stats Cards Forms.
Import Schema Http Store TaskController Routes ClientMirror ClientServer AuthClient JsString.

Module UserDashboardView.

(** The [useState]s of the page (lines 38-45); the preview holds the file
    the [FileReader] read. *)
Record PageState := mkPageState {
  searchQuery : string;
  activeTab : string;
  selectedTaskId : option string;
  photoCaption : string;
  photoPreview : option Upload;
  selectedFile : option Upload;
  isPhotoDialogOpen : bool;
  showWelcomeNotification : bool;
}.

(** The state after mount: the tab of the URL (lines 51-69). *)
Definition init (tab taskId : option string) : PageState :=
  mkPageState "" (UserDashboard.initial_tab tab taskId)
    (match taskId with Some id => if decide (id = ""%string) then None else Some id | None => None end)
    "" None None false true.

(** [handleFileChange] (lines 104-117): the first chosen file, and its
    preview once the reader has loaded it. *)
Definition handleFileChange (ps : PageState) (files : list Upload) : PageState :=
  match files with
  | f :: _ => mkPageState (searchQuery ps) (activeTab ps) (selectedTaskId ps) (photoCaption ps)
                (Some f) (Some f) (isPhotoDialogOpen ps) (showWelcomeNotification ps)
  | [] => ps
  end.

(** The task picker of the upload tab (lines 428-439). *)
Definition selectTask (ps : PageState) (tid : string) : PageState :=
  mkPageState (searchQuery ps) (activeTab ps) (Some tid) (photoCaption ps)
    (photoPreview ps) (selectedFile ps) (isPhotoDialogOpen ps) (showWelcomeNotification ps).

(** The upload button opens the dialog only with a task and a preview
    ([disabled={!selectedTaskId || !photoPreview}], lines 536-539). *)
Definition uploadEnabled (ps : PageState) : bool :=
  bool_decide (is_Some (selectedTaskId ps)) && bool_decide (is_Some (photoPreview ps)).

Section upload.
Context `{TokenVerifier}.

(** [handlePhotoUpload] (lines 119-174) with its form reset: on success
    the caption, the file, the preview, the dialog and the task picker
    are cleared; on an error only a toast is shown. *)
Definition submitUpload (cu : option CUser) (token : string) (now : Date) (rid : string)
    (ps : PageState) (db : Db) (cache : list CTask) : PageState * Db * list CTask * UploadOutcome :=
  let '(db', cache', out) :=
    handlePhotoUpload cu token (selectedTaskId ps) (selectedFile ps) (photoCaption ps) now rid db cache in
  match out with
  | Uploaded =>
      (mkPageState (searchQuery ps) (activeTab ps) None "" None None false (showWelcomeNotification ps),
       db', cache', out)
  | Toast_error _ => (ps, db', cache', out)
  end.
End upload.

(** The text under a deadline (lines 376-378). *)
Definition due_label (daysLeft : Z) : string :=
  if decide (daysLeft = 0)%Z then "Due today"
  else if decide (daysLeft = 1)%Z then "Due tomorrow"
  else (pretty daysLeft ++ " days left")%string.

(** [tasks.find(t => t.id === photo.taskId)?.title || 'Unknown Task']
    (lines 556-566). *)
Definition photo_task_title (tasks : list CTask) (p : CPhoto) : string :=
  match cp_taskId p ≫= find_task tasks with
  | Some t => if decide (c_title t = ""%string) then "Unknown Task" else c_title t
  | None => "Unknown Task"
  end.

(** [.sort((a, b) => new Date(b.createdAt) - new Date(a.createdAt))]: a
    photo goes before another only when both dates exist and it is the
    more recent ([NaN] compares as equal). *)
Definition photo_newer (a b : CPhoto) : bool :=
  match cp_createdAt a, cp_createdAt b with
  | Some x, Some y => bool_decide (y < x)%Z
  | _, _ => false
  end.

(** The stable insertion of [p] into the sorted rest, [p] first unless
    the other photo is strictly newer; [foldr insert_photo []] is the
    stable sort.  With a date missing the comparator is not an order and
    the engine's result is unspecified; this is the result of a stable
    insertion sort. *)
Fixpoint insert_photo (p : CPhoto) (l : list CPhoto) : list CPhoto :=
  match l with
  | [] => [p]
  | q :: l' => if photo_newer q p then q :: insert_photo p l' else p :: l
  end.

(** "Recent Uploads" (lines 547-579): the eight most recent photos of the
    user's tasks, each with the title of its task. *)
Definition recentUploads (st : St) (tasks : list CTask) : list (CPhoto * string) :=
  (λ p, (p, photo_task_title tasks p)) <$>
    take 8 (foldr insert_photo [] (mjoin (c_photos <$> UserDashboard.userTasks st tasks))).

(** What a non-admin user sees (lines 240-582). *)
Record UserView := mkUserView {
  newTaskBanner : option nat;
  counts : nat * nat * nat * nat;
  completionRate : nat;
  upcoming : list (CTask * string);
  taskCards : list CTask;
  uploadChoices : list CTask;
  uploadButton : bool;
  uploads : list (CPhoto * string);
}.

Inductive View :=
| Nothing
| AdminWelcome
| Member (v : UserView).

(** The page (lines 188-582): nothing without a user, the welcome panel
    for an admin, the dashboard otherwise. *)
Definition render (st : St) (now : Date) (ps : PageState) (tasks : list CTask) : View :=
  match currentUser st with
  | None => Nothing
  | Some _ =>
      if isAdmin st then AdminWelcome else
      let ut := UserDashboard.userTasks st tasks in
      let nt := UserDashboard.newTasks st now tasks in
      Member (mkUserView
        (if showWelcomeNotification ps && bool_decide (nt ≠ []) then Some (length nt) else None)
        (length ut, length (with_status completed ut), length (with_status inProgress ut),
         length (with_status todo ut))
        (UserDashboard.completionRate st tasks)
        ((λ t, (t, due_label (UserDashboard.daysLeft now t))) <$>
           UserDashboard.upcomingDeadlines st now tasks)
        (UserDashboard.filteredTasks st (searchQuery ps) tasks)
        ut (uploadEnabled ps) (recentUploads st tasks))
  end.

End UserDashboardView.

Module UserDashboardEvents.
Import UserDashboardView.

(** The events of the page: the banner's close button and timer (lines
    263, 64-66), the search box (284), the tabs (295), a card's upload
    button (400), the task picker (438), the file input (518) and its
    clear button (494-501), the caption (530), the upload button (537)
    and the dialog's [onOpenChange] and Cancel (584, 605). *)
Inductive Event :=
| DismissWelcome
| SetSearch (q : string)
| TabChange (v : string)
| CardPhotoUpload (tid : string)
| PickTask (tid : string)
| ChooseFiles (files : list Upload)
| ClearFile
| SetCaption (s : string)
| OpenUploadDialog
| SetDialogOpen (b : bool).

(** The events offered: only the dialog's while it is open (it is
    modal), the upload button only when enabled. *)
Definition offered (ps : PageState) (ev : Event) : bool :=
  match ev with
  | SetDialogOpen b => isPhotoDialogOpen ps && negb b
  | OpenUploadDialog => negb (isPhotoDialogOpen ps) && uploadEnabled ps
  | _ => negb (isPhotoDialogOpen ps)
  end.

(** The state after an event, and the location it navigates to. *)
Definition handle (ps : PageState) (ev : Event) : PageState * option string :=
  let '(mkPageState q tab sel cap prev file dlg welcome) := ps in
  match ev with
  | DismissWelcome => (mkPageState q tab sel cap prev file dlg false, None)
  | SetSearch q' => (mkPageState q' tab sel cap prev file dlg welcome, None)
  | TabChange v => (mkPageState q v sel cap prev file dlg welcome, Some (UserDashboard.handleTabChange v))
  | CardPhotoUpload tid =>
      (mkPageState q "uploadPhotos" (Some tid) cap prev file dlg welcome,
       Some (UserDashboard.handleTaskPhotoUpload tid))
  | PickTask tid => (selectTask ps tid, None)
  | ChooseFiles fs => (handleFileChange ps fs, None)
  | ClearFile => (mkPageState q tab sel cap None None dlg welcome, None)
  | SetCaption c => (mkPageState q tab sel c prev file dlg welcome, None)
  | OpenUploadDialog => (mkPageState q tab sel cap prev file true welcome, None)
  | SetDialogOpen b => (mkPageState q tab sel cap prev file b welcome, None)
  end.

End UserDashboardEvents.

Module MyTasksView.

(** The [useState]s of the page (lines 23-25): the search box, the group
    select (['All'] is [None]) and the view mode. *)
Inductive ViewMode := Grid | List.

Record PageState := mkPageState {
  searchQuery : string;
  selectedGroup : option Group;
  viewMode : ViewMode;
}.

Definition init : PageState := mkPageState "" None Grid.

(** The tabs (lines 159-250): "All Tasks" and one per status. *)
Inductive Tab := AllTab | StatusTab (s : Status).

(** [selectedGroup === 'All' || task.group === selectedGroup]. *)
Definition in_group (g : option Group) (t : CTask) : bool :=
  match g with None => true | Some g' => bool_decide (c_group t = Some g') end.

(** The tasks a tab lists: [getTasksByGroup(selectedGroup)] in "All
    Tasks", [tasksByStatus[status]] with the group filter in the others. *)
Definition tab_tasks (cu : CUser) (ps : PageState) (tab : Tab) (tasks : list CTask) : list CTask :=
  match tab with
  | AllTab => MyTasks.getTasksByGroup cu (searchQuery ps) (selectedGroup ps) tasks
  | StatusTab s =>
      filter (λ t, in_group (selectedGroup ps) t = true)
        (with_status s (MyTasks.filteredTasks cu (searchQuery ps) tasks))
  end.

(** The counters (lines 100-155): all the user's tasks, then the
    searched tasks in progress and completed. *)
Definition counters (cu : CUser) (ps : PageState) (tasks : list CTask) : nat * nat * nat :=
  let f := MyTasks.filteredTasks cu (searchQuery ps) tasks in
  (length (MyTasks.myTasks cu tasks), length (with_status inProgress f),
   length (with_status completed f)).

(** What the page renders: nothing without a user (line 27). *)
Definition render (cu : option CUser) (ps : PageState) (tab : Tab) (tasks : list CTask)
    : option (nat * nat * nat * list CTask) :=
  match cu with
  | None => None
  | Some u => Some (counters u ps tasks, tab_tasks u ps tab tasks)
  end.

End MyTasksView.

Module MyTasksEvents.
Import MyTasksView.

(** The search box (line 74), the group select (84), the view-mode
    buttons (101, 109), and the status select of a card's hover card
    (185, 229). *)
Inductive Event :=
| SetSearch (q : string)
| SetGroup (g : option Group)
| SetViewMode (m : ViewMode)
| CardStatus (tid : string) (s : Status).

Definition handle (st : St) (now : Date) (ps : PageState) (tasks : list CTask) (ev : Event)
    : PageState * list CTask :=
  match ev with
  | SetSearch q => (mkPageState q (selectedGroup ps) (viewMode ps), tasks)
  | SetGroup g => (mkPageState (searchQuery ps) g (viewMode ps), tasks)
  | SetViewMode m => (mkPageState (searchQuery ps) (selectedGroup ps) m, tasks)
  | CardStatus tid s => (ps, MyTasks.handleStatusChange st now tid s tasks)
  end.

End MyTasksEvents.

(** ** Lemmas on the pages' filters *)

Section view_lemmas.

Lemma filter_fmap_comm {A B} (P : B → Prop) `{∀ x, Decision (P x)} (f : A → B) (l : list A) :
  filter P (f <$> l) = f <$> filter (λ x, P (f x)) l.
Proof.
  induction l as [|x l IH]; [done|]. rewrite fmap_cons, !filter_cons.
  case_decide; rewrite ?fmap_cons; by rewrite IH.
Qed.

(** Splitting by status loses no task and counts none twice. *)
Lemma with_status_sum (P : CTask → Prop) `{∀ x, Decision (P x)} l :
  (length (filter P (with_status todo l)) + length (filter P (with_status inProgress l)) +
   length (filter P (with_status completed l)) = length (filter P l))%nat.
Proof.
  unfold with_status. induction l as [|t l IH]; [done|].
  destruct (c_status t) eqn:E; repeat (first [rewrite filter_cons | case_decide]); simpl;
    try congruence; lia.
Qed.

Lemma all_tab_in_group cu ps tasks :
  MyTasksView.tab_tasks cu ps MyTasksView.AllTab tasks =
  filter (λ t, MyTasksView.in_group (MyTasksView.selectedGroup ps) t = true)
    (MyTasks.filteredTasks cu (MyTasksView.searchQuery ps) tasks).
Proof.
  unfold MyTasksView.tab_tasks, MyTasks.getTasksByGroup, MyTasksView.in_group.
  destruct (MyTasksView.selectedGroup ps) as [g|].
  - unfold with_group. apply list_filter_iff. intros t. by rewrite bool_decide_eq_true.
  - symmetry. apply filter_all_in, Forall_forall. done.
Qed.
Lemma userTasks_sub st tasks t : t ∈ UserDashboard.userTasks st tasks → t ∈ tasks.
Proof.
  unfold UserDashboard.userTasks, assigned_to. destruct (currentUser st); [|set_solver].
  by intros [_ ?]%list_elem_of_filter.
Qed.

(** [a] is listed before [b]: both are dated and [a] is as recent. *)
Definition newest_first (a b : CPhoto) : Prop :=
  ∃ x y, cp_createdAt a = Some x ∧ cp_createdAt b = Some y ∧ (y <= x)%Z.

Lemma insert_photo_perm p l : UserDashboardView.insert_photo p l ≡ₚ p :: l.
Proof.
  induction l as [|q l IH]; [done|]. simpl. destruct (UserDashboardView.photo_newer q p); [|done].
  rewrite IH. apply perm_swap.
Qed.

Lemma insert_photo_sorted p l :
  is_Some (cp_createdAt p) → Forall (λ q, is_Some (cp_createdAt q)) l →
  Sorted newest_first l → Sorted newest_first (UserDashboardView.insert_photo p l).
Proof.
  intros [x Hx]. induction l as [|q l IH]; intros Hl Hs; simpl; [by repeat constructor|].
  inversion Hl as [|? ? [y Hy] Hl']; subst. inversion Hs as [|? ? Hs' Hhd]; subst.
  unfold UserDashboardView.photo_newer. rewrite Hy, Hx.
  case_bool_decide as Hlt.
  - constructor; [by apply IH|].
    destruct l as [|r l]; simpl.
    + constructor. exists y, x. split_and!; [done|done|lia].
    + destruct (UserDashboardView.photo_newer r p); constructor.
      * by inversion Hhd.
      * exists y, x. split_and!; [done|done|lia].
  - constructor; [done|]. constructor. exists x, y. split_and!; [done|done|lia].
Qed.

(** With every photo dated, the comparator sort lists a permutation of
    the photos, newest first. *)
Lemma sort_dated l :
  Forall (λ q, is_Some (cp_createdAt q)) l →
  foldr UserDashboardView.insert_photo [] l ≡ₚ l ∧ Sorted newest_first (foldr UserDashboardView.insert_photo [] l).
Proof.
  induction 1 as [|p l Hp Hl [IHp IHs]]; simpl; [done|]. split.
  - by rewrite insert_photo_perm, IHp.
  - apply insert_photo_sorted; [done| |done]. by rewrite IHp.
Qed.

(** The photos of the user's tasks in the fetched cache are the
    server's photos. *)
Lemma fetched_user_photos db u st :
  Forall (λ p, ∃ q, p = photo_of_server q)
    (mjoin (c_photos <$> UserDashboard.userTasks st (fetchTasks (snd (run (getTasks u) db)) []))).
Proof.
  apply Forall_join, Forall_fmap, Forall_forall. intros t Ht%userTasks_sub. apply Forall_forall.
  destruct (fetched_of_view db u t Ht) as [v Hv]. intros p. by apply (of_view_server_photos v).
Qed.
(** The user's tasks in the cache fetched at mount. *)
Lemma userTasks_fetched db u st cache :
  keyed db → Forall (refs_exist db) (visible db u) → role u = user →
  (user_id u < ObjectId.bound)%N → Forall (λ t, (assignedTo t < ObjectId.bound)%N) (task_list db) →
  currentUser st = Some (cuser_of u) →
  UserDashboard.userTasks st (fetchTasks (snd (run (getTasks u) db)) cache) =
    of_raw_task <$> filter (λ t, assignedTo t = user_id u) (task_list db).
Proof.
  intros Hk Hf Hr Hu Hb Hcu. rewrite fetchTasks_getTasks by done.
  unfold UserDashboard.userTasks. rewrite Hcu. cbn [cu_id cuser_of].
  unfold visible. rewrite decide_False by (rewrite Hr; discriminate).
  unfold assigned_to. rewrite filter_fmap_comm, list_filter_filter. f_equal.
  apply filter_ext_Forall. eapply Forall_impl; [exact Hb|]. intros t Ht.
  unfold of_raw_task, involves. cbn [of_task c_assignedTo]. split.
  - intros [Heq _]. by apply ObjectId.to_hex_inj in Heq.
  - intros ->. by split; [|left].
Qed.
End view_lemmas.

(** ** The states of the user dashboard's upload form *)

Section upload_reach.
Context `{TokenVerifier}.
Import UserDashboardView UserDashboardEvents.

(** The page states reached from a mount by offered events and by the
    dialog's "Confirm Upload" (line 611). *)
Inductive ud_reach : PageState → Prop :=
| ud_reach_init tab tid : ud_reach (init tab tid)
| ud_reach_event ps ev : ud_reach ps → offered ps ev = true → ud_reach (handle ps ev).1
| ud_reach_confirm ps cu token now rid db cache :
    ud_reach ps → isPhotoDialogOpen ps = true →
    ud_reach (submitUpload cu token now rid ps db cache).1.1.1.

(** The preview is the chosen file, and the dialog is open only with a
    task and a file. *)
Definition upload_ready (ps : PageState) : Prop :=
  photoPreview ps = selectedFile ps ∧
  (isPhotoDialogOpen ps = true → is_Some (selectedTaskId ps) ∧ is_Some (selectedFile ps)).

Lemma handle_upload_ready ps ev :
  upload_ready ps → offered ps ev = true → upload_ready (handle ps ev).1.
Proof.
  destruct ps as [q tab sel cap prev file dlg w]. intros [Hp Hd] Ho. unfold upload_ready in *. simpl in *.
  subst prev. destruct ev; simpl in *; try (split; [done|]; intros Hdlg; rewrite Hdlg in Ho; discriminate).
  - unfold handleFileChange. destruct files; simpl;
      (split; [done|]; intros Hdlg; rewrite Hdlg in Ho; discriminate).
  - split; [done|]; intros _. unfold uploadEnabled in Ho. simpl in Ho.
    apply andb_true_iff in Ho as [_ Ho]. apply andb_true_iff in Ho as [Hs Hf].
    apply bool_decide_eq_true in Hs, Hf. auto.
  - split; [done|]. intros ->. rewrite andb_false_r in Ho. discriminate.
Qed.

Lemma submitUpload_ready cu token now rid ps db cache :
  upload_ready ps → upload_ready (submitUpload cu token now rid ps db cache).1.1.1.
Proof.
  intros Hr. unfold submitUpload.
  destruct (handlePhotoUpload _ _ _ _ _ _ _ _ _) as [[db' cache'] out]. destruct out; simpl; [done|].
  split; [done|]. discriminate.
Qed.

Lemma ud_reach_ready ps : ud_reach ps → upload_ready ps.
Proof.
  induction 1 as [tab tid|ps ev _ IH Ho|ps cu token now rid db cache _ IH _].
  - by split.
  - by apply handle_upload_ready.
  - by apply submitUpload_ready.
Qed.

(** The upload dialog of the user dashboard opens only on a chosen task
    and file: in every state the page reaches, while the dialog is open
    the task and the file are set and the preview is that file, so its
    "Confirm Upload" always passes the "Missing required information"
    check of [handlePhotoUpload] for a signed-in user. *)
Theorem upload_dialog_ready ps :
  ud_reach ps → isPhotoDialogOpen ps = true →
  ∃ sid f, selectedTaskId ps = Some sid ∧ selectedFile ps = Some f ∧ photoPreview ps = Some f.
Proof.
  intros Hr Hd. destruct (ud_reach_ready ps Hr) as [Hp Hr'].
  destruct (Hr' Hd) as [[sid Hs] [f Hf]]. exists sid, f. rewrite Hp. auto.
Qed.

End upload_reach.

Section view_theorems.

(** The tabs of [MyTasks]: the three status tabs split the "All Tasks"
    tab, each task of the tab in exactly the tab of its status, for any
    search and group filter. *)
Theorem mytasks_tabs_partition cu ps tasks :
  let tab := λ tb, MyTasksView.tab_tasks cu ps tb tasks in
  (length (tab (MyTasksView.StatusTab todo)) + length (tab (MyTasksView.StatusTab inProgress)) +
   length (tab (MyTasksView.StatusTab completed)) = length (tab MyTasksView.AllTab))%nat ∧
  (∀ s t, t ∈ tab (MyTasksView.StatusTab s) ↔ t ∈ tab MyTasksView.AllTab ∧ c_status t = s).
Proof.
  intros tab. unfold tab. cbv beta. rewrite all_tab_in_group. cbn [MyTasksView.tab_tasks]. split.
  - apply with_status_sum.
  - intros s t. unfold with_status. rewrite !list_elem_of_filter. naive_solver.
Qed.

(** C19: the user dashboard refines the server.  For a user who is not an
    admin, whose visible tasks reference existing users, the dashboard
    rendered on the cache fetched at mount is the member view, whose
    task picker lists exactly the client form of the server's tasks
    assigned to that user and whose cards are the search over them: the
    page composes [getTasks], [fetchTasks] and its own filter without
    losing or adding a task. *)
Theorem userdashboard_refines db u st now ps cache :
  keyed db → Forall (refs_exist db) (visible db u) → role u = user →
  (user_id u < ObjectId.bound)%N → Forall (λ t, (assignedTo t < ObjectId.bound)%N) (task_list db) →
  currentUser st = Some (cuser_of u) →
  let mine := of_raw_task <$> filter (λ t, assignedTo t = user_id u) (task_list db) in
  ∃ v, UserDashboardView.render st now ps (fetchTasks (snd (run (getTasks u) db)) cache) =
         UserDashboardView.Member v ∧
       UserDashboardView.uploadChoices v = mine ∧
       UserDashboardView.taskCards v = search (UserDashboardView.searchQuery ps) mine.
Proof.
  intros Hk Hf Hr Hu Hb Hcu mine. unfold UserDashboardView.render.
  assert (isAdmin st = false) as ->.
  { unfold isAdmin. rewrite Hcu. cbn [cu_role cuser_of]. rewrite Hr. by apply bool_decide_eq_false. }
  rewrite Hcu. eexists. split; [reflexivity|]. cbn [UserDashboardView.uploadChoices UserDashboardView.taskCards].
  unfold UserDashboard.filteredTasks. by rewrite userTasks_fetched.
Qed.

(** Finding: "Recent Uploads" names no task on the fetched cache.  The
    server's photos carry their [createdAt], so the list is the eight
    most recent photos of the user's tasks, newest first; but they carry
    no [taskId] (the photos are embedded in their task), so every photo
    is labelled "Unknown Task". *)
Theorem recent_uploads_fetched db u st :
  let cache := fetchTasks (snd (run (getTasks u) db)) [] in
  let photos := mjoin (c_photos <$> UserDashboard.userTasks st cache) in
  ∃ sorted, sorted ≡ₚ photos ∧ Sorted newest_first sorted ∧
    UserDashboardView.recentUploads st cache = (λ p, (p, "Unknown Task"%string)) <$> take 8 sorted.
Proof.
  intros cache photos. pose proof (fetched_user_photos db u st) as Hf.
  destruct (sort_dated photos) as [Hp Hs].
  { eapply Forall_impl; [exact Hf|]. intros p [q ->]. simpl. eauto. }
  eexists. split_and!; [exact Hp|exact Hs|].
  unfold UserDashboardView.recentUploads. fold cache photos.
  apply Forall_fmap_ext_1, Forall_take. eapply Forall_impl.
  - rewrite Hp. exact Hf.
  - by intros p [q ->].
Qed.
End view_theorems.
