(* ===== verification/AdminViews.v ===== *)
(** * AdminViews: what the admin dashboard, its chart and the users page render

    [pages/Dashboard.tsx] is the admin's overview: four counters, a
    [TaskChart] whose view four buttons select, a dialog with the task
    form, and the task cards in an "All Tasks" tab and one tab per
    group.  [components/TaskChart.tsx] draws the status pie, the
    priority bars, the creation timeline or the per-group progress.
    [pages/Users.tsx] lists the users with their task counts and their
    latest photo, and opens dialogs to view, edit and delete a user.

    Each page's [useState]s are a record; the events of the page are an
    inductive type and [handle] the state after one of them; the
    handlers that call a context are programs ([Prog]) over the API, as
    in [Pages]; what a page renders is a record of the values shown. *)

From S2P Require Import Prelude ObjectId Schema Http Store Auth TaskController Routes ClientMirror ClientServer CacheWf AuthServer AuthClient Pages Stats Cards UserViews.
Import Schema Http Store TaskController ClientMirror AuthServer AuthClient.

Module TaskChartView.

(** [activeView] (lines 6-8). *)
Inductive ChartView := StatusChart | PriorityChart | TimelineChart | ProgressChart.

(** [statusData] and [priorityData] (lines 13-25). *)
Definition statusData (tasks : list CTask) : list (string * nat) :=
  [("To Do", count_status tasks todo); ("In Progress", count_status tasks inProgress);
   ("Completed", count_status tasks completed)]%string.

Definition priorityData (tasks : list CTask) : list (string * nat) :=
  [("High", count_priority tasks high); ("Medium", count_priority tasks medium);
   ("Low", count_priority tasks low)]%string.

(** The chart [renderChart] draws (lines 78-148). *)
Inductive Chart :=
| PieOf (data : list (string * nat))
| BarsOf (data : list (string * nat))
| AreaOf (data : list (Z * nat))
| StackedOf (data : list (Group * (nat * nat * nat))).

(** [switch (activeView)], with [activeView = 'status'] by default. *)
Definition renderChart (activeView : option ChartView) (tasks : list CTask) : Chart :=
  match activeView with
  | Some PriorityChart => BarsOf (priorityData tasks)
  | Some TimelineChart => AreaOf (TaskChart.tasksByDate tasks)
  | Some ProgressChart => StackedOf (TaskChart.progressData tasks)
  | Some StatusChart | None => PieOf (statusData tasks)
  end.

End TaskChartView.

Module DashboardView.
Import TaskChartView.

(** The [useState]s (lines 55-70). *)
Record PageState := mkPageState {
  searchQuery : string;
  isTaskDialogOpen : bool;
  chartView : ChartView;
  newTask : NewTask;
}.

(** The state of the first render: the form is blank, assigned to
    [currentUser?.id || ""]. *)
Definition init (st : St) (today : Date) : PageState :=
  mkPageState "" false StatusChart
    (blank_task today (from_option cu_id ""%string (currentUser st))).

(** The fields of the dialog's form (lines 213-381); the status has no
    field. *)
Inductive FormEdit :=
| EditTitle (s : string)
| EditShortDescription (s : string)
| EditLongDescription (s : string)
| EditDeadline (d : Date)
| EditPriority (p : Priority)
| EditAssignedTo (uid : string)
| EditGroup (g : Group).

(** [setNewTask({ ...newTask, field: value })]. *)
Definition edit_form (nt : NewTask) (e : FormEdit) : NewTask :=
  match e with
  | EditTitle s => mkNewTask s (nt_shortDescription nt) (nt_longDescription nt) (nt_deadline nt)
                     (nt_status nt) (nt_priority nt) (nt_assignedTo nt) (nt_group nt)
  | EditShortDescription s => mkNewTask (nt_title nt) s (nt_longDescription nt) (nt_deadline nt)
                     (nt_status nt) (nt_priority nt) (nt_assignedTo nt) (nt_group nt)
  | EditLongDescription s => mkNewTask (nt_title nt) (nt_shortDescription nt) s (nt_deadline nt)
                     (nt_status nt) (nt_priority nt) (nt_assignedTo nt) (nt_group nt)
  | EditDeadline d => mkNewTask (nt_title nt) (nt_shortDescription nt) (nt_longDescription nt) d
                     (nt_status nt) (nt_priority nt) (nt_assignedTo nt) (nt_group nt)
  | EditPriority p => mkNewTask (nt_title nt) (nt_shortDescription nt) (nt_longDescription nt)
                     (nt_deadline nt) (nt_status nt) p (nt_assignedTo nt) (nt_group nt)
  | EditAssignedTo u => mkNewTask (nt_title nt) (nt_shortDescription nt) (nt_longDescription nt)
                     (nt_deadline nt) (nt_status nt) (nt_priority nt) u (nt_group nt)
  | EditGroup g => mkNewTask (nt_title nt) (nt_shortDescription nt) (nt_longDescription nt)
                     (nt_deadline nt) (nt_status nt) (nt_priority nt) (nt_assignedTo nt) g
  end.

(** The events of the page that only change its state: the search box
    (line 165), the dialog's [onOpenChange] and Cancel (189, 389), the
    chart buttons (473-506), the form's fields. *)
Inductive Event :=
| SetSearch (q : string)
| SetDialogOpen (b : bool)
| SetChartView (v : ChartView)
| EditForm (e : FormEdit).

Definition handle (ps : PageState) (ev : Event) : PageState :=
  match ev with
  | SetSearch q => mkPageState q (isTaskDialogOpen ps) (chartView ps) (newTask ps)
  | SetDialogOpen b => mkPageState (searchQuery ps) b (chartView ps) (newTask ps)
  | SetChartView v => mkPageState (searchQuery ps) (isTaskDialogOpen ps) v (newTask ps)
  | EditForm e => mkPageState (searchQuery ps) (isTaskDialogOpen ps) (chartView ps)
                    (edit_form (newTask ps) e)
  end.

(** The "Create Task" button (line 395): [handleCreateTask] of [Pages],
    whose reset of the form and [setIsTaskDialogOpen(false)] happen only
    on the path that ends with the "Task created" toast. *)
Definition submitCreate (st : St) (today : Date) (ps : PageState) (cache : list CTask)
    : Prog (PageState * list CTask * option Toast) :=
  pbind (Dashboard.handleCreateTask st today (newTask ps) cache) (λ '(c, nt, toast),
    let open' := match toast with Some TaskCreated => false | _ => isTaskDialogOpen ps end in
    Done (mkPageState (searchQuery ps) open' (chartView ps) nt, c, toast)).

(** The options of the assignee select (lines 340-355): the current user
    first, then the other users ([user.id !== currentUser?.id]), an
    admin marked "(Admin)". *)
Definition assignee_options (st : St) : list (string * string) :=
  (match currentUser st with
   | Some cu => [(cu_id cu, cu_name cu ++ " (you)")%string]
   | None => []
   end) ++
  ((λ u, (cu_id u, cu_name u ++ " " ++ (if decide (cu_role u = admin) then "(Admin)" else ""))%string)
    <$> filter (λ u, Some (cu_id u) ≠ cu_id <$> currentUser st)
          (allUsers st)).

(** The tabs (lines 524-710): "All Tasks" and one per group. *)
Inductive Tab := AllTasks | GroupTab (g : Group).

Definition tab_tasks (q : string) (tab : Tab) (tasks : list CTask) : list CTask :=
  let '(fe, be, da) := Dashboard.tasksByGroup q tasks in
  match tab with
  | AllTasks => Dashboard.filteredTasks q tasks
  | GroupTab Frontend => fe
  | GroupTab Backend => be
  | GroupTab Database => da
  end.

(** A card of a tab with its hover card: the [TaskCard], its edit
    controls ([showEditOptions={isAdmin}]) and the creator line, which
    is the constant "Admin". *)
Record Card := mkCard { card_task : CTask; card_editable : bool; card_createdBy : string }.

Definition cards (st : St) (q : string) (tab : Tab) (tasks : list CTask) : list Card :=
  (λ t, mkCard t (isAdmin st) "Admin") <$> tab_tasks q tab tasks.

(** What the page renders (lines 150-717): the counters, the chart of
    the selected view, the dialog (for an admin) with its form and
    assignee options, the cards of the active tab. *)
Record DashView := mkDashView {
  dv_counters : nat * nat * nat * nat;
  dv_chart : Chart;
  dv_dialog : option (NewTask * list (string * string));
  dv_cards : list Card;
}.

Definition render (st : St) (ps : PageState) (tab : Tab) (tasks : list CTask) : DashView :=
  mkDashView (Dashboard.counters tasks) (renderChart (Some (chartView ps)) tasks)
    (if isAdmin st && isTaskDialogOpen ps then Some (newTask ps, assignee_options st) else None)
    (cards st (searchQuery ps) tab tasks).

End DashboardView.

Module UsersView.

(** The edit form (lines 55-59). *)
Record EditForm := mkEditForm { ef_name : string; ef_email : string; ef_role : Role }.

(** The [useState]s (lines 50-60); [error] is never set and is left out. *)
Record PageState := mkPageState {
  selectedUserId : option string;
  selectedPhotoUrl : option string;
  showDeleteConfirm : bool;
  userToDelete : option string;
  editingUser : option CUser;
  editForm : EditForm;
}.

Definition init : PageState := mkPageState None None false None None (mkEditForm "" "" user).

(** The events that only change the page's state: the row buttons
    (lines 368, 378, 386), the photo thumbnails (347, 521, 549), the
    dialogs' [onOpenChange] and buttons (413, 580-586, 603, 651, 662,
    674), the edit form's fields (618-637).  [CancelDelete] is the
    Cancel button of the confirmation, which also closes it. *)
Inductive Event :=
| ViewUser (uid : string)
| CloseUser
| ViewPhoto (url : string)
| ClosePhoto
| EditUser (u : CUser)
| CloseEdit
| EditName (s : string)
| EditEmail (s : string)
| EditRole (r : Role)
| DeleteConfirm (uid : string)
| SetDeleteOpen (b : bool)
| CancelDelete.

(** The handlers (lines 140-185) and the inline [setState] calls. *)
Definition handle (ps : PageState) (ev : Event) : PageState :=
  let '(mkPageState su sp sd ud eu ef) := ps in
  match ev with
  | ViewUser uid => mkPageState (Some uid) sp sd ud eu ef
  | CloseUser => mkPageState None sp sd ud eu ef
  | ViewPhoto url => mkPageState su (Some url) sd ud eu ef
  | ClosePhoto => mkPageState su None sd ud eu ef
  | EditUser u => mkPageState su sp sd ud (Some u) (mkEditForm (cu_name u) (cu_email u) (cu_role u))
  | CloseEdit => mkPageState su sp sd ud None ef
  | EditName s => mkPageState su sp sd ud eu (mkEditForm s (ef_email ef) (ef_role ef))
  | EditEmail s => mkPageState su sp sd ud eu (mkEditForm (ef_name ef) s (ef_role ef))
  | EditRole r => mkPageState su sp sd ud eu (mkEditForm (ef_name ef) (ef_email ef) r)
  | DeleteConfirm uid => mkPageState su sp true (Some uid) eu ef
  | SetDeleteOpen b => mkPageState su sp b ud eu ef
  | CancelDelete => mkPageState su sp false None eu ef
  end.

(** [user.id === currentUser?.id]. *)
Definition is_you (st : St) (u : CUser) : Prop := Some (cu_id u) = cu_id <$> currentUser st.

#[export] Instance is_you_dec st u : Decision (is_you st u).
Proof. unfold is_you. apply _. Defined.

(** The events the rendered page offers: none behind the loading or
    access-denied screens; the view button on every row, edit and
    delete only on the rows of other users (lines 364-391). *)
Definition enabled (st : St) (ev : Event) : Prop :=
  UsersPage.gate st = UsersPage.ShowUsers ∧
  match ev with
  | ViewUser uid => Exists (λ u, cu_id u = uid) (allUsers st)
  | EditUser u => u ∈ allUsers st ∧ ¬ is_you st u
  | DeleteConfirm uid => Exists (λ u, cu_id u = uid ∧ ¬ is_you st u) (allUsers st)
  | _ => True
  end.

#[export] Instance cuser_eq_dec : EqDecision CUser.
Proof. solve_decision. Defined.

#[export] Instance gate_eq_dec : EqDecision UsersPage.Gate.
Proof. solve_decision. Defined.

#[export] Instance enabled_dec st ev : Decision (enabled st ev).
Proof. unfold enabled, is_you. destruct ev; apply _. Defined.

(** One event, when the page offers it. *)
Definition step (st : St) (ps : PageState) (ev : Event) : option PageState :=
  if decide (enabled st ev) then Some (handle ps ev) else None.

(** "Save Changes" (line 654): [handleUpdateUser], then the dialog
    closes; without an edited user nothing happens. *)
Definition submitEdit (st : St) (ps : PageState) : Prog (St * PageState) :=
  match editingUser ps with
  | None => Done (st, ps)
  | Some _ =>
      pbind (UsersPage.handleUpdateUser (editingUser ps) (ef_name (editForm ps)) (ef_email (editForm ps)) st)
        (λ '(st', _), Done (st', handle ps CloseEdit))
  end.

(** "Delete" (line 680): [handleDeleteUser], then, when a user was to
    be deleted, the confirmation is reset. *)
Definition submitDelete (st : St) (ps : PageState) : Prog (St * PageState) :=
  pbind (UsersPage.handleDeleteUser (userToDelete ps) st) (λ '(st', _),
    match userToDelete ps with
    | Some uid => if decide (uid = ""%string) then Done (st', ps) else Done (st', handle ps CancelDelete)
    | None => Done (st', ps)
    end).

(** [userPhotos.sort(...)[0]] (lines 302-304): the stable sort of
    [UserViews] on the photo's [createdAt], then the first photo. *)
Fixpoint insert_titled (p : CPhoto * string) (l : list (CPhoto * string)) : list (CPhoto * string) :=
  match l with
  | [] => [p]
  | q :: l' => if UserDashboardView.photo_newer q.1 p.1 then q :: insert_titled p l' else p :: l
  end.

Definition latestPhoto (uid : string) (tasks : list CTask) : option (CPhoto * string) :=
  head (foldr insert_titled [] (UsersPage.getUserPhotos uid tasks)).

(** A row of the table (lines 299-395). *)
Record Row := mkRow {
  row_user : CUser;
  row_you : bool;
  row_counts : UsersPage.TaskCounts;
  row_latest : option (CPhoto * string);
  row_edit_delete : bool;
}.

Definition row (st : St) (tasks : list CTask) (u : CUser) : Row :=
  mkRow u (bool_decide (is_you st u)) (UsersPage.getUserTaskCounts (cu_id u) tasks)
    (latestPhoto (cu_id u) tasks) (negb (bool_decide (is_you st u))).

(** The four counters (lines 227-280): users, tasks not completed,
    completed tasks, photos. *)
Definition stats (st : St) (tasks : list CTask) : nat * nat * nat * nat :=
  (length (allUsers st), length (filter (λ t, c_status t ≠ completed) tasks),
   length (with_status completed tasks), length (mjoin (c_photos <$> tasks))).

(** [getSelectedUser] (lines 188-191). *)
Definition getSelectedUser (st : St) (ps : PageState) : option CUser :=
  uid ← selectedUserId ps; snd <$> list_find (λ u, cu_id u = uid) (allUsers st).

(** The profile dialog (lines 412-577): the chart, the counts, the
    assigned tasks and the first six photos. *)
Record Detail := mkDetail {
  d_user : CUser;
  d_you : bool;
  d_chart : list (string * nat);
  d_counts : UsersPage.TaskCounts;
  d_photos : list (CPhoto * string);
}.

Definition detail (st : St) (tasks : list CTask) (u : CUser) : Detail :=
  mkDetail u (bool_decide (is_you st u)) (UsersPage.getTaskChartData (cu_id u) tasks)
    (UsersPage.getUserTaskCounts (cu_id u) tasks) (take 6 (UsersPage.getUserPhotos (cu_id u) tasks)).

Record UsersPageView := mkUsersPageView {
  up_stats : nat * nat * nat * nat;
  up_rows : list Row;
  up_empty_note : bool;
  up_detail : option Detail;
  up_photo : option string;
  up_edit : option EditForm;
  up_confirm : bool;
}.

Inductive Screen := Loading | Denied | Page (v : UsersPageView).

(** The page (lines 72-689). *)
Definition render (st : St) (ps : PageState) (tasks : list CTask) : Screen :=
  match UsersPage.gate st with
  | UsersPage.ShowLoading => Loading
  | UsersPage.AccessDenied => Denied
  | UsersPage.ShowUsers =>
      Page (mkUsersPageView (stats st tasks) (row st tasks <$> allUsers st)
              (bool_decide (allUsers st = [])) (detail st tasks <$> getSelectedUser st ps)
              (selectedPhotoUrl ps) (const (editForm ps) <$> editingUser ps) (showDeleteConfirm ps))
  end.

End UsersView.

Module TaskManagementView.

(** The [useState]s (lines 36-40, 58-76). *)
Record PageState := mkPageState {
  searchQuery : string;
  isTaskDialogOpen : bool;
  selectedUser : string;
  selectedGroup : option Group;
  showWelcomeAnimation : bool;
  newTask : NewTask;
}.

Definition init (st : St) (today : Date) : PageState :=
  mkPageState "" false "" None true (blank_task today (from_option cu_id ""%string (currentUser st))).

Definition set_form (ps : PageState) (nt : NewTask) : PageState :=
  mkPageState (searchQuery ps) (isTaskDialogOpen ps) (selectedUser ps) (selectedGroup ps)
    (showWelcomeAnimation ps) nt.

(** The effect on [currentUser] (lines 79-86): an empty assignee becomes
    the current user. *)
Definition assignee_effect (st : St) (ps : PageState) : PageState :=
  match currentUser st with
  | Some cu =>
      if decide (nt_assignedTo (newTask ps) = ""%string)
      then set_form ps (DashboardView.edit_form (newTask ps) (DashboardView.EditAssignedTo (cu_id cu)))
      else ps
  | None => ps
  end.

(** The inputs of the create dialog (lines 221-317): the same fields as
    the dashboard's form, each a [setNewTask({...newTask, field})]. *)
Definition form_edit (ps : PageState) (e : DashboardView.FormEdit) : PageState :=
  set_form ps (DashboardView.edit_form (newTask ps) e).

(** The events that only change the state: the search box (line 178),
    the user select (188) and the user cards, which toggle the filter
    (359), the group tabs (396), the dialog (204, 323), the welcome
    timer (43-49), the form's fields (221-317). *)
Inductive Event :=
| SetSearch (q : string)
| SelectUser (uid : string)
| ToggleUser (uid : string)
| SelectGroup (g : option Group)
| SetDialogOpen (b : bool)
| HideWelcome
| EditForm (e : DashboardView.FormEdit).

Definition handle (ps : PageState) (ev : Event) : PageState :=
  let '(mkPageState q o su sg w nt) := ps in
  match ev with
  | SetSearch q' => mkPageState q' o su sg w nt
  | SelectUser uid => mkPageState q o uid sg w nt
  | ToggleUser uid => mkPageState q o (if decide (su = uid) then ""%string else uid) sg w nt
  | SelectGroup g => mkPageState q o su g w nt
  | SetDialogOpen b => mkPageState q b su sg w nt
  | HideWelcome => mkPageState q o su sg false nt
  | EditForm e => form_edit ps e
  end.

(** "Create Task" (line 326): [handleCreateTask] of [Pages]; the dialog
    closes with the "Task created" toast. *)
Definition submitCreate (st : St) (today : Date) (ps : PageState) (cache : list CTask)
    : Prog (PageState * list CTask * option Toast) :=
  pbind (TaskManagement.handleCreateTask st today (newTask ps) cache) (λ '(c, nt, toast),
    let open' := match toast with Some TaskCreated => false | _ => isTaskDialogOpen ps end in
    Done (mkPageState (searchQuery ps) open' (selectedUser ps) (selectedGroup ps)
            (showWelcomeAnimation ps) nt, c, toast)).

(** [getUserNameById] (lines 146-149). *)
Definition getUserNameById (allUsers : list CUser) (uid : string) : string :=
  user_name allUsers "Unknown User" uid.

(** The options of the user filter (lines 194-199) and of the form's
    assignee (294-298). *)
Definition you_label (st : St) (u : CUser) : string :=
  (cu_name u ++ " " ++ if decide (Some (cu_id u) = cu_id <$> currentUser st) then "(You)" else "")%string.

Definition user_filter_options (st : St) : list (string * string) :=
  (""%string, "All Users"%string) :: ((λ u, (cu_id u, you_label st u)) <$> allUsers st).

Definition assignee_options (st : St) : list (string * string) :=
  (λ u, (cu_id u, you_label st u)) <$> allUsers st.

(** A card of "Tasks by User" (lines 355-384): the user and the number
    of tasks assigned to them ([userTasksCount[user.id] || 0]). *)
Definition user_cards (st : St) (tasks : list CTask) : list (CUser * nat) :=
  (λ u, (u, from_option id 0%nat (TaskManagement.userTasksCount tasks !! cu_id u))) <$> allUsers st.

(** A card of a group tab (lines 407-431): the card's copy of the task,
    always editable, and the creator's name. *)
Definition cards (st : St) (ps : PageState) (tasks : list CTask) : list (CTask * bool * string) :=
  (λ t, (TaskManagementCard.card_task (allUsers st) t, true,
         getUserNameById (allUsers st) (c_createdBy t)))
    <$> TaskManagement.getTasksByGroup (searchQuery ps) (selectedUser ps) (selectedGroup ps) tasks.

(** [currentUser?.name || 'Admin'] (line 160). *)
Definition name_or_admin (st : St) : string :=
  match currentUser st with
  | Some cu => if decide (cu_name cu = ""%string) then "Admin" else cu_name cu
  | None => "Admin"
  end.

Record TMView := mkTMView {
  tv_welcome : option string;
  tv_total : nat;
  tv_user_cards : list (CUser * nat);
  tv_cards : list (CTask * bool * string);
  tv_dialog : option (NewTask * list (string * string));
}.

(** The page (lines 151-447). *)
Definition render (st : St) (ps : PageState) (tasks : list CTask) : TMView :=
  mkTMView
    (if showWelcomeAnimation ps then Some (name_or_admin st) else None)
    (length tasks) (user_cards st tasks) (cards st ps tasks)
    (if isAdmin st && isTaskDialogOpen ps then Some (newTask ps, assignee_options st) else None).

End TaskManagementView.

(** ** The states the users page reaches *)

Section users_reach.
Import UsersView.
Variable st : St.

(** The page states reachable from the first render by the events the
    page offers, the session fixed. *)
Inductive reachable : PageState → Prop :=
| reach_init : reachable init
| reach_step ps ev ps' : reachable ps → step st ps ev = Some ps' → reachable ps'.

(** Neither the user to delete nor the edited user is the current
    user. *)
Definition not_self (ps : PageState) : Prop :=
  (∀ uid, userToDelete ps = Some uid → Some uid ≠ cu_id <$> currentUser st) ∧
  (∀ u, editingUser ps = Some u → ¬ is_you st u).

Lemma handle_not_self ps ev : enabled st ev → not_self ps → not_self (handle ps ev).
Proof.
  intros [_ Hen] [Hd He]. destruct ps as [su sp sd ud eu ef].
  destruct ev; simpl in *; split; intros x Hx; simplify_eq/=; eauto.
  - by destruct Hen.
  - apply Exists_exists in Hen as (u & _ & [<- Hu]). done.
Qed.

End users_reach.

(** ** Lemmas on the dashboard's tabs and charts *)

Section admin_lemmas.

Lemma search_sub q tasks : Forall (λ t, t ∈ tasks) (search q tasks).
Proof. apply Forall_forall. intros t. unfold search. rewrite list_elem_of_filter. tauto. Qed.

Lemma group_keys (t : CTask) :
  is_Some (c_group t) → c_group t ∈ [Some Frontend; Some Backend; Some Database].
Proof. intros [g ->]. apply list_elem_of_In. destruct g; simpl; tauto. Qed.

Lemma status_keys (t : CTask) : c_status t ∈ [todo; inProgress; completed].
Proof. apply list_elem_of_In. destruct (c_status t); simpl; tauto. Qed.

Lemma priority_keys (t : CTask) : c_priority t ∈ [high; medium; low].
Proof. apply list_elem_of_In. destruct (c_priority t); simpl; tauto. Qed.


(** The group tabs of a list of grouped tasks add up to its "All Tasks"
    tab. *)
Lemma group_tabs_sum q tasks :
  Forall (λ t, is_Some (c_group t)) tasks →
  sum_list_with (λ g, length (DashboardView.tab_tasks q (DashboardView.GroupTab g) tasks))
    [Frontend; Backend; Database] = length (DashboardView.tab_tasks q DashboardView.AllTasks tasks).
Proof.
  intros Hg. cbn [DashboardView.tab_tasks Dashboard.tasksByGroup].
  unfold with_group.
  rewrite <-(length_partition c_group [Some Frontend; Some Backend; Some Database]); [reflexivity| |].
  - apply (bool_decide_unpack _). reflexivity.
  - unfold Dashboard.filteredTasks, search. apply Forall_filter_sub.
    eapply Forall_impl; [exact Hg|]. apply group_keys.
Qed.

(** The tasks of one group, split by status. *)
Lemma progress_sum g tasks :
  let '(c, i, t) := TaskChart.progress g tasks in (c + i + t = length (with_group g tasks))%nat.
Proof.
  cbn. rewrite <-(length_partition c_status [completed; inProgress; todo] (with_group g tasks)).
  - simpl. unfold with_status. lia.
  - apply (bool_decide_unpack _). reflexivity.
  - apply Forall_forall. intros t _. apply list_elem_of_In. destruct (c_status t); simpl; tauto.
Qed.

(** A session with a user offers that user first, and only once. *)
Lemma assignee_options_head st cu :
  currentUser st = Some cu →
  ∃ rest, DashboardView.assignee_options st = (cu_id cu, cu_name cu ++ " (you)")%string :: rest ∧
          cu_id cu ∉ fst <$> rest.
Proof.
  intros Hcu. unfold DashboardView.assignee_options. rewrite Hcu. eexists. split; [reflexivity|].
  intros ([id lbl] & Heq & Hin)%list_elem_of_fmap. apply list_elem_of_fmap in Hin as (u & Hu & Hin).
  apply list_elem_of_filter in Hin as [Hne _]. simplify_eq/=. apply Hne. simpl. congruence.
Qed.

(** The count of the "Tasks by User" card of [uid]. *)
Lemma userTasksCount_lookup uid tasks :
  from_option id 0%nat (TaskManagement.userTasksCount tasks !! uid) = length (assigned_to uid tasks).
Proof.
  unfold TaskManagement.userTasksCount. rewrite userTasksCount_foldl, lookup_empty.
  case_decide; simpl; lia.
Qed.

(** The counts by status, by priority, and (for grouped tasks) by group
    add up to the number of tasks. *)
Lemma count_status_total tasks :
  (count_status tasks todo + count_status tasks inProgress + count_status tasks completed = length tasks)%nat.
Proof.
  rewrite <-(length_partition c_status [todo; inProgress; completed] tasks).
  - unfold count_status. simpl. lia.
  - apply (bool_decide_unpack _). reflexivity.
  - apply Forall_forall. intros t _. apply status_keys.
Qed.

Lemma count_priority_total tasks :
  (count_priority tasks high + count_priority tasks medium + count_priority tasks low = length tasks)%nat.
Proof.
  rewrite <-(length_partition c_priority [high; medium; low] tasks).
  - unfold count_priority. simpl. lia.
  - apply (bool_decide_unpack _). reflexivity.
  - apply Forall_forall. intros t _. apply priority_keys.
Qed.

Lemma count_group_total tasks :
  Forall (λ t, is_Some (c_group t)) tasks →
  (count_group tasks Frontend + count_group tasks Backend + count_group tasks Database = length tasks)%nat.
Proof.
  intros Hg. rewrite <-(length_partition c_group [Some Frontend; Some Backend; Some Database] tasks).
  - unfold count_group. simpl. lia.
  - apply (bool_decide_unpack _). reflexivity.
  - eapply Forall_impl; [exact Hg|]. apply group_keys.
Qed.

End admin_lemmas.

(** ** Theorems of the admin pages *)

Section admin_theorems.

(** The users page never offers to delete or edit the signed-in user:
    in every page state the events the page offers reach, the user to
    delete and the edited user are other users, so the self-deletion
    [deleteUser] refuses is never asked for. *)
Theorem users_page_not_self st ps : reachable st ps → not_self st ps.
Proof.
  induction 1 as [|ps ev ps' _ IH Hs].
  - split; intros ? [=].
  - unfold UsersView.step in Hs. case_decide; simplify_eq. by apply handle_not_self.
Qed.

(** The group tabs of the admin dashboard show every task of its "All
    Tasks" tab exactly once, on every cache [TaskContext] can reach by
    operations whose [updateTask] patches do not set [group] to
    [undefined] (as the edit form and the cards' copies do not): the
    server requires a group and such patches only replace it. *)
Theorem dashboard_group_tabs ops q :
  Forall (CacheWf.op_patch_ok keeps_group) ops →
  let tasks := CacheWf.run_ops ops in
  sum_list_with (λ g, length (DashboardView.tab_tasks q (DashboardView.GroupTab g) tasks))
    [Frontend; Backend; Database] = length (DashboardView.tab_tasks q DashboardView.AllTasks tasks).
Proof. intros Hops. by apply group_tabs_sum, run_ops_grouped. Qed.

(** The charts of [TaskChart] account for every task: the status pie
    and the priority bars sum to the number of tasks, and so do the
    stacked progress bars on every cache reached by patches that keep
    the group. *)
Theorem chart_totals ops :
  Forall (CacheWf.op_patch_ok keeps_group) ops →
  let tasks := CacheWf.run_ops ops in
  sum_list_with snd (TaskChartView.statusData tasks) = length tasks ∧
  sum_list_with snd (TaskChartView.priorityData tasks) = length tasks ∧
  sum_list_with (λ '(_, (c, i, t)), c + i + t)%nat (TaskChart.progressData tasks) = length tasks.
Proof.
  intros Hops tasks. split_and!.
  - pose proof (count_status_total tasks). simpl. lia.
  - pose proof (count_priority_total tasks). simpl. lia.
  - pose proof (count_group_total tasks (run_ops_grouped ops Hops)).
    unfold TaskChart.progressData. cbn [fmap list_fmap sum_list_with].
    pose proof (progress_sum Frontend tasks). pose proof (progress_sum Backend tasks).
    pose proof (progress_sum Database tasks).
    do 3 destruct (TaskChart.progress _ _) as [[??]?]. unfold with_group, count_group in *. lia.
Qed.


(** The "Tasks by User" cards of [TaskManagement] count every task once
    when each task's assignee is one of the listed users (whose ids
    are distinct): their counts add up to the total the page shows. *)
Theorem user_cards_total st ps tasks :
  NoDup (cu_id <$> allUsers st) → Forall (λ t, c_assignedTo t ∈ cu_id <$> allUsers st) tasks →
  sum_list_with snd (TaskManagementView.user_cards st tasks) =
    TaskManagementView.tv_total (TaskManagementView.render st ps tasks).
Proof.
  intros Hnd Hf. unfold TaskManagementView.user_cards. rewrite sum_list_with_fmap.
  rewrite (sum_list_with_ext _ ((λ k, length (filter (λ t, c_assignedTo t = k) tasks)) ∘ cu_id)).
  - rewrite <-sum_list_with_fmap. by apply length_partition.
  - intros u _. simpl. apply userTasksCount_lookup.
Qed.

End admin_theorems.

Section admin_session_theorems.
Context `{TokenSigner}.

(** Finding: with no assignee chosen, the dashboard's "Create Task"
    button warns "Assignment required" after it has created the task.
    [handleCreateTask] first calls [addTask] with the admin as the
    fallback assignee and only then tests [newTask.assignedTo]: the
    server stores the task, the cache gets it, and the dialog stays
    open with the same form, so a second click creates it again. *)
Theorem dashboard_assignment_required now today s st cu adm ps cache a :
  currentUser st = Some cu → isAdmin st = true →
  Auth.protect (srv_db s) now (request_header st None) = inr adm → role adm = admin →
  nt_assignedTo (DashboardView.newTask ps) = ""%string → ObjectId.cast (cu_id cu) = Some a →
  nt_title (DashboardView.newTask ps) ≠ ""%string →
  nt_shortDescription (DashboardView.newTask ps) ≠ ""%string →
  let '(s', (ps', cache', toast)) := exec now s (DashboardView.submitCreate st today ps cache) in
  toast = Some AssignmentRequired ∧ ps' = ps ∧
  ∃ t, db_tasks (srv_db s') !! db_next (srv_db s) = Some t ∧ cache' = cache ++ [of_raw_task t] ∧
       assignedTo t = a ∧ title t = nt_title (DashboardView.newTask ps).
Proof.
  intros Hcu Had Hp Hr He Hc Ht Hs. destruct s as [db pw]. simpl in *.
  unfold DashboardView.submitCreate. rewrite exec_pbind.
  unfold Dashboard.handleCreateTask. rewrite Hcu, Had, decide_True by done.
  rewrite exec_pbind. cbn [TaskContextApi.addTask exec serve srv_db srv_pw].
  rewrite (dispatch_create db _ now _ adm _ Hp Hr (validate_task_body _ _ _ _ _ a Ht Hs Hc)).
  cbn [exec fst snd task_reply ClientMirror.addTask]. rewrite decide_True by done.
  cbn. split_and!; [done|by destruct ps|]. eexists. split_and!; [apply lookup_insert_eq|done..].
Qed.

End admin_session_theorems.
