(* ===== verification/ChartViews.v ===== *)
(** * ChartViews: what [TaskInsights] and [TaskAnalytics] render

    [components/TaskInsights.tsx] shows three cards (status, priority,
    group) each drawn as a pie, bars or the year's line chart as a
    toggle selects, the year's timeline, the tasks per user and a
    productivity gauge.  [components/TaskAnalytics.tsx] draws one chart
    selected by its [view] prop.  The chart data are the functions of
    [Stats]; here are the toggles, the switch of each component and the
    gauge's geometry. *)

From S2P Require Import Prelude Schema ClientMirror CacheWf AuthClient Pages Stats AdminViews.
Import Schema ClientMirror AuthClient.

Module TaskInsightsView.
Import TaskInsights.

(** [chartType] (line 15) and its three buttons (lines 198-221). *)
Inductive ChartType := PieType | BarType | LineType.

(** What a card draws: [renderPieChart(data)], [renderBarChart(data)] or
    [renderLineChart()] of the monthly data. *)
Inductive Panel :=
| PiePanel (data : list (string * nat))
| BarPanel (data : list (string * nat))
| LinePanel (monthly : option (list MonthRow)).

(** [{chartType === 'pie' && ...}{chartType === 'bar' && ...}
    {chartType === 'line' && renderLineChart()}] (lines 234-236). *)
Definition panel (ct : ChartType) (data : list (string * nat)) (monthly : option (list MonthRow)) : Panel :=
  match ct with
  | PieType => PiePanel data
  | BarType => BarPanel data
  | LineType => LinePanel monthly
  end.

(** The gauge's colour (line 319). *)
Inductive Colour := Green | Amber | Red.

Definition gauge_colour (score : nat) : Colour :=
  if decide (70 < score)%nat then Green else if decide (40 < score)%nat then Amber else Red.

(** [strokeDasharray={`${productivityScore * 2.83}, 283`}] (line 321):
    the length of the arc in hundredths, against the circle's 283. *)
Definition gauge_dash (score : nat) : nat := (score * 283)%nat.

Record InsightsView := mkInsightsView {
  iv_status : Panel;
  iv_priority : Panel;
  iv_group : Panel;
  iv_timeline : option (list MonthRow);
  iv_users : list UserRow;
  iv_score : nat;
  iv_colour : Colour;
  iv_dash : nat;
  iv_label : string;
}.

(** The component (lines 193-358). *)
Definition render (now : Date) (allUsers : list CUser) (ct : ChartType) (tasks : list CTask) : InsightsView :=
  let monthly := getMonthData now tasks in
  let score := productivityScore tasks in
  mkInsightsView (panel ct (statusData tasks) monthly) (panel ct (priorityData tasks) monthly)
    (panel ct (groupData tasks) monthly) monthly (tasksByUser allUsers tasks)
    score (gauge_colour score) (gauge_dash score) (score_label score).

End TaskInsightsView.

Module TaskAnalyticsView.

(** The [view] prop (lines 26-28). *)
Inductive View := VStatus | VPriority | VGroup | VTimeline.

(** [getStatusChartData], [getPriorityChartData], [getGroupChartData]
    (lines 59-86). *)
Definition getStatusChartData (tasks : list CTask) : list (string * nat) :=
  let '(a, b, c) := getTasksByStatus tasks in [("To Do", a); ("In Progress", b); ("Completed", c)]%string.
Definition getPriorityChartData (tasks : list CTask) : list (string * nat) :=
  let '(a, b, c) := getTasksByPriority tasks in [("High", a); ("Medium", b); ("Low", c)]%string.
Definition getGroupChartData (tasks : list CTask) : list (string * nat) :=
  let '(a, b, c) := getTasksByGroup tasks in [("Frontend", a); ("Backend", b); ("Database", c)]%string.

Inductive Chart :=
| PieOf (data : list (string * nat))
| BarsOf (data : list (string * nat))
| LineOf (data : list (Z * nat)).

(** [renderChart] (lines 143-249). *)
Definition renderChart (now : Date) (view : View) (tasks : list CTask) : Chart :=
  match view with
  | VStatus => PieOf (getStatusChartData tasks)
  | VPriority => BarsOf (getPriorityChartData tasks)
  | VGroup => BarsOf (getGroupChartData tasks)
  | VTimeline => LineOf (TaskAnalytics.timelineData now tasks)
  end.

(** The card's title (lines 259-262). *)
Definition title (view : View) : string :=
  match view with
  | VStatus => "Tasks by Status"
  | VPriority => "Tasks by Priority"
  | VGroup => "Tasks by Group"
  | VTimeline => "Task Completion Timeline"
  end.

End TaskAnalyticsView.

(** ** Theorems of the chart components *)

Section chart_theorems.
Import TaskInsightsView TaskAnalyticsView.

(** The insights always render: the year's data exist (no month index
    is out of range), the gauge's arc never exceeds its circle, and its
    colour agrees with the label under it. *)
Theorem insights_render_ok now users ct tasks :
  let v := TaskInsightsView.render now users ct tasks in
  is_Some (iv_timeline v) ∧ (iv_dash v <= 283 * 100)%nat ∧
  (iv_colour v = Green ↔ iv_label v = "Excellent!"%string) ∧
  (iv_colour v = Red ↔ iv_label v = "Needs Improvement"%string).
Proof.
  cbn. destruct (count_tasks_spec (Calendar.getFullYear now) tasks
                   ((λ m, TaskInsights.mkMonthRow m 0 0) <$> TaskInsights.months)) as (d & Hd & _); [done|].
  unfold TaskInsights.getMonthData. rewrite Hd. split; [eauto|].
  destruct (productivityScore_range tasks) as [Hs _]. split; [unfold gauge_dash; lia|].
  unfold gauge_colour, TaskInsights.score_label. repeat case_decide; (split; [split|split]); intros Hx; (done || inversion Hx).
Qed.

(** Each bar and pie chart of [TaskAnalytics] accounts for every task of
    any cache reached by patches that keep the group: its values add up
    to the number of tasks. *)
Theorem analytics_totals now ops view :
  Forall (CacheWf.op_patch_ok keeps_group) ops →
  let tasks := CacheWf.run_ops ops in
  match TaskAnalyticsView.renderChart now view tasks with
  | PieOf data | BarsOf data => sum_list_with snd data = length tasks
  | LineOf _ => True
  end.
Proof.
  intros Hops tasks. pose proof (count_status_total tasks). pose proof (count_priority_total tasks).
  pose proof (count_group_total tasks (run_ops_grouped ops Hops)).
  destruct view; simpl; [..|done]; lia.
Qed.

End chart_theorems.
