(* ===== verification/Scenarios.v ===== *)
(** * Scenarios: concrete runs of the server

    A small database (an admin, two users, one task with one photo), a
    token verifier that accepts three fixed tokens, and requests sent
    through [Routes.dispatch].  The scenarios are the example of the
    spec (an admin creates a task, the assignee uploads a photo) and the
    multer file-name collision; the witnesses instantiate the general
    theorems of the other files on these inputs. *)

From S2P Require Import Prelude ObjectId Schema Http Store Auth TaskController Routes Invariants ClientMirror ClientServer CacheWf AuthServer ServerApp AuthClient ClientRoutes Pages Stats Cards Forms UserViews.
Import Schema Http Store TaskController Routes Invariants.

Module Fixture.

Definition adm : User := mkUser 1 "Admin" "admin@example.com" admin [].
Definition alice : User := mkUser 2 "Alice" "alice@example.com" user [10%N].
Definition bob : User := mkUser 3 "Bob" "bob@example.com" user [].

Definition users : gmap Id User :=
<[1%N := adm]> (<[2%N := alice]> (<[3%N := bob]> ∅)).

Definition photo11 : Photo :=
mkPhoto 11 (Some "/uploads/1700000000000-p.png") (Some "") 5 (Some 2%N).

(** Task 10: assigned to Alice, created by the admin, still [todo]. *)
Definition task10 : Task :=
mkTask 10 "Fix bug" "crash on save" None todo high 1735689600000 Backend
2 1 [photo11] [] 0 0.

(** Task 12: created by Bob (a user since), assigned to Alice. *)
Definition task12 : Task :=
mkTask 12 "Docs" "write docs" None inProgress low 1735689600000 Frontend
2 3 [] [] 0 0.

Definition db : Db :=
mkDb (<[10%N := task10]> (<[12%N := task12]> ∅)) users
{["uploads/1700000000000-p.png"]} 20.

(** The empty server of the spec's example. *)
Definition db_empty : Db := mkDb ∅ users ∅ 100.

(** [jwt.verify]: three valid tokens, for the admin, Alice and Bob. *)
#[export] Instance verifier : TokenVerifier := λ now tok,
if decide (tok = "tokA"%string) then Some (ObjectId.to_hex 1)
else if decide (tok = "tokU2"%string) then Some (ObjectId.to_hex 2)
else if decide (tok = "tokB"%string) then Some (ObjectId.to_hex 3)
else None.

Definition new_task_body : TaskInput :=
mkTaskInput (Some "Fix bug") (Some "crash on save") None (Some "high")
(Some 1735689600000%Z) None (Some (ObjectId.to_hex 2)) (Some "Backend").

(** The task the admin's request creates in [db_empty]. *)
Definition created : Task :=
mkTask 100 "Fix bug" "crash on save" None todo high 1735689600000 Backend
2 1 [] [] 1000 1000.

Definition rq_create : Request :=
mkRequest (Some "Bearer tokA") 1000 (CreateTask new_task_body).

Definition rq_upload (id : Id) (now : Date) : Request :=
mkRequest (Some "Bearer tokU2") now
(UploadPhoto (ObjectId.to_hex id) (Some (mkUpload "shot.png")) None).

Definition rq_delete_photo (id pid : Id) (now : Date) : Request :=
mkRequest (Some "Bearer tokU2") now
(DeletePhoto (ObjectId.to_hex id) (ObjectId.to_hex pid)).

End Fixture.

(** ** Scenarios *)

Section scenarios.
Import Fixture.

(** The states a sequence of requests goes through. *)
Fixpoint replay (db : Db) (rqs : list Request) : Db * list (Reply Payload) :=
match rqs with
| [] => (db, [])
| rq :: rqs' =>
  let '(db1, r) := dispatch db rq in
  let '(db2, rs) := replay db1 rqs' in
  (db2, r :: rs)
end.

(** The example of the spec.  The admin creates the task
{title "Fix bug", priority "high", group "Backend", assignee U2};
the answer is 201 with status [todo].  U2 then uploads a photo:
the answer is 200 and the stored task is [inProgress]. *)
Theorem spec_example_scenario :
let '(db2, rs) := replay db_empty [rq_create; rq_upload 100 2000] in
rs = [Success 201 (PTask created);
    Success 200 (PPhoto (mkPhotoReply "/uploads/2000-shot.png" "" 2 2000))] ∧
status created = todo ∧
(status <$> db_tasks db2 !! 100%N) = Some inProgress.
Proof. vm_compute. split_and!; reflexivity. Qed.

(** The multer collision at the fixture: Alice uploads [shot.png] twice
    to task 10 at time 3000 (photos 20 and 21), deletes photo 20 at
    4000, and then tries to delete photo 21. *)
Definition col_db1 : Db := fst (dispatch db (rq_upload 10 3000)).
Definition col_db2 : Db := fst (dispatch col_db1 (rq_upload 10 3000)).
Definition col_db3 : Db := fst (dispatch col_db2 (rq_delete_photo 10 20 4000)).
Definition col_reply : PhotoReply := mkPhotoReply "/uploads/3000-shot.png" "" 2 3000.
Definition col_t2 : Task := default task10 (db_tasks col_db2 !! 10%N).
Definition col_t3 : Task := default task10 (db_tasks col_db3 !! 10%N).
Definition col_p1 : Photo := default photo11 (find_photo (photos col_t2) (ObjectId.to_hex 20)).
Definition col_p2 : Photo := default photo11 (find_photo (photos col_t3) (ObjectId.to_hex 21)).

End scenarios.

(** ** Witnesses: the general theorems at the fixture *)

Section witnesses.
Import Fixture.

Lemma keyed_db : keyed db.
Proof. split; apply (bool_decide_unpack _); vm_compute; reflexivity. Qed.

Lemma inv_db_empty : inv db_empty.
Proof. split; [split|]; apply (bool_decide_unpack _); vm_compute; reflexivity. Qed.

Lemma getTask_access_witness :
run (getTask bob (ObjectId.to_hex 10)) db = (db, Failure 403 "Not authorized").
Proof.
rewrite (getTask_access bob (ObjectId.to_hex 10) 10 task10 db).
- reflexivity.
- exact keyed_db.
- reflexivity.
- reflexivity.
- eexists; reflexivity.
- eexists; reflexivity.
Defined.

Lemma getTask_not_found_witness :
run (getTask adm (ObjectId.to_hex 99)) db = (db, Failure 404 "Task not found").
Proof. apply (getTask_not_found adm _ 99); reflexivity. Defined.

Lemma reachable_create_push_once_witness :
∃ a', db_users (fst (dispatch db_empty rq_create)) !! 2%N = Some a' ∧
    occurrences 100%N (tasks a') = 1.
Proof.
apply (reachable_create_push_once db_empty db_empty rq_create adm new_task_body
       (fst (dispatch db_empty rq_create)) created alice).
- exact inv_db_empty.
- apply reach_init.
- reflexivity.
- reflexivity.
- vm_compute. reflexivity.
- reflexivity.
Defined.

Lemma create_then_get_witness :
run (getTask adm (ObjectId.to_hex 100)) (fst (run (createTask adm 1000 new_task_body) db_empty)) =
(fst (run (createTask adm 1000 new_task_body) db_empty),
 Success 200 (PView (view (fst (run (createTask adm 1000 new_task_body) db_empty)) created))) ∧
in_title new_task_body = Some (title created).
Proof.
destruct (create_then_get adm adm 1000 new_task_body db_empty
          (fst (run (createTask adm 1000 new_task_body) db_empty)) created)
as (H1 & H2 & _).
- reflexivity.
- reflexivity.
- vm_compute. reflexivity.
- split; [exact H1|exact H2].
Defined.

Lemma deleteTask_cascade_witness :
db_tasks (fst (run (deleteTask adm (ObjectId.to_hex 10)) db)) !! 10%N = None ∧
run (deleteTask bob (ObjectId.to_hex 10)) (fst (run (deleteTask adm (ObjectId.to_hex 10)) db)) =
(fst (run (deleteTask adm (ObjectId.to_hex 10)) db), Failure 404 "Task not found").
Proof.
destruct (deleteTask_cascade adm bob (ObjectId.to_hex 10) 10 task10 db
          (fst (run (deleteTask adm (ObjectId.to_hex 10)) db))) as (H1 & _ & _ & H4).
- exact keyed_db.
- reflexivity.
- reflexivity.
- vm_compute. reflexivity.
- split; [exact H1|exact H4].
Defined.

Lemma upload_status_transition_witness :
∃ t', db_tasks (fst (run (uploadTaskPhoto alice (ObjectId.to_hex 10) (Some "x.png") None 50) db))
      !! 10%N = Some t' ∧
status t' = inProgress.
Proof.
destruct (upload_status_transition alice (ObjectId.to_hex 10) 10 task10 "x.png" None 50 db
          (fst (run (uploadTaskPhoto alice (ObjectId.to_hex 10) (Some "x.png") None 50) db))
          (PPhoto (mkPhotoReply "/uploads/x.png" "" 2 50))) as (t' & H1 & H2 & _).
- exact keyed_db.
- reflexivity.
- reflexivity.
- vm_compute. reflexivity.
- exists t'. split; [exact H1|]. rewrite H2. reflexivity.
Defined.

Definition rq_bad_token : Request := mkRequest (Some "Bearer forged") 0 GetTasks.

Lemma dispatch_unauthenticated_witness :
dispatch db rq_bad_token = (db, Failure 401 Auth.not_authorized).
Proof. apply (dispatch_unauthenticated db rq_bad_token (Respond 401 Auth.not_authorized)).
reflexivity. Defined.

Lemma addComment_unauthorized_witness :
∃ t' db', run (addComment bob (ObjectId.to_hex 10) (Some "hi") 77) db =
          (db', Success 200 (PTask t')) ∧ title t' = "Fix bug"%string.
Proof.
destruct (addComment_unauthorized bob (ObjectId.to_hex 10) 10 task10 (Some "hi") 77 db)
as (t' & db' & H1 & H2 & _).
- reflexivity.
- reflexivity.
- unfold involves. simpl. intros [H|[H|H]]; discriminate.
- exists t', db'. split; [exact H1|exact H2].
Defined.

Lemma addComment_author_dropped_witness :
∃ c, last (comments (with_comments task10 (comments task10 ++ [new_comment 20 (Some "hi") 77]) 77))
     = Some c ∧ comment_createdBy c = None ∧ text c = Some "hi"%string.
Proof.
apply (addComment_author_dropped adm (ObjectId.to_hex 10) 10 (Some "hi") 77 db
       (fst (run (addComment adm (ObjectId.to_hex 10) (Some "hi") 77) db))).
- reflexivity.
- vm_compute. reflexivity.
Defined.

Definition body_unknown : TaskInput :=
mkTaskInput (Some "Ghost") (Some "nobody") None None (Some 0%Z) None
(Some (ObjectId.to_hex 77)) (Some "Database").

Definition created_unknown : Task :=
mkTask 20 "Ghost" "nobody" None todo medium 0 Database 77 1 [] [] 9 9.

Lemma createTask_unknown_assignee_witness :
run (createTask adm 9 body_unknown) db =
  (set_tasks (insert 20%N created_unknown) (bump db), Success 201 (PTask created_unknown)).
Proof.
apply (createTask_unknown_assignee adm 9 body_unknown db created_unknown).
- vm_compute. reflexivity.
- reflexivity.
Defined.

Definition task30 : Task :=
mkTask 30 "Orphan" "assignee deleted" None todo low 0 Frontend 77 1 [] [] 0 0.

Definition db_dangling : Db := set_tasks (insert 30%N task30) db.

Lemma getTask_dangling_assignee_witness :
run (getTask bob (ObjectId.to_hex 30)) db_dangling =
(db_dangling, Failure 500 (exn_message (TypeError "_id"))).
Proof. apply (getTask_dangling_assignee bob _ 30 task30); done. Defined.

Definition empty_patch : TaskPatch :=
mkTaskPatch None None None None None None None None None.

Definition status_patch (s : string) : TaskPatch :=
mkTaskPatch None None None (Some s) None None None None None.

Lemma updateTask_assignee_denied_witness :
run (updateTask alice (ObjectId.to_hex 10) (status_patch "completed") 5) db =
(db, Failure 403 "Not authorized").
Proof. apply (updateTask_assignee_denied alice _ 10 task10); done. Defined.

Lemma updateTask_rejects_bad_status_witness :
∃ msg, run (updateTask adm (ObjectId.to_hex 10) (status_patch "done") 5) db =
       (db, Failure 500 msg).
Proof.
apply (updateTask_rejects_bad_status adm _ 10 task10 _ "done"); try done.
unfold not_admin_nor_creator. simpl. naive_solver.
Defined.

Definition db_nofile : Db := set_files (λ _, ∅) db.

Lemma deleteTaskPhoto_missing_file_witness :
run (deleteTaskPhoto alice (ObjectId.to_hex 10) (ObjectId.to_hex 11) 6) db_nofile =
(db_nofile, Failure 500 (exn_message (FsError "ENOENT"))).
Proof.
apply (deleteTaskPhoto_missing_file alice _ _ 10 task10 photo11 "/uploads/1700000000000-p.png").
- reflexivity.
- reflexivity.
- unfold not_admin_nor_assignee. simpl. naive_solver.
- reflexivity.
- reflexivity.
- simpl. set_solver.
Defined.

Definition rq_bob_delete : Request :=
mkRequest (Some "Bearer tokB") 0 (DeleteTask (ObjectId.to_hex 12)).

Lemma delete_route_admin_only_witness :
dispatch db rq_bob_delete =
(db, Failure 403 "User role user is not authorized to access this route").
Proof.
apply (delete_route_admin_only db rq_bob_delete bob (ObjectId.to_hex 12) 12 task12);
try reflexivity.
exact keyed_db.
Defined.

Definition rq_bob_upload : Request :=
mkRequest (Some "Bearer tokB") 3000
(UploadPhoto (ObjectId.to_hex 10) (Some (mkUpload "x.png")) None).

Lemma upload_orphan_file_witness :
dispatch db rq_bob_upload =
(set_files (λ fs, {["uploads/3000-x.png"]} ∪ fs) db, Failure 403 "Not authorized").
Proof.
apply (upload_orphan_file db rq_bob_upload bob (ObjectId.to_hex 10) 10 task10
       (mkUpload "x.png") None); try reflexivity.
unfold not_admin_nor_assignee. simpl. naive_solver.
Defined.

Definition rq_malformed : Request := mkRequest (Some "Bearer tokA") 0 (GetTask "42").

Lemma malformed_id_500_witness :
dispatch db rq_malformed = (db, Failure 500 (exn_message (CastError "_id"))).
Proof. apply (malformed_id_500 db rq_malformed adm "42"); reflexivity. Defined.
End witnesses.

(** ** Witnesses: the client's cache at the fixture *)

Section client_witnesses.
Import Fixture ClientMirror ClientServer.

Definition cu_alice : CUser := mkCUser (ObjectId.to_hex 2) "Alice" "alice@example.com" user.

(** The cache after Alice's fetch. *)
Definition cache_alice : list CTask := of_raw_task <$> [task10; task12].

Definition rq_alice_tasks : Request := mkRequest (Some "Bearer tokU2") 0 GetTasks.

Lemma fetch_refines_getTasks_witness :
fst (dispatch db rq_alice_tasks) = db ∧
fetchTasks (snd (dispatch db rq_alice_tasks)) [] = of_raw_task <$> visible db alice.
Proof.
apply fetch_refines_getTasks; [exact keyed_db|reflexivity|reflexivity|].
apply (bool_decide_unpack _). vm_compute. reflexivity.
Defined.

Lemma addTask_consistent_witness :
consistent (fst (run (createTask adm 1000 new_task_body) db_empty)) adm
  (addTask (Success 201 (PTask created)) []).
Proof.
apply (addTask_consistent adm 1000 new_task_body db_empty _ created []).
- reflexivity.
- reflexivity.
- vm_compute. constructor.
- vm_compute. reflexivity.
Defined.

Lemma getUpcomingDeadlines_excludes_soon_witness :
of_raw_task task10 ∉ getUpcomingDeadlines cache_alice 1735689599000 (Some 3%nat).
Proof.
apply getUpcomingDeadlines_excludes_soon. simpl. unfold day_ms. lia.
Defined.

Lemma fetch_dangling_keeps_cache_witness :
fetchTasks (snd (run (getTasks adm) db_dangling)) cache_alice = cache_alice.
Proof.
apply (fetch_dangling_keeps_cache adm db_dangling cache_alice task30).
- unfold visible. rewrite decide_True by reflexivity.
  apply task_list_elem. exists 30%N. reflexivity.
- reflexivity.
Defined.

Lemma local_delete_diverges_witness :
¬ consistent db alice (ClientMirror.deleteTask (ObjectId.to_hex 10) cache_alice).
Proof.
apply (local_delete_diverges alice db task10 cache_alice).
- exact keyed_db.
- unfold visible. rewrite decide_False by discriminate.
  apply list_elem_of_filter. split; [left; reflexivity|].
  apply task_list_elem. exists 10%N. reflexivity.
- apply (bool_decide_unpack _). vm_compute. reflexivity.
Defined.

Lemma upload_stale_status_witness :
let '(db', cache', out) :=
  handlePhotoUpload (Some cu_alice) "tokU2" (Some (ObjectId.to_hex 10))
    (Some (mkUpload "shot.png")) "" 50 "r1" db cache_alice in
out = Uploaded ∧
(∃ t', db_tasks db' !! 10%N = Some t' ∧ status t' = inProgress) ∧
c_status <$> cache' = c_status <$> cache_alice.
Proof.
apply (upload_stale_status cu_alice "tokU2" _ _ "" 50 "r1" db cache_alice alice 10 task10).
- exact keyed_db.
- reflexivity.
- vm_compute. reflexivity.
- reflexivity.
- reflexivity.
- unfold not_admin_nor_assignee. simpl. naive_solver.
- reflexivity.
Defined.
(** Alice saves a card holding a copy of task 10: the whole copy, with
    its ObjectId id and creator, goes through [updateTask]. *)
Definition wf_ops : list CacheWf.CacheOp :=
  [CacheWf.OpUpdate (Some cu_alice) 5 (ObjectId.to_hex 10) (TaskCard.full_patch (of_raw_task task10))].

Lemma cache_wf_witness : CacheWf.wf_cache (CacheWf.run_ops wf_ops).
Proof. apply cache_wf. repeat constructor. Defined.
End client_witnesses.

(** ** A session fixture: signed tokens and stored passwords *)

Module SessionFixture.

(** Tokens are ["jwt."] followed by the user's id; [jwt.verify]
    accepts exactly those, at any time (the lifetime below is an hour). *)
Definition verify_session (now : Date) (tok : string) : option string :=
  match tok with
  | String c1 (String c2 (String c3 (String c4 rest))) =>
      if decide ([c1; c2; c3; c4] = ["j"; "w"; "t"; "."]%char) then Some rest else None
  | _ => None
  end.

#[export] Instance session_verifier : TokenVerifier := verify_session.

Definition sign_session (t : Date) (id : Id) : string := ("jwt." ++ ObjectId.to_hex id)%string.

Lemma sign_session_verify t t' id :
  (id < ObjectId.bound)%N → (t <= t' < t + 3600000)%Z →
  verify_session t' (sign_session t id) = Some (ObjectId.to_hex id).
Proof. reflexivity. Qed.

Lemma sign_session_nonempty t id : sign_session t id ≠ ""%string.
Proof. discriminate. Qed.

Lemma sign_session_no_space t id c :
  c ∈ list_ascii_of_string (sign_session t id) → c ≠ " "%char.
Proof.
  unfold sign_session.
  change ("jwt." ++ ObjectId.to_hex id)%string
    with (String "j" (String "w" (String "t" (String "." (ObjectId.to_hex id))))).
  cbn [list_ascii_of_string].
  rewrite !elem_of_cons. intros [->|[->|[->|[->|Hc]]]]; try discriminate.
  by apply (ObjectId.to_hex_no_space id).
Qed.

#[export] Instance session_signer : TokenSigner := {|
  jwt_sign := sign_session;
  jwt_lifetime := 3600000;
  jwt_sign_verify := sign_session_verify;
  jwt_sign_nonempty := sign_session_nonempty;
  jwt_sign_no_space := sign_session_no_space;
|}.

(** The fixture's database with a password for each user. *)
Definition srv : AuthServer.Server :=
  AuthServer.mkServer Fixture.db (<[1%N := "pwA"]> (<[2%N := "pw2"]> (<[3%N := "pwB"]> ∅)))%string.

(** An admin's browser after a login. *)
Definition st_admin : AuthClient.St :=
  AuthClient.mkSt (Some (AuthClient.cuser_of Fixture.adm)) [] [] false
    (Some (sign_session 0 1)) (Some (sign_session 0 1)) (Some ("Bearer " ++ sign_session 0 1)%string).

End SessionFixture.

(** ** Witness: the multer collision *)

Section collision_witness.
Import Fixture ServerApp.

Lemma upload_filename_collision_witness :
  reply_imageUrl col_reply = reply_imageUrl col_reply ∧
  dispatch col_db3 (rq_delete_photo 10 21 4001) =
    (col_db3, Failure 500 (exn_message (FsError "ENOENT"))) ∧
  ∀ k, Nat.iter k (λ d, fst (dispatch d (rq_delete_photo 10 21 4001))) col_db3 = col_db3.
Proof.
  refine (upload_filename_collision db col_db1 col_db2 col_db3 (rq_upload 10 3000) (rq_upload 10 3000)
    (rq_delete_photo 10 20 4000) (rq_delete_photo 10 21 4001) _ _ (mkUpload "shot.png") None None
    200 200 200 col_reply col_reply (ObjectId.to_hex 10) (ObjectId.to_hex 20) 10 col_t2 col_p1
    (ObjectId.to_hex 10) (ObjectId.to_hex 21) 10 col_t3 col_p2 alice
    _ _ _ _ _ _ _ _ _ _ _ _ _ _ _ _ _ _);
  try (vm_compute; reflexivity).
  vm_compute. naive_solver.
Defined.
End collision_witness.

(** ** Witnesses: the Express application *)

Section app_witnesses.
Import SessionFixture AuthServer ServerApp.

(** Alice uploads [shot.png] to task 10 at time 50; the reply's URL
    serves [uploads/50-shot.png]. *)
Definition upload_in : HttpIn :=
  ApiCall (Some ("Bearer " ++ sign_session 0 2)%string)
    (TaskApi (UploadPhoto (ObjectId.to_hex 10) (Some (mkUpload "shot.png")) None)).

Lemma upload_then_served_witness :
  ∃ s' r, app srv 50 upload_in = (s', ApiOut (inr (Success 200 (PPhoto r)))) ∧
    app s' 50 (StaticGet (reply_imageUrl r)) = (s', StaticOut (ServeFile "uploads/50-shot.png")).
Proof.
  destruct (app srv 50 upload_in) as [s' a] eqn:E.
  pose proof E as E'. vm_compute in E'. injection E' as <- <-.
  eexists _, _. split; [exact E|].
  refine (upload_then_served _ _ _ _ _ _ _ _ _ _ E). reflexivity.
Defined.
End app_witnesses.

(** ** Witnesses: sessions against the fixture *)

Section session_witnesses.
Import SessionFixture AuthServer AuthClient ClientRoutes.

Lemma login_then_authenticated_witness :
  ∃ st', exec 0 srv (login "alice@example.com" "pw2" fresh_browser) = (srv, (st', None)) ∧
    currentUser st' = Some (cuser_of Fixture.alice) ∧
    ∀ explicit, Auth.protect (srv_db srv) 10 (request_header st' explicit) = inr Fixture.alice.
Proof.
  apply login_then_authenticated.
  - exact keyed_db.
  - vm_compute. reflexivity.
  - reflexivity.
  - vm_compute. reflexivity.
  - cbn. lia.
Defined.

Lemma delete_user_policy_witness :
  (role Fixture.adm = admin → user_id Fixture.bob ≠ user_id Fixture.adm →
   auth_dispatch srv (Some ("Bearer " ++ sign_session 0 1)%string) 0
     (DeleteUser (ObjectId.to_hex (user_id Fixture.bob))) =
     (mkServer (Store.set_users (delete (user_id Fixture.bob)) (srv_db srv))
               (delete (user_id Fixture.bob) (srv_pw srv)), Success 200 PDone)) ∧
  (¬ (role Fixture.adm = admin ∧ user_id Fixture.bob ≠ user_id Fixture.adm) →
   ∃ c m, auth_dispatch srv (Some ("Bearer " ++ sign_session 0 1)%string) 0
            (DeleteUser (ObjectId.to_hex (user_id Fixture.bob))) = (srv, Failure c m) ∧
          (c = 403 ∨ c = 400)%N).
Proof.
  apply delete_user_policy.
  - vm_compute. reflexivity.
  - reflexivity.
  - vm_compute. reflexivity.
Defined.

Lemma render_guarded_witness :
  (member_page UsersPage = true → isAuthenticated st_admin = true) ∧
  (admin_page UsersPage = true → isAdmin st_admin = true).
Proof. apply (render_guarded 2 st_admin "/users"). reflexivity. Defined.

Lemma logout_still_authenticated_witness :
  ∃ st', exec 0 srv (login "alice@example.com" "pw2" fresh_browser) = (srv, (st', None)) ∧
    currentUser (logout st') = None ∧ ls_token (logout st') = None ∧
    Auth.protect (srv_db srv) 10 (request_header (logout st') None) = inr Fixture.alice.
Proof.
  apply logout_still_authenticated.
  - exact keyed_db.
  - vm_compute. reflexivity.
  - reflexivity.
  - vm_compute. reflexivity.
  - cbn. lia.
Defined.

Lemma updateUser_edits_caller_witness :
  let adm' := mkUser (user_id Fixture.adm) (from_option id (name Fixture.adm) (Some "Eve"%string))
                (from_option id (email Fixture.adm) None) (role Fixture.adm) (tasks Fixture.adm) in
  let '(s', (st', _)) := exec 0 srv (updateUser (ObjectId.to_hex (user_id Fixture.bob))
                                        (mkProfilePatch (Some "Eve"%string) None) st_admin) in
  db_users (srv_db s') !! user_id Fixture.bob = Some Fixture.bob ∧
  db_users (srv_db s') !! user_id Fixture.adm = Some adm' ∧
  currentUser st' = Some (cuser_of adm').
Proof.
  apply (updateUser_edits_caller 0 srv st_admin (cuser_of Fixture.adm)).
  - reflexivity.
  - reflexivity.
  - vm_compute. reflexivity.
  - reflexivity.
  - discriminate.
Defined.

Lemma first_login_no_tasks_witness :
  let '(s1, (st1, cache)) := mount 0 srv None in
  cache = [] ∧
  ∃ st2, exec 0 s1 (login "alice@example.com" "pw2" st1) = (s1, (st2, None)) ∧
    currentUser st2 = Some (cuser_of Fixture.alice) ∧
    exec 0 s1 (fetch st2 []) = (s1, ClientMirror.of_raw_task <$> ClientServer.visible (srv_db srv) Fixture.alice).
Proof.
  apply first_login_no_tasks.
  - exact keyed_db.
  - vm_compute. reflexivity.
  - reflexivity.
  - vm_compute. reflexivity.
  - cbn. lia.
  - apply (bool_decide_unpack _). vm_compute. reflexivity.
Defined.

Lemma admin_login_lands_on_user_dashboard_witness :
  ∃ st', exec 0 srv (handleSubmit "admin@example.com" "pwA" fresh_browser) =
           (srv, (st', NavigatedTo "/dashboard")) ∧
    show 2 st' "/dashboard" = Some UserDashboardPage ∧
    link_path <$> head (sidebar_links st') = Some "/admin-dashboard"%string.
Proof.
  apply (admin_login_lands_on_user_dashboard 0 srv _ _ _ Fixture.adm).
  - vm_compute. reflexivity.
  - reflexivity.
  - discriminate.
  - discriminate.
  - reflexivity.
Defined.

Lemma reload_shows_login_witness :
  let st0 := boot (Some (jwt_sign 0 (user_id Fixture.alice))) in
  isLoading st0 = true ∧ show 2 st0 "/settings" = Some LoginPage ∧
  ∃ st', exec 10 srv (initializeAuth st0) = (srv, st') ∧ currentUser st' = Some (cuser_of Fixture.alice).
Proof.
  apply reload_shows_login.
  - exact keyed_db.
  - reflexivity.
  - vm_compute. reflexivity.
  - cbn. lia.
  - by apply elem_of_cons; right; apply elem_of_cons; right; apply elem_of_cons; right;
      apply elem_of_cons; right; apply elem_of_cons; right; apply elem_of_cons; left.
Defined.
(** An admin creates, from the dashboard, a task assigned to Alice. *)
Definition nt_alice : Pages.NewTask :=
  Pages.mkNewTask "Write report" "Quarterly" "" 100 todo medium
    (ObjectId.to_hex (user_id Fixture.alice)) Frontend.

Lemma dashboard_creates_twice_witness :
  let '(s', (cache', _, toast)) :=
    exec 0 srv (Pages.Dashboard.handleCreateTask st_admin 0 nt_alice []) in
  toast = Some Pages.TaskCreated ∧
  ∃ t1 t2, db_tasks (srv_db s') !! db_next (srv_db srv) = Some t1 ∧
           db_tasks (srv_db s') !! N.succ (db_next (srv_db srv)) = Some t2 ∧
           cache' = [] ++ [ClientMirror.of_raw_task t1; ClientMirror.of_raw_task t2] ∧
           title t1 = "Write report"%string ∧ title t2 = "Write report"%string ∧
           assignedTo t1 = user_id Fixture.alice ∧ assignedTo t2 = user_id Fixture.alice.
Proof.
  apply (Pages.dashboard_creates_twice 0 0 srv st_admin (cuser_of Fixture.adm) Fixture.adm).
  - reflexivity.
  - reflexivity.
  - vm_compute. reflexivity.
  - reflexivity.
  - reflexivity.
  - vm_compute. reflexivity.
  - discriminate.
  - discriminate.
Defined.

End session_witnesses.

(** ** Witnesses: the pages *)

Section page_witnesses.
Import Fixture ClientMirror ClientServer AuthClient.

(** Alice's browser after a login. *)
Definition st_alice : AuthClient.St :=
  AuthClient.mkSt (Some (cuser_of alice)) [] [] false None None None.

Lemma userdashboard_refines_witness :
  let mine := of_raw_task <$> filter (λ t, assignedTo t = user_id alice) (task_list db) in
  ∃ v, UserDashboardView.render st_alice 0 (UserDashboardView.init None None)
         (fetchTasks (snd (run (getTasks alice) db)) []) = UserDashboardView.Member v ∧
       UserDashboardView.uploadChoices v = mine ∧
       UserDashboardView.taskCards v = search "" mine.
Proof.
  apply (userdashboard_refines db alice st_alice 0 (UserDashboardView.init None None) []).
  - exact keyed_db.
  - apply (bool_decide_unpack _). vm_compute. reflexivity.
  - reflexivity.
  - vm_compute. reflexivity.
  - apply (bool_decide_unpack _). vm_compute. reflexivity.
  - reflexivity.
Defined.
End page_witnesses.
